(** * MPEG-1/2 program stream muxer and demuxer (libav/mpeg.c)

    A shallow embedding of [libav/mpeg.c] and the properties its
    specification states about it.

    Conventions of the embedding.
    - C integers are values of [Z].  Where the source relies on a fixed
      width (the unsigned scanner registers, the casts to [UINT8] and
      [UINT16], the truncation done by the byte sink, the shift register of
      the probe) the reduction is written out with [uint8], [uint16],
      [uint32] and [sint32].  Plain [int] counters and sizes are computed in
      [Z]: signed overflow has no defined behaviour in C, so the embedding
      describes the runs in which it does not occur.
    - C division and remainder truncate towards zero: [Z.quot], [Z.rem].
      A remainder by zero has no defined behaviour; functions that may
      compute one return [None] there.
    - The byte sink is modelled by the list of calls made on it
      ([put_op]); [sink_bytes] gives the bytes they produce.
    - The byte source is a buffer with a read position and the
      end-of-file flag of the I/O layer. *)

From Stdlib Require Import ZArith List Lia Bool Btauto.
From stdpp Require Import base tactics option list.
From coqutil Require Import Z.bitblast.
Import ListNotations.
Local Open Scope Z_scope.

(** ** Machine integers *)

Definition uint8 (z : Z) : Z := z mod 2 ^ 8.
Definition uint16 (z : Z) : Z := z mod 2 ^ 16.
Definition uint32 (z : Z) : Z := z mod 2 ^ 32.
Definition sint32 (z : Z) : Z := (z + 2 ^ 31) mod 2 ^ 32 - 2 ^ 31.

(** ** Constants of mpeg.c *)

Definition MAX_PAYLOAD_SIZE : Z := 4096.

Definition PACK_START_CODE : Z := 0x000001ba.
Definition SYSTEM_HEADER_START_CODE : Z := 0x000001bb.
Definition SEQUENCE_END_CODE : Z := 0x000001b7.
Definition PACKET_START_CODE_MASK : Z := 0xffffff00.
Definition PACKET_START_CODE_PREFIX : Z := 0x00000100.
Definition ISO_11172_END_CODE : Z := 0x000001b9.

Definition PROGRAM_STREAM_MAP : Z := 0x1bc.
Definition PRIVATE_STREAM_1 : Z := 0x1bd.
Definition PADDING_STREAM : Z := 0x1be.
Definition PRIVATE_STREAM_2 : Z := 0x1bf.

Definition AUDIO_ID : Z := 0xc0.
Definition VIDEO_ID : Z := 0xe0.

Definition MAX_SYNC_SIZE : Z := 100000.

(** Error numbers returned (negated) by the entry points. *)
Inductive errno : Set := EIO | ENOMEM.

(** ** The tick counter (tick.h) *)

Module Ticker.

(** Modelled from the spec: [tick.h] (type [Ticker], [ticker_init] and
    [ticker_tick]) is not part of the sources.  The specification gives
    the ticker as a triple [(num, den, err)]; [init (sample_rate, unit)]
    makes a tick add [unit / sample_rate], and [tick n] returns the floor
    of [(n * num + err) / den] and keeps the remainder in [err]. *)
Record t : Set := mk { num : Z; den : Z; err : Z }.

Definition ticker_init (inrate outrate : Z) : t :=
  {| num := outrate; den := inrate; err := 0 |}.

Definition ticker_tick (tk : t) (n : Z) : Z * t :=
  let v := n * num tk + err tk in
  (v / den tk, {| num := num tk; den := den tk; err := v mod den tk |}).

(** The increments returned by a sequence of ticks, with the final state. *)
Fixpoint ticks (tk : t) (ns : list Z) : list Z * t :=
  match ns with
  | [] => ([], tk)
  | n :: ns' =>
      let '(v, tk1) := ticker_tick tk n in
      let '(vs, tk2) := ticks tk1 ns' in
      (v :: vs, tk2)
  end.

End Ticker.

Definition Zsum (l : list Z) : Z := fold_right Z.add 0 l.

(** ** The bit writer (PutBitContext) *)

Module PutBits.

(** Modelled from the spec: the bit writer of libavcodec
    ([init_put_bits], [put_bits], [flush_put_bits], [pbBufPtr]) is not
    part of the sources.  The specification gives its contract:
    [put_bits (n_bits, value)] appends the [n_bits] low bits of [value],
    most significant first; [flush_put_bits] completes the last byte with
    zero bits.  The writer is the list of the bits written so far; the
    capacity given to [init_put_bits] is not modelled (every header
    written here is far smaller than the 128 bytes the callers reserve). *)
Definition PutBitContext : Set := list bool.

Fixpoint bits_msb (n : nat) (v : Z) : list bool :=
  match n with
  | O => []
  | S k => Z.testbit v (Z.of_nat k) :: bits_msb k v
  end.

Definition init_put_bits (buffer_size : Z) : PutBitContext := [].

Definition put_bits (pb : PutBitContext) (n : nat) (value : Z) : PutBitContext :=
  pb ++ bits_msb n value.

Definition flush_put_bits (pb : PutBitContext) : PutBitContext :=
  pb ++ List.repeat false ((8 - length pb mod 8) mod 8)%nat.

Definition byte_of_bits (b7 b6 b5 b4 b3 b2 b1 b0 : bool) : Z :=
  128 * Z.b2z b7 + 64 * Z.b2z b6 + 32 * Z.b2z b5 + 16 * Z.b2z b4
  + 8 * Z.b2z b3 + 4 * Z.b2z b2 + 2 * Z.b2z b1 + Z.b2z b0.

(** The bytes in the buffer of a flushed writer. *)
Fixpoint bytes_of_bits (l : list bool) : list Z :=
  match l with
  | b7 :: b6 :: b5 :: b4 :: b3 :: b2 :: b1 :: b0 :: rest =>
      byte_of_bits b7 b6 b5 b4 b3 b2 b1 b0 :: bytes_of_bits rest
  | _ => []
  end.

(** [pbBufPtr (&pb) - pb.buf] after [flush_put_bits]. *)
Definition pbBufPtr (pb : PutBitContext) : Z := Z.of_nat (length pb / 8).

(** Reading a byte string back as bits, most significant first. *)
Definition bits_of_bytes (l : list Z) : list bool :=
  flat_map (bits_msb 8) l.

End PutBits.

(** ** The byte sink (ByteIOContext, writing) *)

(** Modelled from the spec: the buffered writer ([put_byte], [put_be16],
    [put_be32], [put_buffer], [put_flush_packet]) is not part of the
    sources.  A call is recorded with its argument; [sink_bytes] gives the
    bytes it appends: [put_byte] stores the low 8 bits, [put_be16] and
    [put_be32] are big-endian sequences of [put_byte]. *)
Inductive put_op : Set :=
| PutByte (b : Z)
| PutBe16 (val : Z)
| PutBe32 (val : Z)
| PutBuffer (buf : list Z)
| PutFlushPacket.

Definition op_bytes (o : put_op) : list Z :=
  match o with
  | PutByte b => [uint8 b]
  | PutBe16 v => [uint8 (Z.shiftr v 8); uint8 v]
  | PutBe32 v => [uint8 (Z.shiftr v 24); uint8 (Z.shiftr v 16);
                  uint8 (Z.shiftr v 8); uint8 v]
  | PutBuffer l => l
  | PutFlushPacket => []
  end.

Definition sink_bytes (tr : list put_op) : list Z := flat_map op_bytes tr.

(** ** Muxer data *)

Module StreamInfo.
(** [StreamInfo]: [buffer] is the array of [MAX_PAYLOAD_SIZE] bytes. *)
Record t : Set := mk {
  buffer : list Z;
  buffer_ptr : Z;
  id : Z;
  max_buffer_size : Z;
  packet_number : Z;
  pts : Z;
  pts_ticker : Ticker.t;
  start_pts : Z
}.
End StreamInfo.

Module MpegMuxContext.
(** [MpegMuxContext]; the two profile flags are booleans. *)
Record t : Set := mk {
  packet_size : Z;
  packet_data_max_size : Z;
  packet_number : Z;
  pack_header_freq : Z;
  system_header_freq : Z;
  mux_rate : Z;
  audio_bound : Z;
  video_bound : Z;
  is_mpeg2 : bool;
  is_vcd : bool
}.
End MpegMuxContext.

(** The codec description of a stream, as far as mpeg.c reads it. *)
Inductive CodecType : Set :=
| CODEC_TYPE_UNKNOWN | CODEC_TYPE_VIDEO | CODEC_TYPE_AUDIO.

Inductive CodecID : Set :=
| CODEC_ID_NONE | CODEC_ID_MPEG1VIDEO | CODEC_ID_MP2 | CODEC_ID_AC3 | CODEC_ID_OTHER.

Record AVCodecContext : Set := {
  codec_type : CodecType;
  codec_id : CodecID;
  bit_rate : Z;
  sample_rate : Z;
  frame_size : Z;
  frame_rate : Z
}.

(** The three output formats registered by [mpegps_init]. *)
Inductive AVOutputFormat : Set :=
| mpeg1system_mux | mpeg1vcd_mux | mpeg2vob_mux.

Module Mux.

(** A stream of the muxer: its codec and its private [StreamInfo]. *)
Record AVStream : Set := {
  codec : AVCodecContext;
  priv_data : StreamInfo.t
}.

Record AVFormatContext : Set := {
  oformat : AVOutputFormat;
  mux : MpegMuxContext.t;          (* ctx->priv_data *)
  streams : list AVStream          (* nb_streams is its length *)
}.

Definition nb_streams (ctx : AVFormatContext) : Z :=
  Z.of_nat (length (streams ctx)).

End Mux.

Import PutBits.
Import Mux.

(** ** Header emitters *)

Definition put_pack_header (ctx : AVFormatContext) (timestamp : Z) : list Z * Z :=
  let s := mux ctx in
  let pb := init_put_bits 128 in
  let pb := put_bits pb 32 PACK_START_CODE in
  let pb := put_bits pb 4 0x2 in
  let pb := put_bits pb 3 (uint32 (Z.land (Z.shiftr timestamp 30) 0x07)) in
  let pb := put_bits pb 1 1 in
  let pb := put_bits pb 15 (uint32 (Z.land (Z.shiftr timestamp 15) 0x7fff)) in
  let pb := put_bits pb 1 1 in
  let pb := put_bits pb 15 (uint32 (Z.land timestamp 0x7fff)) in
  let pb := put_bits pb 1 1 in
  let pb := put_bits pb 1 1 in
  let pb := put_bits pb 22 (MpegMuxContext.mux_rate s) in
  let pb := put_bits pb 1 1 in
  let pb := flush_put_bits pb in
  (bytes_of_bits pb, pbBufPtr pb).

(** One turn of the loop over the streams in [put_system_header]: the bits
    written for a stream whose entry is emitted with stream id [id]. *)
Definition put_stream_info (pb : PutBitContext) (id : Z) (stream : StreamInfo.t)
  : PutBitContext :=
  let pb := put_bits pb 8 id in
  let pb := put_bits pb 2 3 in
  if id <? 0xe0 then
    let pb := put_bits pb 1 0 in
    put_bits pb 13 (Z.quot (StreamInfo.max_buffer_size stream) 128)
  else
    let pb := put_bits pb 1 1 in
    put_bits pb 13 (Z.quot (StreamInfo.max_buffer_size stream) 1024).

Fixpoint put_system_header_loop (sts : list AVStream) (private_stream_coded : bool)
    (pb : PutBitContext) : PutBitContext :=
  match sts with
  | [] => pb
  | st :: rest =>
      let stream := priv_data st in
      let id := StreamInfo.id stream in
      if id <? 0xc0 then
        if private_stream_coded then
          put_system_header_loop rest private_stream_coded pb
        else
          put_system_header_loop rest true (put_stream_info pb 0xbd stream)
      else
        put_system_header_loop rest private_stream_coded (put_stream_info pb id stream)
  end.

Definition put_system_header (ctx : AVFormatContext) : list Z * Z :=
  let s := mux ctx in
  let pb := init_put_bits 128 in
  let pb := put_bits pb 32 SYSTEM_HEADER_START_CODE in
  let pb := put_bits pb 16 0 in
  let pb := put_bits pb 1 1 in
  let rate_bound := MpegMuxContext.mux_rate s in
  let pb := put_bits pb 22 rate_bound in
  let pb := put_bits pb 1 1 in
  let pb := put_bits pb 6 (MpegMuxContext.audio_bound s) in
  let pb := put_bits pb 1 1 in
  let pb := put_bits pb 1 1 in
  let pb := put_bits pb 1 0 in
  let pb := put_bits pb 1 0 in
  let pb := put_bits pb 1 1 in
  let pb := put_bits pb 5 (MpegMuxContext.video_bound s) in
  let pb := put_bits pb 8 0xff in
  let pb := put_system_header_loop (streams ctx) false pb in
  let pb := flush_put_bits pb in
  let size := pbBufPtr pb in
  let buf := bytes_of_bits pb in
  let buf := <[4%nat := uint8 (Z.shiftr (size - 6) 8)]> buf in
  let buf := <[5%nat := Z.land (size - 6) 0xff]> buf in
  (buf, size).

(** ** mpeg_mux_init *)

Inductive init_result : Set :=
| InitOk (ctx : AVFormatContext)
| InitError (e : errno)
| InitAbort.

Section MuxInit.

(** The scale of [frame_rate]; declared in avcodec.h, which is not part
    of the sources. *)
Variable FRAME_RATE_BASE : Z.

(** Whether the [i]-th call of [av_mallocz] returns memory. *)
Variable alloc_ok : nat -> bool.

Definition zero_stream : StreamInfo.t :=
  {| StreamInfo.buffer := List.repeat 0 (Z.to_nat MAX_PAYLOAD_SIZE);
     StreamInfo.buffer_ptr := 0;
     StreamInfo.id := 0;
     StreamInfo.max_buffer_size := 0;
     StreamInfo.packet_number := 0;
     StreamInfo.pts := 0;
     StreamInfo.pts_ticker := {| Ticker.num := 0; Ticker.den := 0; Ticker.err := 0 |};
     StreamInfo.start_pts := 0 |}.

Definition set_id_size (stream : StreamInfo.t) (id size : Z) : StreamInfo.t :=
  {| StreamInfo.buffer := StreamInfo.buffer stream;
     StreamInfo.buffer_ptr := StreamInfo.buffer_ptr stream;
     StreamInfo.id := uint8 id;
     StreamInfo.max_buffer_size := size;
     StreamInfo.packet_number := StreamInfo.packet_number stream;
     StreamInfo.pts := StreamInfo.pts stream;
     StreamInfo.pts_ticker := StreamInfo.pts_ticker stream;
     StreamInfo.start_pts := StreamInfo.start_pts stream |}.

(** The ids handed out so far and the two bounds. *)
Record id_state : Set := {
  mpa_id : Z; ac3_id : Z; mpv_id : Z; n_audio : Z; n_video : Z
}.

(** First loop: allocate the [StreamInfo] of each stream and number it. *)
Fixpoint init_ids (i : nat) (sts : list AVStream) (ids : id_state)
  : init_result + (list AVStream * id_state) :=
  match sts with
  | [] => inr ([], ids)
  | st :: rest =>
      if negb (alloc_ok i) then inl (InitError ENOMEM) else
      let stream := zero_stream in
      match codec_type (codec st) with
      | CODEC_TYPE_AUDIO =>
          let '(stream, ids1) :=
            if match codec_id (codec st) with CODEC_ID_AC3 => true | _ => false end
            then (set_id_size stream (ac3_id ids) (4 * 1024),
                  {| mpa_id := mpa_id ids; ac3_id := ac3_id ids + 1;
                     mpv_id := mpv_id ids;
                     n_audio := n_audio ids + 1; n_video := n_video ids |})
            else (set_id_size stream (mpa_id ids) (4 * 1024),
                  {| mpa_id := mpa_id ids + 1; ac3_id := ac3_id ids;
                     mpv_id := mpv_id ids;
                     n_audio := n_audio ids + 1; n_video := n_video ids |}) in
          match init_ids (S i) rest ids1 with
          | inl r => inl r
          | inr (rest', ids2) =>
              inr ({| codec := codec st; priv_data := stream |} :: rest', ids2)
          end
      | CODEC_TYPE_VIDEO =>
          let stream := set_id_size stream (mpv_id ids) (46 * 1024) in
          let ids1 := {| mpa_id := mpa_id ids; ac3_id := ac3_id ids;
                         mpv_id := mpv_id ids + 1;
                         n_audio := n_audio ids; n_video := n_video ids + 1 |} in
          match init_ids (S i) rest ids1 with
          | inl r => inl r
          | inr (rest', ids2) =>
              inr ({| codec := codec st; priv_data := stream |} :: rest', ids2)
          end
      | CODEC_TYPE_UNKNOWN => inl InitAbort
      end
  end.

(** Third loop: reset the counters and start the tickers.  The codec
    types were checked by the first loop.  The units of the tickers are
    products of two [int]s. *)
Definition init_stream (st : AVStream) : AVStream :=
  let stream := priv_data st in
  {| codec := codec st;
     priv_data :=
       {| StreamInfo.buffer := StreamInfo.buffer stream;
          StreamInfo.buffer_ptr := 0;
          StreamInfo.id := StreamInfo.id stream;
          StreamInfo.max_buffer_size := StreamInfo.max_buffer_size stream;
          StreamInfo.packet_number := 0;
          StreamInfo.pts := 0;
          StreamInfo.pts_ticker :=
            match codec_type (codec st) with
            | CODEC_TYPE_AUDIO =>
                Ticker.ticker_init (sample_rate (codec st))
                                   (sint32 (90000 * frame_size (codec st)))
            | _ =>
                Ticker.ticker_init (frame_rate (codec st))
                                   (sint32 (90000 * FRAME_RATE_BASE))
            end;
          StreamInfo.start_pts := -1 |} |}.

(** Second loop: the bit rates are added up in an [int]; a sum that leaves
    the range of an [int] wraps around. *)
Definition sum_bitrate (bitrate : Z) (sts : list AVStream) : Z :=
  fold_left (fun bitrate st => sint32 (bitrate + bit_rate (codec st))) sts bitrate.

(** [bitrate] is an [int], and so are the sums and products made of it and
    the fields of [MpegMuxContext] that take them. *)
Definition mpeg_mux_init (ctx : AVFormatContext) : init_result :=
  let is_vcd := match oformat ctx with mpeg1vcd_mux => true | _ => false end in
  let is_mpeg2 := match oformat ctx with mpeg2vob_mux => true | _ => false end in
  let packet_size := if is_vcd then 2324 else 2048 in
  let packet_data_max_size := packet_size - 7 in
  match init_ids 0 (streams ctx)
          {| mpa_id := AUDIO_ID; ac3_id := 0x80; mpv_id := VIDEO_ID;
             n_audio := 0; n_video := 0 |} with
  | inl r => r
  | inr (sts, ids) =>
      let bitrate := sum_bitrate 2000 sts in
      let mux_rate := Z.quot (sint32 (sint32 (bitrate + (8 * 50)) - 1)) (8 * 50) in
      let pack_header_freq :=
        if is_vcd || is_mpeg2 then 1
        else Z.quot (Z.quot (sint32 (2 * bitrate)) packet_size) 8 in
      let system_header_freq :=
        if is_vcd then sint32 (pack_header_freq * 40)
        else sint32 (pack_header_freq * 5) in
      InitOk
        {| oformat := oformat ctx;
           mux := {| MpegMuxContext.packet_size := packet_size;
                     MpegMuxContext.packet_data_max_size := packet_data_max_size;
                     MpegMuxContext.packet_number := 0;
                     MpegMuxContext.pack_header_freq := pack_header_freq;
                     MpegMuxContext.system_header_freq := system_header_freq;
                     MpegMuxContext.mux_rate := mux_rate;
                     MpegMuxContext.audio_bound := n_audio ids;
                     MpegMuxContext.video_bound := n_video ids;
                     MpegMuxContext.is_mpeg2 := is_mpeg2;
                     MpegMuxContext.is_vcd := is_vcd |};
           streams := map init_stream sts |}
  end.

End MuxInit.

(** ** flush_packet *)

Definition set_stream (ctx : AVFormatContext) (i : nat) (stream : StreamInfo.t)
  : AVFormatContext :=
  {| oformat := oformat ctx;
     mux := mux ctx;
     streams :=
       match streams ctx !! i with
       | Some st => <[i := {| codec := codec st; priv_data := stream |}]> (streams ctx)
       | None => streams ctx
       end |}.

Definition set_mux (ctx : AVFormatContext) (s : MpegMuxContext.t) : AVFormatContext :=
  {| oformat := oformat ctx; mux := s; streams := streams ctx |}.

(** [memmove (buffer, buffer + src, len)] on the payload array. *)
Definition memmove_front (buffer : list Z) (src len : Z) : list Z :=
  firstn (Z.to_nat len) (skipn (Z.to_nat src) buffer) ++ skipn (Z.to_nat len) buffer.

(** [memcpy (buffer + dst, buf, len)] on the payload array. *)
Definition memcpy_at (buffer : list Z) (dst : Z) (buf : list Z) (len : Z) : list Z :=
  firstn (Z.to_nat dst) buffer ++ firstn (Z.to_nat len) buf
  ++ skipn (Z.to_nat dst + Z.to_nat len) buffer.

(** The pack and system headers put in front of a packet: the bytes written
    to the scratch buffer and their number ([buf_ptr - buffer]).  [None]
    stands for a remainder by zero. *)
Definition packet_preface (ctx : AVFormatContext) (timestamp : Z)
  : option (list Z * Z) :=
  let s := mux ctx in
  if MpegMuxContext.pack_header_freq s =? 0 then None else
  if Z.rem (MpegMuxContext.packet_number s) (MpegMuxContext.pack_header_freq s) =? 0
  then
    let '(buf1, size1) := put_pack_header ctx timestamp in
    if MpegMuxContext.system_header_freq s =? 0 then None else
    if Z.rem (MpegMuxContext.packet_number s) (MpegMuxContext.system_header_freq s) =? 0
    then
      let '(buf2, size2) := put_system_header ctx in
      Some (buf1 ++ buf2, size1 + size2)
    else Some (buf1, size1)
  else Some ([], 0).

Definition flush_packet (ctx : AVFormatContext) (stream_index : nat) (last_pkt : bool)
  : option (AVFormatContext * list put_op) :=
  let s := mux ctx in
  st ← streams ctx !! stream_index;
  let stream := priv_data st in
  let last := if last_pkt then 4 else 0 in
  let id := StreamInfo.id stream in
  let timestamp := StreamInfo.start_pts stream in
  '(buffer, size) ← packet_preface ctx timestamp;
  let out1 := [PutBuffer (firstn (Z.to_nat size) buffer)] in
  (* packet header *)
  let header_len := if MpegMuxContext.is_mpeg2 s then 8 else 5 in
  let payload_size := MpegMuxContext.packet_size s - (size + 6 + header_len + last) in
  let '(startcode, payload_size) :=
    if id <? 0xc0 then (PRIVATE_STREAM_1, payload_size - 4)
    else (0x100 + id, payload_size) in
  let stuffing_size := payload_size - StreamInfo.buffer_ptr stream in
  let stuffing_size := if stuffing_size <? 0 then 0 else stuffing_size in
  let out2 := [PutBe32 startcode; PutBe16 (payload_size + header_len)] in
  (* stuffing *)
  let out3 := List.repeat (PutByte 0xff) (Z.to_nat stuffing_size) in
  let out4 :=
    if MpegMuxContext.is_mpeg2 s
    then [PutByte 0x80; PutByte 0x80; PutByte 0x05] else [] in
  let out5 :=
    [PutByte (Z.lor (Z.lor (Z.shiftl 0x02 4)
                           (Z.shiftl (Z.land (Z.shiftr timestamp 30) 0x07) 1)) 1);
     PutBe16 (uint16 (Z.lor (Z.shiftl (Z.land (Z.shiftr timestamp 15) 0x7fff) 1) 1));
     PutBe16 (uint16 (Z.lor (Z.shiftl (Z.land timestamp 0x7fff) 1) 1))] in
  let out6 :=
    if startcode =? PRIVATE_STREAM_1 then
      PutByte id ::
      (if (0x80 <=? id) && (id <=? 0xbf)
       then [PutByte 1; PutByte 0; PutByte 2] else [])
    else [] in
  let out7 := if last_pkt then [PutBe32 ISO_11172_END_CODE] else [] in
  (* output data *)
  let out8 :=
    [PutBuffer (firstn (Z.to_nat (payload_size - stuffing_size))
                       (StreamInfo.buffer stream));
     PutFlushPacket] in
  (* preserve remaining data *)
  let len := StreamInfo.buffer_ptr stream - payload_size in
  let len := if len <? 0 then 0 else len in
  let stream' :=
    {| StreamInfo.buffer :=
         memmove_front (StreamInfo.buffer stream)
                       (StreamInfo.buffer_ptr stream - len) len;
       StreamInfo.buffer_ptr := len;
       StreamInfo.id := StreamInfo.id stream;
       StreamInfo.max_buffer_size := StreamInfo.max_buffer_size stream;
       StreamInfo.packet_number := StreamInfo.packet_number stream + 1;
       StreamInfo.pts := StreamInfo.pts stream;
       StreamInfo.pts_ticker := StreamInfo.pts_ticker stream;
       StreamInfo.start_pts := -1 |} in
  let s' :=
    {| MpegMuxContext.packet_size := MpegMuxContext.packet_size s;
       MpegMuxContext.packet_data_max_size := MpegMuxContext.packet_data_max_size s;
       MpegMuxContext.packet_number := MpegMuxContext.packet_number s + 1;
       MpegMuxContext.pack_header_freq := MpegMuxContext.pack_header_freq s;
       MpegMuxContext.system_header_freq := MpegMuxContext.system_header_freq s;
       MpegMuxContext.mux_rate := MpegMuxContext.mux_rate s;
       MpegMuxContext.audio_bound := MpegMuxContext.audio_bound s;
       MpegMuxContext.video_bound := MpegMuxContext.video_bound s;
       MpegMuxContext.is_mpeg2 := MpegMuxContext.is_mpeg2 s;
       MpegMuxContext.is_vcd := MpegMuxContext.is_vcd s |} in
  Some (set_stream (set_mux ctx s') stream_index stream',
        out1 ++ out2 ++ out3 ++ out4 ++ out5 ++ out6 ++ out7 ++ out8).

(** ** mpeg_mux_write_packet *)

Definition with_start_pts (stream : StreamInfo.t) (pts start_pts : Z) : StreamInfo.t :=
  {| StreamInfo.buffer := StreamInfo.buffer stream;
     StreamInfo.buffer_ptr := StreamInfo.buffer_ptr stream;
     StreamInfo.id := StreamInfo.id stream;
     StreamInfo.max_buffer_size := StreamInfo.max_buffer_size stream;
     StreamInfo.packet_number := StreamInfo.packet_number stream;
     StreamInfo.pts := pts;
     StreamInfo.pts_ticker := StreamInfo.pts_ticker stream;
     StreamInfo.start_pts := start_pts |}.

Definition with_buffer (stream : StreamInfo.t) (buffer : list Z) (buffer_ptr : Z)
  : StreamInfo.t :=
  {| StreamInfo.buffer := buffer;
     StreamInfo.buffer_ptr := buffer_ptr;
     StreamInfo.id := StreamInfo.id stream;
     StreamInfo.max_buffer_size := StreamInfo.max_buffer_size stream;
     StreamInfo.packet_number := StreamInfo.packet_number stream;
     StreamInfo.pts := StreamInfo.pts stream;
     StreamInfo.pts_ticker := StreamInfo.pts_ticker stream;
     StreamInfo.start_pts := StreamInfo.start_pts stream |}.

(** The inner loop: [while (stream->buffer_ptr >= s->packet_data_max_size)]. *)
Fixpoint write_flush_loop (fuel : nat) (ctx : AVFormatContext) (stream_index : nat)
  : option (AVFormatContext * list put_op) :=
  st ← streams ctx !! stream_index;
  let stream := priv_data st in
  if MpegMuxContext.packet_data_max_size (mux ctx) <=? StreamInfo.buffer_ptr stream then
    match fuel with
    | O => None
    | S fuel' =>
        let stream :=
          if StreamInfo.start_pts stream =? -1
          then with_start_pts stream (StreamInfo.pts stream) (StreamInfo.pts stream)
          else stream in
        '(ctx1, tr1) ← flush_packet (set_stream ctx stream_index stream) stream_index false;
        '(ctx2, tr2) ← write_flush_loop fuel' ctx1 stream_index;
        Some (ctx2, tr1 ++ tr2)
    end
  else Some (ctx, []).

(** The outer loop: [while (size > 0)]; [buf] is what is left of the input
    and [size] its length. *)
Fixpoint write_loop (fuel : nat) (ctx : AVFormatContext) (stream_index : nat)
    (buf : list Z) (force_pts : Z) : option (AVFormatContext * list put_op) :=
  let size := Z.of_nat (length buf) in
  if 0 <? size then
    match fuel with
    | O => None
    | S fuel' =>
        st ← streams ctx !! stream_index;
        let stream := priv_data st in
        (* set pts *)
        let stream :=
          if StreamInfo.start_pts stream =? -1 then
            let pts := if force_pts =? 0 then StreamInfo.pts stream else force_pts in
            with_start_pts stream pts pts
          else stream in
        let len := MpegMuxContext.packet_data_max_size (mux ctx)
                   - StreamInfo.buffer_ptr stream in
        let len := if size <? len then size else len in
        let stream :=
          with_buffer stream
            (memcpy_at (StreamInfo.buffer stream) (StreamInfo.buffer_ptr stream) buf len)
            (StreamInfo.buffer_ptr stream + len) in
        '(ctx1, tr1) ← write_flush_loop fuel' (set_stream ctx stream_index stream)
                                         stream_index;
        '(ctx2, tr2) ← write_loop fuel' ctx1 stream_index (skipn (Z.to_nat len) buf)
                                   force_pts;
        Some (ctx2, tr1 ++ tr2)
    end
  else Some (ctx, []).

Definition mpeg_mux_write_packet (fuel : nat) (ctx : AVFormatContext)
    (stream_index : nat) (buf : list Z) (force_pts : Z)
  : option (AVFormatContext * list put_op) :=
  '(ctx1, tr) ← write_loop fuel ctx stream_index buf force_pts;
  st ← streams ctx1 !! stream_index;
  let stream := priv_data st in
  let '(v, tk) := Ticker.ticker_tick (StreamInfo.pts_ticker stream) 1 in
  let stream' :=
    {| StreamInfo.buffer := StreamInfo.buffer stream;
       StreamInfo.buffer_ptr := StreamInfo.buffer_ptr stream;
       StreamInfo.id := StreamInfo.id stream;
       StreamInfo.max_buffer_size := StreamInfo.max_buffer_size stream;
       StreamInfo.packet_number := StreamInfo.packet_number stream;
       StreamInfo.pts := StreamInfo.pts stream + v;
       StreamInfo.pts_ticker := tk;
       StreamInfo.start_pts := StreamInfo.start_pts stream |} in
  Some (set_stream ctx1 stream_index stream', tr).

(** ** mpeg_mux_end *)

(** The loop [for (i = 0; i < ctx->nb_streams; i++)], with [todo] turns left. *)
Fixpoint mux_end_loop (todo : nat) (i : nat) (ctx : AVFormatContext)
  : option (AVFormatContext * list put_op) :=
  match todo with
  | O => Some (ctx, [])
  | S todo' =>
      st ← streams ctx !! i;
      let stream := priv_data st in
      if 0 <? StreamInfo.buffer_ptr stream then
        '(ctx1, tr1) ←
          (if Z.of_nat i =? nb_streams ctx - 1
           then flush_packet ctx i true
           else flush_packet ctx i false);
        '(ctx2, tr2) ← mux_end_loop todo' (S i) ctx1;
        Some (ctx2, tr1 ++ tr2)
      else mux_end_loop todo' (S i) ctx
  end.

Definition mpeg_mux_end (ctx : AVFormatContext) : option (AVFormatContext * list put_op) :=
  mux_end_loop (length (streams ctx)) 0 ctx.

(** The number of ISO 11172 end codes written by a sequence of sink calls. *)
Definition is_end_code (o : put_op) : bool :=
  match o with
  | PutBe32 v => v =? ISO_11172_END_CODE
  | _ => false
  end.

Definition count_end_codes (tr : list put_op) : nat :=
  length (List.filter is_end_code tr).

(** ** The byte source (ByteIOContext, reading) *)

Module ByteIO.

(** Modelled from the spec: the buffered reader ([get_byte], [get_be16],
    [url_feof], [url_fskip], [get_buffer]) is not part of the sources.
    The input is a byte string with a read position.  [get_byte] returns
    the byte under the position and moves on; past the end it returns 0
    and raises the end-of-file flag, which [url_feof] reports and which
    stays raised.  [get_be16] is two [get_byte]s, most significant
    first.  [url_fskip] moves the position by a signed offset.
    [get_buffer] returns the bytes that are left, at most [size]. *)
Record ByteIOContext : Set := {
  data : list Z;
  pos : Z;
  eof_reached : bool
}.

Definition in_range (pb : ByteIOContext) : bool :=
  (0 <=? pos pb) && (pos pb <? Z.of_nat (length (data pb))).

Definition get_byte (pb : ByteIOContext) : Z * ByteIOContext :=
  if in_range pb then
    (uint8 (nth (Z.to_nat (pos pb)) (data pb) 0),
     {| data := data pb; pos := pos pb + 1; eof_reached := eof_reached pb |})
  else
    (0, {| data := data pb; pos := pos pb; eof_reached := true |}).

Definition get_be16 (pb : ByteIOContext) : Z * ByteIOContext :=
  let '(b1, pb) := get_byte pb in
  let val := Z.shiftl b1 8 in
  let '(b2, pb) := get_byte pb in
  (Z.lor val b2, pb).

Definition url_feof (pb : ByteIOContext) : bool := eof_reached pb.

Definition url_fskip (pb : ByteIOContext) (offset : Z) : ByteIOContext :=
  {| data := data pb; pos := pos pb + offset; eof_reached := eof_reached pb |}.

Definition get_buffer (pb : ByteIOContext) (size : Z) : list Z * ByteIOContext :=
  let avail := if in_range pb then skipn (Z.to_nat (pos pb)) (data pb) else [] in
  let got := map uint8 (firstn (Z.to_nat size) avail) in
  let n := Z.of_nat (length got) in
  (got, {| data := data pb; pos := pos pb + n;
           eof_reached := eof_reached pb || (n <? size) |}).

(** The number of bytes between the position and the end of the input. *)
Definition remaining (pb : ByteIOContext) : nat :=
  Z.to_nat (Z.of_nat (length (data pb)) - pos pb).

Definition open_input (l : list Z) : ByteIOContext :=
  {| data := l; pos := 0; eof_reached := false |}.

End ByteIO.

Import ByteIO.

(** ** Demuxer *)

Section Probe.

(** [AVPROBE_SCORE_MAX]; declared in avformat.h, which is not part of the
    sources. *)
Variable AVPROBE_SCORE_MAX : Z.

(** The test made on a start code by [mpegps_probe]. *)
Definition probe_code_ok (code : Z) : bool :=
  (uint32 code =? PACK_START_CODE)
  || (uint32 code =? SYSTEM_HEADER_START_CODE)
  || ((0x1e0 <=? code) && (code <=? 0x1ef))
  || ((0x1c0 <=? code) && (code <=? 0x1df))
  || (code =? PRIVATE_STREAM_2)
  || (code =? PROGRAM_STREAM_MAP)
  || (code =? PRIVATE_STREAM_1)
  || (code =? PADDING_STREAM).

(** The loop of [mpegps_probe] over the bytes that are left; [code] is a
    32-bit [int], so the shift drops its high byte. *)
Fixpoint mpegps_probe_loop (buf : list Z) (code : Z) : Z :=
  match buf with
  | [] => 0
  | b :: rest =>
      let c := uint8 b in
      let code := sint32 (Z.lor (Z.shiftl code 8) c) in
      if Z.land (uint32 code) 0xffffff00 =? 0x100 then
        if probe_code_ok code then AVPROBE_SCORE_MAX - 1 else 0
      else mpegps_probe_loop rest code
  end.

Definition mpegps_probe (buf : list Z) : Z := mpegps_probe_loop buf 0xff.

End Probe.

(** The loop of [find_start_code]: [n] bytes of the budget are left. *)
Fixpoint find_start_code_loop (n : nat) (pb : ByteIOContext) (state : Z)
  : Z * ByteIOContext * nat * Z :=
  match n with
  | O => (-1, pb, n, state)
  | S n' =>
      if url_feof pb then (-1, pb, n, state) else
      let '(v, pb) := get_byte pb in
      if state =? 0x000001 then
        let state := Z.land (uint32 (Z.lor (Z.shiftl state 8) v)) 0xffffff in
        (state, pb, n', state)
      else
        let state := Z.land (uint32 (Z.lor (Z.shiftl state 8) v)) 0xffffff in
        find_start_code_loop n' pb state
  end.

(** [find_start_code (pb, &size, &header_state)]: the value returned, the
    source, and the new values of [*size_ptr] and [*header_state]. *)
Definition find_start_code (pb : ByteIOContext) (size : Z) (header_state : Z)
  : Z * ByteIOContext * Z * Z :=
  let '(val, pb, n, state) :=
    find_start_code_loop (Z.to_nat size) pb (uint32 header_state) in
  (val, pb, Z.of_nat n, state).

Definition get_pts (pb : ByteIOContext) (c : Z) : Z * ByteIOContext :=
  let '(c, pb) := if c <? 0 then get_byte pb else (c, pb) in
  let pts := Z.shiftl (Z.land (Z.shiftr c 1) 0x07) 30 in
  let '(val, pb) := get_be16 pb in
  let pts := Z.lor pts (Z.shiftl (Z.shiftr val 1) 15) in
  let '(val, pb) := get_be16 pb in
  let pts := Z.lor pts (Z.shiftr val 1) in
  (pts, pb).

Module AVPacket.
Record t : Set := {
  data : list Z;
  size : Z;
  pts : Z;
  stream_index : Z
}.
End AVPacket.

Module Demux.

(** A stream of the demuxer, as [mpegps_read_packet] uses it. *)
Record AVStream : Set := {
  index : Z;
  id : Z;
  st_codec_type : CodecType;
  st_codec_id : CodecID
}.

(** The format context of the demuxer: the source, the streams found so
    far and the [header_state] of [MpegDemuxContext]. *)
Record AVFormatContext : Set := {
  pb : ByteIOContext;
  streams : list AVStream;
  header_state : Z
}.

Inductive read_result : Set :=
| RetError (e : errno)
| RetPacket (pkt : AVPacket.t).

(** How one turn from the label [redo] ends: with a [return] or with a
    [goto redo]. *)
Inductive outcome : Set :=
| Return (r : read_result)
| Redo.

End Demux.

(** The stuffing loop [for (;;)]: it ends at the first byte other than
    0xff, at the latest past the end of the input, where [get_byte] gives
    0.  [k] bounds the number of further turns. *)
Fixpoint stuffing_loop (k : nat) (pb : ByteIOContext) (len : Z)
  : Z * Z * ByteIOContext :=
  let '(c, pb) := get_byte pb in
  let len := len - 1 in
  if c =? 0xff then
    match k with
    | S k' => stuffing_loop k' pb len
    | O => (c, len, pb)
    end
  else (c, len, pb).

(** [while (header_len > 0) { get_byte (); header_len--; }] *)
Fixpoint skip_bytes (n : nat) (pb : ByteIOContext) : ByteIOContext :=
  match n with
  | O => pb
  | S n' => skip_bytes n' (snd (get_byte pb))
  end.

(** What the header of a PES packet gives, or how it ends the turn. *)
Inductive header_result : Set :=
| HeaderOk (pts dts len : Z) (pb : ByteIOContext)
| HeaderEncrypted (pb : ByteIOContext)
| HeaderResync (pb : ByteIOContext).

(** The timestamps of the PES header, from the byte [c] on. *)
Definition read_pes_header (pb : ByteIOContext) (c len : Z) : header_result :=
  let pts := 0 in
  let dts := 0 in
  if Z.land c 0xf0 =? 0x20 then
    let '(pts, pb) := get_pts pb c in
    let len := len - 4 in
    let dts := pts in
    HeaderOk pts dts len pb
  else if Z.land c 0xf0 =? 0x30 then
    let '(pts, pb) := get_pts pb c in
    let '(dts, pb) := get_pts pb (-1) in
    let len := len - 9 in
    HeaderOk pts dts len pb
  else if Z.land c 0xc0 =? 0x80 then
    (* mpeg 2 PES *)
    if negb (Z.land c 0x30 =? 0) then HeaderEncrypted pb else
    let '(flags, pb) := get_byte pb in
    let '(header_len, pb) := get_byte pb in
    let len := len - 2 in
    if len <? header_len then HeaderResync pb else
    let '(pts, dts, header_len, len, pb) :=
      if Z.land flags 0xc0 =? 0x80 then
        let '(pts, pb) := get_pts pb (-1) in
        (pts, pts, header_len - 5, len - 5, pb)
      else (pts, dts, header_len, len, pb) in
    let '(pts, dts, header_len, len, pb) :=
      if Z.land flags 0xc0 =? 0xc0 then
        let '(pts, pb) := get_pts pb (-1) in
        let '(dts, pb) := get_pts pb (-1) in
        (pts, dts, header_len - 10, len - 10, pb)
      else (pts, dts, header_len, len, pb) in
    let len := len - header_len in
    HeaderOk pts dts len (skip_bytes (Z.to_nat header_len) pb)
  else HeaderOk pts dts len pb.

(** The start of a turn: the next start code is looked for, and the codes
    that carry no stream are passed over (lines 514-536). *)
Inductive scan_result : Set :=
| ScanFail (pb : ByteIOContext) (header_state : Z)      (* return -EIO *)
| ScanSkip (pb : ByteIOContext) (header_state : Z)      (* goto redo *)
| ScanPes (startcode : Z) (pb : ByteIOContext) (header_state : Z).

Definition next_start_code (pb : ByteIOContext) : scan_result :=
  let size := MAX_SYNC_SIZE in
  let '(startcode, pb, size, header_state) := find_start_code pb size 0xff in
  if startcode <? 0 then ScanFail pb header_state else
  if startcode =? PACK_START_CODE then ScanSkip pb header_state else
  if startcode =? SYSTEM_HEADER_START_CODE then ScanSkip pb header_state else
  if (startcode =? PADDING_STREAM) || (startcode =? PRIVATE_STREAM_2) then
    (* skip them *)
    let '(len, pb) := get_be16 pb in
    ScanSkip (url_fskip pb len) header_state
  else
  (* find matching stream *)
  if negb (((0x1c0 <=? startcode) && (startcode <=? 0x1df))
           || ((0x1e0 <=? startcode) && (startcode <=? 0x1ef))
           || (startcode =? 0x1bd))
  then ScanSkip pb header_state
  else ScanPes startcode pb header_state.

(** The packet length, the stuffing and the buffer scale (lines 538-554):
    the byte [c] on which the header is told apart, the length left and the
    source. *)
Definition read_stuffing (pb : ByteIOContext) : Z * Z * ByteIOContext :=
  let '(len, pb) := get_be16 pb in
  (* stuffing *)
  let '(c, len, pb) := stuffing_loop (remaining pb) pb len in
  if Z.land c 0xc0 =? 0x40 then
    (* buffer scale & size *)
    let '(_, pb) := get_byte pb in
    let '(c, pb) := get_byte pb in
    (c, len - 2, pb)
  else (c, len, pb).

(** The sub-stream id of a private stream (lines 591-601). *)
Definition read_private_id (startcode len : Z) (pb : ByteIOContext)
  : Z * Z * ByteIOContext :=
  if startcode =? 0x1bd then
    let '(startcode, pb) := get_byte pb in
    let len := len - 1 in
    if (0x80 <=? startcode) && (startcode <=? 0xbf) then
      (* audio: skip header *)
      (startcode, len - 3, skip_bytes 3 pb)
    else (startcode, len, pb)
  else (startcode, len, pb).

(** The codec of a stream seen for the first time (lines 609-623). *)
Definition new_stream_codec (startcode : Z) : option (CodecType * CodecID) :=
  if (0x1e0 <=? startcode) && (startcode <=? 0x1ef)
  then Some (CODEC_TYPE_VIDEO, CODEC_ID_MPEG1VIDEO)
  else if (0x1c0 <=? startcode) && (startcode <=? 0x1df)
  then Some (CODEC_TYPE_AUDIO, CODEC_ID_MP2)
  else if (0x80 <=? startcode) && (startcode <=? 0x9f)
  then Some (CODEC_TYPE_AUDIO, CODEC_ID_AC3)
  else None.

Section ReadPacket.

Import Demux.

(** The capacity of the stream table of the format context
    ([MAX_STREAMS] in avformat.h, which is not part of the sources). *)
Variable MAX_STREAMS : nat.

(** Modelled from the spec: [av_new_stream] is not part of the sources.
    A newly seen id registers a stream, whose index is its place in the
    table; the table holds a fixed number of streams, and no stream is
    made when it is full. *)
Definition av_new_stream (sts : list AVStream) (id : Z)
  : option (AVStream * list AVStream) :=
  if (MAX_STREAMS <=? length sts)%nat then None
  else
    let st := {| index := Z.of_nat (length sts); id := id;
                 st_codec_type := CODEC_TYPE_UNKNOWN;
                 st_codec_id := CODEC_ID_NONE |} in
    Some (st, sts ++ [st]).

Definition set_codec (st : AVStream) (type : CodecType) (codec_id : CodecID)
  : AVStream :=
  {| index := index st; id := id st;
     st_codec_type := type; st_codec_id := codec_id |}.

(** Modelled from the spec: [av_new_packet] is not part of the sources.
    From the label [found]: the packet is given the size [len] and is
    filled from the source with [get_buffer]. *)
Definition read_payload (pb : ByteIOContext) (len pts : Z) (st : AVStream)
  : AVPacket.t * ByteIOContext :=
  let '(data, pb) := get_buffer pb len in
  ({| AVPacket.data := data; AVPacket.size := len;
      AVPacket.pts := pts; AVPacket.stream_index := index st |}, pb).

(** The end of a turn (lines 603-637): the stream of the packet is found
    or made and the packet is returned, or the packet is skipped. *)
Definition deliver_packet (s : AVFormatContext) (header_state startcode : Z)
    (pts len : Z) (pb : ByteIOContext) : outcome * AVFormatContext :=
  (* now find stream *)
  match List.find (fun st => id st =? startcode) (streams s) with
  | Some st =>
      let '(pkt, pb) := read_payload pb len pts st in
      (Return (RetPacket pkt),
       {| pb := pb; streams := streams s; header_state := header_state |})
  | None =>
      match new_stream_codec startcode with
      | None =>
          (* skip packet *)
          (Redo, {| pb := url_fskip pb len; streams := streams s;
                    header_state := header_state |})
      | Some (type, codec_id) =>
          (* no stream found: add a new stream *)
          match av_new_stream (streams s) startcode with
          | None =>
              (Redo, {| pb := url_fskip pb len; streams := streams s;
                        header_state := header_state |})
          | Some (st, sts) =>
              let st := set_codec st type codec_id in
              let sts := <[Z.to_nat (index st) := st]> sts in
              let '(pkt, pb) := read_payload pb len pts st in
              (Return (RetPacket pkt),
               {| pb := pb; streams := sts; header_state := header_state |})
          end
      end
  end.

(** One turn of [mpegps_read_packet], from the label [redo] to a
    [return] or a [goto redo]. *)
Definition read_packet_turn (s : AVFormatContext) : outcome * AVFormatContext :=
  match next_start_code (pb s) with
  | ScanFail pb header_state =>
      (Return (RetError EIO),
       {| pb := pb; streams := streams s; header_state := header_state |})
  | ScanSkip pb header_state =>
      (Redo, {| pb := pb; streams := streams s; header_state := header_state |})
  | ScanPes startcode pb header_state =>
      let '(c, len, pb) := read_stuffing pb in
      match read_pes_header pb c len with
      | HeaderEncrypted pb =>
          (Return (RetError EIO),
           {| pb := pb; streams := streams s; header_state := header_state |})
      | HeaderResync pb =>
          (Redo, {| pb := pb; streams := streams s; header_state := header_state |})
      | HeaderOk pts dts len pb =>
          let '(startcode, len, pb) := read_private_id startcode len pb in
          deliver_packet s header_state startcode pts len pb
      end
  end.

(** [mpegps_read_packet]: turns are taken until one returns; [fuel]
    bounds their number. *)
Fixpoint mpegps_read_packet (fuel : nat) (s : AVFormatContext)
  : option (read_result * AVFormatContext) :=
  match fuel with
  | O => None
  | S fuel' =>
      match read_packet_turn s with
      | (Return r, s') => Some (r, s')
      | (Redo, s') => mpegps_read_packet fuel' s'
      end
  end.

End ReadPacket.

Definition mpegps_read_header (s : Demux.AVFormatContext) : Demux.AVFormatContext :=
  {| Demux.pb := Demux.pb s; Demux.streams := Demux.streams s;
     Demux.header_state := 0xff |}.

(** ** Notions used to state the properties *)

(** A source whose bytes [before] have been read and whose next bytes are
    [rest]. *)
Definition at_offset (before rest : list Z) (e : bool) : ByteIOContext :=
  {| ByteIO.data := before ++ rest;
     ByteIO.pos := Z.of_nat (length before);
     ByteIO.eof_reached := e |}.

(** The three sink calls of [flush_packet] that write the timestamp [t]. *)
Definition pts_ops (t : Z) : list put_op :=
  [PutByte (Z.lor (Z.lor (Z.shiftl 0x02 4)
                         (Z.shiftl (Z.land (Z.shiftr t 30) 0x07) 1)) 1);
   PutBe16 (uint16 (Z.lor (Z.shiftl (Z.land (Z.shiftr t 15) 0x7fff) 1) 1));
   PutBe16 (uint16 (Z.lor (Z.shiftl (Z.land t 0x7fff) 1) 1))].


(** The number of [put_byte (0xff)] calls at the head of a sequence of
    sink calls. *)
Fixpoint count_leading_ff (tr : list put_op) : nat :=
  match tr with
  | PutByte b :: rest => if b =? 0xff then S (count_leading_ff rest) else O
  | _ => O
  end.

(** Example sessions: an MP2 audio stream and an MPEG-1 video stream. *)
Definition mp2_audio : AVCodecContext :=
  {| codec_type := CODEC_TYPE_AUDIO; codec_id := CODEC_ID_MP2;
     bit_rate := 224000; sample_rate := 44100; frame_size := 1152;
     frame_rate := 0 |}.

Definition ac3_audio : AVCodecContext :=
  {| codec_type := CODEC_TYPE_AUDIO; codec_id := CODEC_ID_AC3;
     bit_rate := 192000; sample_rate := 48000; frame_size := 1536;
     frame_rate := 0 |}.

Definition mpeg1_video : AVCodecContext :=
  {| codec_type := CODEC_TYPE_VIDEO; codec_id := CODEC_ID_MPEG1VIDEO;
     bit_rate := 1150000; sample_rate := 0; frame_size := 0;
     frame_rate := 30 * 10000 |}.

Definition new_context (fmt : AVOutputFormat) (codecs : list AVCodecContext)
  : AVFormatContext :=
  {| oformat := fmt;
     mux := {| MpegMuxContext.packet_size := 0;
               MpegMuxContext.packet_data_max_size := 0;
               MpegMuxContext.packet_number := 0;
               MpegMuxContext.pack_header_freq := 0;
               MpegMuxContext.system_header_freq := 0;
               MpegMuxContext.mux_rate := 0;
               MpegMuxContext.audio_bound := 0;
               MpegMuxContext.video_bound := 0;
               MpegMuxContext.is_mpeg2 := false;
               MpegMuxContext.is_vcd := false |};
     streams := map (fun c => {| codec := c; priv_data := zero_stream |}) codecs |}.

(** The session after [mpeg_mux_init] (with [FRAME_RATE_BASE] 10000 and
    every allocation granted) and after writing the given inputs in turn,
    each with a [force_pts] of 0. *)
Fixpoint write_all (ctx : AVFormatContext) (inputs : list (nat * list Z))
  : option (AVFormatContext * list put_op) :=
  match inputs with
  | [] => Some (ctx, [])
  | (i, buf) :: rest =>
      '(ctx1, tr1) ← mpeg_mux_write_packet (S (length buf)) ctx i buf 0;
      '(ctx2, tr2) ← write_all ctx1 rest;
      Some (ctx2, tr1 ++ tr2)
  end.

Definition session (fmt : AVOutputFormat) (codecs : list AVCodecContext)
    (inputs : list (nat * list Z)) : option AVFormatContext :=
  match mpeg_mux_init 10000 (fun _ => true) (new_context fmt codecs) with
  | InitOk ctx => fst <$> write_all ctx inputs
  | _ => None
  end.

(** An audio and a video stream; ten bytes were written to the audio. *)
Definition session_av : option AVFormatContext :=
  session mpeg1system_mux [mp2_audio; mpeg1_video] [(0%nat, List.repeat 7 10)].

(** Whether a byte string starts with the four given bytes. *)
Definition starts_with4 (a b c d : Z) (l : list Z) : bool :=
  match l with
  | x0 :: x1 :: x2 :: x3 :: _ => (x0 =? a) && (x1 =? b) && (x2 =? c) && (x3 =? d)
  | _ => false
  end.

(** Whether the packet written by a flush starts with a pack header, and
    whether a system header follows it (the pack header takes 12 bytes). *)
Definition has_pack_header (tr : list put_op) : bool :=
  match tr with
  | PutBuffer preface :: _ => starts_with4 0 0 1 0xba preface
  | _ => false
  end.

Definition has_system_header (tr : list put_op) : bool :=
  match tr with
  | PutBuffer preface :: _ => starts_with4 0 0 1 0xbb (skipn 12 preface)
  | _ => false
  end.

(** A run of flushes, given by the stream and the [last_pkt] flag of each:
    the context after each flush and the sink calls of the flush. *)
Fixpoint flush_run (ctx : AVFormatContext) (reqs : list (nat * bool))
  : option (list (AVFormatContext * list put_op)) :=
  match reqs with
  | [] => Some []
  | (i, last_pkt) :: rest =>
      '(ctx1, tr1) ← flush_packet ctx i last_pkt;
      done ← flush_run ctx1 rest;
      Some ((ctx1, tr1) :: done)
  end.

(** The context of [session_av] and its audio stream. *)
Definition ctx_av : AVFormatContext :=
  default (new_context mpeg1system_mux []) session_av.

Definition stream_av_audio : AVStream :=
  default {| codec := mp2_audio; priv_data := zero_stream |} (streams ctx_av !! 0%nat).

(** The same streams; data was written to both. *)
Definition session_av_both : option AVFormatContext :=
  session mpeg1system_mux [mp2_audio; mpeg1_video]
          [(0%nat, List.repeat 7 10); (1%nat, List.repeat 9 20)].

Definition ctx_av_both : AVFormatContext :=
  default (new_context mpeg1system_mux []) session_av_both.

(** Whether the stream of index [nb_streams - 1] holds data. *)
Definition last_stream_pending (ctx : AVFormatContext) : bool :=
  match last (streams ctx) with
  | Some st => 0 <? StreamInfo.buffer_ptr (priv_data st)
  | None => false
  end.

(** The entries of the system header, in the words of the specification:
    a stream whose id is at least 0xc0 has an entry of its own; the streams
    below 0xc0 share one entry, with id 0xbd, made for the first of them.
    An entry is the id it is written with and the stream whose buffer bound
    it declares. *)
Fixpoint system_header_entries (sts : list AVStream) (private_stream_coded : bool)
  : list (Z * StreamInfo.t) :=
  match sts with
  | [] => []
  | st :: rest =>
      if StreamInfo.id (priv_data st) <? 0xc0 then
        if private_stream_coded then system_header_entries rest true
        else (0xbd, priv_data st) :: system_header_entries rest true
      else (StreamInfo.id (priv_data st), priv_data st)
           :: system_header_entries rest private_stream_coded
  end.

(** The 24 bits of an entry: the id, [0b11], then a 0 bit and the bound in
    units of 128 bytes for an id below 0xe0, a 1 bit and the bound in units
    of 1024 bytes otherwise. *)
Definition entry_bits (e : Z * StreamInfo.t) : list bool :=
  let '(id, stream) := e in
  bits_msb 8 id ++ [true; true]
  ++ (if id <? 0xe0
      then false :: bits_msb 13 (Z.quot (StreamInfo.max_buffer_size stream) 128)
      else true :: bits_msb 13 (Z.quot (StreamInfo.max_buffer_size stream) 1024)).

(** The first start code of a byte string, in the words of the
    specification: the byte [xx] of the first occurrence of 00 00 01 xx, as
    the code 0x1xx. *)
Fixpoint first_start_code (buf : list Z) : option Z :=
  match buf with
  | [] => None
  | b0 :: rest =>
      match rest with
      | b1 :: b2 :: b3 :: _ =>
          if (b0 =? 0) && (b1 =? 0) && (b2 =? 1) then Some (0x100 + b3)
          else first_start_code rest
      | _ => None
      end
  end.

(** The start codes of a program stream: pack, system header, 0x1bc to
    0x1bf, audio 0x1c0 to 0x1df and video 0x1e0 to 0x1ef. *)
Definition is_ps_code (code : Z) : bool :=
  (code =? 0x1ba) || (code =? 0x1bb)
  || ((0x1bc <=? code) && (code <=? 0x1bf))
  || ((0x1c0 <=? code) && (code <=? 0x1df))
  || ((0x1e0 <=? code) && (code <=? 0x1ef)).

(** The bytes of a source that are still to be read. *)
Definition unread (pb : ByteIOContext) : list Z :=
  if in_range pb then map uint8 (skipn (Z.to_nat (ByteIO.pos pb)) (ByteIO.data pb))
  else [].

Section ReadPacketNotions.

Import Demux.

Variable MAX_STREAMS : nat.

(** [resyncs s s']: from [s], turns that end with [goto redo] lead to [s']. *)
Inductive resyncs : AVFormatContext -> AVFormatContext -> Prop :=
| resyncs_refl (s : AVFormatContext) : resyncs s s
| resyncs_step (s s1 s2 : AVFormatContext) :
    read_packet_turn MAX_STREAMS s = (Redo, s1) -> resyncs s1 s2 -> resyncs s s2.

(** The scan for a start code fails. *)
Definition scan_fails (s : AVFormatContext) : Prop :=
  exists pb' header_state, next_start_code (pb s) = ScanFail pb' header_state.

(** The byte on which the header of the next packet is told apart, with
    the length left and the source after it, when the scan finds the start
    code of a packet. *)
Definition pes_header_byte (s : AVFormatContext) : option (Z * Z * ByteIOContext) :=
  match next_start_code (pb s) with
  | ScanPes _ pb1 _ => Some (read_stuffing pb1)
  | _ => None
  end.

(** The next packet has an MPEG-2 header with scrambling control bits. *)
Definition encrypted_pes (s : AVFormatContext) : Prop :=
  exists c len pb2,
    pes_header_byte s = Some (c, len, pb2)
    /\ Z.land c 0xc0 = 0x80 /\ Z.land c 0x30 <> 0.

(** The next packet has an MPEG-2 header whose declared length exceeds the
    length that is left. *)
Definition header_len_exceeds (s : AVFormatContext) : Prop :=
  exists c len pb2,
    pes_header_byte s = Some (c, len, pb2)
    /\ Z.land c 0xc0 = 0x80 /\ Z.land c 0x30 = 0
    /\ len - 2 < fst (get_byte (snd (get_byte pb2))).


End ReadPacketNotions.

(** A demuxer on a fresh input. *)
Definition open_demux (l : list Z) : Demux.AVFormatContext :=
  mpegps_read_header
    {| Demux.pb := open_input l; Demux.streams := []; Demux.header_state := 0 |}.

(** Two packets of the audio stream 0xc0 with the payload [aa bb]: the
    header of the first carries no timestamp, that of the second carries
    the timestamp 0. *)
Definition packet_without_pts : list Z :=
  [0x00; 0x00; 0x01; 0xc0; 0x00; 0x03; 0x0f; 0xaa; 0xbb].

Definition packet_with_pts_zero : list Z :=
  [0x00; 0x00; 0x01; 0xc0; 0x00; 0x07; 0x21; 0x00; 0x01; 0x00; 0x01; 0xaa; 0xbb].

(** A video packet whose MPEG-2 header declares a length of 9 where 2 bytes
    are left, followed by [packet_without_pts]; and a video packet with
    scrambling control bits. *)
Definition packet_bad_header_len : list Z :=
  [0x00; 0x00; 0x01; 0xe0; 0x00; 0x04; 0x80; 0x00; 0x09] ++ packet_without_pts.

Definition packet_encrypted : list Z :=
  [0x00; 0x00; 0x01; 0xe0; 0x00; 0x0f; 0xff; 0x90; 0xc0; 0x0a;
   0x31; 0x00; 0x01; 0x00; 0x01; 0x11; 0x00; 0x01; 0x00; 0x01; 0x55].




(** [keeps pb len pb' len']: reading from [pb] to [pb'] left the input
    unchanged and the end-of-file flag raised if it was; if the flag is
    down the position did not move back, nor did the end [pos + len] of
    the packet that has [len] bytes left. *)
Definition keeps (pb : ByteIOContext) (len : Z) (pb' : ByteIOContext) (len' : Z) : Prop :=
  ByteIO.data pb' = ByteIO.data pb
  /\ (eof_reached pb = true -> eof_reached pb' = true)
  /\ (eof_reached pb' = false ->
      ByteIO.pos pb <= ByteIO.pos pb' /\ ByteIO.pos pb + len <= ByteIO.pos pb' + len').

(** The measure that decreases from a turn to the next. *)
Definition turns_left (s : Demux.AVFormatContext) : nat :=
  if eof_reached (Demux.pb s) then O
  else S (Z.to_nat (Z.of_nat (length (ByteIO.data (Demux.pb s))) - ByteIO.pos (Demux.pb s))).

(** A VOB session: a video stream and two AC-3 streams. *)
Definition session_vob : option AVFormatContext :=
  session mpeg2vob_mux [mpeg1_video; ac3_audio; ac3_audio] [(1%nat, [1; 2; 3])].

(** The second audio packet of [session_av]: the first packet is flushed,
    five bytes are written and flushed in turn. *)
Definition second_audio_packet : option (list put_op) :=
  '(ctx1, _) ← flush_packet ctx_av 0 false;
  '(ctx2, _) ← mpeg_mux_write_packet 5 ctx1 0 [1; 2; 3; 4; 5] 0;
  '(_, tr) ← flush_packet ctx2 0 false;
  Some tr.

(** Two states of a stream with the same clock: the same [pts] and the
    same ticker. *)
Definition same_clock (a b : StreamInfo.t) : Prop :=
  StreamInfo.pts a = StreamInfo.pts b
  /\ StreamInfo.pts_ticker a = StreamInfo.pts_ticker b.

(** ** Notions for the further properties *)

(** The stream table of the demuxer is in order: the index of a stream is
    its place in the table, no two streams have the same id, and the codec
    of a stream is the one its id stands for. *)
Definition table_ok (sts : list Demux.AVStream) : Prop :=
  (forall (i : nat) (st : Demux.AVStream),
      sts !! i = Some st ->
      Demux.index st = Z.of_nat i
      /\ new_stream_codec (Demux.id st)
         = Some (Demux.st_codec_type st, Demux.st_codec_id st))
  /\ NoDup (map Demux.id sts).

(** The three families of stream ids handed out by [mpeg_mux_init]: MPEG
    audio from 0xc0, AC-3 audio from 0x80 and video from 0xe0. *)
Inductive id_family : Set := MpaFamily | Ac3Family | MpvFamily.

Definition family_of (c : AVCodecContext) : option id_family :=
  match codec_type c with
  | CODEC_TYPE_AUDIO =>
      Some (match codec_id c with CODEC_ID_AC3 => Ac3Family | _ => MpaFamily end)
  | CODEC_TYPE_VIDEO => Some MpvFamily
  | CODEC_TYPE_UNKNOWN => None
  end.

Definition family_base (f : id_family) : Z :=
  match f with MpaFamily => AUDIO_ID | Ac3Family => 0x80 | MpvFamily => VIDEO_ID end.

Definition family_buffer_size (f : id_family) : Z :=
  match f with MpvFamily => 46 * 1024 | _ => 4 * 1024 end.

Definition in_family (f : id_family) (st : AVStream) : bool :=
  match family_of (codec st), f with
  | Some MpaFamily, MpaFamily | Some Ac3Family, Ac3Family
  | Some MpvFamily, MpvFamily => true
  | _, _ => false
  end.

(** The number of streams of the family [f] among the given ones. *)
Definition family_count (f : id_family) (sts : list AVStream) : nat :=
  length (List.filter (in_family f) sts).

(** The total bit rate from which [mpeg_mux_init] derives the rates. *)
Definition total_bitrate (ctx : AVFormatContext) : Z :=
  2000 + Zsum (map (fun st => bit_rate (codec st)) (streams ctx)).

(** The counter of a family in the loop of [mpeg_mux_init]. *)
Definition family_counter (f : id_family) (ids : id_state) : Z :=
  match f with MpaFamily => mpa_id ids | Ac3Family => ac3_id ids | MpvFamily => mpv_id ids end.

(** The number of ids from the base of a family to the base of the next
    one (to 0x100 for video). *)
Definition family_room (f : id_family) : nat :=
  match f with MpaFamily => 32 | Ac3Family => 64 | MpvFamily => 32 end.

(** A fresh context of the example streams, and the context that
    [mpeg_mux_init] makes of it. *)
Definition ctx_new : AVFormatContext :=
  new_context mpeg1system_mux [mp2_audio; mpeg1_video].

Definition ctx_init : AVFormatContext :=
  match mpeg_mux_init 10000 (fun _ => true) ctx_new with
  | InitOk ctx => ctx
  | _ => ctx_new
  end.

(** A single audio stream of 4000 bit/s. *)
Definition slow_audio : AVCodecContext :=
  {| codec_type := CODEC_TYPE_AUDIO; codec_id := CODEC_ID_MP2;
     bit_rate := 4000; sample_rate := 8000; frame_size := 1152;
     frame_rate := 0 |}.

Definition ctx_slow_new : AVFormatContext := new_context mpeg1system_mux [slow_audio].

Definition ctx_slow : AVFormatContext :=
  match mpeg_mux_init 10000 (fun _ => true) ctx_slow_new with
  | InitOk ctx => ctx
  | _ => ctx_slow_new
  end.

(** The data a stream holds: the first [buffer_ptr] bytes of its buffer. *)
Definition buffered (stream : StreamInfo.t) : list Z :=
  firstn (Z.to_nat (StreamInfo.buffer_ptr stream)) (StreamInfo.buffer stream).

(** The payloads written by a sequence of sink calls: the buffers handed to
    [put_buffer] right before a [put_flush_packet], one after the other. *)
Fixpoint payloads (tr : list put_op) : list Z :=
  match tr with
  | [] => []
  | o :: rest =>
      match o, rest with
      | PutBuffer l, PutFlushPacket :: _ => l ++ payloads rest
      | _, _ => payloads rest
      end
  end.

(** The number of packets written: the calls of [put_flush_packet]. *)
Definition count_packets (tr : list put_op) : nat :=
  length (List.filter (fun o => match o with PutFlushPacket => true | _ => false end) tr).

(** The state of a stream between two calls of the muxer: its buffer has
    its full size and holds less than a packet of data. *)
Definition stream_ok (s : MpegMuxContext.t) (st : AVStream) : Prop :=
  length (StreamInfo.buffer (priv_data st)) = Z.to_nat MAX_PAYLOAD_SIZE
  /\ 0 <= StreamInfo.buffer_ptr (priv_data st) < MpegMuxContext.packet_data_max_size s.

(** The state of the muxer between two calls: the frequencies of the
    headers are not zero, a packet of data fits the buffer of a stream, and
    the headers of a packet leave room for data. *)
Definition mux_ok (ctx : AVFormatContext) : Prop :=
  let s := mux ctx in
  MpegMuxContext.pack_header_freq s <> 0
  /\ MpegMuxContext.system_header_freq s <> 0
  /\ MpegMuxContext.packet_data_max_size s <= MAX_PAYLOAD_SIZE
  /\ 3 * nb_streams ctx + 46 < MpegMuxContext.packet_size s
  /\ Forall (stream_ok s) (streams ctx).

(** [mux_ok] as a test. *)
Definition stream_okb (s : MpegMuxContext.t) (st : AVStream) : bool :=
  (length (StreamInfo.buffer (priv_data st)) =? Z.to_nat MAX_PAYLOAD_SIZE)%nat
  && (0 <=? StreamInfo.buffer_ptr (priv_data st))
  && (StreamInfo.buffer_ptr (priv_data st) <? MpegMuxContext.packet_data_max_size s).

Definition mux_okb (ctx : AVFormatContext) : bool :=
  let s := mux ctx in
  negb (MpegMuxContext.pack_header_freq s =? 0)
  && negb (MpegMuxContext.system_header_freq s =? 0)
  && (MpegMuxContext.packet_data_max_size s <=? MAX_PAYLOAD_SIZE)
  && (3 * nb_streams ctx + 46 <? MpegMuxContext.packet_size s)
  && forallb (stream_okb s) (streams ctx).

(** A session in which 2040 bytes were written to the audio stream, and
    its audio stream. *)
Definition ctx_full : AVFormatContext :=
  default (new_context mpeg1system_mux [])
          (session mpeg1system_mux [mp2_audio; mpeg1_video] [(0%nat, List.repeat 7 2040)]).

Definition stream_full_audio : AVStream :=
  default {| codec := mp2_audio; priv_data := zero_stream |} (streams ctx_full !! 0%nat).

(** A sequence of sink calls made of whole packets: its payloads are not
    changed by the calls that follow. *)
Definition whole_packets (tr : list put_op) : Prop :=
  forall rest : list put_op, payloads (tr ++ rest) = payloads tr ++ payloads rest.

(** The calls between the preface and the payload hand no buffer over. *)
Definition plain_op (o : put_op) : bool :=
  match o with PutByte _ | PutBe16 _ | PutBe32 _ => true | _ => false end.

(** Two contexts of one session: the format, the number of streams and the
    parameters set by [mpeg_mux_init] are the same. *)
Definition same_setup (ctx ctx' : AVFormatContext) : Prop :=
  oformat ctx' = oformat ctx
  /\ length (streams ctx') = length (streams ctx)
  /\ MpegMuxContext.packet_size (mux ctx') = MpegMuxContext.packet_size (mux ctx)
  /\ MpegMuxContext.packet_data_max_size (mux ctx')
     = MpegMuxContext.packet_data_max_size (mux ctx)
  /\ MpegMuxContext.pack_header_freq (mux ctx')
     = MpegMuxContext.pack_header_freq (mux ctx)
  /\ MpegMuxContext.system_header_freq (mux ctx')
     = MpegMuxContext.system_header_freq (mux ctx)
  /\ MpegMuxContext.is_mpeg2 (mux ctx') = MpegMuxContext.is_mpeg2 (mux ctx).

(** Whether a stream holds data. *)
Definition pending (st : AVStream) : bool := 0 <? StreamInfo.buffer_ptr (priv_data st).

(** A sequence of sink calls that is empty and leaves the muxer as it was,
    or that starts with the calls of a flush made with the parameters and
    the packet counter of [ctx]. *)
Definition starts_with_flush (ctx ctx' : AVFormatContext) (tr : list put_op) : Prop :=
  tr = [] /\ mux ctx' = mux ctx
  \/ exists (ctxA ctx1 : AVFormatContext) (i : nat) (last_pkt : bool)
            (tr1 tr2 : list put_op),
       mux ctxA = mux ctx
       /\ flush_packet ctxA i last_pkt = Some (ctx1, tr1)
       /\ tr = tr1 ++ tr2.

(** The context and the sink calls of [mpeg_mux_end] on [ctx_av]. *)
Definition ctx_end_av : AVFormatContext :=
  default ctx_av (fst <$> mpeg_mux_end ctx_av).

Definition trace_end_av : list put_op :=
  default [] (snd <$> mpeg_mux_end ctx_av).

(** The values of a byte. *)
Definition is_byte (x : Z) : Prop := 0 <= x < 256.

(** The scanner, with the bytes [b c d] in its register, reads the bytes
    [l] without finding a start code, and has none in its register at the
    end. *)
Fixpoint no_start_code (b c d : Z) (l : list Z) : bool :=
  negb ((b =? 0) && (c =? 0) && (d =? 1))
  && match l with
     | [] => true
     | x :: tl => no_start_code c d x tl
     end.

(** A VOB session with a video and an AC-3 stream; six bytes were written
    to the AC-3 stream.  The stream, and the flush of it. *)
Definition ctx_ac3 : AVFormatContext :=
  default (new_context mpeg2vob_mux [])
          (session mpeg2vob_mux [mpeg1_video; ac3_audio] [(1%nat, [1; 2; 3; 4; 5; 6])]).

Definition stream_ac3 : AVStream :=
  default {| codec := ac3_audio; priv_data := zero_stream |} (streams ctx_ac3 !! 1%nat).

Definition ctx_ac3_flushed : AVFormatContext :=
  default ctx_ac3 (fst <$> flush_packet ctx_ac3 1 false).

Definition trace_ac3 : list put_op :=
  default [] (snd <$> flush_packet ctx_ac3 1 false).

(** * Properties *)

(** ** Machine integers and bit operations *)

Lemma uint8_idem (z : Z) : uint8 (uint8 z) = uint8 z.
Proof. unfold uint8. apply Z.mod_mod. lia. Qed.

Lemma uint8_range (z : Z) : 0 <= uint8 z < 256.
Proof. unfold uint8. apply Z.mod_pos_bound. lia. Qed.

Lemma uint8_small (z : Z) : 0 <= z < 256 -> uint8 z = z.
Proof. intros H. unfold uint8. apply Z.mod_small. lia. Qed.

Lemma be16_read_back (w : Z) :
  Z.lor (Z.shiftl (uint8 (uint8 (Z.shiftr w 8))) 8) (uint8 (uint8 w)) = uint16 w.
Proof. unfold uint8, uint16. Z.bitblast. Qed.

Lemma uint16_idem (w : Z) : uint16 (uint16 w) = uint16 w.
Proof. unfold uint16. apply Z.mod_mod. lia. Qed.

Lemma pts_high_bits (t : Z) :
  Z.land (Z.shiftr (uint8 (uint8 (Z.lor (Z.lor (Z.shiftl 2 4)
            (Z.shiftl (Z.land (Z.shiftr t 30) 7) 1)) 1))) 1) 7
  = Z.land (Z.shiftr t 30) 7.
Proof.
  rewrite uint8_idem. unfold uint8.
  change (Z.shiftl 2 4) with (Z.shiftl (Z.ones 1) 5).
  change 7 with (Z.ones 3). change (Z.lor ?a 1) with (Z.lor a (Z.ones 1)).
  Z.bitblast.
Qed.

Lemma pts_word_bits (u : Z) :
  Z.shiftr (uint16 (Z.lor (Z.shiftl (Z.land u 0x7fff) 1) 1)) 1 = Z.land u 0x7fff.
Proof.
  unfold uint16.
  change 0x7fff with (Z.ones 15). change (Z.lor ?a 1) with (Z.lor a (Z.ones 1)).
  Z.bitblast.
Qed.

Lemma pts_reassemble (t : Z) :
  Z.lor (Z.lor (Z.shiftl (Z.land (Z.shiftr t 30) 7) 30)
               (Z.shiftl (Z.land (Z.shiftr t 15) 0x7fff) 15))
        (Z.land t 0x7fff)
  = t mod 2 ^ 33.
Proof.
  change 7 with (Z.ones 3). change 0x7fff with (Z.ones 15).
  Z.bitblast.
Qed.

(** ** The tick counter *)

Section TickerFacts.

Import Ticker.

Lemma ticker_tick_spec (tk : t) (n : Z) :
  0 < den tk ->
  let '(v, tk') := ticker_tick tk n in
  v * den tk + err tk' = n * num tk + err tk
  /\ 0 <= err tk' < den tk /\ num tk' = num tk /\ den tk' = den tk.
Proof.
  intros Hden. unfold ticker_tick. cbn.
  pose proof (Z.div_mod (n * num tk + err tk) (den tk)) as Hdm.
  pose proof (Z.mod_pos_bound (n * num tk + err tk) (den tk) Hden).
  repeat split; lia.
Qed.

(** The invariant of a run of ticks: what was returned, scaled by [den],
    and the remainder kept add up to what was fed in. *)
Lemma ticks_invariant (ns : list Z) :
  forall tk : t,
    0 < den tk ->
    let '(vs, tk') := ticks tk ns in
    Zsum vs * den tk + err tk' = Zsum ns * num tk + err tk
    /\ num tk' = num tk /\ den tk' = den tk
    /\ (0 <= err tk < den tk -> 0 <= err tk' < den tk).
Proof.
  induction ns as [|n ns IH]; intros tk Hden; cbn [ticks].
  - cbn. repeat split; lia.
  - pose proof (ticker_tick_spec tk n Hden) as Hstep.
    destruct (ticker_tick tk n) as [v tk1].
    destruct Hstep as (Hv & Herr & Hnum & Hd).
    specialize (IH tk1). rewrite Hd in IH. specialize (IH Hden).
    destruct (ticks tk1 ns) as [vs tk2].
    destruct IH as (Hsum & Hnum2 & Hd2 & Hrange).
    cbn [Zsum fold_right]. fold (Zsum vs). fold (Zsum ns).
    rewrite Hnum in Hsum.
    repeat split; try congruence; lia.
Qed.

End TickerFacts.

(** C1. The ticker does not drift: from a remainder of zero, the values
    returned by [tick n1], ..., [tick nk] add up to the floor of
    [num * (n1 + ... + nk) / den], for a non-negative [num] and a positive
    [den]. *)
Theorem ticker_drift_free (num den : Z) (ns : list Z) :
  0 <= num -> 0 < den ->
  Zsum (fst (Ticker.ticks {| Ticker.num := num; Ticker.den := den; Ticker.err := 0 |} ns))
  = (num * Zsum ns) / den.
Proof.
  intros _ Hden.
  pose proof (ticks_invariant ns
                {| Ticker.num := num; Ticker.den := den; Ticker.err := 0 |}) as H.
  cbn [Ticker.den Ticker.num Ticker.err] in H. specialize (H Hden).
  destruct (Ticker.ticks _ ns) as [vs tk']. cbn [fst].
  destruct H as (Hsum & _ & _ & Hrange).
  specialize (Hrange ltac:(lia)).
  apply Z.div_unique with (r := Ticker.err tk'); [left; lia | lia].
Qed.

Lemma ticker_drift_free_witness :
  Zsum (fst (Ticker.ticks {| Ticker.num := 90000 * 1152; Ticker.den := 44100;
                             Ticker.err := 0 |} [1; 1; 1; 2]))
  = (90000 * 1152 * Zsum [1; 1; 1; 2]) / 44100.
Proof. apply ticker_drift_free; lia. Defined.

(** ** The timestamps of mpeg_mux_write_packet *)

Lemma set_stream_lookup (ctx : AVFormatContext) (i : nat) (stream : StreamInfo.t)
    (st : AVStream) :
  streams ctx !! i = Some st ->
  streams (set_stream ctx i stream) !! i
  = Some {| codec := codec st; priv_data := stream |}.
Proof.
  intros Hst. unfold set_stream. cbn [streams]. rewrite Hst.
  apply list_lookup_insert_eq. eapply lookup_lt_Some, Hst.
Qed.

Lemma flush_packet_clock (ctx : AVFormatContext) (i : nat) (last_pkt : bool)
    (ctx' : AVFormatContext) (tr : list put_op) (st : AVStream) :
  streams ctx !! i = Some st ->
  flush_packet ctx i last_pkt = Some (ctx', tr) ->
  MpegMuxContext.packet_data_max_size (mux ctx')
  = MpegMuxContext.packet_data_max_size (mux ctx)
  /\ exists st', streams ctx' !! i = Some st'
                 /\ same_clock (priv_data st') (priv_data st).
Proof.
  intros Hst. unfold flush_packet. rewrite Hst. cbn [mbind option_bind].
  destruct (packet_preface ctx _) as [[preface size]|]; [|discriminate].
  cbn [mbind option_bind].
  destruct (StreamInfo.id (priv_data st) <? 0xc0); intros [= <- _];
    (split; [reflexivity|]);
    rewrite (set_stream_lookup _ i _ st) by exact Hst;
    eexists; (split; [reflexivity|]); split; reflexivity.
Qed.

Lemma write_flush_loop_clock (fuel : nat) :
  forall (ctx ctx' : AVFormatContext) (i : nat) (tr : list put_op) (st : AVStream),
    streams ctx !! i = Some st ->
    write_flush_loop fuel ctx i = Some (ctx', tr) ->
    MpegMuxContext.packet_data_max_size (mux ctx')
    = MpegMuxContext.packet_data_max_size (mux ctx)
    /\ exists st', streams ctx' !! i = Some st'
                   /\ same_clock (priv_data st') (priv_data st).
Proof.
  induction fuel as [|fuel IH]; intros ctx ctx' i tr st Hst;
    cbn [write_flush_loop]; rewrite Hst; cbn [mbind option_bind].
  - destruct (_ <=? _); [discriminate|]. intros [= <- _].
    split; [reflexivity|]. exists st. repeat split. exact Hst.
  - destruct (_ <=? _).
    2: { intros [= <- _]. split; [reflexivity|]. exists st. repeat split. exact Hst. }
    set (stream := if StreamInfo.start_pts (priv_data st) =? -1
                   then with_start_pts (priv_data st) (StreamInfo.pts (priv_data st))
                                       (StreamInfo.pts (priv_data st))
                   else priv_data st).
    assert (Hclock : same_clock stream (priv_data st)).
    { subst stream. destruct (_ =? -1); split; reflexivity. }
    pose proof (set_stream_lookup ctx i stream st Hst) as Hst1.
    destruct (flush_packet (set_stream ctx i stream) i false) as [[ctx1 tr1]|] eqn:Hflush;
      [|discriminate].
    cbn [mbind option_bind].
    destruct (flush_packet_clock _ _ _ _ _ _ Hst1 Hflush) as (Hsize1 & st1 & Hst1' & Hc1).
    destruct (write_flush_loop fuel ctx1 i) as [[ctx2 tr2]|] eqn:Hloop; [|discriminate].
    cbn [mbind option_bind]. intros [= <- _].
    destruct (IH _ _ _ _ _ Hst1' Hloop) as (Hsize2 & st2 & Hst2 & Hc2).
    split; [rewrite Hsize2, Hsize1; reflexivity|].
    exists st2. split; [exact Hst2|].
    destruct Hc2 as [Hp2 Ht2], Hc1 as [Hp1 Ht1], Hclock as [Hp0 Ht0].
    cbn [priv_data] in *. split; congruence.
Qed.

Lemma write_loop_clock (fuel : nat) :
  forall (ctx ctx' : AVFormatContext) (i : nat) (buf : list Z) (tr : list put_op)
         (st : AVStream),
    streams ctx !! i = Some st ->
    write_loop fuel ctx i buf 0 = Some (ctx', tr) ->
    exists st', streams ctx' !! i = Some st'
                /\ same_clock (priv_data st') (priv_data st).
Proof.
  induction fuel as [|fuel IH]; intros ctx ctx' i buf tr st Hst;
    cbn [write_loop].
  - destruct (0 <? _); [discriminate|]. intros [= <- _].
    exists st. repeat split. exact Hst.
  - destruct (0 <? _).
    2: { intros [= <- _]. exists st. repeat split. exact Hst. }
    rewrite Hst. cbn [mbind option_bind].
    change (0 =? 0) with true. cbv iota.
    match goal with
    | |- context [write_flush_loop fuel (set_stream ctx i ?s) i] => set (stream := s)
    end.
    assert (Hclock : same_clock stream (priv_data st)).
    { subst stream. destruct (_ =? -1); split; reflexivity. }
    pose proof (set_stream_lookup ctx i stream st Hst) as Hst1.
    destruct (write_flush_loop fuel (set_stream ctx i stream) i) as [[ctx1 tr1]|] eqn:Hfl;
      [|discriminate].
    cbn [mbind option_bind].
    destruct (write_flush_loop_clock _ _ _ _ _ _ Hst1 Hfl) as (_ & st1 & Hst1' & Hc1).
    destruct (write_loop fuel ctx1 i _ 0) as [[ctx2 tr2]|] eqn:Hloop; [|discriminate].
    cbn [mbind option_bind]. intros [= <- _].
    destruct (IH _ _ _ _ _ _ Hst1' Hloop) as (st2 & Hst2 & Hc2).
    exists st2. split; [exact Hst2|].
    destruct Hc2 as [Hp2 Ht2], Hc1 as [Hp1 Ht1], Hclock as [Hp0 Ht0].
    cbn [priv_data] in *. split; congruence.
Qed.

(** Line 386: a call of [mpeg_mux_write_packet] without forced timestamp
    advances the [pts] of the stream by one tick of its ticker. *)
Lemma mpeg_mux_write_packet_tick (fuel : nat) (ctx ctx' : AVFormatContext) (i : nat)
    (buf : list Z) (tr : list put_op) (st : AVStream) :
  streams ctx !! i = Some st ->
  mpeg_mux_write_packet fuel ctx i buf 0 = Some (ctx', tr) ->
  exists st',
    streams ctx' !! i = Some st'
    /\ StreamInfo.pts (priv_data st')
       = StreamInfo.pts (priv_data st)
         + fst (Ticker.ticker_tick (StreamInfo.pts_ticker (priv_data st)) 1)
    /\ StreamInfo.pts_ticker (priv_data st')
       = snd (Ticker.ticker_tick (StreamInfo.pts_ticker (priv_data st)) 1).
Proof.
  intros Hst. unfold mpeg_mux_write_packet.
  destruct (write_loop fuel ctx i buf 0) as [[ctx1 tr1]|] eqn:Hloop; [|discriminate].
  cbn [mbind option_bind].
  destruct (write_loop_clock _ _ _ _ _ _ _ Hst Hloop) as (st1 & Hst1 & Hp & Ht).
  rewrite Hst1. cbn [mbind option_bind].
  destruct (Ticker.ticker_tick (StreamInfo.pts_ticker (priv_data st1)) 1)
    as [v tk] eqn:Htick.
  intros [= <- _]. rewrite (set_stream_lookup _ _ _ _ Hst1).
  eexists. split; [reflexivity|]. cbn [priv_data StreamInfo.pts StreamInfo.pts_ticker].
  rewrite <- Ht, Htick, Hp. split; reflexivity.
Qed.

(** The timestamp of a stream after [k] frames: the frames are written
    with no forced timestamp to the stream [i], whose ticker has no
    remainder at the start, as after [mpeg_mux_init]. *)
Lemma write_all_pts (frames : list (list Z)) :
  forall (ctx ctx' : AVFormatContext) (i : nat) (tr : list put_op) (st : AVStream),
    streams ctx !! i = Some st ->
    write_all ctx (map (fun buf => (i, buf)) frames) = Some (ctx', tr) ->
    exists st',
      streams ctx' !! i = Some st'
      /\ let '(vs, tk) := Ticker.ticks (StreamInfo.pts_ticker (priv_data st))
                                       (map (fun _ => 1) frames) in
         StreamInfo.pts (priv_data st') = StreamInfo.pts (priv_data st) + Zsum vs
         /\ StreamInfo.pts_ticker (priv_data st') = tk.
Proof.
  induction frames as [|buf frames IH]; intros ctx ctx' i tr st Hst;
    cbn [map write_all Ticker.ticks].
  - intros [= <- _]. exists st. split; [exact Hst|]. cbn. split; [lia | reflexivity].
  - destruct (mpeg_mux_write_packet _ ctx i buf 0) as [[ctx1 tr1]|] eqn:Hwrite;
      [|discriminate].
    cbn [mbind option_bind].
    destruct (mpeg_mux_write_packet_tick _ _ _ _ _ _ _ Hst Hwrite)
      as (st1 & Hst1 & Hpts1 & Htk1).
    destruct (write_all ctx1 _) as [[ctx2 tr2]|] eqn:Hrest; [|discriminate].
    cbn [mbind option_bind]. intros [= <- _].
    destruct (IH _ _ _ _ _ Hst1 Hrest) as (st2 & Hst2 & Hrun).
    exists st2. split; [exact Hst2|].
    destruct (Ticker.ticker_tick (StreamInfo.pts_ticker (priv_data st)) 1) as [v tk1].
    cbn [fst snd] in *. rewrite Htk1 in Hrun.
    destruct (Ticker.ticks tk1 (map (fun _ => 1) frames)) as [vs tk2].
    destruct Hrun as [Hp2 Ht2]. cbn [Zsum fold_right]. fold (Zsum vs).
    split; [lia | exact Ht2].
Qed.

(** After [k] frames the timestamp has advanced by the floor of
    [k * num / den]: the rounding of the frames does not add up. *)
Lemma write_all_pts_drift_free (frames : list (list Z)) (ctx ctx' : AVFormatContext)
    (i : nat) (tr : list put_op) (st : AVStream) :
  streams ctx !! i = Some st ->
  0 < Ticker.den (StreamInfo.pts_ticker (priv_data st)) ->
  Ticker.err (StreamInfo.pts_ticker (priv_data st)) = 0 ->
  write_all ctx (map (fun buf => (i, buf)) frames) = Some (ctx', tr) ->
  exists st',
    streams ctx' !! i = Some st'
    /\ StreamInfo.pts (priv_data st')
       = StreamInfo.pts (priv_data st)
         + (Z.of_nat (length frames) * Ticker.num (StreamInfo.pts_ticker (priv_data st)))
           / Ticker.den (StreamInfo.pts_ticker (priv_data st)).
Proof.
  intros Hst Hden Herr Hrun.
  destruct (write_all_pts frames _ _ _ _ _ Hst Hrun) as (st' & Hst' & Hpts).
  exists st'. split; [exact Hst'|].
  pose proof (ticks_invariant (map (fun _ => 1) frames)
                (StreamInfo.pts_ticker (priv_data st)) Hden) as Hinv.
  destruct (Ticker.ticks _ _) as [vs tk].
  destruct Hpts as [-> _]. destruct Hinv as (Hsum & _ & _ & Hrange).
  specialize (Hrange ltac:(lia)). f_equal.
  assert (Hones : Zsum (map (fun _ : list Z => 1) frames) = Z.of_nat (length frames)).
  { clear. induction frames as [|b l IH]; cbn [map Zsum fold_right length];
      [reflexivity|]. fold (Zsum (map (fun _ : list Z => 1) l)). lia. }
  rewrite Hones, Herr in Hsum.
  apply Z.div_unique with (r := Ticker.err tk); [left; lia | lia].
Qed.

(** ** Reading from a source at a known offset *)

Lemma get_byte_at_offset (before : list Z) (b : Z) (rest : list Z) (e : bool) :
  get_byte (at_offset before (b :: rest) e)
  = (uint8 b, at_offset (before ++ [b]) rest e).
Proof.
  unfold get_byte, in_range, at_offset. cbn [ByteIO.data ByteIO.pos ByteIO.eof_reached].
  rewrite !length_app. cbn [length].
  replace ((0 <=? Z.of_nat (length before))
           && (Z.of_nat (length before) <? Z.of_nat (length before + S (length rest))))
    with true by (symmetry; apply andb_true_iff; split; [apply Z.leb_le | apply Z.ltb_lt]; lia).
  rewrite Nat2Z.id, nth_middle.
  f_equal. f_equal.
  - now rewrite <- app_assoc.
  - lia.
Qed.

Lemma get_be16_at_offset (before : list Z) (b1 b2 : Z) (rest : list Z) (e : bool) :
  get_be16 (at_offset before (b1 :: b2 :: rest) e)
  = (Z.lor (Z.shiftl (uint8 b1) 8) (uint8 b2), at_offset (before ++ [b1; b2]) rest e).
Proof.
  unfold get_be16. rewrite get_byte_at_offset, get_byte_at_offset.
  now rewrite <- app_assoc.
Qed.

(** [get_pts] with the first byte [c] already read. *)
Lemma get_pts_at_offset (before : list Z) (c b1 b2 b3 b4 : Z) (rest : list Z) (e : bool) :
  0 <= c ->
  get_pts (at_offset before (b1 :: b2 :: b3 :: b4 :: rest) e) c
  = (Z.lor (Z.lor (Z.shiftl (Z.land (Z.shiftr c 1) 0x07) 30)
                  (Z.shiftl (Z.shiftr (Z.lor (Z.shiftl (uint8 b1) 8) (uint8 b2)) 1) 15))
           (Z.shiftr (Z.lor (Z.shiftl (uint8 b3) 8) (uint8 b4)) 1),
     at_offset (before ++ [b1; b2; b3; b4]) rest e).
Proof.
  intros Hc. unfold get_pts.
  replace (c <? 0) with false by (symmetry; apply Z.ltb_ge; lia).
  rewrite get_be16_at_offset, get_be16_at_offset.
  now rewrite <- app_assoc.
Qed.

(** [get_pts] reading the first byte itself. *)
Lemma get_pts_at_offset_first (before : list Z) (b0 b1 b2 b3 b4 : Z) (rest : list Z)
    (e : bool) :
  get_pts (at_offset before (b0 :: b1 :: b2 :: b3 :: b4 :: rest) e) (-1)
  = (Z.lor (Z.lor (Z.shiftl (Z.land (Z.shiftr (uint8 b0) 1) 0x07) 30)
                  (Z.shiftl (Z.shiftr (Z.lor (Z.shiftl (uint8 b1) 8) (uint8 b2)) 1) 15))
           (Z.shiftr (Z.lor (Z.shiftl (uint8 b3) 8) (uint8 b4)) 1),
     at_offset (before ++ [b0; b1; b2; b3; b4]) rest e).
Proof.
  unfold get_pts. change (-1 <? 0) with true. cbv iota.
  rewrite get_byte_at_offset, get_be16_at_offset, get_be16_at_offset.
  now rewrite <- !app_assoc.
Qed.

(** Decoding the five bytes written for [t]. *)
Lemma decode_pts_ops (t : Z) (before rest : list Z) (e : bool) :
  get_pts (at_offset before (sink_bytes (pts_ops t) ++ rest) e) (-1)
  = (t mod 2 ^ 33, at_offset (before ++ sink_bytes (pts_ops t)) rest e).
Proof.
  unfold pts_ops, sink_bytes. cbn [flat_map op_bytes app].
  rewrite get_pts_at_offset_first. f_equal.
  rewrite pts_high_bits, !be16_read_back, !uint16_idem, !pts_word_bits.
  apply pts_reassemble.
Qed.

(** The same with the first byte read beforehand, as in the MPEG-1 branch
    of [mpegps_read_packet]. *)
Lemma decode_pts_ops_from (t : Z) (before rest : list Z) (e : bool) :
  match sink_bytes (pts_ops t) with
  | b0 :: four =>
      get_pts (at_offset (before ++ [b0]) (four ++ rest) e) (uint8 b0)
      = (t mod 2 ^ 33, at_offset (before ++ sink_bytes (pts_ops t)) rest e)
  | [] => False
  end.
Proof.
  unfold pts_ops, sink_bytes. cbn [flat_map op_bytes app].
  rewrite get_pts_at_offset by apply uint8_range.
  rewrite <- app_assoc. cbn [app]. f_equal.
  rewrite pts_high_bits, !be16_read_back, !uint16_idem, !pts_word_bits.
  apply pts_reassemble.
Qed.

(** ** The packets written by flush_packet *)

(** The sink calls of a flush, in the order of the source. *)
Lemma clamp_below_is_max (x : Z) : (if x <? 0 then 0 else x) = Z.max 0 x.
Proof.
  destruct (x <? 0) eqn:Hneg; [apply Z.ltb_lt in Hneg | apply Z.ltb_ge in Hneg]; lia.
Qed.

Lemma flush_packet_trace (ctx : AVFormatContext) (i : nat) (last_pkt : bool)
    (ctx' : AVFormatContext) (tr : list put_op) (st : AVStream) :
  streams ctx !! i = Some st ->
  flush_packet ctx i last_pkt = Some (ctx', tr) ->
  exists (preface : list Z) (size : Z),
    packet_preface ctx (StreamInfo.start_pts (priv_data st)) = Some (preface, size)
    /\ let s := mux ctx in
       let stream := priv_data st in
       let id := StreamInfo.id stream in
       let header_len := if MpegMuxContext.is_mpeg2 s then 8 else 5 in
       let last := if last_pkt then 4 else 0 in
       let payload_size :=
         MpegMuxContext.packet_size s - (size + 6 + header_len + last)
         - (if id <? 0xc0 then 4 else 0) in
       let startcode := if id <? 0xc0 then PRIVATE_STREAM_1 else 0x100 + id in
       let stuffing_size := Z.max 0 (payload_size - StreamInfo.buffer_ptr stream) in
       tr = [PutBuffer (firstn (Z.to_nat size) preface);
             PutBe32 startcode; PutBe16 (payload_size + header_len)]
            ++ List.repeat (PutByte 0xff) (Z.to_nat stuffing_size)
            ++ (if MpegMuxContext.is_mpeg2 s
                then [PutByte 0x80; PutByte 0x80; PutByte 0x05] else [])
            ++ pts_ops (StreamInfo.start_pts stream)
            ++ (if startcode =? PRIVATE_STREAM_1
                then PutByte id :: (if (0x80 <=? id) && (id <=? 0xbf)
                                    then [PutByte 1; PutByte 0; PutByte 2] else [])
                else [])
            ++ (if last_pkt then [PutBe32 ISO_11172_END_CODE] else [])
            ++ [PutBuffer (firstn (Z.to_nat (payload_size - stuffing_size))
                                  (StreamInfo.buffer stream));
                PutFlushPacket].
Proof.
  intros Hst Hflush. unfold flush_packet in Hflush.
  rewrite Hst in Hflush. cbn [mbind option_bind] in Hflush.
  destruct (packet_preface ctx (StreamInfo.start_pts (priv_data st)))
    as [[preface size]|] eqn:Hpre; [|discriminate].
  cbn [mbind option_bind] in Hflush.
  exists preface, size. split; [reflexivity|].
  cbv zeta.
  destruct (StreamInfo.id (priv_data st) <? 0xc0) eqn:Hid;
    injection Hflush as _ <-; rewrite !clamp_below_is_max, ?Z.sub_0_r; reflexivity.
Qed.

Lemma session_av_streams :
  exists ctx st0 st1,
    session_av = Some ctx /\ streams ctx = [st0; st1]
    /\ StreamInfo.buffer_ptr (priv_data st0) = 10
    /\ StreamInfo.buffer_ptr (priv_data st1) = 0
    /\ MpegMuxContext.pack_header_freq (mux ctx) = 167
    /\ MpegMuxContext.system_header_freq (mux ctx) = 835.
Proof.
  unfold session_av, session.
  vm_compute. do 3 eexists. repeat split.
Qed.

(** C3. The timestamp field written by [flush_packet] and [get_pts] are
    inverse to each other modulo 2^33: a flush writes the timestamp [t] of
    the stream as the three sink calls [pts_ops t], after the packet
    prefix, and [get_pts] reads the five bytes of these calls back as
    [t mod 2^33], whether it reads the first byte itself or is handed it.
    The timestamp need not be non-negative. *)
Theorem pts_field_roundtrip (ctx : AVFormatContext) (i : nat) (last_pkt : bool)
    (ctx' : AVFormatContext) (tr : list put_op) (st : AVStream) :
  streams ctx !! i = Some st ->
  flush_packet ctx i last_pkt = Some (ctx', tr) ->
  let t := StreamInfo.start_pts (priv_data st) in
  (exists (preface : list Z) (startcode len : Z) (stuffing : nat) (post : list put_op),
      tr = [PutBuffer preface; PutBe32 startcode; PutBe16 len]
           ++ List.repeat (PutByte 0xff) stuffing
           ++ (if MpegMuxContext.is_mpeg2 (mux ctx)
               then [PutByte 0x80; PutByte 0x80; PutByte 0x05] else [])
           ++ pts_ops t ++ post)
  /\ sink_bytes (pts_ops t)
     = [uint8 (Z.lor (Z.lor (Z.shiftl 0x02 4)
                            (Z.shiftl (Z.land (Z.shiftr t 30) 7) 1)) 1);
        uint8 (Z.shiftr (uint16 (Z.lor (Z.shiftl (Z.land (Z.shiftr t 15) 0x7fff) 1) 1)) 8);
        uint8 (uint16 (Z.lor (Z.shiftl (Z.land (Z.shiftr t 15) 0x7fff) 1) 1));
        uint8 (Z.shiftr (uint16 (Z.lor (Z.shiftl (Z.land t 0x7fff) 1) 1)) 8);
        uint8 (uint16 (Z.lor (Z.shiftl (Z.land t 0x7fff) 1) 1))]
  /\ (forall (before rest : list Z) (e : bool),
         get_pts (at_offset before (sink_bytes (pts_ops t) ++ rest) e) (-1)
         = (t mod 2 ^ 33, at_offset (before ++ sink_bytes (pts_ops t)) rest e))
  /\ (forall (before rest : list Z) (e : bool),
         get_pts (at_offset (before ++ firstn 1 (sink_bytes (pts_ops t)))
                            (skipn 1 (sink_bytes (pts_ops t)) ++ rest) e)
                 (hd 0 (sink_bytes (pts_ops t)))
         = (t mod 2 ^ 33, at_offset (before ++ sink_bytes (pts_ops t)) rest e)).
Proof.
  intros Hst Hflush t.
  destruct (flush_packet_trace ctx i last_pkt ctx' tr st Hst Hflush)
    as (preface & size & _ & Htr).
  cbv zeta in Htr. fold t in Htr.
  split; [|split; [reflexivity|split]].
  - rewrite Htr. do 5 eexists. reflexivity.
  - intros before rest e. apply decode_pts_ops.
  - intros before rest e.
    pose proof (decode_pts_ops_from t before rest e) as H.
    unfold pts_ops, sink_bytes in *. cbn [flat_map op_bytes app firstn skipn hd] in *.
    rewrite uint8_idem in H. exact H.
Qed.

Lemma pts_field_roundtrip_witness :
  streams ctx_av !! 0%nat = Some stream_av_audio
  /\ StreamInfo.start_pts (priv_data stream_av_audio) = 0
  /\ exists ctx' tr,
       flush_packet ctx_av 0 false = Some (ctx', tr)
       /\ forall before rest e,
            get_pts (at_offset before
                       (sink_bytes (pts_ops (StreamInfo.start_pts
                                               (priv_data stream_av_audio))) ++ rest) e)
                    (-1)
            = (StreamInfo.start_pts (priv_data stream_av_audio) mod 2 ^ 33,
               at_offset (before ++ sink_bytes (pts_ops (StreamInfo.start_pts
                                                           (priv_data stream_av_audio))))
                         rest e).
Proof.
  split; [vm_compute; reflexivity|].
  split; [vm_compute; reflexivity|].
  destruct (flush_packet ctx_av 0 false) as [[ctx' tr]|] eqn:Hflush;
    [|vm_compute in Hflush; discriminate].
  exists ctx', tr. split; [reflexivity|].
  apply (pts_field_roundtrip ctx_av 0 false ctx' tr stream_av_audio);
    [vm_compute; reflexivity | exact Hflush].
Defined.

(** ** The bit writer *)

Lemma length_bits_msb (n : nat) (v : Z) : length (bits_msb n v) = n.
Proof. induction n as [|n IH]; cbn [bits_msb length]; congruence. Qed.

Lemma length_bytes_of_bits (l : list bool) :
  length (bytes_of_bits l) = (length l / 8)%nat.
Proof.
  remember (length l) as n eqn:Hn. revert l Hn.
  induction n as [n IH] using lt_wf_ind. intros l Hn.
  destruct l as [|b7 [|b6 [|b5 [|b4 [|b3 [|b2 [|b1 [|b0 rest]]]]]]]];
    cbn [bytes_of_bits length] in *; subst n; try reflexivity.
  rewrite (IH (length rest)) by (lia || reflexivity).
  change (S (S (S (S (S (S (S (S (length rest)))))))))
    with (8 + length rest)%nat.
  replace (8 + length rest)%nat with (1 * 8 + length rest)%nat by lia.
  rewrite Nat.div_add_l by lia. reflexivity.
Qed.

Lemma bits_of_byte_of_bits (b7 b6 b5 b4 b3 b2 b1 b0 : bool) :
  bits_msb 8 (byte_of_bits b7 b6 b5 b4 b3 b2 b1 b0) = [b7; b6; b5; b4; b3; b2; b1; b0].
Proof. destruct b7, b6, b5, b4, b3, b2, b1, b0; reflexivity. Qed.

(** A flushed writer is read back from its bytes. *)
Lemma bits_of_bytes_of_bits (k : nat) :
  forall l : list bool,
    length l = (8 * k)%nat -> bits_of_bytes (bytes_of_bits l) = l.
Proof.
  induction k as [|k IH]; intros l Hl.
  - destruct l; [reflexivity | discriminate].
  - destruct l as [|b7 [|b6 [|b5 [|b4 [|b3 [|b2 [|b1 [|b0 rest]]]]]]]];
      cbn [length] in Hl; try lia.
    cbn [bytes_of_bits]. unfold bits_of_bytes. cbn [flat_map].
    rewrite bits_of_byte_of_bits. cbn [app]. do 8 f_equal.
    apply IH. lia.
Qed.

Lemma flush_put_bits_length (pb : PutBitContext) :
  exists k : nat, length (flush_put_bits pb) = (8 * k)%nat.
Proof.
  unfold flush_put_bits. rewrite length_app, repeat_length.
  pose proof (Nat.div_mod_eq (length pb) 8) as Hdm.
  pose proof (Nat.mod_upper_bound (length pb) 8 ltac:(lia)) as Hlt.
  destruct (Nat.eq_dec (length pb mod 8)%nat 0%nat) as [Hz|Hnz].
  - exists (length pb / 8)%nat. rewrite Hz in *.
    change ((8 - 0) mod 8)%nat with 0%nat. lia.
  - exists (length pb / 8 + 1)%nat.
    rewrite (Nat.mod_small (8 - length pb mod 8)%nat 8%nat) by lia. lia.
Qed.

(** The size returned by an emitter is the number of bytes it wrote. *)
Lemma flushed_size (pb : PutBitContext) :
  pbBufPtr (flush_put_bits pb)
  = Z.of_nat (length (bytes_of_bits (flush_put_bits pb))).
Proof. unfold pbBufPtr. now rewrite length_bytes_of_bits. Qed.

Lemma put_pack_header_size (ctx : AVFormatContext) (timestamp : Z) :
  snd (put_pack_header ctx timestamp) = 12
  /\ length (fst (put_pack_header ctx timestamp)) = 12%nat.
Proof.
  unfold put_pack_header. cbv zeta. cbn [fst snd].
  unfold pbBufPtr. rewrite length_bytes_of_bits.
  unfold flush_put_bits, put_bits, init_put_bits.
  rewrite !length_app, !length_bits_msb, repeat_length.
  split; reflexivity.
Qed.

Lemma put_system_header_size (ctx : AVFormatContext) :
  snd (put_system_header ctx) = Z.of_nat (length (fst (put_system_header ctx))).
Proof.
  unfold put_system_header. cbv zeta. cbn [fst snd].
  rewrite !length_insert. apply flushed_size.
Qed.

Lemma packet_preface_size (ctx : AVFormatContext) (timestamp : Z)
    (preface : list Z) (size : Z) :
  packet_preface ctx timestamp = Some (preface, size) ->
  size = Z.of_nat (length preface).
Proof.
  unfold packet_preface.
  destruct (MpegMuxContext.pack_header_freq (mux ctx) =? 0); [discriminate|].
  destruct (Z.rem _ _ =? 0).
  - pose proof (put_pack_header_size ctx timestamp) as [Hs Hl].
    destruct (put_pack_header ctx timestamp) as [buf1 size1]. cbn [fst snd] in *.
    destruct (MpegMuxContext.system_header_freq (mux ctx) =? 0); [discriminate|].
    destruct (Z.rem _ _ =? 0).
    + pose proof (put_system_header_size ctx) as Hs2.
      destruct (put_system_header ctx) as [buf2 size2]. cbn [fst snd] in *.
      intros [= <- <-]. rewrite length_app. lia.
    + intros [= <- <-]. lia.
  - intros [= <- <-]. reflexivity.
Qed.

(** The byte that follows the stuffing is not a stuffing byte. *)
Lemma pts_first_byte_not_ff (t : Z) :
  Z.lor (Z.lor (Z.shiftl 0x02 4) (Z.shiftl (Z.land (Z.shiftr t 30) 0x07) 1)) 1 <> 0xff.
Proof.
  intros H.
  assert (Hbit : Z.testbit
            (Z.lor (Z.lor (Z.shiftl 0x02 4) (Z.shiftl (Z.land (Z.shiftr t 30) 0x07) 1)) 1) 7
          = Z.testbit 0xff 7) by (rewrite H; reflexivity).
  rewrite !Z.lor_spec, !Z.shiftl_spec, Z.land_spec in Hbit by lia.
  cbn in Hbit. rewrite andb_false_r in Hbit. discriminate.
Qed.

Lemma count_leading_ff_repeat (n : nat) (rest : list put_op) :
  count_leading_ff rest = O ->
  count_leading_ff (List.repeat (PutByte 0xff) n ++ rest) = n.
Proof.
  intros Hrest. induction n as [|n IH]; cbn [List.repeat app count_leading_ff].
  - exact Hrest.
  - change (0xff =? 0xff) with true. cbv iota. now rewrite IH.
Qed.

(** C2. The packet written by [flush_packet] starts with the preface (pack
    and system headers), the start code and the 16-bit length
    [payload_size + header_len], where [payload_size] is [packet_size]
    minus [preface_size + 6 + header_len + last], and 4 less for a stream id
    below 0xc0; [header_len] is 8 for MPEG-2 and 5 otherwise and [last] is 4
    for the last packet.  The stuffing bytes 0xff that follow number
    [max 0 (payload_size - buffer_ptr)]: none when [buffer_ptr] is at least
    [payload_size]. *)
Theorem flush_packet_payload_and_stuffing (ctx : AVFormatContext) (i : nat)
    (last_pkt : bool) (ctx' : AVFormatContext) (tr : list put_op) (st : AVStream) :
  streams ctx !! i = Some st ->
  flush_packet ctx i last_pkt = Some (ctx', tr) ->
  exists (preface : list Z) (startcode len : Z) (rest : list put_op),
    tr = PutBuffer preface :: PutBe32 startcode :: PutBe16 len :: rest
    /\ packet_preface ctx (StreamInfo.start_pts (priv_data st))
       = Some (preface, Z.of_nat (length preface))
    /\ let s := mux ctx in
       let stream := priv_data st in
       let preface_size := Z.of_nat (length preface) in
       let header_len := if MpegMuxContext.is_mpeg2 s then 8 else 5 in
       let last := if last_pkt then 4 else 0 in
       let payload_size :=
         MpegMuxContext.packet_size s - (preface_size + 6 + header_len + last)
         - (if StreamInfo.id stream <? 0xc0 then 4 else 0) in
       len = payload_size + header_len
       /\ Z.of_nat (count_leading_ff rest)
          = Z.max 0 (payload_size - StreamInfo.buffer_ptr stream)
       /\ (payload_size <= StreamInfo.buffer_ptr stream -> count_leading_ff rest = O).
Proof.
  intros Hst Hflush.
  destruct (flush_packet_trace ctx i last_pkt ctx' tr st Hst Hflush)
    as (preface & size & Hpre & Htr).
  cbv zeta in Htr.
  pose proof (packet_preface_size _ _ _ _ Hpre) as Hsize. subst size.
  rewrite Nat2Z.id, firstn_all in Htr.
  cbn [app] in Htr.
  eexists preface, _, _, _. split; [exact Htr|]. split; [exact Hpre|].
  cbv zeta.
  assert (Hcount :
    forall n post,
      count_leading_ff
        (List.repeat (PutByte 0xff) n
         ++ (if MpegMuxContext.is_mpeg2 (mux ctx)
             then [PutByte 0x80; PutByte 0x80; PutByte 0x05] else [])
         ++ pts_ops (StreamInfo.start_pts (priv_data st)) ++ post) = n).
  { intros n post. apply count_leading_ff_repeat.
    destruct (MpegMuxContext.is_mpeg2 (mux ctx)); cbn [app pts_ops count_leading_ff].
    - reflexivity.
    - destruct (Z.eqb_spec
        (Z.lor (Z.lor (Z.shiftl 0x02 4)
           (Z.shiftl (Z.land (Z.shiftr (StreamInfo.start_pts (priv_data st)) 30) 0x07) 1)) 1)
        0xff) as [Heq|Hne]; [|reflexivity].
      now apply pts_first_byte_not_ff in Heq. }
  split; [reflexivity|]. rewrite Hcount. split.
  - rewrite Z2Nat.id by lia. reflexivity.
  - intros Hle. rewrite Z.max_l by lia. reflexivity.
Qed.

Lemma flush_packet_payload_and_stuffing_witness :
  streams ctx_av !! 0%nat = Some stream_av_audio
  /\ exists ctx' tr,
       flush_packet ctx_av 0 false = Some (ctx', tr)
       /\ exists preface startcode len rest,
            tr = PutBuffer preface :: PutBe32 startcode :: PutBe16 len :: rest
            /\ length preface = 30%nat
            /\ len = 2048 - (30 + 6 + 5 + 0) + 5
            /\ Z.of_nat (count_leading_ff rest) = 2048 - (30 + 6 + 5 + 0) - 10.
Proof.
  split; [vm_compute; reflexivity|].
  destruct (flush_packet ctx_av 0 false) as [[ctx' tr]|] eqn:Hflush;
    [|vm_compute in Hflush; discriminate].
  exists ctx', tr. split; [reflexivity|].
  destruct (flush_packet_payload_and_stuffing ctx_av 0 false ctx' tr stream_av_audio)
    as (preface & startcode & len & rest & Htr & Hpre & Hlen & Hstuff & _);
    [vm_compute; reflexivity | exact Hflush |].
  exists preface, startcode, len, rest.
  assert (Hp : length preface = 30%nat).
  { assert (Hv : packet_preface ctx_av (StreamInfo.start_pts (priv_data stream_av_audio))
                 = Some (fst (put_pack_header ctx_av 0) ++ fst (put_system_header ctx_av), 30))
      by (vm_compute; reflexivity).
    rewrite Hv in Hpre. injection Hpre as _ Hp. lia. }
  cbv zeta in Hlen, Hstuff. rewrite Hp in Hlen, Hstuff.
  assert (H1 : MpegMuxContext.packet_size (mux ctx_av) = 2048)
    by (vm_compute; reflexivity).
  assert (H2 : MpegMuxContext.is_mpeg2 (mux ctx_av) = false)
    by (vm_compute; reflexivity).
  assert (H3 : StreamInfo.id (priv_data stream_av_audio) = 0xc0)
    by (vm_compute; reflexivity).
  assert (H4 : StreamInfo.buffer_ptr (priv_data stream_av_audio) = 10)
    by (vm_compute; reflexivity).
  rewrite H1, H2, H3 in Hlen, Hstuff. rewrite H4 in Hstuff.
  change (0xc0 <? 0xc0) with false in Hlen, Hstuff. cbv iota in Hlen, Hstuff.
  repeat split; [exact Htr | exact Hp | lia | lia].
Defined.

(** ** The cadence of the pack and system headers *)

Lemma bytes_of_pack_start_code (rest : list bool) :
  bytes_of_bits (bits_msb 32 PACK_START_CODE ++ rest)
  = 0 :: 0 :: 1 :: 0xba :: bytes_of_bits rest.
Proof. reflexivity. Qed.

Lemma bytes_of_system_start_code (rest : list bool) :
  bytes_of_bits (bits_msb 32 SYSTEM_HEADER_START_CODE ++ rest)
  = 0 :: 0 :: 1 :: 0xbb :: bytes_of_bits rest.
Proof. reflexivity. Qed.

Lemma put_pack_header_head (ctx : AVFormatContext) (timestamp : Z) :
  exists tl : list Z, fst (put_pack_header ctx timestamp) = 0 :: 0 :: 1 :: 0xba :: tl.
Proof.
  unfold put_pack_header. cbv zeta. cbn [fst].
  unfold flush_put_bits, put_bits, init_put_bits.
  rewrite <- !app_assoc. cbn [app].
  rewrite bytes_of_pack_start_code. eauto.
Qed.

(** The loop over the streams only appends to the writer. *)
Lemma put_system_header_loop_app (sts : list AVStream) :
  forall (coded : bool) (pb : PutBitContext),
    put_system_header_loop sts coded pb
    = pb ++ put_system_header_loop sts coded [].
Proof.
  induction sts as [|st sts IH]; intros coded pb; cbn [put_system_header_loop].
  - now rewrite app_nil_r.
  - assert (Hinfo : forall id stream,
               put_stream_info pb id stream = pb ++ put_stream_info [] id stream).
    { intros id stream. unfold put_stream_info, put_bits.
      destruct (id <? 0xe0); now rewrite <- !app_assoc. }
    destruct (StreamInfo.id (priv_data st) <? 0xc0); [destruct coded|].
    + apply IH.
    + rewrite IH, (IH _ (put_stream_info [] _ _)), Hinfo. now rewrite <- !app_assoc.
    + rewrite IH, (IH _ (put_stream_info [] _ _)), Hinfo. now rewrite <- !app_assoc.
Qed.

Lemma put_system_header_head (ctx : AVFormatContext) :
  exists tl : list Z, fst (put_system_header ctx) = 0 :: 0 :: 1 :: 0xbb :: tl.
Proof.
  unfold put_system_header. cbv zeta. cbn [fst].
  rewrite put_system_header_loop_app.
  unfold flush_put_bits, put_bits, init_put_bits.
  rewrite <- !app_assoc. cbn [app].
  rewrite bytes_of_system_start_code. cbn. eauto.
Qed.

Lemma packet_preface_cases (ctx : AVFormatContext) (timestamp : Z)
    (preface : list Z) (size : Z) :
  packet_preface ctx timestamp = Some (preface, size) ->
  let s := mux ctx in
  let n := MpegMuxContext.packet_number s in
  let f := MpegMuxContext.pack_header_freq s in
  let g := MpegMuxContext.system_header_freq s in
  f <> 0
  /\ ((Z.rem n f <> 0 /\ preface = [])
      \/ (Z.rem n f = 0 /\ g <> 0 /\ Z.rem n g <> 0
          /\ preface = fst (put_pack_header ctx timestamp))
      \/ (Z.rem n f = 0 /\ g <> 0 /\ Z.rem n g = 0
          /\ preface = fst (put_pack_header ctx timestamp)
                       ++ fst (put_system_header ctx))).
Proof.
  unfold packet_preface. cbv zeta.
  destruct (Z.eqb_spec (MpegMuxContext.pack_header_freq (mux ctx)) 0) as [|Hf];
    [discriminate|].
  destruct (Z.eqb_spec (Z.rem (MpegMuxContext.packet_number (mux ctx))
                              (MpegMuxContext.pack_header_freq (mux ctx))) 0)
    as [Hpack|Hpack].
  - destruct (put_pack_header ctx timestamp) as [buf1 size1]. cbn [fst].
    destruct (Z.eqb_spec (MpegMuxContext.system_header_freq (mux ctx)) 0) as [|Hg];
      [discriminate|].
    destruct (Z.eqb_spec (Z.rem (MpegMuxContext.packet_number (mux ctx))
                                (MpegMuxContext.system_header_freq (mux ctx))) 0)
      as [Hsys|Hsys].
    + destruct (put_system_header ctx) as [buf2 size2]. cbn [fst].
      intros [= <- <-]. split; [assumption|]. right. right. auto.
    + intros [= <- <-]. split; [assumption|]. right. left. auto.
  - intros [= <- <-]. split; [assumption|]. left. auto.
Qed.

Lemma flush_packet_mux (ctx : AVFormatContext) (i : nat) (last_pkt : bool)
    (ctx' : AVFormatContext) (tr : list put_op) :
  flush_packet ctx i last_pkt = Some (ctx', tr) ->
  let s := mux ctx in
  let s' := mux ctx' in
  MpegMuxContext.packet_number s' = MpegMuxContext.packet_number s + 1
  /\ MpegMuxContext.pack_header_freq s' = MpegMuxContext.pack_header_freq s
  /\ MpegMuxContext.system_header_freq s' = MpegMuxContext.system_header_freq s
  /\ MpegMuxContext.packet_size s' = MpegMuxContext.packet_size s
  /\ MpegMuxContext.is_mpeg2 s' = MpegMuxContext.is_mpeg2 s.
Proof.
  unfold flush_packet.
  destruct (streams ctx !! i) as [st|]; [|discriminate]. cbn [mbind option_bind].
  destruct (packet_preface ctx _) as [[preface size]|]; [|discriminate].
  cbn [mbind option_bind].
  destruct (StreamInfo.id (priv_data st) <? 0xc0); intros [= <- _]; cbn; auto.
Qed.

(** What one flush puts in front of the packet. *)
Lemma flush_packet_headers (ctx : AVFormatContext) (i : nat) (last_pkt : bool)
    (ctx' : AVFormatContext) (tr : list put_op) :
  flush_packet ctx i last_pkt = Some (ctx', tr) ->
  let s := mux ctx in
  let n := MpegMuxContext.packet_number s in
  let f := MpegMuxContext.pack_header_freq s in
  let g := MpegMuxContext.system_header_freq s in
  f <> 0
  /\ (has_pack_header tr = true <-> Z.rem n f = 0)
  /\ (has_system_header tr = true <-> Z.rem n f = 0 /\ Z.rem n g = 0).
Proof.
  intros Hflush.
  destruct (streams ctx !! i) as [st|] eqn:Hst;
    [|unfold flush_packet in Hflush; rewrite Hst in Hflush; discriminate].
  destruct (flush_packet_trace ctx i last_pkt ctx' tr st Hst Hflush)
    as (preface & size & Hpre & Htr).
  pose proof (packet_preface_size _ _ _ _ Hpre) as Hsize. subst size.
  rewrite Nat2Z.id, firstn_all in Htr. cbv zeta in Htr. cbn [app] in Htr.
  apply packet_preface_cases in Hpre. cbv zeta in *.
  destruct Hpre as [Hf Hcases]. split; [assumption|].
  rewrite Htr. cbn [has_pack_header has_system_header].
  destruct (put_pack_header_head ctx (StreamInfo.start_pts (priv_data st)))
    as [tl1 Hpack].
  pose proof (put_pack_header_size ctx (StreamInfo.start_pts (priv_data st)))
    as [_ Hlen1].
  destruct (put_system_header_head ctx) as [tl2 Hsys].
  destruct Hcases as [[Hn ->]|[(Hn & Hg & Hng & ->)|(Hn & Hg & Hng & ->)]].
  - cbn. split; split; intros H; try discriminate; tauto.
  - rewrite skipn_all2 by lia. rewrite Hpack. cbn.
    split; split; intros H; try discriminate; tauto.
  - split.
    + rewrite Hpack. cbn. split; auto.
    + rewrite skipn_app, skipn_all2 by lia.
      rewrite Hlen1, Nat.sub_diag, Hsys. cbn. split; auto.
Qed.

Lemma flush_run_spec (reqs : list (nat * bool)) :
  forall (ctx : AVFormatContext) (done : list (AVFormatContext * list put_op)),
    flush_run ctx reqs = Some done ->
    length done = length reqs
    /\ forall (k : nat) (c : AVFormatContext) (tr : list put_op),
         done !! k = Some (c, tr) ->
         let s := mux ctx in
         let n := MpegMuxContext.packet_number s + Z.of_nat k in
         let f := MpegMuxContext.pack_header_freq s in
         let g := MpegMuxContext.system_header_freq s in
         MpegMuxContext.packet_number (mux c) = n + 1
         /\ MpegMuxContext.pack_header_freq (mux c) = f
         /\ MpegMuxContext.system_header_freq (mux c) = g
         /\ (has_pack_header tr = true <-> Z.rem n f = 0)
         /\ (has_system_header tr = true <-> Z.rem n f = 0 /\ Z.rem n g = 0).
Proof.
  induction reqs as [|[i last_pkt] reqs IH]; intros ctx done Hrun; cbn [flush_run] in Hrun.
  - injection Hrun as <-. split; [reflexivity|]. intros k c tr Hk. discriminate.
  - destruct (flush_packet ctx i last_pkt) as [[ctx1 tr1]|] eqn:Hflush; [|discriminate].
    cbn [mbind option_bind] in Hrun.
    destruct (flush_run ctx1 reqs) as [done1|] eqn:Hrest; [|discriminate].
    cbn [mbind option_bind] in Hrun. injection Hrun as <-.
    destruct (IH ctx1 done1 Hrest) as [Hlen Hall].
    pose proof (flush_packet_mux _ _ _ _ _ Hflush) as (Hn & Hf & Hg & _).
    pose proof (flush_packet_headers _ _ _ _ _ Hflush) as (_ & Hpack & Hsys).
    cbv zeta in *.
    split; [cbn [length]; congruence|].
    intros [|k] c tr Hk.
    + injection Hk as <- <-. rewrite Z.add_0_r. auto.
    + specialize (Hall k c tr Hk). rewrite Hn, Hf, Hg in Hall.
      replace (MpegMuxContext.packet_number (mux ctx) + Z.of_nat (S k))
        with (MpegMuxContext.packet_number (mux ctx) + 1 + Z.of_nat k) by lia.
      exact Hall.
Qed.

Lemma flush_run_freq (reqs : list (nat * bool)) :
  forall (ctx : AVFormatContext) (done : list (AVFormatContext * list put_op)),
    flush_run ctx reqs = Some done ->
    forall (k : nat) (c : AVFormatContext) (tr : list put_op),
      done !! k = Some (c, tr) ->
      MpegMuxContext.pack_header_freq (mux ctx) <> 0.
Proof.
  destruct reqs as [|[i last_pkt] reqs]; intros ctx done Hrun k c tr Hk;
    cbn [flush_run] in Hrun.
  - injection Hrun as <-. discriminate.
  - destruct (flush_packet ctx i last_pkt) as [[ctx1 tr1]|] eqn:Hflush; [|discriminate].
    now apply flush_packet_headers in Hflush.
Qed.

(** C4. Header cadence.  In a run of flushes of a session whose packet
    counter is [n0], the flush of index [k] writes a pack header exactly
    when [n0 + k] (the counter before that flush) is divisible by
    [pack_header_freq], and a system header after it exactly when [n0 + k]
    is moreover divisible by [system_header_freq]; the counter is one more
    after the flush, so that [(packet_number - 1) % pack_header_freq == 0]
    holds then for every pack header written, and likewise for the system
    header.  When [system_header_freq] is a multiple of [pack_header_freq],
    as [mpeg_mux_init] makes it, the system header is written exactly when
    [n0 + k] is divisible by [system_header_freq].  From a counter of zero
    and with a positive frequency [f], the pack headers are at the indices
    0, f, 2f, ... *)
Theorem header_cadence (ctx : AVFormatContext) (reqs : list (nat * bool))
    (done : list (AVFormatContext * list put_op)) :
  flush_run ctx reqs = Some done ->
  let s := mux ctx in
  let n0 := MpegMuxContext.packet_number s in
  let f := MpegMuxContext.pack_header_freq s in
  let g := MpegMuxContext.system_header_freq s in
  length done = length reqs
  /\ (forall (k : nat) (c : AVFormatContext) (tr : list put_op),
         done !! k = Some (c, tr) ->
         MpegMuxContext.packet_number (mux c) = n0 + Z.of_nat k + 1
         /\ (has_pack_header tr = true <-> Z.rem (n0 + Z.of_nat k) f = 0)
         /\ (has_system_header tr = true
             <-> Z.rem (n0 + Z.of_nat k) f = 0 /\ Z.rem (n0 + Z.of_nat k) g = 0)
         /\ (has_pack_header tr = true ->
             Z.rem (MpegMuxContext.packet_number (mux c) - 1)
                   (MpegMuxContext.pack_header_freq (mux c)) = 0)
         /\ (has_system_header tr = true ->
             Z.rem (MpegMuxContext.packet_number (mux c) - 1)
                   (MpegMuxContext.system_header_freq (mux c)) = 0))
  /\ ((f | g) ->
      forall (k : nat) (c : AVFormatContext) (tr : list put_op),
        done !! k = Some (c, tr) ->
        (has_system_header tr = true <-> Z.rem (n0 + Z.of_nat k) g = 0))
  /\ (n0 = 0 -> 0 < f ->
      forall (k : nat) (c : AVFormatContext) (tr : list put_op),
        done !! k = Some (c, tr) ->
        (has_pack_header tr = true <-> exists j : Z, 0 <= j /\ Z.of_nat k = j * f)).
Proof.
  intros Hrun. cbv zeta.
  destruct (flush_run_spec reqs ctx done Hrun) as [Hlen Hall]. cbv zeta in Hall.
  pose proof (flush_run_freq reqs ctx done Hrun) as Hfreq.
  split; [exact Hlen|]. split.
  - intros k c tr Hk.
    destruct (Hall k c tr Hk) as (Hn & Hf & Hg & Hpack & Hsys).
    split; [exact Hn|]. split; [exact Hpack|]. split; [exact Hsys|]. split.
    + intros Hp. rewrite Hn, Hf. apply Hpack in Hp.
      replace (MpegMuxContext.packet_number (mux ctx) + Z.of_nat k + 1 - 1)
        with (MpegMuxContext.packet_number (mux ctx) + Z.of_nat k) by lia.
      exact Hp.
    + intros Hs. rewrite Hn, Hg. apply Hsys in Hs.
      replace (MpegMuxContext.packet_number (mux ctx) + Z.of_nat k + 1 - 1)
        with (MpegMuxContext.packet_number (mux ctx) + Z.of_nat k) by lia.
      tauto.
  - split.
    { intros Hdiv k c tr Hk.
      destruct (Hall k c tr Hk) as (_ & _ & _ & _ & Hsys).
      rewrite Hsys. split; [tauto|]. intros Hg. split; [|exact Hg].
      pose proof (Hfreq k c tr Hk) as Hf.
      destruct (Z.eq_dec (MpegMuxContext.system_header_freq (mux ctx)) 0) as [Hz|Hnz].
      - rewrite Hz, Z.rem_0_r_ext in Hg by reflexivity.
        rewrite Hg. apply Z.rem_0_l. exact Hf.
      - apply Z.rem_divide; [exact Hf|].
        apply Z.rem_divide in Hg; [|exact Hnz].
        eapply Z.divide_trans; eassumption. }
    intros Hzero Hpos k c tr Hk.
    destruct (Hall k c tr Hk) as (_ & _ & _ & Hpack & _).
    rewrite Hpack, Hzero, Z.add_0_l.
    rewrite Z.rem_mod_nonneg by lia.
    split.
    + intros Hmod. exists (Z.of_nat k / MpegMuxContext.pack_header_freq (mux ctx)).
      split; [apply Z.div_pos; lia|].
      pose proof (Z.div_mod (Z.of_nat k) (MpegMuxContext.pack_header_freq (mux ctx))).
      lia.
    + intros (j & _ & ->). apply Z.mod_mul. lia.
Qed.

Lemma header_cadence_witness :
  exists done : list (AVFormatContext * list put_op),
    flush_run ctx_av [(0%nat, false); (1%nat, false); (0%nat, false)] = Some done
    /\ length done = 3%nat
    /\ forall (k : nat) (c : AVFormatContext) (tr : list put_op),
         done !! k = Some (c, tr) ->
         (has_pack_header tr = true
          <-> exists j : Z, 0 <= j /\ Z.of_nat k
                            = j * MpegMuxContext.pack_header_freq (mux ctx_av)).
Proof.
  destruct (flush_run ctx_av [(0%nat, false); (1%nat, false); (0%nat, false)])
    as [done|] eqn:Hrun; [|vm_compute in Hrun; discriminate].
  exists done. split; [reflexivity|].
  destruct (header_cadence ctx_av _ done Hrun) as (Hlen & _ & _ & Hidx).
  split; [exact Hlen|].
  apply Hidx; vm_compute; reflexivity.
Defined.

(** ** mpeg_mux_init *)

Lemma init_ids_error (alloc_ok : nat -> bool) (sts : list AVStream) :
  forall (i : nat) (ids : id_state) (r : init_result),
    init_ids alloc_ok i sts ids = inl r -> r = InitError ENOMEM \/ r = InitAbort.
Proof.
  induction sts as [|st sts IH]; intros i ids r; cbn [init_ids]; [discriminate|].
  destruct (alloc_ok i); cbn [negb]; [|intros [= <-]; auto].
  destruct (codec_type (codec st)); [intros [= <-]; auto| |].
  - destruct (init_ids alloc_ok (S i) sts _) as [r'|[rest' ids2]] eqn:Hrec;
      [|discriminate].
    intros [= <-]. eapply IH, Hrec.
  - destruct (match codec_id (codec st) with CODEC_ID_AC3 => true | _ => false end);
      (destruct (init_ids alloc_ok (S i) sts _) as [r'|[rest' ids2]] eqn:Hrec;
       [|discriminate]);
      intros [= <-]; eapply IH, Hrec.
Qed.

(** The arithmetic of [mpeg_mux_init] on [int]s. *)
Lemma sint32_range (z : Z) : - 2 ^ 31 <= sint32 z < 2 ^ 31.
Proof.
  unfold sint32. pose proof (Z.mod_pos_bound (z + 2 ^ 31) (2 ^ 32)). lia.
Qed.

Lemma sint32_small (z : Z) : - 2 ^ 31 <= z < 2 ^ 31 -> sint32 z = z.
Proof. intros Hz. unfold sint32. rewrite Z.mod_small by lia. lia. Qed.

Lemma sint32_add_l (a b : Z) : sint32 (sint32 a + b) = sint32 (a + b).
Proof.
  unfold sint32. f_equal.
  replace ((a + 2 ^ 31) mod 2 ^ 32 - 2 ^ 31 + b + 2 ^ 31)
    with ((a + 2 ^ 31) mod 2 ^ 32 + b) by lia.
  rewrite Zplus_mod_idemp_l. f_equal. lia.
Qed.

Lemma sum_bitrate_spec (sts : list AVStream) :
  forall bitrate : Z,
    sint32 (sum_bitrate bitrate sts)
    = sint32 (bitrate + Zsum (map (fun st => bit_rate (codec st)) sts)).
Proof.
  induction sts as [|st sts IH]; intros bitrate; cbn [sum_bitrate fold_left map Zsum fold_right].
  - now rewrite Z.add_0_r.
  - fold (sum_bitrate (sint32 (bitrate + bit_rate (codec st))) sts).
    fold (Zsum (map (fun st => bit_rate (codec st)) sts)).
    rewrite IH, sint32_add_l. f_equal. lia.
Qed.

Lemma sum_bitrate_range (sts : list AVStream) :
  forall bitrate : Z,
    - 2 ^ 31 <= bitrate < 2 ^ 31 -> - 2 ^ 31 <= sum_bitrate bitrate sts < 2 ^ 31.
Proof.
  induction sts as [|st sts IH]; intros bitrate Hb; cbn [sum_bitrate fold_left];
    [exact Hb|].
  apply IH, sint32_range.
Qed.

(** The bit rate that [mpeg_mux_init] arrives at is the sum of 2000 and the
    bit rates of the streams, as an [int]. *)
Lemma sum_bitrate_total (sts : list AVStream) :
  sum_bitrate 2000 sts = sint32 (2000 + Zsum (map (fun st => bit_rate (codec st)) sts)).
Proof.
  rewrite <- sum_bitrate_spec. symmetry. apply sint32_small, sum_bitrate_range. lia.
Qed.

Lemma quot_quot_range (a : Z) :
  - 2 ^ 31 <= a < 2 ^ 31 -> - 2 ^ 17 <= Z.quot (Z.quot a 2048) 8 <= 2 ^ 17.
Proof.
  intros Ha. rewrite Z.quot_quot by lia. change (2048 * 8) with 16384.
  pose proof (Z.quot_rem' a 16384) as Hq.
  destruct (Z_le_gt_dec 0 a) as [Hpos|Hneg].
  - pose proof (Z.rem_bound_pos a 16384 ltac:(lia) ltac:(lia)). lia.
  - pose proof (Z.rem_bound_pos_neg a 16384 ltac:(lia) ltac:(lia)). lia.
Qed.

(** The product that gives [system_header_freq] does not leave the range
    of an [int]. *)
Lemma system_header_freq_exact (bitrate k : Z) :
  0 <= k <= 40 ->
  sint32 (Z.quot (Z.quot (sint32 (2 * bitrate)) 2048) 8 * k)
  = Z.quot (Z.quot (sint32 (2 * bitrate)) 2048) 8 * k.
Proof.
  intros Hk. pose proof (quot_quot_range _ (sint32_range (2 * bitrate))) as Hq.
  apply sint32_small. nia.
Qed.

(** [mpeg_mux_init] makes [system_header_freq] a multiple of
    [pack_header_freq] and starts the packet counter at zero. *)
Lemma mpeg_mux_init_freq (base : Z) (alloc_ok : nat -> bool)
    (ctx0 ctx : AVFormatContext) :
  mpeg_mux_init base alloc_ok ctx0 = InitOk ctx ->
  MpegMuxContext.packet_number (mux ctx) = 0
  /\ (MpegMuxContext.pack_header_freq (mux ctx)
      | MpegMuxContext.system_header_freq (mux ctx))
  /\ (MpegMuxContext.packet_size (mux ctx) = 2048
      \/ MpegMuxContext.packet_size (mux ctx) = 2324).
Proof.
  unfold mpeg_mux_init.
  destruct (init_ids alloc_ok 0 (streams ctx0) _) as [r|[sts ids]] eqn:Hids.
  - intros ->. apply init_ids_error in Hids. destruct Hids; discriminate.
  - intros [= <-]. cbn [mux MpegMuxContext.packet_number
                        MpegMuxContext.pack_header_freq
                        MpegMuxContext.system_header_freq
                        MpegMuxContext.packet_size].
    split; [reflexivity|]. split.
    + destruct (oformat ctx0); cbn [orb];
        rewrite ?system_header_freq_exact by lia;
        try (change (sint32 (1 * 40)) with (1 * 40));
        try (change (sint32 (1 * 5)) with (1 * 5));
        eexists; apply Z.mul_comm.
    + destruct (oformat ctx0); auto.
Qed.

(** ** mpeg_mux_end *)

Lemma count_end_codes_app (a b : list put_op) :
  count_end_codes (a ++ b) = (count_end_codes a + count_end_codes b)%nat.
Proof. unfold count_end_codes. now rewrite List.filter_app, length_app. Qed.

Lemma count_end_codes_stuffing (n : nat) :
  count_end_codes (List.repeat (PutByte 0xff) n) = O.
Proof. induction n as [|n IH]; [reflexivity | exact IH]. Qed.

(** A flush writes the end code once when asked for the last packet, and
    not at all otherwise: the start code of a packet is never the end
    code. *)
Lemma flush_packet_end_codes (ctx : AVFormatContext) (i : nat) (last_pkt : bool)
    (ctx' : AVFormatContext) (tr : list put_op) :
  flush_packet ctx i last_pkt = Some (ctx', tr) ->
  count_end_codes tr = if last_pkt then 1%nat else 0%nat.
Proof.
  intros Hflush.
  destruct (streams ctx !! i) as [st|] eqn:Hst;
    [|unfold flush_packet in Hflush; rewrite Hst in Hflush; discriminate].
  destruct (flush_packet_trace ctx i last_pkt ctx' tr st Hst Hflush)
    as (preface & size & _ & ->).
  cbv zeta. rewrite !count_end_codes_app, count_end_codes_stuffing.
  assert (Hstart :
    count_end_codes
      [PutBuffer (firstn (Z.to_nat size) preface);
       PutBe32 (if StreamInfo.id (priv_data st) <? 0xc0
                then PRIVATE_STREAM_1 else 0x100 + StreamInfo.id (priv_data st));
       PutBe16 (MpegMuxContext.packet_size (mux ctx)
                - (size + 6 + (if MpegMuxContext.is_mpeg2 (mux ctx) then 8 else 5)
                   + (if last_pkt then 4 else 0))
                - (if StreamInfo.id (priv_data st) <? 0xc0 then 4 else 0)
                + (if MpegMuxContext.is_mpeg2 (mux ctx) then 8 else 5))] = O).
  { unfold count_end_codes. cbn [List.filter is_end_code].
    destruct (Z.ltb_spec (StreamInfo.id (priv_data st)) 0xc0) as [Hlt|Hge].
    - reflexivity.
    - destruct (Z.eqb_spec (0x100 + StreamInfo.id (priv_data st)) ISO_11172_END_CODE)
        as [Heq|Hne]; [unfold ISO_11172_END_CODE in Heq; lia | reflexivity]. }
  rewrite Hstart.
  assert (Hmid :
    count_end_codes (if MpegMuxContext.is_mpeg2 (mux ctx)
                     then [PutByte 0x80; PutByte 0x80; PutByte 0x05] else []) = O)
    by (destruct (MpegMuxContext.is_mpeg2 (mux ctx)); reflexivity).
  rewrite Hmid.
  assert (Hpriv :
    count_end_codes
      (if (if StreamInfo.id (priv_data st) <? 0xc0
           then PRIVATE_STREAM_1 else 0x100 + StreamInfo.id (priv_data st))
          =? PRIVATE_STREAM_1
       then PutByte (StreamInfo.id (priv_data st))
            :: (if (0x80 <=? StreamInfo.id (priv_data st))
                   && (StreamInfo.id (priv_data st) <=? 0xbf)
                then [PutByte 1; PutByte 0; PutByte 2] else [])
       else []) = O).
  { destruct (_ =? PRIVATE_STREAM_1); [|reflexivity].
    destruct ((0x80 <=? _) && (_ <=? 0xbf)); reflexivity. }
  rewrite Hpriv.
  destruct last_pkt; reflexivity.
Qed.

(** A flush changes the stream it is given and no other. *)
Lemma flush_packet_streams (ctx : AVFormatContext) (i : nat) (last_pkt : bool)
    (ctx' : AVFormatContext) (tr : list put_op) :
  flush_packet ctx i last_pkt = Some (ctx', tr) ->
  length (streams ctx') = length (streams ctx)
  /\ forall j : nat, j <> i -> streams ctx' !! j = streams ctx !! j.
Proof.
  unfold flush_packet.
  destruct (streams ctx !! i) as [st|] eqn:Hst; [|discriminate].
  cbn [mbind option_bind].
  destruct (packet_preface ctx _) as [[preface size]|]; [|discriminate].
  cbn [mbind option_bind].
  destruct (StreamInfo.id (priv_data st) <? 0xc0); intros [= <- _];
    unfold set_stream, set_mux; cbn [streams]; rewrite Hst;
    (split; [apply length_insert | intros j Hj; now apply list_lookup_insert_ne]).
Qed.

Lemma last_stream_pending_lookup (ctx : AVFormatContext) :
  last_stream_pending ctx
  = match streams ctx !! (length (streams ctx) - 1)%nat with
    | Some st => 0 <? StreamInfo.buffer_ptr (priv_data st)
    | None => false
    end.
Proof.
  unfold last_stream_pending. rewrite last_lookup.
  now replace (Nat.pred (length (streams ctx))) with (length (streams ctx) - 1)%nat by lia.
Qed.

(** The loop of [mpeg_mux_end] from the stream [i] on: the end code is
    written once if the last stream is still to come and holds data, in the
    last flush of the loop, and not at all otherwise. *)
Lemma mux_end_loop_end_codes (todo : nat) :
  forall (i : nat) (ctx ctx' : AVFormatContext) (tr : list put_op),
    (i + todo)%nat = length (streams ctx) ->
    mux_end_loop todo i ctx = Some (ctx', tr) ->
    if last_stream_pending ctx && negb (todo =? 0)%nat
    then exists (ctx1 : AVFormatContext) (tr0 trl : list put_op),
        tr = tr0 ++ trl
        /\ count_end_codes tr0 = O
        /\ flush_packet ctx1 (length (streams ctx) - 1) true = Some (ctx', trl)
    else count_end_codes tr = O.
Proof.
  induction todo as [|todo IH]; intros i ctx ctx' tr Hlen Hloop; cbn [mux_end_loop] in Hloop.
  - injection Hloop as <- <-. rewrite andb_false_r. reflexivity.
  - change (negb (S todo =? 0)%nat) with true. rewrite andb_true_r.
    destruct (streams ctx !! i) as [st|] eqn:Hst; [|discriminate].
    cbn [mbind option_bind] in Hloop.
    rewrite last_stream_pending_lookup.
    destruct (Z.ltb_spec 0 (StreamInfo.buffer_ptr (priv_data st))) as [Hdata|Hnone].
    + (* the stream is flushed *)
      unfold nb_streams in Hloop.
      destruct (Z.eqb_spec (Z.of_nat i) (Z.of_nat (length (streams ctx)) - 1))
        as [Hlast|Hnotlast].
      * (* it is the last one *)
        assert (todo = O) by lia. subst todo.
        assert (Hi : i = (length (streams ctx) - 1)%nat) by lia.
        destruct (flush_packet ctx i true) as [[ctx1 tr1]|] eqn:Hflush; [|discriminate].
        cbn [mbind option_bind mux_end_loop] in Hloop. injection Hloop as <- <-.
        rewrite <- Hi, Hst.
        replace (0 <? StreamInfo.buffer_ptr (priv_data st)) with true
          by (symmetry; apply Z.ltb_lt; exact Hdata).
        exists ctx, [], tr1. rewrite app_nil_r. auto.
      * destruct (flush_packet ctx i false) as [[ctx1 tr1]|] eqn:Hflush; [|discriminate].
        cbn [mbind option_bind] in Hloop.
        destruct (mux_end_loop todo (S i) ctx1) as [[ctx2 tr2]|] eqn:Hrest;
          [|discriminate].
        cbn [mbind option_bind] in Hloop. injection Hloop as <- <-.
        pose proof (flush_packet_streams _ _ _ _ _ Hflush) as [Hlen1 Hother].
        pose proof (flush_packet_end_codes _ _ _ _ _ Hflush) as Hcount1.
        specialize (IH (S i) ctx1 ctx2 tr2 ltac:(lia) Hrest).
        rewrite last_stream_pending_lookup, Hlen1, Hother in IH by lia.
        replace (negb (todo =? 0)%nat) with true in IH
          by (symmetry; apply negb_true_iff, Nat.eqb_neq; lia).
        rewrite andb_true_r in IH.
        destruct (streams ctx !! (length (streams ctx) - 1)%nat) as [stl|];
          [destruct (0 <? StreamInfo.buffer_ptr (priv_data stl))|].
        -- destruct IH as (ctx3 & tr0 & trl & -> & Hzero & Hfl).
           exists ctx3, (tr1 ++ tr0), trl.
           rewrite app_assoc, count_end_codes_app, Hcount1, Hzero. auto.
        -- rewrite count_end_codes_app, Hcount1, IH. reflexivity.
        -- rewrite count_end_codes_app, Hcount1, IH. reflexivity.
    + (* the stream is empty *)
      specialize (IH (S i) ctx ctx' tr ltac:(lia) Hloop).
      rewrite last_stream_pending_lookup in IH.
      destruct (Nat.eqb_spec todo 0) as [Hz|Hnz].
      * assert (Hi : i = (length (streams ctx) - 1)%nat) by lia.
        rewrite <- Hi, Hst.
        replace (0 <? StreamInfo.buffer_ptr (priv_data st)) with false
          by (symmetry; apply Z.ltb_ge; exact Hnone).
        rewrite andb_false_r in IH. exact IH.
      * rewrite andb_true_r in IH. exact IH.
Qed.

(** C5, as the code has it.  [mpeg_mux_end] writes the ISO 11172 end code
    exactly once when the last stream (of index [nb_streams - 1]) holds
    data, and then inside the last packet flushed, which is that stream's;
    when the last stream holds no data, and so when no stream does, no end
    code is written. *)
Theorem mux_end_end_code (ctx ctx' : AVFormatContext) (tr : list put_op) :
  mpeg_mux_end ctx = Some (ctx', tr) ->
  (last_stream_pending ctx = true ->
   count_end_codes tr = 1%nat
   /\ exists (ctx1 : AVFormatContext) (tr0 trl : list put_op),
       tr = tr0 ++ trl
       /\ count_end_codes tr0 = O
       /\ flush_packet ctx1 (length (streams ctx) - 1) true = Some (ctx', trl))
  /\ (last_stream_pending ctx = false -> count_end_codes tr = O)
  /\ ((forall (i : nat) (st : AVStream),
          streams ctx !! i = Some st -> StreamInfo.buffer_ptr (priv_data st) <= 0) ->
      count_end_codes tr = O).
Proof.
  intros Hend. unfold mpeg_mux_end in Hend.
  pose proof (mux_end_loop_end_codes _ 0 ctx ctx' tr ltac:(reflexivity) Hend) as H.
  assert (Hfalse : last_stream_pending ctx = false -> count_end_codes tr = O).
  { intros Hp. rewrite Hp in H. exact H. }
  split; [|split].
  - intros Hp. rewrite Hp in H. cbn [andb] in H.
    destruct (length (streams ctx)) as [|n] eqn:Hn.
    + rewrite last_stream_pending_lookup, Hn in Hp.
      destruct (streams ctx); [discriminate Hp | discriminate Hn].
    + cbn [Nat.eqb negb] in H. destruct H as (ctx1 & tr0 & trl & -> & Hzero & Hfl).
      split; [|exists ctx1, tr0, trl; auto].
      rewrite count_end_codes_app, Hzero.
      now rewrite (flush_packet_end_codes _ _ _ _ _ Hfl).
  - exact Hfalse.
  - intros Hnone. apply Hfalse. rewrite last_stream_pending_lookup.
    destruct (streams ctx !! (length (streams ctx) - 1)%nat) as [st|] eqn:Hst;
      [|reflexivity].
    apply Z.ltb_ge. eapply Hnone, Hst.
Qed.

Lemma mux_end_end_code_witness :
  last_stream_pending ctx_av_both = true
  /\ exists (ctx' : AVFormatContext) (tr : list put_op),
       mpeg_mux_end ctx_av_both = Some (ctx', tr) /\ count_end_codes tr = 1%nat.
Proof.
  split; [vm_compute; reflexivity|].
  destruct (mpeg_mux_end ctx_av_both) as [[ctx' tr]|] eqn:Hend;
    [|vm_compute in Hend; discriminate].
  exists ctx', tr. split; [reflexivity|].
  apply (mux_end_end_code ctx_av_both ctx' tr Hend). vm_compute; reflexivity.
Defined.

(** The claim as the specification words it fails: in [session_av] the
    audio stream holds data and the video stream, which is the last, holds
    none; [mpeg_mux_end] flushes the audio packet and writes no end code. *)
Lemma mux_end_end_code_counterexample :
  (exists st : AVStream,
      streams ctx_av !! 0%nat = Some st /\ 0 < StreamInfo.buffer_ptr (priv_data st))
  /\ exists (ctx' : AVFormatContext) (tr : list put_op),
       mpeg_mux_end ctx_av = Some (ctx', tr)
       /\ tr <> []
       /\ count_end_codes tr = 0%nat.
Proof.
  split.
  - exists stream_av_audio. split; vm_compute; reflexivity.
  - destruct (mpeg_mux_end ctx_av) as [[ctx' tr]|] eqn:Hend;
      [|vm_compute in Hend; discriminate].
    exists ctx', tr. split; [reflexivity|].
    assert (Hcount : (count_end_codes <$> (snd <$> mpeg_mux_end ctx_av)) = Some 0%nat)
      by (vm_compute; reflexivity).
    assert (Hlen : (length <$> (snd <$> mpeg_mux_end ctx_av)) = Some 2005%nat)
      by (vm_compute; reflexivity).
    rewrite Hend in Hcount, Hlen. cbn [fmap option_fmap option_map snd] in Hcount, Hlen.
    injection Hcount as Hcount. injection Hlen as Hlen.
    split; [|exact Hcount].
    intros ->. discriminate.
Qed.

(** ** The layout of the pack header *)

Lemma bits_msb_ext (n : nat) (v w : Z) :
  (forall i : Z, 0 <= i < Z.of_nat n -> Z.testbit v i = Z.testbit w i) ->
  bits_msb n v = bits_msb n w.
Proof.
  induction n as [|n IH]; intros Hbits; cbn [bits_msb]; [reflexivity|].
  f_equal; [apply Hbits; lia | apply IH; intros i Hi; apply Hbits; lia].
Qed.

(** Splitting a field: the high bits, then the low bits. *)
Lemma bits_msb_split (a b : nat) (v : Z) :
  bits_msb (a + b) v = bits_msb a (Z.shiftr v (Z.of_nat b)) ++ bits_msb b v.
Proof.
  induction a as [|a IH]; cbn [Nat.add bits_msb app]; [reflexivity|].
  rewrite IH. f_equal.
  rewrite Z.shiftr_spec by lia. f_equal. lia.
Qed.

(** A value masked to [n] bits and converted to [UINT32] is written as the
    value itself. *)
Lemma bits_msb_masked (n : nat) (v : Z) :
  (n <= 32)%nat ->
  bits_msb n (uint32 (Z.land v (Z.ones (Z.of_nat n)))) = bits_msb n v.
Proof.
  intros Hn. apply bits_msb_ext. intros i Hi. unfold uint32.
  rewrite Z.mod_pow2_bits_low by lia.
  rewrite Z.land_spec, Z.ones_spec_low by lia. apply andb_true_r.
Qed.

(** The 33 bits of a timestamp in groups of 3, 15 and 15 bits. *)
Lemma timestamp_fields (t : Z) :
  firstn 3 (bits_msb 33 t) = bits_msb 3 (Z.shiftr t 30)
  /\ firstn 15 (skipn 3 (bits_msb 33 t)) = bits_msb 15 (Z.shiftr t 15)
  /\ skipn 18 (bits_msb 33 t) = bits_msb 15 t.
Proof.
  change 33%nat with (3 + (15 + 15))%nat.
  rewrite (bits_msb_split 3 (15 + 15)), (bits_msb_split 15 15).
  change (Z.of_nat (15 + 15)) with 30. change (Z.of_nat 15) with 15.
  generalize (bits_msb 3 (Z.shiftr t 30)) (length_bits_msb 3 (Z.shiftr t 30)).
  generalize (bits_msb 15 (Z.shiftr t 15)) (length_bits_msb 15 (Z.shiftr t 15)).
  generalize (bits_msb 15 t).
  intros C B HB A HA. split; [|split].
  - now apply take_app_length'.
  - rewrite (drop_app_length' A _ 3) by easy. now apply take_app_length'.
  - rewrite app_assoc. apply drop_app_length'. rewrite length_app. lia.
Qed.

Lemma put_pack_header_bits (ctx : AVFormatContext) (timestamp : Z) :
  put_pack_header ctx timestamp
  = (bytes_of_bits
       (bits_msb 32 PACK_START_CODE ++ bits_msb 4 0x2
        ++ bits_msb 3 (Z.shiftr timestamp 30) ++ [true]
        ++ bits_msb 15 (Z.shiftr timestamp 15) ++ [true]
        ++ bits_msb 15 timestamp ++ [true]
        ++ [true] ++ bits_msb 22 (MpegMuxContext.mux_rate (mux ctx)) ++ [true]),
     12).
Proof.
  pose proof (put_pack_header_size ctx timestamp) as [Hsize _].
  rewrite (surjective_pairing (put_pack_header ctx timestamp)), Hsize.
  f_equal.
  unfold put_pack_header. cbv zeta. cbn [fst].
  unfold flush_put_bits, put_bits, init_put_bits.
  rewrite !length_app, !length_bits_msb. cbn [app length Nat.add].
  change ((8 - 96 mod 8) mod 8)%nat with 0%nat. cbn [List.repeat]. rewrite app_nil_r.
  change 0x07 with (Z.ones (Z.of_nat 3)). change 0x7fff with (Z.ones (Z.of_nat 15)).
  rewrite !bits_msb_masked by lia.
  rewrite <- !app_assoc. reflexivity.
Qed.

(** C8, as the code has it.  [put_pack_header] writes 12 bytes, not 14, and
    returns 12.  Read most significant bit first they are: the 32-bit start
    code 0x000001ba, the 4 bits 0010, the 33 bits of the timestamp in
    groups of 3, 15 and 15 bits, each followed by a marker bit 1, a marker
    bit 1, the 22 bits of [mux_rate] and a marker bit 1. *)
Theorem put_pack_header_layout (ctx : AVFormatContext) (timestamp : Z) :
  let '(buf, size) := put_pack_header ctx timestamp in
  size = 12
  /\ Z.of_nat (length buf) = size
  /\ bits_of_bytes buf
     = bits_msb 32 0x000001ba ++ [false; false; true; false]
       ++ firstn 3 (bits_msb 33 timestamp) ++ [true]
       ++ firstn 15 (skipn 3 (bits_msb 33 timestamp)) ++ [true]
       ++ skipn 18 (bits_msb 33 timestamp) ++ [true]
       ++ [true] ++ bits_msb 22 (MpegMuxContext.mux_rate (mux ctx)) ++ [true].
Proof.
  rewrite put_pack_header_bits.
  split; [reflexivity|]. split.
  - rewrite length_bytes_of_bits, !length_app, !length_bits_msb. reflexivity.
  - rewrite (bits_of_bytes_of_bits 12)
      by (rewrite !length_app, !length_bits_msb; reflexivity).
    destruct (timestamp_fields timestamp) as (-> & -> & ->).
    reflexivity.
Qed.

(** The pack header of the example session has 12 bytes, where the
    specification announces 14. *)
Lemma put_pack_header_layout_counterexample :
  put_pack_header ctx_av 0
  = ([0; 0; 1; 0xba; 0x21; 0; 1; 0; 1; 0x80; 0x1a; 0xe1], 12)
  /\ length (fst (put_pack_header ctx_av 0)) <> 14%nat.
Proof. split; [vm_compute; reflexivity | vm_compute; discriminate]. Qed.

(** ** The stream entries of the system header *)

Lemma put_stream_info_entry (pb : PutBitContext) (id : Z) (stream : StreamInfo.t) :
  put_stream_info pb id stream = pb ++ entry_bits (id, stream).
Proof.
  unfold put_stream_info, entry_bits, put_bits.
  destruct (id <? 0xe0); now rewrite <- !app_assoc.
Qed.

(** The loop over the streams writes the entries of the specification. *)
Lemma put_system_header_loop_entries (sts : list AVStream) :
  forall (coded : bool) (pb : PutBitContext),
    put_system_header_loop sts coded pb
    = pb ++ flat_map entry_bits (system_header_entries sts coded).
Proof.
  induction sts as [|st sts IH]; intros coded pb;
    cbn [put_system_header_loop system_header_entries].
  - cbn [flat_map]. now rewrite app_nil_r.
  - destruct (StreamInfo.id (priv_data st) <? 0xc0); [destruct coded|].
    + apply IH.
    + rewrite IH, put_stream_info_entry. cbn [flat_map]. now rewrite <- app_assoc.
    + rewrite IH, put_stream_info_entry. cbn [flat_map]. now rewrite <- app_assoc.
Qed.

Lemma length_entry_bits (e : Z * StreamInfo.t) : length (entry_bits e) = 24%nat.
Proof.
  destruct e as [id stream]. unfold entry_bits.
  destruct (id <? 0xe0); rewrite !length_app; cbn [length];
    rewrite !length_bits_msb; reflexivity.
Qed.

Lemma length_entries_bits (es : list (Z * StreamInfo.t)) :
  length (flat_map entry_bits es) = (8 * (3 * length es))%nat.
Proof.
  induction es as [|e es IH]; cbn [flat_map length]; [reflexivity|].
  rewrite length_app, length_entry_bits, IH. lia.
Qed.

Lemma flush_put_bits_aligned (pb : PutBitContext) (k : nat) :
  length pb = (8 * k)%nat -> flush_put_bits pb = pb.
Proof.
  intros Hlen. unfold flush_put_bits. rewrite Hlen.
  replace (8 * k)%nat with (k * 8)%nat by lia.
  rewrite Nat.Div0.mod_mul. cbn. apply app_nil_r.
Qed.

Lemma bits_of_bytes_cons (b : Z) (l : list Z) :
  bits_of_bytes (b :: l) = bits_msb 8 b ++ bits_of_bytes l.
Proof. reflexivity. Qed.

Lemma bytes_of_system_header_start (rest : list bool) :
  bytes_of_bits (bits_msb 32 SYSTEM_HEADER_START_CODE ++ bits_msb 16 0 ++ rest)
  = 0 :: 0 :: 1 :: 0xbb :: 0 :: 0 :: bytes_of_bits rest.
Proof. reflexivity. Qed.

(** The two bytes patched into the header are the 16 bits of the length. *)
Lemma patched_length_bits (v : Z) :
  bits_msb 8 (uint8 (Z.shiftr v 8)) ++ bits_msb 8 (Z.land v 0xff) = bits_msb 16 v.
Proof.
  change 16%nat with (8 + 8)%nat. rewrite bits_msb_split. f_equal.
  - apply bits_msb_ext. intros i Hi. unfold uint8.
    apply Z.mod_pow2_bits_low. lia.
  - apply bits_msb_ext. intros i Hi.
    change 0xff with (Z.ones 8).
    rewrite Z.land_spec, Z.ones_spec_low by lia. apply andb_true_r.
Qed.

(** The bytes and the size given by [put_system_header]. *)
Lemma put_system_header_bits (ctx : AVFormatContext) :
  let s := mux ctx in
  let entries := system_header_entries (streams ctx) false in
  let fixed :=
    [true] ++ bits_msb 22 (MpegMuxContext.mux_rate s) ++ [true]
    ++ bits_msb 6 (MpegMuxContext.audio_bound s)
    ++ [true; true; false; false; true]
    ++ bits_msb 5 (MpegMuxContext.video_bound s) ++ bits_msb 8 0xff in
  let size := 12 + 3 * Z.of_nat (length entries) in
  put_system_header ctx
  = (0 :: 0 :: 1 :: 0xbb :: uint8 (Z.shiftr (size - 6) 8) :: Z.land (size - 6) 0xff
       :: bytes_of_bits (fixed ++ flat_map entry_bits entries),
     size)
  /\ length (fixed ++ flat_map entry_bits entries)
     = (8 * (6 + 3 * length entries))%nat.
Proof.
  cbv zeta.
  assert (Hlen :
    length (([true] ++ bits_msb 22 (MpegMuxContext.mux_rate (mux ctx)) ++ [true]
             ++ bits_msb 6 (MpegMuxContext.audio_bound (mux ctx))
             ++ [true; true; false; false; true]
             ++ bits_msb 5 (MpegMuxContext.video_bound (mux ctx)) ++ bits_msb 8 0xff)
            ++ flat_map entry_bits (system_header_entries (streams ctx) false))
    = (8 * (6 + 3 * length (system_header_entries (streams ctx) false)))%nat).
  { rewrite !length_app, length_entries_bits, !length_bits_msb. cbn [length]. lia. }
  split; [|exact Hlen].
  unfold put_system_header. cbv zeta.
  rewrite put_system_header_loop_entries.
  unfold put_bits, init_put_bits.
  set (entries := system_header_entries (streams ctx) false) in *.
  assert (Hbits :
    ((((((((((((([] ++ bits_msb 32 SYSTEM_HEADER_START_CODE) ++ bits_msb 16 0)
              ++ bits_msb 1 1) ++ bits_msb 22 (MpegMuxContext.mux_rate (mux ctx)))
            ++ bits_msb 1 1) ++ bits_msb 6 (MpegMuxContext.audio_bound (mux ctx)))
          ++ bits_msb 1 1) ++ bits_msb 1 1) ++ bits_msb 1 0) ++ bits_msb 1 0)
      ++ bits_msb 1 1) ++ bits_msb 5 (MpegMuxContext.video_bound (mux ctx)))
     ++ bits_msb 8 0xff) ++ flat_map entry_bits entries
    = bits_msb 32 SYSTEM_HEADER_START_CODE ++ bits_msb 16 0
      ++ ([true] ++ bits_msb 22 (MpegMuxContext.mux_rate (mux ctx)) ++ [true]
          ++ bits_msb 6 (MpegMuxContext.audio_bound (mux ctx))
          ++ [true; true; false; false; true]
          ++ bits_msb 5 (MpegMuxContext.video_bound (mux ctx)) ++ bits_msb 8 0xff)
         ++ flat_map entry_bits entries).
  { rewrite <- !app_assoc. reflexivity. }
  rewrite Hbits.
  rewrite (flush_put_bits_aligned _ (12 + 3 * length entries))
    by (do 2 rewrite length_app; rewrite Hlen, !length_bits_msb; lia).
  unfold pbBufPtr. do 2 rewrite length_app. rewrite Hlen, !length_bits_msb.
  replace (32 + (16 + 8 * (6 + 3 * length entries)))%nat
    with ((12 + 3 * length entries) * 8)%nat by lia.
  rewrite Nat.div_mul by lia.
  rewrite bytes_of_system_header_start.
  replace (Z.of_nat (12 + 3 * length entries)) with (12 + 3 * Z.of_nat (length entries))
    by lia.
  reflexivity.
Qed.

Lemma private_entries_at_most_one (sts : list AVStream) :
  forall coded : bool,
    (length (List.filter (fun e => (fst e <? 0xc0)%Z) (system_header_entries sts coded))
     <= (if coded then 0 else 1))%nat
    /\ (forall e, In e (system_header_entries sts coded) -> fst e < 0xc0 -> fst e = 0xbd)
    /\ List.filter (fun e => negb (fst e <? 0xc0)) (system_header_entries sts coded)
       = map (fun st => (StreamInfo.id (priv_data st), priv_data st))
             (List.filter (fun st => negb (StreamInfo.id (priv_data st) <? 0xc0)) sts)
    /\ (coded = false ->
        ((exists st, In st sts /\ StreamInfo.id (priv_data st) < 0xc0)
         <-> exists e, In e (system_header_entries sts coded) /\ fst e = 0xbd
                       /\ exists st, In st sts /\ snd e = priv_data st
                                     /\ StreamInfo.id (priv_data st) < 0xc0)).
Proof.
  induction sts as [|st sts IH]; intros coded; cbn [system_header_entries].
  - cbn. repeat split; try tauto; try (destruct coded; lia).
    + intros (st & [] & _).
    + intros (e & [] & _).
  - destruct (Z.ltb_spec (StreamInfo.id (priv_data st)) 0xc0) as [Hlt|Hge].
    + destruct coded.
      * destruct (IH true) as (Hcount & Hid & Hpub & _).
        cbn [List.filter].
        replace (negb (StreamInfo.id (priv_data st) <? 0xc0)) with false
          by (symmetry; apply negb_false_iff, Z.ltb_lt; exact Hlt).
        repeat split; auto; discriminate.
      * destruct (IH true) as (Hcount & Hid & Hpub & _).
        cbn [List.filter fst]. change (0xbd <? 0xc0) with true. cbv iota.
        cbn [negb length].
        replace (negb (StreamInfo.id (priv_data st) <? 0xc0)) with false
          by (symmetry; apply negb_false_iff, Z.ltb_lt; exact Hlt).
        repeat split.
        -- lia.
        -- intros e [<-|Hin]; [reflexivity | now apply Hid].
        -- exact Hpub.
        -- intros _. exists (0xbd, priv_data st). cbn [fst snd In].
           split; [auto|]. split; [reflexivity|]. exists st. auto.
        -- intros _. exists st. cbn [In]. auto.
    + destruct (IH coded) as (Hcount & Hid & Hpub & Hex).
      cbn [List.filter fst].
      replace (StreamInfo.id (priv_data st) <? 0xc0) with false
        by (symmetry; apply Z.ltb_ge; exact Hge).
      cbn [negb map]. repeat split.
      * exact Hcount.
      * intros e [<-|Hin] He; [cbn [fst] in He; lia | now apply Hid].
      * now rewrite Hpub.
      * intros (st' & [<-|Hin] & Hst'); [lia|].
        destruct (proj1 (Hex H)) as (e & He & Hbd & st2 & Hin2 & Hsnd & Hlt2);
          [exists st'; auto|].
        exists e. cbn [In]. split; [auto|]. split; [exact Hbd|].
        exists st2. auto.
      * intros (e & [<-|He] & Hbd & st2 & Hin2 & Hsnd & Hlt2).
        -- cbn [fst] in Hbd. lia.
        -- destruct Hin2 as [<-|Hin2]; [lia|].
           exists st2. cbn [In]. auto.
Qed.

(** C9. The private streams share one entry of the system header.  The
    bits written by [put_system_header] after its fixed part are the
    entries of [system_header_entries]: at most one of them is for the
    streams whose id is below 0xc0, and it has the id 0xbd; the others are
    those of the streams from 0xc0 on, in their order.  An entry is the
    8-bit id, the bits 11, then for an id below 0xe0 a 0 bit and the 13 bits
    of [max_buffer_size / 128], and otherwise a 1 bit and the 13 bits of
    [max_buffer_size / 1024]. *)
Theorem system_header_private_coalescing (ctx : AVFormatContext) :
  let s := mux ctx in
  let entries := system_header_entries (streams ctx) false in
  let '(buf, size) := put_system_header ctx in
  size = 12 + 3 * Z.of_nat (length entries)
  /\ Z.of_nat (length buf) = size
  /\ bits_of_bytes buf
     = bits_msb 32 0x000001bb ++ bits_msb 16 (size - 6)
       ++ [true] ++ bits_msb 22 (MpegMuxContext.mux_rate s) ++ [true]
       ++ bits_msb 6 (MpegMuxContext.audio_bound s)
       ++ [true; true; false; false; true]
       ++ bits_msb 5 (MpegMuxContext.video_bound s) ++ bits_msb 8 0xff
       ++ flat_map entry_bits entries
  /\ (length (List.filter (fun e => (fst e <? 0xc0)%Z) entries) <= 1)%nat
  /\ (forall e, In e entries -> fst e < 0xc0 -> fst e = 0xbd)
  /\ ((exists st, In st (streams ctx) /\ StreamInfo.id (priv_data st) < 0xc0)
      <-> exists e, In e entries /\ fst e = 0xbd
                    /\ exists st, In st (streams ctx) /\ snd e = priv_data st
                                  /\ StreamInfo.id (priv_data st) < 0xc0)
  /\ List.filter (fun e => negb (fst e <? 0xc0)) entries
     = map (fun st => (StreamInfo.id (priv_data st), priv_data st))
           (List.filter (fun st => negb (StreamInfo.id (priv_data st) <? 0xc0))
                        (streams ctx))
  /\ (forall id stream, In (id, stream) entries ->
      entry_bits (id, stream)
      = bits_msb 8 id ++ [true; true]
        ++ (if id <? 0xe0
            then [false] ++ bits_msb 13 (Z.quot (StreamInfo.max_buffer_size stream) 128)
            else [true] ++ bits_msb 13 (Z.quot (StreamInfo.max_buffer_size stream) 1024))).
Proof.
  cbv zeta.
  destruct (put_system_header_bits ctx) as [Hput Hlen]. cbv zeta in Hput, Hlen.
  rewrite Hput.
  destruct (private_entries_at_most_one (streams ctx) false)
    as (Hcount & Hid & Hpub & Hex).
  split; [reflexivity|]. split; [|split; [|split; [|split; [|split; [|split]]]]].
  - cbn [length]. rewrite length_bytes_of_bits, Hlen.
    replace (8 * (6 + 3 * length (system_header_entries (streams ctx) false)))%nat
      with ((6 + 3 * length (system_header_entries (streams ctx) false)) * 8)%nat by lia.
    rewrite Nat.div_mul by lia. lia.
  - rewrite !bits_of_bytes_cons.
    rewrite (bits_of_bytes_of_bits _ _ Hlen).
    rewrite <- !app_assoc.
    rewrite <- patched_length_bits. rewrite <- !app_assoc. reflexivity.
  - exact Hcount.
  - exact Hid.
  - apply Hex. reflexivity.
  - exact Hpub.
  - intros id stream _. unfold entry_bits. destruct (id <? 0xe0); reflexivity.
Qed.

(** ** The probe *)

Lemma uint32_sint32 (z : Z) : uint32 (sint32 z) = uint32 z.
Proof.
  unfold uint32, sint32.
  rewrite <- Zminus_mod_idemp_l, Z.mod_mod by lia.
  rewrite Zminus_mod_idemp_l. f_equal. lia.
Qed.

(** The register of the probe after a byte: the three bytes read last and
    the new one. *)
Lemma probe_shift (code a b c d x : Z) :
  0 <= a < 256 -> 0 <= b < 256 -> 0 <= c < 256 -> 0 <= d < 256 -> 0 <= x < 256 ->
  uint32 code = a * 2 ^ 24 + b * 2 ^ 16 + c * 2 ^ 8 + d ->
  uint32 (sint32 (Z.lor (Z.shiftl code 8) x)) = b * 2 ^ 24 + c * 2 ^ 16 + d * 2 ^ 8 + x.
Proof.
  intros Ha Hb Hc Hd Hx Hcode.
  rewrite uint32_sint32.
  assert (Hlor : Z.lor (Z.shiftl code 8) x = code * 2 ^ 8 + x).
  { rewrite <- Z.shiftl_mul_pow2 by lia. apply Z.or_to_plus.
    rewrite <- (Z.mod_small x (2 ^ 8)) by lia.
    apply Z.bits_inj'. intros n Hn.
    rewrite Z.land_spec, Z.bits_0.
    destruct (Z.lt_ge_cases n 8) as [Hlow|Hhigh].
    - now rewrite Z.shiftl_spec_low.
    - rewrite (Z.mod_pow2_bits_high x 8 n) by lia. apply andb_false_r. }
  rewrite Hlor. unfold uint32 in *.
  pose proof (Z.div_mod code (2 ^ 32) ltac:(lia)) as Hdm.
  rewrite Hcode in Hdm.
  symmetry. apply Z.mod_unique with (q := code / 2 ^ 32 * 2 ^ 8 + a); lia.
Qed.

(** The test of the probe on its register. *)
Lemma probe_prefix_test (u a b c d : Z) :
  0 <= a < 256 -> 0 <= b < 256 -> 0 <= c < 256 -> 0 <= d < 256 ->
  u = a * 2 ^ 24 + b * 2 ^ 16 + c * 2 ^ 8 + d ->
  (Z.land u 0xffffff00 =? 0x100) = (a =? 0) && (b =? 0) && (c =? 1).
Proof.
  intros Ha Hb Hc Hd Hu.
  assert (Hland : Z.land u 0xffffff00 = (a * 2 ^ 16 + b * 2 ^ 8 + c) * 2 ^ 8).
  { replace (a * 2 ^ 16 + b * 2 ^ 8 + c) with ((u / 2 ^ 8) mod 2 ^ 24).
    - change 0xffffff00 with (Z.shiftl (Z.ones 24) 8).
      rewrite <- Z.shiftl_mul_pow2, <- Z.shiftr_div_pow2 by lia. Z.bitblast.
    - replace (u / 2 ^ 8) with (a * 2 ^ 16 + b * 2 ^ 8 + c)
        by (apply Z.div_unique with (r := d); lia).
      apply Z.mod_small. lia. }
  rewrite Hland.
  destruct (Z.eqb_spec a 0), (Z.eqb_spec b 0), (Z.eqb_spec c 1); cbn [andb];
    try (apply Z.eqb_neq; lia). apply Z.eqb_eq. subst. reflexivity.
Qed.

Lemma probe_code_ok_ps (code : Z) :
  0x100 <= code <= 0x1ff -> probe_code_ok code = is_ps_code code.
Proof.
  intros Hcode. unfold probe_code_ok, is_ps_code, uint32.
  rewrite Z.mod_small by lia.
  unfold PACK_START_CODE, SYSTEM_HEADER_START_CODE, PRIVATE_STREAM_1,
    PRIVATE_STREAM_2, PROGRAM_STREAM_MAP, PADDING_STREAM.
  repeat match goal with
         | |- context [?x =? ?y] => destruct (Z.eqb_spec x y)
         | |- context [?x <=? ?y] => destruct (Z.leb_spec x y)
         end; cbn; try reflexivity; lia.
Qed.

(** The loop of the probe, with the three bytes read last in its
    register, finds the first start code of these and what follows. *)
Lemma mpegps_probe_loop_spec (score : Z) (buf : list Z) :
  forall code a b c d : Z,
    0 <= a < 256 -> 0 <= b < 256 -> 0 <= c < 256 -> 0 <= d < 256 ->
    - 2 ^ 31 <= code < 2 ^ 31 ->
    uint32 code = a * 2 ^ 24 + b * 2 ^ 16 + c * 2 ^ 8 + d ->
    mpegps_probe_loop score buf code
    = match first_start_code (b :: c :: d :: map uint8 buf) with
      | Some sc => if is_ps_code sc then score - 1 else 0
      | None => 0
      end.
Proof.
  induction buf as [|x buf IH]; intros code a b c d Ha Hb Hc Hd Hrange Hcode;
    cbn [mpegps_probe_loop map first_start_code]; [reflexivity|].
  pose proof (uint8_range x) as Hx.
  pose proof (probe_shift code a b c d (uint8 x) Ha Hb Hc Hd Hx Hcode) as Hshift.
  pose proof (sint32_range (Z.lor (Z.shiftl code 8) (uint8 x))) as Hrange'.
  set (code' := sint32 (Z.lor (Z.shiftl code 8) (uint8 x))) in *.
  rewrite (probe_prefix_test (uint32 code') b c d (uint8 x) Hb Hc Hd Hx Hshift).
  destruct ((b =? 0) && (c =? 0) && (d =? 1)) eqn:Htest.
  - apply andb_true_iff in Htest as [Htest Hd1].
    apply andb_true_iff in Htest as [Hb0 Hc0].
    apply Z.eqb_eq in Hb0, Hc0, Hd1. subst b c d.
    assert (Hval : code' = 0x100 + uint8 x).
    { unfold uint32 in Hshift.
      pose proof (Z.div_mod code' (2 ^ 32) ltac:(lia)) as Hdm.
      lia. }
    rewrite Hval. rewrite probe_code_ok_ps by lia. reflexivity.
  - apply (IH code' b c d (uint8 x)); assumption.
Qed.

(** The first bytes of the register of the probe hold no start code. *)
Lemma first_start_code_initial (buf : list Z) :
  first_start_code (0 :: 0 :: 0xff :: buf) = first_start_code buf.
Proof.
  destruct buf as [|x0 [|x1 [|x2 buf]]]; reflexivity.
Qed.

(** C6. The probe returns [AVPROBE_SCORE_MAX - 1] when the first start
    code 00 00 01 xx of the buffer is one of a program stream, 0 when it
    is another code, and 0 when the buffer holds no start code.  The bytes
    of the buffer are read as unsigned chars. *)
Theorem mpegps_probe_first_start_code (AVPROBE_SCORE_MAX : Z) (buf : list Z) :
  mpegps_probe AVPROBE_SCORE_MAX buf
  = match first_start_code (map uint8 buf) with
    | Some code => if is_ps_code code then AVPROBE_SCORE_MAX - 1 else 0
    | None => 0
    end.
Proof.
  unfold mpegps_probe.
  rewrite (mpegps_probe_loop_spec AVPROBE_SCORE_MAX buf 0xff 0 0 0 0xff)
    by (try lia; reflexivity).
  now rewrite first_start_code_initial.
Qed.

(** The three buffers of the specification's scenario. *)
Lemma mpegps_probe_examples :
  mpegps_probe 100 [0xaa; 0xbb; 0x00; 0x00; 0x01; 0xba; 0x44] = 99
  /\ mpegps_probe 100 [0x00; 0x00; 0x01; 0xaa; 0x00] = 0
  /\ mpegps_probe 100 [0x11; 0x22; 0x33] = 0.
Proof. repeat split; reflexivity. Qed.

(** ** The byte source *)

Lemma keeps_refl (pb : ByteIOContext) (len len' : Z) :
  len <= len' -> keeps pb len pb len'.
Proof. unfold keeps. intuition lia. Qed.

Lemma keeps_trans (pb1 pb2 pb3 : ByteIOContext) (l1 l2 l3 : Z) :
  keeps pb1 l1 pb2 l2 -> keeps pb2 l2 pb3 l3 -> keeps pb1 l1 pb3 l3.
Proof.
  unfold keeps. intros (Hd1 & He1 & Hp1) (Hd2 & He2 & Hp2).
  split; [congruence|]. split; [auto|].
  intros Heof. destruct (eof_reached pb2) eqn:E2.
  - specialize (He2 eq_refl). congruence.
  - specialize (Hp1 eq_refl). specialize (Hp2 Heof). lia.
Qed.

Lemma get_byte_keeps (pb : ByteIOContext) (len : Z) :
  keeps pb len (snd (get_byte pb)) (len - 1)
  /\ 0 <= fst (get_byte pb) < 256
  /\ (eof_reached (snd (get_byte pb)) = false ->
      ByteIO.pos (snd (get_byte pb)) = ByteIO.pos pb + 1
      /\ 0 <= ByteIO.pos pb < Z.of_nat (length (ByteIO.data pb))).
Proof.
  unfold get_byte, keeps, in_range.
  destruct (Z.leb_spec 0 (ByteIO.pos pb)); cbn [andb];
    [destruct (Z.ltb_spec (ByteIO.pos pb) (Z.of_nat (length (ByteIO.data pb))))|];
    cbn [fst snd ByteIO.data ByteIO.pos eof_reached];
    repeat split; try apply uint8_range; intros; try lia; try congruence; auto.
Qed.

Lemma get_be16_keeps (pb : ByteIOContext) (len : Z) :
  keeps pb len (snd (get_be16 pb)) (len - 2)
  /\ 0 <= fst (get_be16 pb).
Proof.
  unfold get_be16.
  pose proof (get_byte_keeps pb len) as (Hk1 & Hv1 & _).
  destruct (get_byte pb) as [b1 pb1]. cbn [fst snd] in *.
  pose proof (get_byte_keeps pb1 (len - 1)) as (Hk2 & Hv2 & _).
  destruct (get_byte pb1) as [b2 pb2]. cbn [fst snd] in *.
  split.
  - replace (len - 2) with (len - 1 - 1) by lia. eapply keeps_trans; eassumption.
  - apply Z.lor_nonneg. split; [apply Z.shiftl_nonneg|]; lia.
Qed.

Lemma skip_bytes_keeps (n : nat) :
  forall (pb : ByteIOContext) (len : Z),
    keeps pb len (skip_bytes n pb) (len - Z.of_nat n).
Proof.
  induction n as [|n IH]; intros pb len; cbn [skip_bytes].
  - apply keeps_refl. lia.
  - pose proof (get_byte_keeps pb len) as (Hk & _).
    eapply keeps_trans; [exact Hk|].
    replace (len - Z.of_nat (S n)) with (len - 1 - Z.of_nat n) by lia. apply IH.
Qed.

Lemma get_pts_keeps (pb : ByteIOContext) (c len : Z) :
  keeps pb len (snd (get_pts pb c)) (len - (if c <? 0 then 5 else 4)).
Proof.
  unfold get_pts.
  destruct (c <? 0).
  - pose proof (get_byte_keeps pb len) as (Hk0 & _).
    destruct (get_byte pb) as [c0 pb0]. cbn [fst snd] in *.
    pose proof (get_be16_keeps pb0 (len - 1)) as (Hk1 & _).
    destruct (get_be16 pb0) as [v1 pb1]. cbn [fst snd] in *.
    pose proof (get_be16_keeps pb1 (len - 1 - 2)) as (Hk2 & _).
    destruct (get_be16 pb1) as [v2 pb2]. cbn [fst snd] in *.
    replace (len - 5) with (len - 1 - 2 - 2) by lia.
    eapply keeps_trans; [exact Hk0|]. eapply keeps_trans; eassumption.
  - pose proof (get_be16_keeps pb len) as (Hk1 & _).
    destruct (get_be16 pb) as [v1 pb1]. cbn [fst snd] in *.
    pose proof (get_be16_keeps pb1 (len - 2)) as (Hk2 & _).
    destruct (get_be16 pb1) as [v2 pb2]. cbn [fst snd] in *.
    replace (len - 4) with (len - 2 - 2) by lia.
    eapply keeps_trans; eassumption.
Qed.

(** Loosening the length kept. *)
Lemma keeps_weaken (pb pb' : ByteIOContext) (l1 l1' l2 l2' : Z) :
  keeps pb l1 pb' l2 -> l1' <= l1 -> l2 <= l2' -> keeps pb l1' pb' l2'.
Proof. unfold keeps. intros (Hd & He & Hp) H1 H2. intuition lia. Qed.

Lemma stuffing_loop_keeps (k : nat) :
  forall (pb : ByteIOContext) (len : Z),
    let '(c, len', pb') := stuffing_loop k pb len in
    keeps pb len pb' len'.
Proof.
  induction k as [|k IH]; intros pb len; cbn [stuffing_loop];
    pose proof (get_byte_keeps pb len) as (Hk & _);
    destruct (get_byte pb) as [c pb1]; cbn [fst snd] in *;
    destruct (c =? 0xff); try exact Hk.
  specialize (IH pb1 (len - 1)).
  destruct (stuffing_loop k pb1 (len - 1)) as [[c' len'] pb'].
  eapply keeps_trans; eassumption.
Qed.

(** The stuffing loop ends on a byte other than 0xff: the bound on its
    turns is never what ends it. *)
Lemma stuffing_loop_exit (k : nat) :
  forall (pb : ByteIOContext) (len : Z),
    (remaining pb <= k)%nat ->
    fst (fst (stuffing_loop k pb len)) <> 0xff.
Proof.
  induction k as [|k IH]; intros pb len Hrem; cbn [stuffing_loop].
  - unfold get_byte, in_range, remaining in *.
    destruct (Z.leb_spec 0 (ByteIO.pos pb)); cbn [andb];
      [destruct (Z.ltb_spec (ByteIO.pos pb) (Z.of_nat (length (ByteIO.data pb))))|];
      cbn [fst snd]; try discriminate. lia.
  - destruct (get_byte pb) as [c pb1] eqn:Hget.
    destruct (Z.eqb_spec c 0xff) as [Hff|Hne]; [|exact Hne].
    specialize (IH pb1 (len - 1)).
    destruct (stuffing_loop k pb1 (len - 1)) as [[c' len'] pb'] eqn:Hloop.
    cbn [fst] in *. apply IH.
    unfold get_byte, in_range, remaining in *.
    destruct (Z.leb_spec 0 (ByteIO.pos pb)); cbn [andb] in Hget;
      [destruct (Z.ltb_spec (ByteIO.pos pb) (Z.of_nat (length (ByteIO.data pb))))|];
      injection Hget as Hc <-; cbn [ByteIO.data ByteIO.pos]; try lia.
Qed.

(** ** The start-code scanner *)

Lemma lor_shiftl8 (a x : Z) :
  0 <= x < 256 -> Z.lor (Z.shiftl a 8) x = a * 2 ^ 8 + x.
Proof.
  intros Hx. rewrite <- Z.shiftl_mul_pow2 by lia. apply Z.or_to_plus.
  rewrite <- (Z.mod_small x (2 ^ 8)) by lia.
  apply Z.bits_inj'. intros n Hn.
  rewrite Z.land_spec, Z.bits_0.
  destruct (Z.lt_ge_cases n 8) as [Hlow|Hhigh].
  - now rewrite Z.shiftl_spec_low.
  - rewrite (Z.mod_pow2_bits_high x 8 n) by lia. apply andb_false_r.
Qed.

(** The scanner keeps the input; it reads at least one byte when it finds
    a start code, which is then between 0x100 and 0x1ff. *)
Lemma find_start_code_loop_keeps (n : nat) :
  forall (pb : ByteIOContext) (state : Z),
    0 <= state < 2 ^ 24 ->
    let '(val, pb', n', state') := find_start_code_loop n pb state in
    keeps pb 0 pb' 0
    /\ 0 <= state' < 2 ^ 24
    /\ (val = -1
        /\ (n' = O \/ eof_reached pb' = true)
        \/ 0x100 <= val <= 0x1ff
           /\ (eof_reached pb' = false ->
               ByteIO.pos pb < ByteIO.pos pb'
               /\ 0 <= ByteIO.pos pb < Z.of_nat (length (ByteIO.data pb)))).
Proof.
  assert (Hstate : forall state v, 0 <= v < 256 ->
             0 <= Z.land (uint32 (Z.lor (Z.shiftl state 8) v)) 0xffffff < 2 ^ 24).
  { intros state v Hv. change 0xffffff with (Z.ones 24).
    rewrite Z.land_ones by lia. apply Z.mod_pos_bound. lia. }
  induction n as [|n IH]; intros pb state Hst; cbn [find_start_code_loop].
  - split; [apply keeps_refl; lia|]. split; [exact Hst|]. left. auto.
  - unfold url_feof. destruct (eof_reached pb) eqn:Heof.
    + split; [apply keeps_refl; lia|]. split; [exact Hst|]. left. auto.
    + pose proof (get_byte_keeps pb 0) as (Hk & Hv & Hpos).
      destruct (get_byte pb) as [v pb1]. cbn [fst snd] in *.
      apply (keeps_weaken _ _ _ 0 _ 0) in Hk; try lia.
      destruct (Z.eqb_spec state 0x000001) as [Hone|Hnot].
      * split; [exact Hk|]. split; [apply Hstate; exact Hv|]. right.
        subst state. split.
        -- assert (Hval : Z.land (uint32 (Z.lor (Z.shiftl 1 8) v)) 0xffffff = 0x100 + v).
           { unfold uint32. change 0xffffff with (Z.ones 24).
             rewrite Z.land_ones by lia.
             assert (Hlor : Z.lor (Z.shiftl 1 8) v = 0x100 + v)
               by (rewrite lor_shiftl8 by lia; lia).
             rewrite Hlor. rewrite (Z.mod_small (0x100 + v) (2 ^ 32)) by lia.
             apply Z.mod_small. lia. }
           rewrite Hval. lia.
        -- intros He. specialize (Hpos He). lia.
      * specialize (IH pb1 (Z.land (uint32 (Z.lor (Z.shiftl state 8) v)) 0xffffff)
                     (Hstate state v Hv)).
        destruct (find_start_code_loop n pb1 _) as [[[val pb'] n'] state'].
        destruct IH as (Hk' & Hst' & Hres).
        split; [eapply keeps_trans; eassumption|]. split; [exact Hst'|].
        destruct Hres as [Hfail|[Hfound Hadv]]; [left; exact Hfail|].
        right. split; [exact Hfound|].
        intros He. specialize (Hadv He).
        destruct Hk' as (_ & Hmono & _).
        destruct (eof_reached pb1) eqn:E1; [specialize (Hmono eq_refl); congruence|].
        specialize (Hpos eq_refl). lia.
Qed.

Lemma find_start_code_keeps (pb : ByteIOContext) :
  let '(val, pb', size', state') := find_start_code pb MAX_SYNC_SIZE 0xff in
  keeps pb 0 pb' 0
  /\ (val = -1
      /\ (size' = 0 \/ url_feof pb' = true)
      \/ 0x100 <= val <= 0x1ff
         /\ eof_reached pb = false
         /\ (eof_reached pb' = false ->
             ByteIO.pos pb < ByteIO.pos pb'
             /\ 0 <= ByteIO.pos pb < Z.of_nat (length (ByteIO.data pb)))).
Proof.
  unfold find_start_code. change (uint32 0xff) with 0xff.
  pose proof (find_start_code_loop_keeps (Z.to_nat MAX_SYNC_SIZE) pb 0xff
                ltac:(lia)) as H.
  assert (Heof : eof_reached pb = true ->
                 fst (fst (fst (find_start_code_loop (Z.to_nat MAX_SYNC_SIZE) pb
                                                     0xff))) = -1).
  { intros He. destruct (Z.to_nat MAX_SYNC_SIZE); cbn [find_start_code_loop];
      [reflexivity|]. unfold url_feof. rewrite He. reflexivity. }
  destruct (find_start_code_loop _ pb _) as [[[val pb'] n'] state'].
  cbn [fst] in Heof.
  destruct H as (Hk & _ & Hres). split; [exact Hk|].
  destruct Hres as [[Hval Hend]|[Hval Hadv]].
  - left. split; [exact Hval|]. destruct Hend as [->|He]; auto.
  - right. split; [exact Hval|]. split; [|exact Hadv].
    destruct (eof_reached pb); [specialize (Heof eq_refl); lia | reflexivity].
Qed.

(** How the scan of a turn ends. *)
Lemma next_start_code_keeps (pb : ByteIOContext) :
  match next_start_code pb with
  | ScanFail pb' _ =>
      keeps pb 0 pb' 0
      /\ fst (fst (fst (find_start_code pb MAX_SYNC_SIZE 0xff))) = -1
  | ScanSkip pb' _ | ScanPes _ pb' _ =>
      keeps pb 0 pb' 0
      /\ 0x100 <= fst (fst (fst (find_start_code pb MAX_SYNC_SIZE 0xff))) <= 0x1ff
      /\ eof_reached pb = false
      /\ (eof_reached pb' = false ->
          ByteIO.pos pb < ByteIO.pos pb'
          /\ 0 <= ByteIO.pos pb < Z.of_nat (length (ByteIO.data pb)))
  end.
Proof.
  unfold next_start_code.
  pose proof (find_start_code_keeps pb) as H.
  destruct (find_start_code pb MAX_SYNC_SIZE 0xff) as [[[val pb1] size'] state'].
  cbn [fst]. destruct H as (Hk & Hres).
  destruct (Z.ltb_spec val 0) as [Hneg|Hpos].
  - split; [exact Hk|]. destruct Hres as [[Hval _]|[Hval _]]; lia.
  - destruct Hres as [[Hval _]|(Hval & Heof & Hadv)]; [lia|].
    assert (Hsame : keeps pb 0 pb1 0
                    /\ 0x100 <= val <= 0x1ff
                    /\ eof_reached pb = false
                    /\ (eof_reached pb1 = false ->
                        ByteIO.pos pb < ByteIO.pos pb1
                        /\ 0 <= ByteIO.pos pb < Z.of_nat (length (ByteIO.data pb))))
      by auto.
    destruct (val =? PACK_START_CODE); [exact Hsame|].
    destruct (val =? SYSTEM_HEADER_START_CODE); [exact Hsame|].
    destruct ((val =? PADDING_STREAM) || (val =? PRIVATE_STREAM_2)).
    + pose proof (get_be16_keeps pb1 0) as (Hk2 & Hlen).
      destruct (get_be16 pb1) as [len pb2]. cbn [fst snd] in *.
      unfold url_fskip, keeps in *.
      cbn [ByteIO.data ByteIO.pos eof_reached].
      destruct Hk as (Hd1 & He1 & Hp1), Hk2 as (Hd2 & He2 & Hp2).
      split; [|split; [exact Hval|split; [exact Heof|]]].
      * split; [congruence|]. split; [auto|].
        intros He. specialize (Hp2 He).
        destruct (eof_reached pb1) eqn:E1; [specialize (He2 eq_refl); congruence|].
        specialize (Hp1 eq_refl). lia.
      * intros He. specialize (Hp2 He).
        destruct (eof_reached pb1) eqn:E1; [specialize (He2 eq_refl); congruence|].
        specialize (Hadv eq_refl). lia.
    + destruct (negb _); exact Hsame.
Qed.

(** ** The turns of mpegps_read_packet *)

Lemma keeps_pos (pb pb' : ByteIOContext) (l l' : Z) :
  keeps pb l pb' l' -> keeps pb 0 pb' 0.
Proof. unfold keeps. intros (Hd & He & Hp). intuition lia. Qed.

Lemma read_stuffing_keeps (pb : ByteIOContext) :
  let '(c, len, pb') := read_stuffing pb in
  keeps pb 0 pb' len.
Proof.
  unfold read_stuffing.
  pose proof (get_be16_keeps pb 2) as (Hk1 & Hlen).
  destruct (get_be16 pb) as [len pb1]. cbn [fst snd] in *.
  apply (keeps_weaken _ _ _ 0 _ len) in Hk1; try lia.
  pose proof (stuffing_loop_keeps (remaining pb1) pb1 len) as Hk2.
  destruct (stuffing_loop (remaining pb1) pb1 len) as [[c len2] pb2].
  destruct (Z.land c 0xc0 =? 0x40).
  - pose proof (get_byte_keeps pb2 len2) as (Hk3 & _).
    destruct (get_byte pb2) as [x pb3]. cbn [fst snd] in *.
    pose proof (get_byte_keeps pb3 (len2 - 1)) as (Hk4 & _).
    destruct (get_byte pb3) as [c' pb4]. cbn [fst snd] in *.
    replace (len2 - 2) with (len2 - 1 - 1) by lia.
    eapply keeps_trans; [exact Hk1|]. eapply keeps_trans; [exact Hk2|].
    eapply keeps_trans; eassumption.
  - eapply keeps_trans; eassumption.
Qed.

Lemma read_pes_header_keeps (pb : ByteIOContext) (c len : Z) :
  match read_pes_header pb c len with
  | HeaderOk _ _ len' pb' => keeps pb len pb' len'
  | HeaderEncrypted pb' | HeaderResync pb' => keeps pb 0 pb' 0
  end.
Proof.
  unfold read_pes_header.
  destruct (Z.land c 0xf0 =? 0x20).
  { pose proof (get_pts_keeps pb c len) as Hk.
    destruct (get_pts pb c) as [pts pb1]. cbn [snd] in Hk.
    eapply keeps_weaken; [exact Hk| |]; destruct (c <? 0); lia. }
  destruct (Z.land c 0xf0 =? 0x30).
  { pose proof (get_pts_keeps pb c len) as Hk1.
    destruct (get_pts pb c) as [pts pb1]. cbn [snd] in Hk1.
    pose proof (get_pts_keeps pb1 (-1) (len - (if c <? 0 then 5 else 4))) as Hk2.
    destruct (get_pts pb1 (-1)) as [dts pb2]. cbn [snd] in Hk2.
    change (-1 <? 0) with true in Hk2. cbv iota in Hk2.
    eapply keeps_weaken; [eapply keeps_trans; eassumption| |];
      destruct (c <? 0); lia. }
  destruct (Z.land c 0xc0 =? 0x80); [|apply keeps_refl; lia].
  destruct (negb (Z.land c 0x30 =? 0)); [apply keeps_refl; lia|].
  pose proof (get_byte_keeps pb len) as (Hk1 & _).
  destruct (get_byte pb) as [flags pb1]. cbn [fst snd] in *.
  pose proof (get_byte_keeps pb1 (len - 1)) as (Hk2 & _).
  destruct (get_byte pb1) as [header_len pb2]. cbn [fst snd] in *.
  assert (Hk : keeps pb len pb2 (len - 2)).
  { replace (len - 2) with (len - 1 - 1) by lia. eapply keeps_trans; eassumption. }
  destruct (len - 2 <? header_len); [eapply keeps_pos; exact Hk|].
  (* the timestamps announced by the flags *)
  set (r1 := if Z.land flags 0xc0 =? 0x80
             then let '(pts, pb) := get_pts pb2 (-1) in
                  (pts, pts, header_len - 5, len - 2 - 5, pb)
             else (0, 0, header_len, len - 2, pb2)).
  assert (H1 : let '(_, _, h1, l1, pb3) := r1 in
               keeps pb2 (len - 2) pb3 l1).
  { subst r1. destruct (Z.land flags 0xc0 =? 0x80); [|apply keeps_refl; lia].
    pose proof (get_pts_keeps pb2 (-1) (len - 2)) as Hp.
    destruct (get_pts pb2 (-1)) as [pts pb3]. exact Hp. }
  destruct r1 as [[[[pts1 dts1] h1] l1] pb3].
  set (r2 := if Z.land flags 0xc0 =? 0xc0
             then let '(pts, pb) := get_pts pb3 (-1) in
                  let '(dts, pb) := get_pts pb (-1) in
                  (pts, dts, h1 - 10, l1 - 10, pb)
             else (pts1, dts1, h1, l1, pb3)).
  assert (H2 : let '(_, _, h2, l2, pb4) := r2 in keeps pb3 l1 pb4 l2).
  { subst r2. destruct (Z.land flags 0xc0 =? 0xc0); [|apply keeps_refl; lia].
    pose proof (get_pts_keeps pb3 (-1) l1) as Hp1.
    destruct (get_pts pb3 (-1)) as [pts pb4]. cbn [snd] in Hp1.
    pose proof (get_pts_keeps pb4 (-1) (l1 - 5)) as Hp2.
    destruct (get_pts pb4 (-1)) as [dts pb5]. cbn [snd] in Hp2.
    change (-1 <? 0) with true in *. cbv iota in *.
    replace (l1 - 10) with (l1 - 5 - 5) by lia.
    eapply keeps_trans; eassumption. }
  destruct r2 as [[[[pts2 dts2] h2] l2] pb4].
  pose proof (skip_bytes_keeps (Z.to_nat h2) pb4 l2) as H3.
  eapply keeps_trans; [exact Hk|]. eapply keeps_trans; [exact H1|].
  eapply keeps_trans; [exact H2|].
  eapply keeps_weaken; [exact H3| |]; lia.
Qed.

Lemma read_private_id_keeps (startcode len : Z) (pb : ByteIOContext) :
  let '(_, len', pb') := read_private_id startcode len pb in
  keeps pb len pb' len'.
Proof.
  unfold read_private_id.
  destruct (startcode =? 0x1bd); [|apply keeps_refl; lia].
  pose proof (get_byte_keeps pb len) as (Hk & _).
  destruct (get_byte pb) as [id pb1]. cbn [fst snd] in *.
  destruct ((0x80 <=? id) && (id <=? 0xbf)); [|exact Hk].
  pose proof (skip_bytes_keeps 3 pb1 (len - 1)) as Hk3.
  replace (len - 1 - 3) with (len - 1 - Z.of_nat 3) by lia.
  eapply keeps_trans; eassumption.
Qed.

Section TurnFacts.

Import Demux.

Variable MAX_STREAMS : nat.

(** A turn that skips a packet seeks to the end of the packet, which is
    not before the place where the turn found it. *)
Lemma deliver_packet_redo (s : AVFormatContext) (hs startcode pts len : Z)
    (pb0 : ByteIOContext) (s' : AVFormatContext) :
  deliver_packet MAX_STREAMS s hs startcode pts len pb0 = (Redo, s') ->
  pb s' = url_fskip pb0 len.
Proof.
  unfold deliver_packet.
  destruct (List.find _ (streams s)) as [st|].
  { destruct (read_payload pb0 len pts st). discriminate. }
  destruct (new_stream_codec startcode) as [[type cid]|].
  - destruct (av_new_stream MAX_STREAMS (streams s) startcode) as [[st sts]|].
    + destruct (read_payload pb0 len pts _). discriminate.
    + intros [= <-]. reflexivity.
  - intros [= <-]. reflexivity.
Qed.

Lemma read_packet_turn_progress (s s' : AVFormatContext) :
  read_packet_turn MAX_STREAMS s = (Redo, s') ->
  (turns_left s' < turns_left s)%nat.
Proof.
  unfold read_packet_turn.
  pose proof (next_start_code_keeps (pb s)) as Hscan.
  assert (Hmeasure :
    forall pb',
      ByteIO.data pb' = ByteIO.data (pb s) ->
      eof_reached (pb s) = false ->
      (eof_reached pb' = false ->
       ByteIO.pos (pb s) < ByteIO.pos pb'
       /\ 0 <= ByteIO.pos (pb s) < Z.of_nat (length (ByteIO.data (pb s)))) ->
      pb s' = pb' -> (turns_left s' < turns_left s)%nat).
  { intros pb' Hd He Hp Hs'. unfold turns_left. rewrite Hs', He, Hd.
    destruct (eof_reached pb'); [lia|]. specialize (Hp eq_refl). lia. }
  destruct (next_start_code (pb s)) as [pb1 hs|pb1 hs|startcode pb1 hs].
  - discriminate.
  - destruct Hscan as ((Hd & _) & _ & He & Hp).
    intros [= <-]. now apply (Hmeasure pb1).
  - destruct Hscan as (Hk0 & _ & He & Hp).
    pose proof (read_stuffing_keeps pb1) as Hk1.
    destruct (read_stuffing pb1) as [[c len] pb2].
    pose proof (read_pes_header_keeps pb2 c len) as Hk2.
    assert (Hfrom :
      forall pbx lenx, keeps pb1 0 pbx lenx ->
        forall pb', ByteIO.data pb' = ByteIO.data pbx ->
          (eof_reached pbx = true -> eof_reached pb' = true) ->
          (eof_reached pb' = false -> ByteIO.pos pbx + lenx <= ByteIO.pos pb') ->
          pb s' = pb' -> (turns_left s' < turns_left s)%nat).
    { intros pbx lenx (Hdx & Hex & Hpx) pb' Hd' He' Hp' Hs'.
      destruct Hk0 as (Hd0 & _ & _).
      apply (Hmeasure pb'); [congruence | exact He | | exact Hs'].
      intros Heof'.
      destruct (eof_reached pbx) eqn:Ex; [specialize (He' eq_refl); congruence|].
      specialize (Hpx eq_refl). specialize (Hp' Heof').
      destruct (eof_reached pb1) eqn:E1; [specialize (Hex eq_refl); congruence|].
      specialize (Hp eq_refl). lia. }
    destruct (read_pes_header pb2 c len) as [pts dts len3 pb3|pb3|pb3].
    + pose proof (read_private_id_keeps startcode len3 pb3) as Hk3.
      destruct (read_private_id startcode len3 pb3) as [[startcode' len4] pb4].
      intros Hdel. apply deliver_packet_redo in Hdel.
      assert (Hk : keeps pb1 0 pb4 len4).
      { eapply keeps_trans; [exact Hk1|]. eapply keeps_trans; eassumption. }
      apply (Hfrom pb4 len4 Hk (url_fskip pb4 len4)); auto.
      unfold url_fskip. cbn. lia.
    + discriminate.
    + intros [= <-]. cbn [pb].
      assert (Hk : keeps pb1 0 pb3 0).
      { eapply keeps_trans; [eapply keeps_pos; exact Hk1 | exact Hk2]. }
      apply (Hfrom pb3 0 Hk pb3); auto. lia.
Qed.

(** [mpegps_read_packet] returns: some number of turns is enough. *)
Lemma mpegps_read_packet_total (s : AVFormatContext) :
  exists fuel r s', mpegps_read_packet MAX_STREAMS fuel s = Some (r, s').
Proof.
  remember (turns_left s) as n eqn:Hn. revert s Hn.
  induction n as [n IH] using lt_wf_ind. intros s Hn.
  destruct (read_packet_turn MAX_STREAMS s) as [[r|] s1] eqn:Hturn.
  - exists 1%nat, r, s1. cbn [mpegps_read_packet]. now rewrite Hturn.
  - pose proof (read_packet_turn_progress s s1 Hturn) as Hlt.
    destruct (IH (turns_left s1) ltac:(lia) s1 eq_refl) as (fuel & r & s' & Hrun).
    exists (S fuel), r, s'. cbn [mpegps_read_packet]. now rewrite Hturn.
Qed.

End TurnFacts.

Lemma land_c0_of_f0 (c : Z) : Z.land c 0xc0 = Z.land (Z.land c 0xf0) 0xc0.
Proof. rewrite <- Z.land_assoc. reflexivity. Qed.

Lemma land_30_of_f0 (c : Z) : Z.land c 0x30 = Z.land (Z.land c 0xf0) 0x30.
Proof. rewrite <- Z.land_assoc. reflexivity. Qed.

(** The header parser rejects a packet exactly for its scrambling control
    bits, and resynchronizes exactly for a header length that exceeds the
    length left. *)
Lemma read_pes_header_cases (pb : ByteIOContext) (c len : Z) :
  match read_pes_header pb c len with
  | HeaderEncrypted pb' =>
      Z.land c 0xc0 = 0x80 /\ Z.land c 0x30 <> 0 /\ pb' = pb
  | HeaderResync pb' =>
      Z.land c 0xc0 = 0x80 /\ Z.land c 0x30 = 0
      /\ len - 2 < fst (get_byte (snd (get_byte pb)))
      /\ pb' = snd (get_byte (snd (get_byte pb)))
  | HeaderOk pts _ _ _ =>
      ~ (Z.land c 0xc0 = 0x80 /\ Z.land c 0x30 <> 0)
      /\ ~ (Z.land c 0xc0 = 0x80 /\ Z.land c 0x30 = 0
            /\ len - 2 < fst (get_byte (snd (get_byte pb))))
      /\ (Z.land c 0xf0 <> 0x20 -> Z.land c 0xf0 <> 0x30 ->
          Z.land c 0xc0 <> 0x80
          \/ Z.land (fst (get_byte pb)) 0xc0 <> 0x80
             /\ Z.land (fst (get_byte pb)) 0xc0 <> 0xc0 ->
          pts = 0)
  end.
Proof.
  unfold read_pes_header.
  destruct (Z.eqb_spec (Z.land c 0xf0) 0x20) as [H20|H20].
  { destruct (get_pts pb c) as [pts pb1].
    rewrite (land_c0_of_f0 c), H20. cbn. repeat split; try tauto; intros []; discriminate. }
  destruct (Z.eqb_spec (Z.land c 0xf0) 0x30) as [H30|H30].
  { destruct (get_pts pb c) as [pts pb1]. destruct (get_pts pb1 (-1)) as [dts pb2].
    rewrite (land_c0_of_f0 c), H30. cbn. repeat split; try tauto; intros []; discriminate. }
  destruct (Z.eqb_spec (Z.land c 0xc0) 0x80) as [H80|H80].
  2: { repeat split; tauto. }
  destruct (Z.eqb_spec (Z.land c 0x30) 0) as [Hclear|Hscr]; cbn [negb].
  2: { auto. }
  destruct (get_byte pb) as [flags pb1]. cbn [fst snd].
  destruct (get_byte pb1) as [header_len pb2]. cbn [fst snd].
  destruct (Z.ltb_spec (len - 2) header_len) as [Hexc|Hfits].
  { auto. }
  destruct (Z.eqb_spec (Z.land flags 0xc0) 0x80) as [Hpts|Hnopts].
  { destruct (get_pts pb2 (-1)) as [pts pb3].
    rewrite Hpts. change (0x80 =? 0xc0) with false. cbv iota.
    repeat split; try tauto; try lia. }
  destruct (Z.eqb_spec (Z.land flags 0xc0) 0xc0) as [Hboth|Hnone].
  { destruct (get_pts pb2 (-1)) as [pts pb3]. destruct (get_pts pb3 (-1)) as [dts pb4].
    repeat split; try tauto; try lia. }
  repeat split; try tauto; try lia.
Qed.

Section ErrorFacts.

Import Demux.

Variable MAX_STREAMS : nat.

Lemma deliver_packet_no_error (s : AVFormatContext) (hs startcode pts len : Z)
    (pb0 : ByteIOContext) :
  match deliver_packet MAX_STREAMS s hs startcode pts len pb0 with
  | (Return (RetError _), _) => False
  | (Return (RetPacket pkt), _) => AVPacket.pts pkt = pts /\ AVPacket.size pkt = len
  | (Redo, _) => True
  end.
Proof.
  unfold deliver_packet, read_payload.
  destruct (List.find _ (streams s)) as [st|].
  { destruct (get_buffer pb0 len). cbn. auto. }
  destruct (new_stream_codec startcode) as [[type cid]|]; [|exact I].
  destruct (av_new_stream MAX_STREAMS (streams s) startcode) as [[st sts]|]; [|exact I].
  destruct (get_buffer pb0 len). cbn. auto.
Qed.

(** The two returns of [-EIO] in a turn. *)
Lemma read_packet_turn_error (s : AVFormatContext) :
  match read_packet_turn MAX_STREAMS s with
  | (Return (RetError e), _) => e = EIO /\ (scan_fails s \/ encrypted_pes s)
  | _ => ~ scan_fails s /\ ~ encrypted_pes s
  end.
Proof.
  unfold read_packet_turn, scan_fails, encrypted_pes, pes_header_byte.
  destruct (next_start_code (pb s)) as [pb1 hs|pb1 hs|startcode pb1 hs].
  - split; [reflexivity|]. left. eauto.
  - split; [intros (? & ? & [=]) | intros (? & ? & ? & [=] & _)].
  - destruct (read_stuffing pb1) as [[c len] pb2].
    pose proof (read_pes_header_cases pb2 c len) as Hcases.
    destruct (read_pes_header pb2 c len) as [pts dts len3 pb3|pb3|pb3].
    + destruct (read_private_id startcode len3 pb3) as [[startcode' len4] pb4].
      pose proof (deliver_packet_no_error s hs startcode' pts len4 pb4) as Hdel.
      destruct Hcases as (Hnot & _).
      destruct (deliver_packet _ s hs startcode' pts len4 pb4) as [[[e|pkt]|] s'];
        [contradiction| |];
        (split; [intros (? & ? & [=]) | intros (? & ? & ? & [= <- <- <-] & H); tauto]).
    + split; [reflexivity|]. right. exists c, len, pb2. tauto.
    + destruct Hcases as (H80 & Hclear & _).
      split; [intros (? & ? & [=]) | intros (? & ? & ? & [= <- <- <-] & H); tauto].
Qed.

(** A header length that exceeds the length left ends the turn with
    [goto redo], the source being after the two bytes of the flags and of
    the header length. *)
Lemma read_packet_turn_resync (s : AVFormatContext) :
  header_len_exceeds s ->
  exists (c len : Z) (pb2 : ByteIOContext) (hs : Z),
    pes_header_byte s = Some (c, len, pb2)
    /\ read_packet_turn MAX_STREAMS s
       = (Redo, {| pb := snd (get_byte (snd (get_byte pb2)));
                   streams := streams s; header_state := hs |}).
Proof.
  unfold header_len_exceeds, pes_header_byte, read_packet_turn.
  intros (c & len & pb2 & Hbyte & H80 & Hclear & Hexc).
  destruct (next_start_code (pb s)) as [pb1 hs|pb1 hs|startcode pb1 hs];
    try discriminate.
  injection Hbyte as Hbyte. rewrite Hbyte.
  exists c, len, pb2, hs. split; [reflexivity|].
  pose proof (read_pes_header_cases pb2 c len) as Hcases.
  destruct (read_pes_header pb2 c len) as [pts dts len3 pb3|pb3|pb3].
  - destruct Hcases as (_ & Hnot & _). tauto.
  - destruct Hcases as (_ & Hscr & _). contradiction.
  - destruct Hcases as (_ & _ & _ & ->). reflexivity.
Qed.

(** A run of [mpegps_read_packet] is a chain of resynchronizations and a
    turn that returns. *)
Lemma mpegps_read_packet_chain (fuel : nat) :
  forall (s : AVFormatContext) (r : read_result) (s' : AVFormatContext),
    mpegps_read_packet MAX_STREAMS fuel s = Some (r, s') ->
    exists s1, resyncs MAX_STREAMS s s1
               /\ read_packet_turn MAX_STREAMS s1 = (Return r, s').
Proof.
  induction fuel as [|fuel IH]; intros s r s' Hrun; cbn [mpegps_read_packet] in Hrun;
    [discriminate|].
  destruct (read_packet_turn MAX_STREAMS s) as [[r1|] s1] eqn:Hturn.
  - injection Hrun as <- <-. exists s. split; [constructor | exact Hturn].
  - destruct (IH s1 r s' Hrun) as (s2 & Hchain & Hlast).
    exists s2. split; [econstructor; eassumption | exact Hlast].
Qed.

Lemma resyncs_run (s s1 : AVFormatContext) :
  resyncs MAX_STREAMS s s1 ->
  forall (r : read_result) (s' : AVFormatContext),
    read_packet_turn MAX_STREAMS s1 = (Return r, s') ->
    (exists fuel, mpegps_read_packet MAX_STREAMS fuel s = Some (r, s'))
    /\ forall fuel r2 s2,
         mpegps_read_packet MAX_STREAMS fuel s = Some (r2, s2) -> r2 = r /\ s2 = s'.
Proof.
  induction 1 as [s|s sa sb Hturn Hchain IH]; intros r s' Hlast.
  - split.
    + exists 1%nat. cbn [mpegps_read_packet]. now rewrite Hlast.
    + intros [|fuel] r2 s2; cbn [mpegps_read_packet]; [discriminate|].
      rewrite Hlast. intros [= <- <-]. auto.
  - destruct (IH r s' Hlast) as [(fuel & Hrun) Huniq]. split.
    + exists (S fuel). cbn [mpegps_read_packet]. now rewrite Hturn.
    + intros [|fuel2] r2 s2; cbn [mpegps_read_packet]; [discriminate|].
      rewrite Hturn. apply Huniq.
Qed.

(** The stream of a packet is found in the table or made. *)
Lemma find_id_spec (sts : list AVStream) (startcode : Z) :
  match List.find (fun st => id st =? startcode) sts with
  | Some st => exists i, sts !! i = Some st /\ id st = startcode
  | None => ~ In startcode (map id sts)
  end.
Proof.
  induction sts as [|st sts IH]; cbn [List.find map]; [auto|].
  destruct (Z.eqb_spec (id st) startcode) as [Heq|Hne].
  - exists 0%nat. auto.
  - destruct (List.find _ sts) as [st'|].
    + destruct IH as (i & Hi & Hid). exists (S i). auto.
    + intros [H|H]; [congruence | contradiction].
Qed.

(** When the end of a turn returns the packet. *)
Lemma deliver_packet_returns (s : AVFormatContext) (hs startcode pts len : Z)
    (pb0 : ByteIOContext) :
  In startcode (map id (streams s))
  \/ new_stream_codec startcode <> None /\ (length (streams s) < MAX_STREAMS)%nat ->
  exists pkt s',
    deliver_packet MAX_STREAMS s hs startcode pts len pb0 = (Return (RetPacket pkt), s')
    /\ pb s' = snd (get_buffer pb0 len)
    /\ AVPacket.data pkt = fst (get_buffer pb0 len)
    /\ AVPacket.size pkt = len
    /\ AVPacket.pts pkt = pts.
Proof.
  intros Hcase. unfold deliver_packet, read_payload.
  pose proof (find_id_spec (streams s) startcode) as Hfind.
  destruct (List.find _ (streams s)) as [st|].
  { destruct (get_buffer pb0 len) as [data pb1]. do 2 eexists.
    split; [reflexivity|]. cbn. auto. }
  destruct Hcase as [Hin|[Hcodec Hroom]]; [contradiction|].
  destruct (new_stream_codec startcode) as [[type cid]|]; [|congruence].
  unfold av_new_stream.
  destruct (Nat.leb_spec MAX_STREAMS (length (streams s))) as [Hfull|_]; [lia|].
  destruct (get_buffer pb0 len) as [data pb1]. do 2 eexists.
  split; [reflexivity|]. cbn. auto.
Qed.


End ErrorFacts.

(** ** What the scanner finds *)

Lemma get_byte_unread (pb : ByteIOContext) :
  eof_reached pb = false ->
  match unread pb with
  | x :: tl =>
      fst (get_byte pb) = x /\ 0 <= x < 256
      /\ unread (snd (get_byte pb)) = tl
      /\ eof_reached (snd (get_byte pb)) = false
  | [] => fst (get_byte pb) = 0 /\ eof_reached (snd (get_byte pb)) = true
  end.
Proof.
  intros Heof. unfold unread, get_byte.
  destruct (in_range pb) eqn:Hin; cbn [fst snd]; [|auto].
  unfold in_range in Hin. apply andb_true_iff in Hin as [Hlo Hhi].
  apply Z.leb_le in Hlo. apply Z.ltb_lt in Hhi.
  assert (Hsplit : skipn (Z.to_nat (ByteIO.pos pb)) (ByteIO.data pb)
                   = nth (Z.to_nat (ByteIO.pos pb)) (ByteIO.data pb) 0
                     :: skipn (S (Z.to_nat (ByteIO.pos pb))) (ByteIO.data pb)).
  { generalize (ByteIO.data pb) (Z.to_nat (ByteIO.pos pb))
      (proj2 (Nat2Z.inj_lt (Z.to_nat (ByteIO.pos pb)) (length (ByteIO.data pb)))
             ltac:(lia)).
    intros l n. revert l. induction n as [|n IH]; intros [|x l] Hn; cbn [length] in Hn;
      try lia; [reflexivity|].
    cbn [skipn nth]. apply IH. lia. }
  rewrite Hsplit. cbn [map].
  split; [reflexivity|]. split; [apply uint8_range|]. split; [|exact Heof].
  unfold in_range. cbn [ByteIO.pos ByteIO.data].
  replace (Z.to_nat (ByteIO.pos pb + 1)) with (S (Z.to_nat (ByteIO.pos pb))) by lia.
  destruct (Z.ltb_spec (ByteIO.pos pb + 1) (Z.of_nat (length (ByteIO.data pb))))
    as [Hin'|Hout].
  - replace (0 <=? ByteIO.pos pb + 1) with true by (symmetry; apply Z.leb_le; lia).
    reflexivity.
  - rewrite andb_false_r. rewrite skipn_all2 by lia. reflexivity.
Qed.

Lemma find_start_code_loop_eof (n : nat) (pb : ByteIOContext) (state : Z) :
  eof_reached pb = true ->
  fst (fst (fst (find_start_code_loop n pb state))) = -1.
Proof.
  intros Heof. destruct n; cbn [find_start_code_loop]; [reflexivity|].
  unfold url_feof. now rewrite Heof.
Qed.

(** The register of the scanner after a byte. *)
Lemma scanner_shift (b c d v : Z) :
  0 <= b < 256 -> 0 <= c < 256 -> 0 <= d < 256 -> 0 <= v < 256 ->
  Z.land (uint32 (Z.lor (Z.shiftl (b * 2 ^ 16 + c * 2 ^ 8 + d) 8) v)) 0xffffff
  = c * 2 ^ 16 + d * 2 ^ 8 + v.
Proof.
  intros Hb Hc Hd Hv. rewrite lor_shiftl8 by lia.
  unfold uint32. change 0xffffff with (Z.ones 24). rewrite Z.land_ones by lia.
  rewrite (Z.mod_small _ (2 ^ 32)) by lia.
  symmetry. apply Z.mod_unique with (q := b); lia.
Qed.

Lemma first_start_code_step (b0 b1 b2 b3 : Z) (l : list Z) :
  first_start_code (b0 :: b1 :: b2 :: b3 :: l)
  = if (b0 =? 0) && (b1 =? 0) && (b2 =? 1) then Some (0x100 + b3)
    else first_start_code (b1 :: b2 :: b3 :: l).
Proof. reflexivity. Qed.

(** The scanner, with the three bytes read last in its register, returns
    the first start code of these and of the bytes it may still read: the
    bytes that are left and the zero that [get_byte] gives at the end of
    the input, as far as the budget goes. *)
Lemma find_start_code_loop_first (n : nat) :
  forall (pb : ByteIOContext) (b c d : Z),
    0 <= b < 256 -> 0 <= c < 256 -> 0 <= d < 256 ->
    eof_reached pb = false ->
    match first_start_code (b :: c :: d :: firstn n (unread pb ++ [0])) with
    | Some code =>
        fst (fst (fst (find_start_code_loop n pb (b * 2 ^ 16 + c * 2 ^ 8 + d)))) = code
        /\ 0x100 <= code
    | None =>
        fst (fst (fst (find_start_code_loop n pb (b * 2 ^ 16 + c * 2 ^ 8 + d)))) = -1
    end.
Proof.
  induction n as [|n IH]; intros pb b c d Hb Hc Hd Heof;
    cbn [find_start_code_loop]; [reflexivity|].
  unfold url_feof. rewrite Heof.
  pose proof (get_byte_unread pb Heof) as Hget.
  assert (Htest : (b * 2 ^ 16 + c * 2 ^ 8 + d =? 0x000001)
                  = (b =? 0) && (c =? 0) && (d =? 1)).
  { destruct (Z.eqb_spec b 0), (Z.eqb_spec c 0), (Z.eqb_spec d 1); cbn [andb];
      try (apply Z.eqb_neq; lia). apply Z.eqb_eq. subst. reflexivity. }
  destruct (unread pb) as [|x tl] eqn:Hunread.
  - destruct Hget as [Hv Heof'].
    destruct (get_byte pb) as [v pb1]. cbn [fst snd] in *. subst v.
    cbn [app firstn]. rewrite firstn_nil, first_start_code_step, Htest.
    destruct ((b =? 0) && (c =? 0) && (d =? 1)) eqn:Hfound.
    + cbn [fst]. rewrite scanner_shift by lia.
      apply andb_true_iff in Hfound as [Hfound Hd1].
      apply andb_true_iff in Hfound as [Hb0 Hc0].
      apply Z.eqb_eq in Hb0, Hc0, Hd1. subst. split; reflexivity.
    + apply find_start_code_loop_eof; exact Heof'.
  - destruct Hget as (Hv & Hx & Htl & Heof').
    destruct (get_byte pb) as [v pb1]. cbn [fst snd] in *. subst v.
    cbn [app firstn]. rewrite first_start_code_step, Htest.
    destruct ((b =? 0) && (c =? 0) && (d =? 1)) eqn:Hfound.
    + cbn [fst]. rewrite scanner_shift by lia.
      apply andb_true_iff in Hfound as [Hfound Hd1].
      apply andb_true_iff in Hfound as [Hb0 Hc0].
      apply Z.eqb_eq in Hb0, Hc0, Hd1. subst. split; [reflexivity | lia].
    + rewrite scanner_shift by lia.
      specialize (IH pb1 c d x Hc Hd Hx Heof'). rewrite Htl in IH. exact IH.
Qed.

(** The scan of a turn fails exactly when the source is at its end, or
    when the bytes within the budget hold no start code. *)
Lemma scan_fails_iff (s : Demux.AVFormatContext) :
  scan_fails s
  <-> eof_reached (Demux.pb s) = true
      \/ first_start_code
           (firstn (Z.to_nat MAX_SYNC_SIZE) (unread (Demux.pb s) ++ [0])) = None.
Proof.
  unfold scan_fails.
  pose proof (next_start_code_keeps (Demux.pb s)) as Hk.
  assert (Hval : (exists pb' hs, next_start_code (Demux.pb s) = ScanFail pb' hs)
                 <-> fst (fst (fst (find_start_code (Demux.pb s) MAX_SYNC_SIZE 0xff))) = -1).
  { destruct (next_start_code (Demux.pb s)) as [pb1 hs|pb1 hs|sc pb1 hs].
    - split; [intros _; apply Hk | eauto].
    - split; [intros (? & ? & [=]) | destruct Hk as (_ & Hr & _); lia].
    - split; [intros (? & ? & [=]) | destruct Hk as (_ & Hr & _); lia]. }
  rewrite Hval. clear Hval Hk.
  unfold find_start_code. change (uint32 0xff) with (0 * 2 ^ 16 + 0 * 2 ^ 8 + 0xff).
  assert (Hfst : forall r : Z * ByteIOContext * nat * Z,
             fst (fst (fst (let '(val, pb, n, state) := r in (val, pb, Z.of_nat n, state))))
             = fst (fst (fst r))) by (intros [[[? ?] ?] ?]; reflexivity).
  rewrite Hfst.
  destruct (eof_reached (Demux.pb s)) eqn:Heof.
  - split; [auto|]. intros _. now apply find_start_code_loop_eof.
  - pose proof (find_start_code_loop_first (Z.to_nat MAX_SYNC_SIZE) (Demux.pb s)
                  0 0 0xff ltac:(lia) ltac:(lia) ltac:(lia) Heof) as Hfirst.
    rewrite first_start_code_initial in Hfirst.
    destruct (first_start_code _) as [code|].
    + destruct Hfirst as [-> Hcode]. split; [lia | intros [|]; discriminate].
    + split; auto.
Qed.

(** C7. The errors of [mpegps_read_packet].  The function always returns,
    a packet or the error [EIO]; it returns [EIO] exactly when, after the
    resynchronizations of the turns before, the scan for a start code
    fails, which it does only with its budget of [MAX_SYNC_SIZE] bytes
    used up or at the end of the input, that is when the bytes it may read
    hold no start code, or the packet found has an MPEG-2 header with
    scrambling control bits.  A header length that exceeds
    the length left is no error: the turn ends with [goto redo] and the
    function goes on from the next start code. *)
Theorem read_packet_errors (MAX_STREAMS : nat) (s : Demux.AVFormatContext) :
  (exists fuel r s', mpegps_read_packet MAX_STREAMS fuel s = Some (r, s'))
  /\ (forall fuel r s',
         mpegps_read_packet MAX_STREAMS fuel s = Some (r, s') ->
         (r = Demux.RetError EIO \/ exists pkt, r = Demux.RetPacket pkt)
         /\ (r = Demux.RetError EIO
             <-> exists s1, resyncs MAX_STREAMS s s1
                            /\ (scan_fails s1 \/ encrypted_pes s1)))
  /\ (forall s1,
         scan_fails s1 ->
         let '(val, pb', size', _) := find_start_code (Demux.pb s1) MAX_SYNC_SIZE 0xff in
         val = -1 /\ (size' = 0 \/ url_feof pb' = true))
  /\ (forall s1,
         scan_fails s1
         <-> eof_reached (Demux.pb s1) = true
             \/ first_start_code
                  (firstn (Z.to_nat MAX_SYNC_SIZE) (unread (Demux.pb s1) ++ [0])) = None)
  /\ (forall s1,
         header_len_exceeds s1 ->
         ~ scan_fails s1 /\ ~ encrypted_pes s1
         /\ exists s2,
             read_packet_turn MAX_STREAMS s1 = (Demux.Redo, s2)
             /\ forall fuel,
                 mpegps_read_packet MAX_STREAMS (S fuel) s1
                 = mpegps_read_packet MAX_STREAMS fuel s2).
Proof.
  split; [apply mpegps_read_packet_total|]. split; [|split; [|split; [apply scan_fails_iff|]]].
  - intros fuel r s' Hrun.
    destruct (mpegps_read_packet_chain MAX_STREAMS fuel s r s' Hrun)
      as (s1 & Hchain & Hlast).
    pose proof (read_packet_turn_error MAX_STREAMS s1) as Herr.
    rewrite Hlast in Herr. split.
    + destruct r as [e|pkt]; [left; destruct Herr as [-> _]; reflexivity | right; eauto].
    + split.
      * intros ->. exists s1. tauto.
      * intros (s2 & Hchain2 & Hcause).
        pose proof (read_packet_turn_error MAX_STREAMS s2) as Herr2.
        destruct (read_packet_turn MAX_STREAMS s2) as [[[e|pkt]|] s3] eqn:Hturn2;
          try tauto.
        destruct Herr2 as [-> _].
        destruct (resyncs_run MAX_STREAMS s s2 Hchain2 _ _ Hturn2) as [_ Huniq].
        now destruct (Huniq fuel r s' Hrun).
  - intros s1 (pb' & hs & Hscan).
    pose proof (next_start_code_keeps (Demux.pb s1)) as Hk. rewrite Hscan in Hk.
    destruct Hk as [_ Hval].
    pose proof (find_start_code_keeps (Demux.pb s1)) as Hfind.
    destruct (find_start_code (Demux.pb s1) MAX_SYNC_SIZE 0xff)
      as [[[val pb1] size'] state']. cbn [fst] in Hval.
    destruct Hfind as [_ [[_ Hend]|[Hfound _]]]; [auto | lia].
  - intros s1 Hexceeds.
    destruct (read_packet_turn_resync MAX_STREAMS s1 Hexceeds)
      as (c & len & pb2 & hs & _ & Hturn).
    pose proof (read_packet_turn_error MAX_STREAMS s1) as Herr.
    rewrite Hturn in Herr. destruct Herr as [Hns Hne].
    split; [exact Hns|]. split; [exact Hne|].
    eexists. split; [exact Hturn|].
    intros fuel. cbn [mpegps_read_packet]. now rewrite Hturn.
Qed.




(** The example packets: the scrambled one is refused with [EIO]; the one
    with the excessive header length is passed over and the packet behind
    it is returned. *)
Lemma read_packet_examples :
  header_len_exceeds (open_demux packet_bad_header_len)
  /\ encrypted_pes (open_demux packet_encrypted)
  /\ (exists s', mpegps_read_packet 20 1 (open_demux packet_encrypted)
                 = Some (Demux.RetError EIO, s'))
  /\ (exists s', mpegps_read_packet 20 2 (open_demux packet_bad_header_len)
                 = Some (Demux.RetPacket
                           {| AVPacket.data := [0xaa; 0xbb]; AVPacket.size := 2;
                              AVPacket.pts := 0; AVPacket.stream_index := 0 |}, s'))
  /\ (exists s', mpegps_read_packet 20 1 (open_demux [0x11; 0x22; 0x33])
                 = Some (Demux.RetError EIO, s')).
Proof.
  split; [|split; [|split; [|split]]].
  - exists 0x80, 3, (at_offset (firstn 7 packet_bad_header_len)
                               (skipn 7 packet_bad_header_len) false).
    split; [vm_compute; reflexivity|].
    repeat split; vm_compute; congruence.
  - exists 0x90, 13, (at_offset (firstn 8 packet_encrypted)
                                (skipn 8 packet_encrypted) false).
    split; [vm_compute; reflexivity|].
    split; vm_compute; congruence.
  - eexists. vm_compute. reflexivity.
  - eexists. vm_compute. reflexivity.
  - eexists. vm_compute. reflexivity.
Qed.

(** ** The muxer and the demuxer together *)

(** The second audio packet of the example session is stamped 2351, one
    audio frame of 1152 samples at 44100 Hz in units of 1/90000 s; the
    demuxer reads the 2048 bytes of the packet back as its five bytes with
    that timestamp. *)
Lemma mux_demux_example :
  exists (tr : list put_op) (s' : Demux.AVFormatContext),
    second_audio_packet = Some tr
    /\ length (sink_bytes tr) = 2048%nat
    /\ mpegps_read_packet 20 1 (open_demux (sink_bytes tr))
       = Some (Demux.RetPacket
                 {| AVPacket.data := [1; 2; 3; 4; 5]; AVPacket.size := 5;
                    AVPacket.pts := 2351; AVPacket.stream_index := 0 |}, s').
Proof.
  destruct second_audio_packet as [tr|] eqn:Hpacket;
    [|vm_compute in Hpacket; discriminate].
  assert (Hlen : (length <$> (sink_bytes <$> second_audio_packet)) = Some 2048%nat)
    by (vm_compute; reflexivity).
  assert (Hread :
    (fst <$> ((sink_bytes <$> second_audio_packet)
              ≫= fun l => mpegps_read_packet 20 1 (open_demux l)))
    = Some (Demux.RetPacket
              {| AVPacket.data := [1; 2; 3; 4; 5]; AVPacket.size := 5;
                 AVPacket.pts := 2351; AVPacket.stream_index := 0 |}))
    by (vm_compute; reflexivity).
  rewrite Hpacket in Hlen, Hread.
  cbn [fmap option_fmap option_map mbind option_bind] in Hlen, Hread.
  destruct (mpegps_read_packet 20 1 (open_demux (sink_bytes tr))) as [[r s']|] eqn:Hrun;
    [|discriminate].
  cbn [option_map fst] in Hread.
  injection Hlen as Hlen. injection Hread as ->.
  exists tr, s'. split; [reflexivity|]. split; [exact Hlen | exact Hrun].
Qed.

(** The system header of the VOB session: one entry for the video stream
    and one entry, with the id 0xbd, for the two AC-3 streams. *)
Lemma system_header_example :
  exists ctx : AVFormatContext,
    session_vob = Some ctx
    /\ map (fun st => StreamInfo.id (priv_data st)) (streams ctx) = [0xe0; 0x80; 0x81]
    /\ map fst (system_header_entries (streams ctx) false) = [0xe0; 0xbd]
    /\ put_system_header ctx
       = ([0x00; 0x00; 0x01; 0xbb; 0x00; 0x0c; 0x80; 0x1e; 0x01; 0x0b; 0x21; 0xff;
           0xe0; 0xe0; 0x2e; 0xbd; 0xc0; 0x20], 18).
Proof.
  destruct session_vob as [ctx|] eqn:Hsession; [|vm_compute in Hsession; discriminate].
  exists ctx. split; [reflexivity|].
  assert (H1 : (fun c => map (fun st => StreamInfo.id (priv_data st)) (streams c))
               <$> session_vob = Some [0xe0; 0x80; 0x81]) by (vm_compute; reflexivity).
  assert (H2 : (fun c => map fst (system_header_entries (streams c) false))
               <$> session_vob = Some [0xe0; 0xbd]) by (vm_compute; reflexivity).
  assert (H3 : put_system_header <$> session_vob
               = Some ([0x00; 0x00; 0x01; 0xbb; 0x00; 0x0c; 0x80; 0x1e; 0x01; 0x0b;
                        0x21; 0xff; 0xe0; 0xe0; 0x2e; 0xbd; 0xc0; 0x20], 18))
    by (vm_compute; reflexivity).
  rewrite Hsession in H1, H2, H3. cbn [fmap option_fmap option_map] in H1, H2, H3.
  apply (inj Some) in H1, H2, H3. auto.
Qed.

(** * Further properties of the code *)

(** ** find_start_code: budget, result and resumption *)

Lemma scanner_state_range (state v : Z) :
  0 <= Z.land (uint32 (Z.lor (Z.shiftl state 8) v)) 0xffffff < 2 ^ 24.
Proof.
  change 0xffffff with (Z.ones 24). rewrite Z.land_ones by lia.
  apply Z.mod_pos_bound. lia.
Qed.

Lemma scanner_found (v : Z) :
  0 <= v < 256 -> Z.land (uint32 (Z.lor (Z.shiftl 1 8) v)) 0xffffff = 0x100 + v.
Proof.
  intros Hv. unfold uint32. change 0xffffff with (Z.ones 24).
  rewrite Z.land_ones by lia.
  assert (Hlor : Z.lor (Z.shiftl 1 8) v = 0x100 + v) by (rewrite lor_shiftl8 by lia; lia).
  rewrite Hlor, (Z.mod_small (0x100 + v) (2 ^ 32)) by lia.
  apply Z.mod_small. lia.
Qed.

Lemma get_byte_pos (pb : ByteIOContext) :
  ByteIO.data (snd (get_byte pb)) = ByteIO.data pb
  /\ ByteIO.pos pb <= ByteIO.pos (snd (get_byte pb)) <= ByteIO.pos pb + 1
  /\ (eof_reached (snd (get_byte pb)) = false ->
      ByteIO.pos (snd (get_byte pb)) = ByteIO.pos pb + 1)
  /\ (eof_reached pb = true -> eof_reached (snd (get_byte pb)) = true)
  /\ 0 <= fst (get_byte pb) < 256.
Proof.
  unfold get_byte. destruct (in_range pb); cbn [fst snd ByteIO.data ByteIO.pos eof_reached].
  - repeat split; try lia; try apply uint8_range; auto.
  - repeat split; try lia; try discriminate; auto.
Qed.

(** The loop of the scanner: it reads one byte for each unit of the budget
    it uses, and stops without a start code only with the budget used up or
    at the end of the input. *)
Lemma find_start_code_loop_budget (n : nat) :
  forall (pb : ByteIOContext) (state : Z),
    let '(val, pb', n', state') := find_start_code_loop n pb state in
    ByteIO.data pb' = ByteIO.data pb
    /\ (eof_reached pb = true -> eof_reached pb' = true)
    /\ (n' <= n)%nat
    /\ ByteIO.pos pb <= ByteIO.pos pb' <= ByteIO.pos pb + Z.of_nat (n - n')
    /\ (eof_reached pb' = false -> ByteIO.pos pb' = ByteIO.pos pb + Z.of_nat (n - n'))
    /\ (val = -1 /\ (n' = O \/ url_feof pb' = true)
        \/ 0x100 <= val <= 0x1ff /\ state' = val /\ (n' < n)%nat).
Proof.
  induction n as [|n IH]; intros pb state; cbn [find_start_code_loop].
  - repeat split; try lia; auto.
  - unfold url_feof. destruct (eof_reached pb) eqn:Heof.
    + repeat split; try lia; auto; congruence.
    + pose proof (get_byte_pos pb) as (Hd & Hp & Hpe & Hee & Hv).
      destruct (get_byte pb) as [v pb1]. cbn [fst snd] in *.
      destruct (Z.eqb_spec state 0x000001) as [->|Hnot].
      * rewrite scanner_found by lia.
        split; [exact Hd|]. split; [discriminate|]. split; [lia|].
        split; [lia|]. split; [intros He; rewrite (Hpe He); lia|].
        right. repeat split; lia.
      * specialize (IH pb1 (Z.land (uint32 (Z.lor (Z.shiftl state 8) v)) 0xffffff)).
        destruct (find_start_code_loop n pb1 _) as [[[val pb'] n'] state'].
        destruct IH as (Hd' & He' & Hn' & Hp' & Hpe' & Hres).
        split; [congruence|]. split; [discriminate|]. split; [lia|]. split; [lia|]. split.
        -- intros He. specialize (Hpe' He).
           destruct (eof_reached pb1) eqn:E1; [specialize (He' eq_refl); congruence|].
           rewrite Hpe', (Hpe eq_refl). lia.
        -- destruct Hres as [H|(H1 & H2 & H3)]; [left; exact H | right; repeat split; lia].
Qed.

Lemma uint32_small (z : Z) : 0 <= z < 2 ^ 32 -> uint32 z = z.
Proof. intros H. unfold uint32. apply Z.mod_small. exact H. Qed.

Lemma find_start_code_loop_state (n : nat) :
  forall (pb : ByteIOContext) (state : Z),
    0 <= state < 2 ^ 32 ->
    0 <= snd (find_start_code_loop n pb state) < 2 ^ 32.
Proof.
  induction n as [|n IH]; intros pb state Hst; cbn [find_start_code_loop]; [exact Hst|].
  destruct (url_feof pb); [exact Hst|].
  destruct (get_byte pb) as [v pb1].
  pose proof (scanner_state_range state v) as Hr.
  destruct (state =? 0x000001); [cbn [snd]; lia|].
  apply IH. lia.
Qed.

(** A scan with the budget [n1 + n2] is a scan with the budget [n1],
    taken up again from where it stopped if it used its budget up. *)
Lemma find_start_code_loop_resume (n1 n2 : nat) :
  forall (pb : ByteIOContext) (state : Z),
    find_start_code_loop (n1 + n2) pb state
    = let '(val, pb1, r, state1) := find_start_code_loop n1 pb state in
      if (val <? 0) && (r =? 0)%nat then find_start_code_loop n2 pb1 state1
      else (val, pb1, (r + n2)%nat, state1).
Proof.
  induction n1 as [|n1 IH]; intros pb state.
  - reflexivity.
  - cbn [Nat.add find_start_code_loop].
    destruct (url_feof pb); [reflexivity|].
    destruct (get_byte pb) as [v pb1].
    pose proof (scanner_state_range state v) as Hr.
    destruct (state =? 0x000001).
    + destruct (Z.ltb_spec (Z.land (uint32 (Z.lor (Z.shiftl state 8) v)) 0xffffff) 0);
        [lia | reflexivity].
    + apply IH.
Qed.

(** X1. [find_start_code] stays within its budget.  Called with a budget
    [size] that is not negative, it leaves the input as it is, reads at
    most [size - size'] bytes, where [size'] is the budget it gives back,
    and exactly so many unless it met the end of the input.  It returns
    either -1, with the budget used up or the end of the input reached, or
    a start code between 0x100 and 0x1ff, which is then also the new
    [header_state]. *)
Theorem find_start_code_budget (pb : ByteIOContext) (size header_state : Z) :
  0 <= size ->
  let '(val, pb', size', header_state') := find_start_code pb size header_state in
  ByteIO.data pb' = ByteIO.data pb
  /\ 0 <= size' <= size
  /\ ByteIO.pos pb <= ByteIO.pos pb' <= ByteIO.pos pb + (size - size')
  /\ (url_feof pb' = false -> ByteIO.pos pb' = ByteIO.pos pb + (size - size'))
  /\ (val = -1 /\ (size' = 0 \/ url_feof pb' = true)
      \/ 0x100 <= val <= 0x1ff /\ header_state' = val /\ size' < size).
Proof.
  intros Hsize. unfold find_start_code.
  pose proof (find_start_code_loop_budget (Z.to_nat size) pb (uint32 header_state)) as H.
  destruct (find_start_code_loop _ pb _) as [[[val pb'] n'] state'].
  destruct H as (Hd & _ & Hn & Hp & Hpe & Hres).
  split; [exact Hd|]. split; [lia|]. split; [lia|].
  split; [intros He; rewrite (Hpe He); lia|].
  destruct Hres as [[H1 H2]|(H1 & H2 & H3)]; [left | right; repeat split; lia].
  split; [exact H1|]. destruct H2 as [->|H2]; auto.
Qed.

Lemma find_start_code_budget_witness :
  let '(val, pb', size', header_state') :=
    find_start_code (open_input [0x47; 0x00; 0x00; 0x01; 0xe0; 0x12]) 100 0xff in
  ByteIO.data pb' = ByteIO.data (open_input [0x47; 0x00; 0x00; 0x01; 0xe0; 0x12])
  /\ 0 <= size' <= 100
  /\ ByteIO.pos (open_input [0x47; 0x00; 0x00; 0x01; 0xe0; 0x12])
     <= ByteIO.pos pb'
     <= ByteIO.pos (open_input [0x47; 0x00; 0x00; 0x01; 0xe0; 0x12]) + (100 - size')
  /\ (url_feof pb' = false ->
      ByteIO.pos pb'
      = ByteIO.pos (open_input [0x47; 0x00; 0x00; 0x01; 0xe0; 0x12]) + (100 - size'))
  /\ (val = -1 /\ (size' = 0 \/ url_feof pb' = true)
      \/ 0x100 <= val <= 0x1ff /\ header_state' = val /\ size' < 100).
Proof.
  apply (find_start_code_budget (open_input [0x47; 0x00; 0x00; 0x01; 0xe0; 0x12]) 100 0xff).
  lia.
Defined.

(** X2. The scan can be taken up again.  [header_state] carries the
    register of the scanner from one call to the next: a call with the
    budget [size1 + size2] gives what a call with the budget [size1] gives,
    followed, if that call used its budget up without finding a start code,
    by a call with the budget [size2] on the state it left.  A start code
    cut in two by the end of a budget is found all the same. *)
Theorem find_start_code_resume (pb : ByteIOContext) (size1 size2 header_state : Z) :
  0 <= size1 -> 0 <= size2 ->
  find_start_code pb (size1 + size2) header_state
  = let '(val, pb1, left1, state1) := find_start_code pb size1 header_state in
    if (val <? 0) && (left1 =? 0) then find_start_code pb1 size2 state1
    else (val, pb1, left1 + size2, state1).
Proof.
  intros H1 H2. unfold find_start_code.
  rewrite Z2Nat.inj_add by lia. rewrite find_start_code_loop_resume.
  pose proof (find_start_code_loop_state (Z.to_nat size1) pb (uint32 header_state)
                ltac:(unfold uint32; apply Z.mod_pos_bound; lia)) as Hst.
  destruct (find_start_code_loop (Z.to_nat size1) pb _) as [[[val pb1] r] state1].
  cbn [snd] in Hst.
  replace (Z.of_nat r =? 0) with (r =? 0)%nat
    by (destruct r; reflexivity).
  destruct ((val <? 0) && (r =? 0)%nat).
  - now rewrite (uint32_small state1 Hst).
  - now rewrite Nat2Z.inj_add, Z2Nat.id by lia.
Qed.

Lemma find_start_code_resume_witness :
  find_start_code (open_input [0x47; 0x00; 0x00; 0x01; 0xe0; 0x12]) (3 + 5) 0xff
  = (let '(val, pb1, left1, state1) :=
       find_start_code (open_input [0x47; 0x00; 0x00; 0x01; 0xe0; 0x12]) 3 0xff in
     if (val <? 0) && (left1 =? 0) then find_start_code pb1 5 state1
     else (val, pb1, left1 + 5, state1))
  /\ fst (fst (fst (find_start_code
                      (open_input [0x47; 0x00; 0x00; 0x01; 0xe0; 0x12]) 3 0xff))) = -1
  /\ fst (fst (fst (find_start_code
                      (open_input [0x47; 0x00; 0x00; 0x01; 0xe0; 0x12]) (3 + 5) 0xff)))
     = 0x1e0.
Proof.
  split; [|split; reflexivity].
  apply (find_start_code_resume (open_input [0x47; 0x00; 0x00; 0x01; 0xe0; 0x12])
           3 5 0xff); lia.
Defined.

(** ** mpegps_read_packet: the fields of a returned packet *)

Lemma lor_below (n a b : Z) :
  0 <= n -> 0 <= a < 2 ^ n -> 0 <= b < 2 ^ n -> 0 <= Z.lor a b < 2 ^ n.
Proof.
  intros Hn Ha Hb. split; [apply Z.lor_nonneg; lia|].
  destruct (Z.eq_dec a 0) as [->|Ha0]; [rewrite Z.lor_0_l; lia|].
  destruct (Z.eq_dec b 0) as [->|Hb0]; [rewrite Z.lor_0_r; lia|].
  assert (Hpos : 0 < Z.lor a b).
  { pose proof (proj2 (Z.lor_nonneg a b) ltac:(lia)) as Hge.
    destruct (Z.eq_dec (Z.lor a b) 0) as [H0|]; [|lia].
    apply Z.lor_eq_0_iff in H0. lia. }
  apply Z.log2_lt_pow2; [exact Hpos|].
  rewrite Z.log2_lor by lia.
  apply Z.max_lub_lt; apply Z.log2_lt_pow2; lia.
Qed.

Lemma get_be16_range (pb : ByteIOContext) : 0 <= fst (get_be16 pb) < 2 ^ 16.
Proof.
  unfold get_be16.
  pose proof (get_byte_keeps pb 0) as (_ & Hb1 & _).
  destruct (get_byte pb) as [b1 pb1]. cbn [fst] in Hb1.
  pose proof (get_byte_keeps pb1 0) as (_ & Hb2 & _).
  destruct (get_byte pb1) as [b2 pb2]. cbn [fst] in *.
  apply lor_below; [lia| |lia].
  rewrite Z.shiftl_mul_pow2 by lia. lia.
Qed.

Lemma get_pts_range (pb : ByteIOContext) (c : Z) : 0 <= fst (get_pts pb c) < 2 ^ 33.
Proof.
  unfold get_pts.
  destruct (if c <? 0 then get_byte pb else (c, pb)) as [c' pb0].
  pose proof (get_be16_range pb0) as H1.
  destruct (get_be16 pb0) as [v1 pb1]. cbn [fst] in H1.
  pose proof (get_be16_range pb1) as H2.
  destruct (get_be16 pb1) as [v2 pb2]. cbn [fst] in *.
  assert (Hc : 0 <= Z.land (Z.shiftr c' 1) 7 < 8).
  { change 7 with (Z.ones 3). rewrite Z.land_ones by lia. apply Z.mod_pos_bound. lia. }
  assert (Hv1 : 0 <= Z.shiftr v1 1 < 2 ^ 15).
  { rewrite Z.shiftr_div_pow2 by lia. change (2 ^ 1) with 2.
    split; [apply Z.div_pos; lia | apply Z.div_lt_upper_bound; lia]. }
  assert (Hv2 : 0 <= Z.shiftr v2 1 < 2 ^ 15).
  { rewrite Z.shiftr_div_pow2 by lia. change (2 ^ 1) with 2.
    split; [apply Z.div_pos; lia | apply Z.div_lt_upper_bound; lia]. }
  apply lor_below; [lia| |lia].
  apply lor_below; [lia| |]; rewrite Z.shiftl_mul_pow2 by lia; lia.
Qed.

Lemma read_pes_header_pts (pb : ByteIOContext) (c len : Z) :
  match read_pes_header pb c len with
  | HeaderOk pts _ _ _ => 0 <= pts < 2 ^ 33
  | _ => True
  end.
Proof.
  unfold read_pes_header.
  destruct (Z.land c 0xf0 =? 0x20).
  { pose proof (get_pts_range pb c). destruct (get_pts pb c). assumption. }
  destruct (Z.land c 0xf0 =? 0x30).
  { pose proof (get_pts_range pb c). destruct (get_pts pb c) as [p pb1].
    destruct (get_pts pb1 (-1)). assumption. }
  destruct (Z.land c 0xc0 =? 0x80); [|lia].
  destruct (negb (Z.land c 0x30 =? 0)); [exact I|].
  destruct (get_byte pb) as [flags pb1]. destruct (get_byte pb1) as [hl pb2].
  destruct (len - 2 <? hl); [exact I|].
  assert (H1 : 0 <= (let '(pts, _, _, _, _) :=
             (if Z.land flags 0xc0 =? 0x80
              then let '(pts, pb) := get_pts pb2 (-1) in (pts, pts, hl - 5, len - 2 - 5, pb)
              else (0, 0, hl, len - 2, pb2)) in pts) < 2 ^ 33).
  { destruct (Z.land flags 0xc0 =? 0x80); [|lia].
    pose proof (get_pts_range pb2 (-1)). destruct (get_pts pb2 (-1)). assumption. }
  destruct (if Z.land flags 0xc0 =? 0x80 then _ else _) as [[[[p1 d1] h1] l1] pb3].
  destruct (Z.land flags 0xc0 =? 0xc0); [|exact H1].
  pose proof (get_pts_range pb3 (-1)). destruct (get_pts pb3 (-1)) as [p pb4].
  destruct (get_pts pb4 (-1)). assumption.
Qed.

Section PacketFields.

Import Demux.

Variable MAX_STREAMS : nat.

Lemma deliver_packet_pts (s : AVFormatContext) (hs startcode pts len : Z)
    (pb0 : ByteIOContext) (pkt : AVPacket.t) (s' : AVFormatContext) :
  deliver_packet MAX_STREAMS s hs startcode pts len pb0 = (Return (RetPacket pkt), s') ->
  AVPacket.pts pkt = pts /\ AVPacket.size pkt = len
  /\ AVPacket.data pkt = fst (get_buffer pb0 len).
Proof.
  unfold deliver_packet, read_payload.
  destruct (List.find _ (streams s)) as [st|].
  { destruct (get_buffer pb0 len). intros [= <- _]. auto. }
  destruct (new_stream_codec startcode) as [[type cid]|]; [|discriminate].
  destruct (av_new_stream MAX_STREAMS (streams s) startcode) as [[st sts]|]; [|discriminate].
  destruct (get_buffer pb0 len). intros [= <- _]. auto.
Qed.

End PacketFields.

Lemma stuffing_loop_len (k : nat) :
  forall (pb : ByteIOContext) (len : Z),
    snd (fst (stuffing_loop k pb len)) <= len - 1.
Proof.
  induction k as [|k IH]; intros pb len; cbn [stuffing_loop];
    destruct (get_byte pb) as [c pb1]; destruct (c =? 0xff); cbn [fst snd]; try lia.
  specialize (IH pb1 (len - 1)). lia.
Qed.

Lemma read_stuffing_len (pb : ByteIOContext) :
  snd (fst (read_stuffing pb)) < 2 ^ 16 - 1.
Proof.
  unfold read_stuffing.
  pose proof (get_be16_range pb) as Hlen.
  destruct (get_be16 pb) as [len pb1]. cbn [fst] in Hlen.
  pose proof (stuffing_loop_len (remaining pb1) pb1 len) as Hstuff.
  destruct (stuffing_loop (remaining pb1) pb1 len) as [[c len1] pb2]. cbn [fst snd] in Hstuff.
  destruct (Z.land c 0xc0 =? 0x40); [|cbn [fst snd]; lia].
  destruct (get_byte pb2) as [x pb3]. destruct (get_byte pb3) as [c' pb4].
  cbn [fst snd]. lia.
Qed.

Lemma read_pes_header_len (pb : ByteIOContext) (c len : Z) :
  match read_pes_header pb c len with
  | HeaderOk _ _ len' _ => len' <= len
  | _ => True
  end.
Proof.
  unfold read_pes_header.
  destruct (Z.land c 0xf0 =? 0x20).
  { destruct (get_pts pb c). lia. }
  destruct (Z.land c 0xf0 =? 0x30).
  { destruct (get_pts pb c) as [p pb1]. destruct (get_pts pb1 (-1)). lia. }
  destruct (Z.land c 0xc0 =? 0x80); [|lia].
  destruct (negb (Z.land c 0x30 =? 0)); [exact I|].
  destruct (get_byte pb) as [flags pb1].
  pose proof (get_byte_keeps pb1 0) as (_ & Hhl & _).
  destruct (get_byte pb1) as [hl pb2]. cbn [fst] in Hhl.
  destruct (len - 2 <? hl); [exact I|].
  destruct (Z.land flags 0xc0 =? 0x80) eqn:H80.
  - destruct (get_pts pb2 (-1)) as [p pb3].
    assert (Hc0 : (Z.land flags 0xc0 =? 0xc0) = false).
    { apply Z.eqb_eq in H80. rewrite H80. reflexivity. }
    rewrite Hc0. lia.
  - destruct (Z.land flags 0xc0 =? 0xc0).
    + destruct (get_pts pb2 (-1)) as [p pb3]. destruct (get_pts pb3 (-1)). lia.
    + lia.
Qed.

Lemma read_private_id_len (startcode len : Z) (pb : ByteIOContext) :
  snd (fst (read_private_id startcode len pb)) <= len.
Proof.
  unfold read_private_id. destruct (startcode =? 0x1bd); [|cbn; lia].
  destruct (get_byte pb) as [sc pb1].
  destruct ((0x80 <=? sc) && (sc <=? 0xbf)); cbn [fst snd]; lia.
Qed.

Lemma get_buffer_bounds (pb : ByteIOContext) (size : Z) :
  Z.of_nat (length (fst (get_buffer pb size))) <= Z.max 0 size
  /\ Forall (fun b => 0 <= b < 256) (fst (get_buffer pb size)).
Proof.
  unfold get_buffer. cbn [fst]. split.
  - rewrite length_map, length_firstn. lia.
  - generalize (firstn (Z.to_nat size)
                 (if in_range pb then skipn (Z.to_nat (pos pb)) (data pb) else [])).
    intros l. induction l as [|x l IH]; cbn [map]; constructor;
      [apply uint8_range | exact IH].
Qed.

Section PacketBounds.

Import Demux.

Variable MAX_STREAMS : nat.

Lemma read_packet_turn_bounds (s s' : AVFormatContext) (pkt : AVPacket.t) :
  read_packet_turn MAX_STREAMS s = (Return (RetPacket pkt), s') ->
  0 <= AVPacket.pts pkt < 2 ^ 33
  /\ AVPacket.size pkt < 2 ^ 16 - 1
  /\ Z.of_nat (length (AVPacket.data pkt)) <= Z.max 0 (AVPacket.size pkt)
  /\ Forall (fun b => 0 <= b < 256) (AVPacket.data pkt).
Proof.
  unfold read_packet_turn.
  destruct (next_start_code (pb s)) as [pb1 hs|pb1 hs|sc pb1 hs]; try discriminate.
  pose proof (read_stuffing_len pb1) as Hlen1.
  destruct (read_stuffing pb1) as [[c len] pb2]. cbn [fst snd] in Hlen1.
  pose proof (read_pes_header_pts pb2 c len) as Hpts.
  pose proof (read_pes_header_len pb2 c len) as Hlen2.
  destruct (read_pes_header pb2 c len) as [pts dts len3 pb3|pb3|pb3]; try discriminate.
  pose proof (read_private_id_len sc len3 pb3) as Hlen3.
  destruct (read_private_id sc len3 pb3) as [[sc' len4] pb4]. cbn [fst snd] in Hlen3.
  intros H. apply deliver_packet_pts in H as (-> & -> & ->).
  split; [exact Hpts|]. split; [lia|]. apply get_buffer_bounds.
Qed.

End PacketBounds.

(** X3. The fields of a packet that [mpegps_read_packet] returns.  Whatever
    the input holds, the timestamp of a returned packet is a 33-bit number,
    its size is below 65535, its data are bytes, and there are at most
    [size] of them (fewer when the input ends inside the packet). *)
Theorem read_packet_bounds (MAX_STREAMS fuel : nat) (s s' : Demux.AVFormatContext)
    (pkt : AVPacket.t) :
  mpegps_read_packet MAX_STREAMS fuel s = Some (Demux.RetPacket pkt, s') ->
  0 <= AVPacket.pts pkt < 2 ^ 33
  /\ AVPacket.size pkt < 2 ^ 16 - 1
  /\ Z.of_nat (length (AVPacket.data pkt)) <= Z.max 0 (AVPacket.size pkt)
  /\ Forall (fun b => 0 <= b < 256) (AVPacket.data pkt).
Proof.
  revert s. induction fuel as [|fuel IH]; intros s; cbn [mpegps_read_packet];
    [discriminate|].
  destruct (read_packet_turn MAX_STREAMS s) as [[r|] s1] eqn:Hturn.
  - intros [= -> ->]. eapply read_packet_turn_bounds, Hturn.
  - apply IH.
Qed.

Lemma read_packet_bounds_witness :
  exists pkt s',
    mpegps_read_packet 20 1 (open_demux packet_with_pts_zero)
    = Some (Demux.RetPacket pkt, s')
    /\ 0 <= AVPacket.pts pkt < 2 ^ 33
    /\ AVPacket.size pkt < 2 ^ 16 - 1
    /\ Z.of_nat (length (AVPacket.data pkt)) <= Z.max 0 (AVPacket.size pkt)
    /\ Forall (fun b => 0 <= b < 256) (AVPacket.data pkt).
Proof.
  destruct (mpegps_read_packet 20 1 (open_demux packet_with_pts_zero))
    as [[[e|pkt] s']|] eqn:Hrun; try (vm_compute in Hrun; discriminate Hrun).
  exists pkt, s'. split; [reflexivity|].
  apply (read_packet_bounds 20 1 (open_demux packet_with_pts_zero) s' pkt Hrun).
Defined.

(** ** mpegps_read_packet: the stream table *)

Section StreamTable.

Import Demux.

Variable MAX_STREAMS : nat.

Lemma deliver_packet_table (s : AVFormatContext) (hs startcode pts len : Z)
    (pb0 : ByteIOContext) (out : outcome) (s' : AVFormatContext) :
  table_ok (streams s) ->
  deliver_packet MAX_STREAMS s hs startcode pts len pb0 = (out, s') ->
  table_ok (streams s')
  /\ exists new : list AVStream,
       streams s' = streams s ++ new
       /\ match out with
          | Return (RetPacket pkt) =>
              exists st,
                streams s' !! Z.to_nat (AVPacket.stream_index pkt) = Some st
                /\ index st = AVPacket.stream_index pkt
                /\ id st = startcode
                /\ (new = [] \/ new = [st] /\ (length (streams s) < MAX_STREAMS)%nat)
          | _ => new = []
          end.
Proof.
  intros [Hidx Hnodup]. unfold deliver_packet, read_payload.
  pose proof (find_id_spec (streams s) startcode) as Hfind.
  destruct (List.find _ (streams s)) as [st|].
  { destruct (get_buffer pb0 len) as [data pb1]. intros [= <- <-]. cbn [streams].
    split; [split; assumption|]. exists []. rewrite app_nil_r. split; [reflexivity|].
    destruct Hfind as (i & Hi & Hid). destruct (Hidx i st Hi) as [Hindex _].
    exists st. cbn [AVPacket.stream_index]. rewrite Hindex, Nat2Z.id. auto. }
  destruct (new_stream_codec startcode) as [[type cid]|] eqn:Hcodec.
  2:{ intros [= <- <-]. cbn [streams]. split; [split; assumption|].
      exists []. now rewrite app_nil_r. }
  unfold av_new_stream.
  destruct (Nat.leb_spec MAX_STREAMS (length (streams s))) as [Hfull|Hroom].
  { intros [= <- <-]. cbn [streams]. split; [split; assumption|].
    exists []. now rewrite app_nil_r. }
  unfold set_codec. cbn [index id].
  set (st := {| index := Z.of_nat (length (streams s)); id := startcode;
                st_codec_type := type; st_codec_id := cid |}).
  destruct (get_buffer pb0 len) as [data pb1]. intros [= <- <-]. cbn [streams].
  rewrite Nat2Z.id.
  assert (Hins : <[length (streams s) :=
                     st]> (streams s ++ [{| index := Z.of_nat (length (streams s));
                                            id := startcode;
                                            st_codec_type := CODEC_TYPE_UNKNOWN;
                                            st_codec_id := CODEC_ID_NONE |}])
                 = streams s ++ [st]).
  { rewrite insert_app_r_alt by lia. now rewrite Nat.sub_diag. }
  rewrite Hins. split.
  - split.
    + intros i st' Hst'. apply lookup_app_Some in Hst' as [Hold|[Hge Hnew]].
      * now apply Hidx.
      * destruct (i - length (streams s))%nat as [|k] eqn:Hk; [|discriminate].
        injection Hnew as <-. cbn [index id st_codec_type st_codec_id st].
        split; [f_equal; lia | exact Hcodec].
    + rewrite map_app. cbn [map]. apply NoDup_app. split; [exact Hnodup|].
      split; [|apply NoDup_singleton].
      intros x Hx Hx'. apply list_elem_of_In in Hx.
      apply list_elem_of_singleton in Hx'. subst x. contradiction.
  - exists [st]. split; [reflexivity|].
    exists st. cbn [AVPacket.stream_index index st]. rewrite Nat2Z.id.
    split; [apply list_lookup_middle; reflexivity|]. auto.
Qed.

Lemma read_packet_turn_table (s s' : AVFormatContext) (out : outcome) :
  table_ok (streams s) ->
  read_packet_turn MAX_STREAMS s = (out, s') ->
  table_ok (streams s')
  /\ exists new : list AVStream,
       streams s' = streams s ++ new
       /\ match out with
          | Return (RetPacket pkt) =>
              exists st,
                streams s' !! Z.to_nat (AVPacket.stream_index pkt) = Some st
                /\ index st = AVPacket.stream_index pkt
                /\ (new = [] \/ new = [st] /\ (length (streams s) < MAX_STREAMS)%nat)
          | _ => new = []
          end.
Proof.
  intros Hok. unfold read_packet_turn.
  assert (Hsame : forall pb1 hs o,
    (forall pkt, o <> Return (RetPacket pkt)) ->
    (o, {| pb := pb1; streams := streams s; header_state := hs |}) = (out, s') ->
    table_ok (streams s')
    /\ exists new : list AVStream,
         streams s' = streams s ++ new
         /\ match out with
            | Return (RetPacket pkt) =>
                exists st,
                  streams s' !! Z.to_nat (AVPacket.stream_index pkt) = Some st
                  /\ index st = AVPacket.stream_index pkt
                  /\ (new = [] \/ new = [st] /\ (length (streams s) < MAX_STREAMS)%nat)
            | _ => new = []
            end).
  { intros pb1 hs o Ho [= <- <-]. cbn [streams]. split; [exact Hok|].
    exists []. rewrite app_nil_r. split; [reflexivity|].
    destruct o as [[e|pkt]|]; try reflexivity. now destruct (Ho pkt). }
  destruct (next_start_code (pb s)) as [pb1 hs|pb1 hs|sc pb1 hs].
  - apply Hsame. discriminate.
  - apply Hsame. discriminate.
  - destruct (read_stuffing pb1) as [[c len] pb2].
    destruct (read_pes_header pb2 c len) as [pts dts len3 pb3|pb3|pb3].
    + destruct (read_private_id sc len3 pb3) as [[sc' len4] pb4].
      intros Hdel. destruct (deliver_packet_table _ _ _ _ _ _ _ _ Hok Hdel)
        as [Hok' (new & Hnew & Hout)].
      split; [exact Hok'|]. exists new. split; [exact Hnew|].
      destruct out as [[e|pkt]|]; try exact Hout.
      destruct Hout as (st & H1 & H2 & _ & H4). eauto.
    + apply Hsame. discriminate.
    + apply Hsame. discriminate.
Qed.

End StreamTable.

Lemma table_ok_nil : table_ok [].
Proof.
  split; [intros i st H; discriminate H | constructor].
Qed.

(** X4. [mpegps_read_packet] keeps the stream table in order.  If, before
    the call, the index of every stream is its place in the table, the ids
    are distinct and the codecs are those of the ids, the same holds after
    it.  The call only ever appends to the table: nothing on an error, at
    most one stream on a packet, and only where there was room.  The
    [stream_index] of a returned packet is the place of a stream of the
    table, whose [index] it is. *)
Theorem read_packet_stream_table (MAX_STREAMS fuel : nat) (s s' : Demux.AVFormatContext)
    (r : Demux.read_result) :
  table_ok (Demux.streams s) ->
  mpegps_read_packet MAX_STREAMS fuel s = Some (r, s') ->
  table_ok (Demux.streams s')
  /\ exists new : list Demux.AVStream,
       Demux.streams s' = Demux.streams s ++ new
       /\ match r with
          | Demux.RetPacket pkt =>
              exists st,
                Demux.streams s' !! Z.to_nat (AVPacket.stream_index pkt) = Some st
                /\ Demux.index st = AVPacket.stream_index pkt
                /\ (new = []
                    \/ new = [st] /\ (length (Demux.streams s) < MAX_STREAMS)%nat)
          | Demux.RetError _ => new = []
          end.
Proof.
  revert s. induction fuel as [|fuel IH]; intros s Hok; cbn [mpegps_read_packet];
    [discriminate|].
  destruct (read_packet_turn MAX_STREAMS s) as [[r1|] s1] eqn:Hturn.
  - intros [= <- <-].
    destruct (read_packet_turn_table MAX_STREAMS s s1 _ Hok Hturn)
      as [Hok' (new & Hnew & Hout)].
    split; [exact Hok'|]. exists new. split; [exact Hnew|].
    destruct r1; exact Hout.
  - intros Hrun.
    destruct (read_packet_turn_table MAX_STREAMS s s1 _ Hok Hturn)
      as [Hok1 (new & Hnew & ->)].
    rewrite app_nil_r in Hnew. rewrite <- Hnew. apply IH; [exact Hok1 | exact Hrun].
Qed.

Lemma read_packet_stream_table_witness :
  exists r s',
    mpegps_read_packet 20 1 (open_demux packet_with_pts_zero) = Some (r, s')
    /\ table_ok (Demux.streams s')
    /\ exists new : list Demux.AVStream,
         Demux.streams s' = Demux.streams (open_demux packet_with_pts_zero) ++ new
         /\ match r with
            | Demux.RetPacket pkt =>
                exists st,
                  Demux.streams s' !! Z.to_nat (AVPacket.stream_index pkt) = Some st
                  /\ Demux.index st = AVPacket.stream_index pkt
                  /\ (new = []
                      \/ new = [st]
                         /\ (length (Demux.streams (open_demux packet_with_pts_zero))
                             < 20)%nat)
            | Demux.RetError _ => new = []
            end.
Proof.
  destruct (mpegps_read_packet 20 1 (open_demux packet_with_pts_zero))
    as [[r s']|] eqn:Hrun; [|vm_compute in Hrun; discriminate Hrun].
  exists r, s'. split; [reflexivity|].
  apply (read_packet_stream_table 20 1 (open_demux packet_with_pts_zero) s' r);
    [exact table_ok_nil | exact Hrun].
Defined.

(** ** mpeg_mux_init: outcome, ids and rates *)

Lemma ctx_init_ok : mpeg_mux_init 10000 (fun _ => true) ctx_new = InitOk ctx_init.
Proof. vm_compute. reflexivity. Qed.

Lemma ctx_slow_ok : mpeg_mux_init 10000 (fun _ => true) ctx_slow_new = InitOk ctx_slow.
Proof. vm_compute. reflexivity. Qed.

Section InitIds.

Variable alloc_ok : nat -> bool.

Lemma family_count_cons (f : id_family) (st : AVStream) (sts : list AVStream) :
  family_count f (st :: sts)
  = ((if in_family f st then 1 else 0) + family_count f sts)%nat.
Proof. unfold family_count. cbn [List.filter]. destruct (in_family f st); reflexivity. Qed.

Lemma init_ids_spec (sts : list AVStream) :
  forall (i : nat) (ids : id_state) (sts' : list AVStream) (ids' : id_state),
    init_ids alloc_ok i sts ids = inr (sts', ids') ->
    length sts' = length sts
    /\ n_audio ids' = n_audio ids + Z.of_nat (family_count MpaFamily sts)
                      + Z.of_nat (family_count Ac3Family sts)
    /\ n_video ids' = n_video ids + Z.of_nat (family_count MpvFamily sts)
    /\ (forall (k : nat) (st0 : AVStream),
           sts !! k = Some st0 ->
           alloc_ok (i + k) = true
           /\ exists f,
               family_of (codec st0) = Some f
               /\ sts' !! k
                  = Some {| codec := codec st0;
                            priv_data :=
                              set_id_size zero_stream
                                (family_counter f ids
                                 + Z.of_nat (family_count f (firstn k sts)))
                                (family_buffer_size f) |}).
Proof.
  induction sts as [|st sts IH]; intros i ids sts' ids'; cbn [init_ids].
  - intros [= <- <-]. cbn [length family_count List.filter].
    split; [reflexivity|]. split; [lia|]. split; [lia|]. intros k st0 H. discriminate.
  - destruct (alloc_ok i) eqn:Halloc; cbn [negb]; [|discriminate].
    assert (Hstep : forall f ids1 stream,
      family_of (codec st) = Some f ->
      stream = set_id_size zero_stream (family_counter f ids) (family_buffer_size f) ->
      (forall g, family_counter g ids1
                 = family_counter g ids + (if in_family g st then 1 else 0)) ->
      n_audio ids1 = n_audio ids + (if in_family MpaFamily st then 1 else 0)
                     + (if in_family Ac3Family st then 1 else 0) ->
      n_video ids1 = n_video ids + (if in_family MpvFamily st then 1 else 0) ->
      match init_ids alloc_ok (S i) sts ids1 with
      | inl r => inl r
      | inr (rest', ids2) => inr ({| codec := codec st; priv_data := stream |} :: rest', ids2)
      end = inr (sts', ids') ->
      length sts' = length (st :: sts)
      /\ n_audio ids' = n_audio ids + Z.of_nat (family_count MpaFamily (st :: sts))
                        + Z.of_nat (family_count Ac3Family (st :: sts))
      /\ n_video ids' = n_video ids + Z.of_nat (family_count MpvFamily (st :: sts))
      /\ (forall (k : nat) (st0 : AVStream),
             (st :: sts) !! k = Some st0 ->
             alloc_ok (i + k) = true
             /\ exists f,
                 family_of (codec st0) = Some f
                 /\ sts' !! k
                    = Some {| codec := codec st0;
                              priv_data :=
                                set_id_size zero_stream
                                  (family_counter f ids
                                   + Z.of_nat (family_count f (firstn k (st :: sts))))
                                  (family_buffer_size f) |})).
    { intros f ids1 stream Hfam -> Hcnt Ha Hv.
      destruct (init_ids alloc_ok (S i) sts ids1) as [r|[rest' ids2]] eqn:Hrec;
        [discriminate|].
      intros [= <- <-].
      destruct (IH _ _ _ _ Hrec) as (Hlen & Ha' & Hv' & Hk).
      rewrite !family_count_cons.
      split; [cbn [length]; lia|].
      split; [rewrite Ha', Ha; destruct (in_family MpaFamily st), (in_family Ac3Family st); lia|].
      split; [rewrite Hv', Hv; destruct (in_family MpvFamily st); lia|].
      intros [|k] st0 Hlook.
      - injection Hlook as <-. rewrite Nat.add_0_r. split; [exact Halloc|].
        exists f. split; [exact Hfam|]. cbn [firstn family_count List.filter length].
        now rewrite Z.add_0_r.
      - destruct (Hk k st0 Hlook) as (Hal & g & Hg & Hst).
        split; [now replace (i + S k)%nat with (S i + k)%nat by lia|].
        exists g. split; [exact Hg|]. etransitivity; [exact Hst|]. do 3 f_equal.
        cbn [firstn]. rewrite family_count_cons, Hcnt.
        destruct (in_family g st); lia. }
    destruct (codec_type (codec st)) eqn:Htype; [discriminate| |].
    + apply (Hstep MpvFamily).
      * unfold family_of. now rewrite Htype.
      * reflexivity.
      * intros g. unfold in_family, family_of. rewrite Htype. destruct g; cbn; lia.
      * unfold in_family, family_of. rewrite Htype. cbn. lia.
      * unfold in_family, family_of. rewrite Htype. cbn. lia.
    + destruct (match codec_id (codec st) with CODEC_ID_AC3 => true | _ => false end)
        eqn:Hac3.
      * apply (Hstep Ac3Family).
        -- unfold family_of. rewrite Htype. destruct (codec_id (codec st)); try discriminate.
           reflexivity.
        -- reflexivity.
        -- intros g. unfold in_family, family_of. rewrite Htype.
           destruct (codec_id (codec st)); try discriminate. destruct g; cbn; lia.
        -- unfold in_family, family_of. rewrite Htype.
           destruct (codec_id (codec st)); try discriminate. cbn. lia.
        -- unfold in_family, family_of. rewrite Htype.
           destruct (codec_id (codec st)); try discriminate. cbn. lia.
      * apply (Hstep MpaFamily).
        -- unfold family_of. rewrite Htype. destruct (codec_id (codec st)); try discriminate;
           reflexivity.
        -- reflexivity.
        -- intros g. unfold in_family, family_of. rewrite Htype.
           destruct (codec_id (codec st)); try discriminate; destruct g; cbn; lia.
        -- unfold in_family, family_of. rewrite Htype.
           destruct (codec_id (codec st)); try discriminate; cbn; lia.
        -- unfold in_family, family_of. rewrite Htype.
           destruct (codec_id (codec st)); try discriminate; cbn; lia.
Qed.

Lemma init_ids_fail (sts : list AVStream) :
  forall (i : nat) (ids : id_state) (r : init_result),
    init_ids alloc_ok i sts ids = inl r ->
    exists k : nat,
      (k < length sts)%nat
      /\ (forall (j : nat) (st : AVStream),
             (j < k)%nat -> sts !! j = Some st ->
             alloc_ok (i + j) = true /\ codec_type (codec st) <> CODEC_TYPE_UNKNOWN)
      /\ (r = InitError ENOMEM /\ alloc_ok (i + k) = false
          \/ r = InitAbort /\ alloc_ok (i + k) = true
             /\ exists st, sts !! k = Some st
                           /\ codec_type (codec st) = CODEC_TYPE_UNKNOWN).
Proof.
  induction sts as [|st sts IH]; intros i ids r; cbn [init_ids]; [discriminate|].
  destruct (alloc_ok i) eqn:Halloc; cbn [negb].
  2:{ intros [= <-]. exists 0%nat. cbn [length]. split; [lia|]. split; [lia|].
      left. now rewrite Nat.add_0_r. }
  assert (Hrec : forall ids1 stream,
    codec_type (codec st) <> CODEC_TYPE_UNKNOWN ->
    match init_ids alloc_ok (S i) sts ids1 with
    | inl r => inl r
    | inr (rest', ids2) =>
        inr ({| codec := codec st; priv_data := stream |} :: rest', ids2)
    end = inl r ->
    exists k : nat,
      (k < length (st :: sts))%nat
      /\ (forall (j : nat) (st' : AVStream),
             (j < k)%nat -> (st :: sts) !! j = Some st' ->
             alloc_ok (i + j) = true /\ codec_type (codec st') <> CODEC_TYPE_UNKNOWN)
      /\ (r = InitError ENOMEM /\ alloc_ok (i + k) = false
          \/ r = InitAbort /\ alloc_ok (i + k) = true
             /\ exists st', (st :: sts) !! k = Some st'
                            /\ codec_type (codec st') = CODEC_TYPE_UNKNOWN)).
  { intros ids1 stream Hknown.
    destruct (init_ids alloc_ok (S i) sts ids1) as [r'|[rest' ids2]] eqn:Hrun;
      [|discriminate].
    intros [= ->]. destruct (IH _ _ _ Hrun) as (k & Hk & Hbefore & Hat).
    exists (S k). cbn [length]. split; [lia|]. split.
    - intros [|j] st' Hj Hlook.
      + injection Hlook as <-. now rewrite Nat.add_0_r.
      + replace (i + S j)%nat with (S i + j)%nat by lia.
        apply (Hbefore j st'); [lia | exact Hlook].
    - replace (i + S k)%nat with (S i + k)%nat by lia. exact Hat. }
  destruct (codec_type (codec st)) eqn:Htype.
  - intros [= <-]. exists 0%nat. cbn [length]. split; [lia|]. split; [lia|].
    right. rewrite Nat.add_0_r. split; [reflexivity|]. split; [exact Halloc|].
    exists st. split; [reflexivity | exact Htype].
  - apply Hrec. discriminate.
  - destruct (match codec_id (codec st) with CODEC_ID_AC3 => true | _ => false end);
      apply Hrec; discriminate.
Qed.

End InitIds.

(** X5. The three outcomes of [mpeg_mux_init].  The streams are handled in
    order, and for each one the allocation comes before the look at the
    codec type.  The call fails with ENOMEM at the first stream whose
    allocation fails, and aborts at the first stream of unknown codec type,
    whichever comes first; it succeeds exactly when neither happens, and
    then keeps the format and the codec of every stream. *)
Theorem mpeg_mux_init_outcome (base : Z) (alloc_ok : nat -> bool) (ctx0 : AVFormatContext) :
  let fine (k : nat) :=
    forall (j : nat) (st : AVStream),
      (j < k)%nat -> streams ctx0 !! j = Some st ->
      alloc_ok j = true /\ codec_type (codec st) <> CODEC_TYPE_UNKNOWN in
  match mpeg_mux_init base alloc_ok ctx0 with
  | InitOk ctx =>
      fine (length (streams ctx0))
      /\ oformat ctx = oformat ctx0
      /\ map codec (streams ctx) = map codec (streams ctx0)
  | InitError e =>
      e = ENOMEM
      /\ exists k : nat,
          (k < length (streams ctx0))%nat /\ fine k /\ alloc_ok k = false
  | InitAbort =>
      exists (k : nat) (st : AVStream),
        streams ctx0 !! k = Some st /\ fine k /\ alloc_ok k = true
        /\ codec_type (codec st) = CODEC_TYPE_UNKNOWN
  end.
Proof.
  intros fine. unfold mpeg_mux_init.
  destruct (init_ids alloc_ok 0 (streams ctx0) _) as [r|[sts ids]] eqn:Hids.
  - destruct (init_ids_fail alloc_ok _ _ _ _ Hids) as (k & Hk & Hbefore & Hat).
    cbn [Nat.add] in Hbefore, Hat.
    destruct Hat as [[-> Hfail]|(-> & Hal & st & Hst & Htype)].
    + split; [reflexivity|]. exists k. auto.
    + exists k, st. auto.
  - destruct (init_ids_spec alloc_ok _ _ _ _ _ Hids) as (Hlen & _ & _ & Hk).
    split; [|split; [reflexivity|]].
    + intros j st _ Hst. destruct (Hk j st Hst) as (Hal & f & Hf & _).
      split; [exact Hal|]. unfold family_of in Hf.
      destruct (codec_type (codec st)); congruence.
    + cbn [streams]. rewrite map_map. cbn [codec init_stream].
      apply list_eq. intros j. rewrite !list_lookup_fmap.
      destruct (streams ctx0 !! j) as [st|] eqn:Hst.
      * destruct (Hk j st Hst) as (_ & f & _ & ->). reflexivity.
      * apply lookup_ge_None in Hst. rewrite <- Hlen in Hst.
        apply lookup_ge_None in Hst. now rewrite Hst.
Qed.

Lemma family_count_app (f : id_family) (a b : list AVStream) :
  family_count f (a ++ b) = (family_count f a + family_count f b)%nat.
Proof. unfold family_count. now rewrite List.filter_app, length_app. Qed.

Lemma family_count_take_le (f : id_family) (sts : list AVStream) (i : nat) :
  (family_count f (firstn i sts) <= family_count f sts)%nat.
Proof.
  rewrite <- (firstn_skipn i sts) at 2. rewrite family_count_app. lia.
Qed.

Lemma family_count_take_S (f : id_family) (sts : list AVStream) (i : nat) (st : AVStream) :
  sts !! i = Some st ->
  family_count f (firstn (S i) sts)
  = (family_count f (firstn i sts) + (if in_family f st then 1 else 0))%nat.
Proof.
  intros Hst. rewrite (take_S_r sts i st Hst), family_count_app.
  unfold family_count at 2. cbn [List.filter]. destruct (in_family f st); reflexivity.
Qed.

Lemma family_count_take_mono (f : id_family) (sts : list AVStream) (i j : nat) :
  (i <= j)%nat -> (family_count f (firstn i sts) <= family_count f (firstn j sts))%nat.
Proof.
  intros Hij. replace (firstn i sts) with (firstn i (firstn j sts)).
  - apply family_count_take_le.
  - rewrite firstn_firstn. now rewrite Nat.min_l.
Qed.

(** The rank of a stream in its family is below the size of the family,
    and below the rank of every later stream of the family. *)
Lemma family_rank_lt (f : id_family) (sts : list AVStream) (i : nat) (st : AVStream) :
  sts !! i = Some st -> in_family f st = true ->
  (family_count f (firstn i sts) < family_count f sts)%nat
  /\ forall j, (i < j)%nat ->
       (family_count f (firstn i sts) < family_count f (firstn j sts))%nat.
Proof.
  intros Hst Hin.
  pose proof (family_count_take_S f sts i st Hst) as HS. rewrite Hin in HS.
  split.
  - pose proof (family_count_take_le f sts (S i)). lia.
  - intros j Hj. pose proof (family_count_take_mono f sts (S i) j ltac:(lia)). lia.
Qed.

Lemma in_family_of (f : id_family) (st : AVStream) :
  family_of (codec st) = Some f -> in_family f st = true.
Proof. unfold in_family. intros ->. destruct f; reflexivity. Qed.

Lemma in_family_unique (f g : id_family) (st : AVStream) :
  family_of (codec st) = Some f -> in_family g st = true -> g = f.
Proof. unfold in_family. intros ->. destruct f, g; congruence. Qed.

(** What [mpeg_mux_init] makes of the stream [i]. *)
Lemma mpeg_mux_init_stream (base : Z) (alloc_ok : nat -> bool)
    (ctx0 ctx : AVFormatContext) :
  mpeg_mux_init base alloc_ok ctx0 = InitOk ctx ->
  length (streams ctx) = length (streams ctx0)
  /\ forall (i : nat) (st0 : AVStream),
       streams ctx0 !! i = Some st0 ->
       exists f,
         family_of (codec st0) = Some f
         /\ streams ctx !! i
            = Some (init_stream base
                      {| codec := codec st0;
                         priv_data :=
                           set_id_size zero_stream
                             (family_base f
                              + Z.of_nat (family_count f (firstn i (streams ctx0))))
                             (family_buffer_size f) |}).
Proof.
  unfold mpeg_mux_init.
  destruct (init_ids alloc_ok 0 (streams ctx0) _) as [r|[sts ids]] eqn:Hids.
  { intros ->. apply init_ids_error in Hids. destruct Hids; discriminate. }
  intros [= <-]. cbn [streams].
  destruct (init_ids_spec alloc_ok _ _ _ _ _ Hids) as (Hlen & _ & _ & Hk).
  split; [now rewrite length_map|].
  intros i st0 Hst. destruct (Hk i st0 Hst) as (_ & f & Hf & Hlook).
  exists f. split; [exact Hf|].
  rewrite list_lookup_fmap, Hlook. cbn [fmap option_fmap option_map].
  destruct f; reflexivity.
Qed.

(** X6. The stream that [mpeg_mux_init] sets up.  The stream [i] gets the
    id (as a byte) that is the base of its family, 0xc0 for MPEG audio, 0x80
    for AC-3 and 0xe0 for video, plus the number of streams of the same
    family before it.  Its buffer bound is 4 KiB for audio and 46 KiB for
    video; its buffer is empty, its packet count and [pts] are 0 and its
    [start_pts] is -1. *)
Theorem mpeg_mux_init_stream_ids (base : Z) (alloc_ok : nat -> bool)
    (ctx0 ctx : AVFormatContext) :
  mpeg_mux_init base alloc_ok ctx0 = InitOk ctx ->
  forall (i : nat) (st0 : AVStream),
    streams ctx0 !! i = Some st0 ->
    exists (st : AVStream) (f : id_family),
      streams ctx !! i = Some st
      /\ codec st = codec st0
      /\ family_of (codec st0) = Some f
      /\ StreamInfo.id (priv_data st)
         = uint8 (family_base f + Z.of_nat (family_count f (firstn i (streams ctx0))))
      /\ StreamInfo.max_buffer_size (priv_data st) = family_buffer_size f
      /\ StreamInfo.buffer_ptr (priv_data st) = 0
      /\ StreamInfo.packet_number (priv_data st) = 0
      /\ StreamInfo.pts (priv_data st) = 0
      /\ StreamInfo.start_pts (priv_data st) = -1.
Proof.
  intros Hinit i st0 Hst.
  destruct (mpeg_mux_init_stream base alloc_ok ctx0 ctx Hinit) as [_ Hk].
  destruct (Hk i st0 Hst) as (f & Hf & Hlook).
  eexists _, f. split; [exact Hlook|]. cbn. auto 10.
Qed.

Lemma mpeg_mux_init_stream_ids_witness :
  exists (st : AVStream) (f : id_family),
    streams ctx_init !! 1%nat = Some st
    /\ codec st = codec {| codec := mpeg1_video; priv_data := zero_stream |}
    /\ family_of (codec {| codec := mpeg1_video; priv_data := zero_stream |}) = Some f
    /\ StreamInfo.id (priv_data st)
       = uint8 (family_base f + Z.of_nat (family_count f (firstn 1 (streams ctx_new))))
    /\ StreamInfo.max_buffer_size (priv_data st) = family_buffer_size f
    /\ StreamInfo.buffer_ptr (priv_data st) = 0
    /\ StreamInfo.packet_number (priv_data st) = 0
    /\ StreamInfo.pts (priv_data st) = 0
    /\ StreamInfo.start_pts (priv_data st) = -1.
Proof.
  apply (mpeg_mux_init_stream_ids 10000 (fun _ => true) ctx_new ctx_init ctx_init_ok
           1%nat {| codec := mpeg1_video; priv_data := zero_stream |}).
  reflexivity.
Defined.

(** X7. Distinct ids.  If no family has more streams than there are ids
    from its base to the next base (32 MPEG audio, 64 AC-3, 32 video), the
    ids that [mpeg_mux_init] hands out are pairwise distinct and each lies
    in the range of its family. *)
Theorem mpeg_mux_init_ids_distinct (base : Z) (alloc_ok : nat -> bool)
    (ctx0 ctx : AVFormatContext) :
  mpeg_mux_init base alloc_ok ctx0 = InitOk ctx ->
  (forall f, (family_count f (streams ctx0) <= family_room f)%nat) ->
  NoDup (map (fun st => StreamInfo.id (priv_data st)) (streams ctx))
  /\ forall (st : AVStream) (f : id_family),
       In st (streams ctx) -> family_of (codec st) = Some f ->
       family_base f <= StreamInfo.id (priv_data st)
                     < family_base f + Z.of_nat (family_room f).
Proof.
  intros Hinit Hroom.
  destruct (mpeg_mux_init_stream base alloc_ok ctx0 ctx Hinit) as [Hlen Hk].
  assert (Hid : forall i st,
    streams ctx !! i = Some st ->
    exists st0 f,
      streams ctx0 !! i = Some st0 /\ codec st = codec st0
      /\ family_of (codec st0) = Some f
      /\ StreamInfo.id (priv_data st)
         = family_base f + Z.of_nat (family_count f (firstn i (streams ctx0)))
      /\ (family_count f (firstn i (streams ctx0)) < family_room f)%nat).
  { intros i st Hst.
    destruct (streams ctx0 !! i) as [st0|] eqn:Hst0.
    2:{ apply lookup_ge_None in Hst0. rewrite <- Hlen in Hst0.
        apply lookup_ge_None in Hst0. congruence. }
    destruct (Hk i st0 Hst0) as (f & Hf & Hlook).
    rewrite Hst in Hlook. injection Hlook as ->.
    exists st0, f. split; [reflexivity|]. split; [reflexivity|]. split; [exact Hf|].
    destruct (family_rank_lt f (streams ctx0) i st0 Hst0 (in_family_of f st0 Hf))
      as [Hlt _].
    specialize (Hroom f).
    split; [|lia]. cbn. apply uint8_small.
    destruct f; cbn [family_base family_room] in *; unfold AUDIO_ID, VIDEO_ID; lia. }
  split.
  - apply NoDup_alt. intros i j x Hi Hj.
    rewrite list_lookup_fmap in Hi, Hj.
    destruct (streams ctx !! i) as [sti|] eqn:Hsti; [|discriminate].
    destruct (streams ctx !! j) as [stj|] eqn:Hstj; [|discriminate].
    cbn in Hi, Hj. injection Hi as Hi. injection Hj as Hj.
    destruct (Hid i sti Hsti) as (si0 & f & Hsi0 & _ & Hf & Hidi & Hri).
    destruct (Hid j stj Hstj) as (sj0 & g & Hsj0 & _ & Hg & Hidj & Hrj).
    assert (Hfg : f = g).
    { destruct f, g; try reflexivity; exfalso;
        cbn [family_base family_room] in *; unfold AUDIO_ID, VIDEO_ID in *; lia. }
    subst g.
    assert (Hrank : family_count f (firstn i (streams ctx0))
                    = family_count f (firstn j (streams ctx0))) by lia.
    destruct (Nat.lt_trichotomy i j) as [Hlt|[Heq|Hgt]]; [|exact Heq|].
    + destruct (family_rank_lt f (streams ctx0) i si0 Hsi0 (in_family_of f si0 Hf))
        as [_ Hlater]. specialize (Hlater j Hlt). lia.
    + destruct (family_rank_lt f (streams ctx0) j sj0 Hsj0 (in_family_of f sj0 Hg))
        as [_ Hlater]. specialize (Hlater i Hgt). lia.
  - intros st f Hin Hf.
    apply list_elem_of_In, list_elem_of_lookup in Hin as [i Hst].
    destruct (Hid i st Hst) as (st0 & g & _ & Hcodec & Hg & Hidv & Hr).
    rewrite Hcodec in Hf. assert (g = f) by congruence. subst g. lia.
Qed.

Lemma mpeg_mux_init_ids_distinct_witness :
  NoDup (map (fun st => StreamInfo.id (priv_data st)) (streams ctx_init))
  /\ forall (st : AVStream) (f : id_family),
       In st (streams ctx_init) -> family_of (codec st) = Some f ->
       family_base f <= StreamInfo.id (priv_data st)
                     < family_base f + Z.of_nat (family_room f).
Proof.
  apply (mpeg_mux_init_ids_distinct 10000 (fun _ => true) ctx_new ctx_init ctx_init_ok).
  intros f. destruct f; vm_compute; lia.
Defined.

Lemma family_count_total (sts : list AVStream) :
  (forall st, In st sts -> exists f, family_of (codec st) = Some f) ->
  (family_count MpaFamily sts + family_count Ac3Family sts
   + family_count MpvFamily sts = length sts)%nat.
Proof.
  induction sts as [|st sts IH]; intros Hall; [reflexivity|].
  rewrite !family_count_cons. cbn [length].
  specialize (IH (fun st' Hin => Hall st' (or_intror Hin))).
  destruct (Hall st (or_introl eq_refl)) as [f Hf].
  unfold in_family. rewrite Hf. destruct f; lia.
Qed.

(** The context made by [mpeg_mux_init], field by field. *)
Lemma mpeg_mux_init_mux (base : Z) (alloc_ok : nat -> bool)
    (ctx0 ctx : AVFormatContext) :
  mpeg_mux_init base alloc_ok ctx0 = InitOk ctx ->
  let is_vcd := match oformat ctx0 with mpeg1vcd_mux => true | _ => false end in
  let is_mpeg2 := match oformat ctx0 with mpeg2vob_mux => true | _ => false end in
  let packet_size := if is_vcd then 2324 else 2048 in
  let bitrate := sint32 (total_bitrate ctx0) in
  let pack_header_freq :=
    if is_vcd || is_mpeg2 then 1
    else Z.quot (Z.quot (sint32 (2 * bitrate)) packet_size) 8 in
  mux ctx
  = {| MpegMuxContext.packet_size := packet_size;
       MpegMuxContext.packet_data_max_size := packet_size - 7;
       MpegMuxContext.packet_number := 0;
       MpegMuxContext.pack_header_freq := pack_header_freq;
       MpegMuxContext.system_header_freq :=
         if is_vcd then pack_header_freq * 40 else pack_header_freq * 5;
       MpegMuxContext.mux_rate := Z.quot (sint32 (bitrate + 399)) 400;
       MpegMuxContext.audio_bound :=
         Z.of_nat (family_count MpaFamily (streams ctx0))
         + Z.of_nat (family_count Ac3Family (streams ctx0));
       MpegMuxContext.video_bound := Z.of_nat (family_count MpvFamily (streams ctx0));
       MpegMuxContext.is_mpeg2 := is_mpeg2;
       MpegMuxContext.is_vcd := is_vcd |}.
Proof.
  unfold mpeg_mux_init.
  destruct (init_ids alloc_ok 0 (streams ctx0) _) as [r|[sts ids]] eqn:Hids.
  { intros ->. apply init_ids_error in Hids. destruct Hids; discriminate. }
  intros [= <-]. cbv zeta. cbn [mux].
  destruct (init_ids_spec alloc_ok _ _ _ _ _ Hids) as (Hlen & Ha & Hv & Hk).
  cbn [n_audio n_video] in Ha, Hv.
  assert (Hrates : map (fun st => bit_rate (codec st)) sts
                   = map (fun st => bit_rate (codec st)) (streams ctx0)).
  { apply list_eq. intros j. rewrite !list_lookup_fmap.
    destruct (streams ctx0 !! j) as [st|] eqn:Hst.
    - destruct (Hk j st Hst) as (_ & f & _ & ->). reflexivity.
    - apply lookup_ge_None in Hst. rewrite <- Hlen in Hst.
      apply lookup_ge_None in Hst. now rewrite Hst. }
  rewrite sum_bitrate_total, Hrates. fold (total_bitrate ctx0). rewrite Ha, Hv.
  replace (sint32 (sint32 (total_bitrate ctx0) + 8 * 50) - 1)
    with (sint32 (sint32 (total_bitrate ctx0) + 8 * 50) + -1) by lia.
  rewrite sint32_add_l.
  replace (sint32 (total_bitrate ctx0) + 8 * 50 + -1)
    with (sint32 (total_bitrate ctx0) + 399) by lia.
  destruct (oformat ctx0); cbn [orb];
    rewrite ?system_header_freq_exact by lia;
    try (change (sint32 (1 * 40)) with (1 * 40));
    try (change (sint32 (1 * 5)) with (1 * 5));
    f_equal; lia.
Qed.

(** X8. The bounds of the system header.  After [mpeg_mux_init],
    [audio_bound] is the number of audio streams, [video_bound] the number
    of video streams, and together they are the number of streams. *)
Theorem mpeg_mux_init_bounds (base : Z) (alloc_ok : nat -> bool)
    (ctx0 ctx : AVFormatContext) :
  mpeg_mux_init base alloc_ok ctx0 = InitOk ctx ->
  let s := mux ctx in
  MpegMuxContext.audio_bound s
  = Z.of_nat (length (List.filter
                        (fun st => match codec_type (codec st) with
                                   | CODEC_TYPE_AUDIO => true | _ => false end)
                        (streams ctx0)))
  /\ MpegMuxContext.video_bound s
     = Z.of_nat (length (List.filter
                           (fun st => match codec_type (codec st) with
                                      | CODEC_TYPE_VIDEO => true | _ => false end)
                           (streams ctx0)))
  /\ MpegMuxContext.audio_bound s + MpegMuxContext.video_bound s = nb_streams ctx.
Proof.
  intros Hinit. pose proof (mpeg_mux_init_mux base alloc_ok ctx0 ctx Hinit) as Hmux.
  cbv zeta in Hmux |- *. rewrite Hmux. cbn [MpegMuxContext.audio_bound MpegMuxContext.video_bound].
  destruct (mpeg_mux_init_stream base alloc_ok ctx0 ctx Hinit) as [Hlen Hk].
  assert (Hfam : forall st, In st (streams ctx0) -> exists f, family_of (codec st) = Some f).
  { intros st Hin. apply list_elem_of_In, list_elem_of_lookup in Hin as [i Hst].
    destruct (Hk i st Hst) as (f & Hf & _). eauto. }
  pose proof (family_count_total (streams ctx0) Hfam) as Htotal.
  assert (Haudio : forall sts,
    length (List.filter (fun st => match codec_type (codec st) with
                                   | CODEC_TYPE_AUDIO => true | _ => false end) sts)
    = (family_count MpaFamily sts + family_count Ac3Family sts)%nat).
  { induction sts as [|st sts IH]; [reflexivity|].
    rewrite !family_count_cons. cbn [List.filter]. unfold in_family, family_of.
    destruct (codec_type (codec st)); cbn [length]; rewrite ?IH; try lia.
    destruct (codec_id (codec st)); lia. }
  assert (Hvideo : forall sts,
    length (List.filter (fun st => match codec_type (codec st) with
                                   | CODEC_TYPE_VIDEO => true | _ => false end) sts)
    = family_count MpvFamily sts).
  { induction sts as [|st sts IH]; [reflexivity|].
    rewrite !family_count_cons. cbn [List.filter]. unfold in_family, family_of.
    destruct (codec_type (codec st)); cbn [length]; rewrite ?IH; try lia.
    destruct (codec_id (codec st)); lia. }
  rewrite Haudio, Hvideo. unfold nb_streams. rewrite Hlen. lia.
Qed.

Lemma mpeg_mux_init_bounds_witness :
  MpegMuxContext.audio_bound (mux ctx_init)
  = Z.of_nat (length (List.filter
                        (fun st => match codec_type (codec st) with
                                   | CODEC_TYPE_AUDIO => true | _ => false end)
                        (streams ctx_new)))
  /\ MpegMuxContext.video_bound (mux ctx_init)
     = Z.of_nat (length (List.filter
                           (fun st => match codec_type (codec st) with
                                      | CODEC_TYPE_VIDEO => true | _ => false end)
                           (streams ctx_new)))
  /\ MpegMuxContext.audio_bound (mux ctx_init) + MpegMuxContext.video_bound (mux ctx_init)
     = nb_streams ctx_init.
Proof.
  apply (mpeg_mux_init_bounds 10000 (fun _ => true) ctx_new ctx_init ctx_init_ok).
Defined.

(** X9. The mux rate.  [mpeg_mux_init] computes it as an [int].  With a
    total bit rate (2000 plus the bit rates of the streams) from 0 to
    [2^31 - 400], [mux_rate] is that rate in units of 400 bit/s (50
    bytes/s), rounded up.  With a total above that and below [2^31] the sum
    [bitrate + 399] overflows, and [mux_rate] is negative. *)
Theorem mpeg_mux_init_mux_rate (base : Z) (alloc_ok : nat -> bool)
    (ctx0 ctx : AVFormatContext) :
  mpeg_mux_init base alloc_ok ctx0 = InitOk ctx ->
  0 <= total_bitrate ctx0 < 2 ^ 31 ->
  let mux_rate := MpegMuxContext.mux_rate (mux ctx) in
  (total_bitrate ctx0 <= 2 ^ 31 - 400 ->
   400 * (mux_rate - 1) < total_bitrate ctx0 <= 400 * mux_rate)
  /\ (2 ^ 31 - 400 < total_bitrate ctx0 ->
      mux_rate = Z.quot (total_bitrate ctx0 + 399 - 2 ^ 32) 400 /\ mux_rate < 0).
Proof.
  intros Hinit Hrate. pose proof (mpeg_mux_init_mux base alloc_ok ctx0 ctx Hinit) as Hmux.
  cbv zeta in Hmux |- *. rewrite Hmux. cbn [MpegMuxContext.mux_rate].
  rewrite (sint32_small (total_bitrate ctx0)) by lia.
  split.
  - intros Hfit. rewrite sint32_small by lia.
    rewrite Z.quot_div_nonneg by lia.
    pose proof (Z.div_mod (total_bitrate ctx0 + 399) 400 ltac:(lia)) as Hdm.
    pose proof (Z.mod_pos_bound (total_bitrate ctx0 + 399) 400 ltac:(lia)) as Hb.
    lia.
  - intros Hover.
    assert (Hwrap : sint32 (total_bitrate ctx0 + 399) = total_bitrate ctx0 + 399 - 2 ^ 32).
    { unfold sint32.
      replace (total_bitrate ctx0 + 399 + 2 ^ 31)
        with (total_bitrate ctx0 + 399 - 2 ^ 31 + 1 * 2 ^ 32) by lia.
      rewrite Z.mod_add, Z.mod_small by lia. lia. }
    rewrite Hwrap. split; [reflexivity|].
    pose proof (Z.quot_rem' (total_bitrate ctx0 + 399 - 2 ^ 32) 400) as Hq.
    pose proof (Z.rem_bound_pos_neg (total_bitrate ctx0 + 399 - 2 ^ 32) 400
                  ltac:(lia) ltac:(lia)) as Hr.
    lia.
Qed.

Lemma mpeg_mux_init_mux_rate_witness :
  (total_bitrate ctx_new <= 2 ^ 31 - 400 ->
   400 * (MpegMuxContext.mux_rate (mux ctx_init) - 1)
   < total_bitrate ctx_new <= 400 * MpegMuxContext.mux_rate (mux ctx_init))
  /\ (2 ^ 31 - 400 < total_bitrate ctx_new ->
      MpegMuxContext.mux_rate (mux ctx_init)
      = Z.quot (total_bitrate ctx_new + 399 - 2 ^ 32) 400
      /\ MpegMuxContext.mux_rate (mux ctx_init) < 0).
Proof.
  apply (mpeg_mux_init_mux_rate 10000 (fun _ => true) ctx_new ctx_init ctx_init_ok).
  vm_compute. split; [discriminate | reflexivity].
Defined.

Lemma packet_preface_defined (ctx : AVFormatContext) (timestamp : Z) :
  packet_preface ctx timestamp = None
  <-> MpegMuxContext.pack_header_freq (mux ctx) = 0
      \/ Z.rem (MpegMuxContext.packet_number (mux ctx))
               (MpegMuxContext.pack_header_freq (mux ctx)) = 0
         /\ MpegMuxContext.system_header_freq (mux ctx) = 0.
Proof.
  unfold packet_preface.
  destruct (Z.eqb_spec (MpegMuxContext.pack_header_freq (mux ctx)) 0) as [Hp|Hp];
    [tauto|].
  destruct (Z.eqb_spec (Z.rem (MpegMuxContext.packet_number (mux ctx))
                              (MpegMuxContext.pack_header_freq (mux ctx))) 0) as [Hr|Hr].
  - destruct (put_pack_header ctx timestamp) as [buf1 size1].
    destruct (Z.eqb_spec (MpegMuxContext.system_header_freq (mux ctx)) 0) as [Hs|Hs];
      [tauto|].
    destruct (Z.rem _ _ =? 0); [destruct (put_system_header ctx)|];
      (split; [discriminate | tauto]).
  - split; [discriminate | tauto].
Qed.

Lemma flush_packet_defined (ctx : AVFormatContext) (i : nat) (last_pkt : bool) :
  flush_packet ctx i last_pkt = None
  <-> streams ctx !! i = None
      \/ exists st, streams ctx !! i = Some st
           /\ packet_preface ctx (StreamInfo.start_pts (priv_data st)) = None.
Proof.
  unfold flush_packet.
  destruct (streams ctx !! i) as [st|]; cbn [mbind option_bind]; [|tauto].
  destruct (packet_preface ctx _) as [[preface size]|] eqn:Hpre; cbn [mbind option_bind].
  - destruct (StreamInfo.id (priv_data st) <? 0xc0);
      (split; [discriminate | intros [H|(st' & [= <-] & H)]; congruence]).
  - split; [|reflexivity]. intros _. right. eauto.
Qed.

(** X10. A [pack_header_freq] of zero.  For the MPEG-1 system format
    [mpeg_mux_init] computes [pack_header_freq] as [2 * bitrate / 2048 / 8]
    on [int]s: it is 0 exactly when twice the total bit rate, as an [int],
    lies strictly between -16384 and 16384.  For a total that does not
    overflow when doubled, this is a total of absolute value below 8192.
    [flush_packet] then takes a remainder by zero; after [mpeg_mux_init]
    this is the only way a flush of an existing stream goes wrong. *)
Theorem mpeg_mux_init_low_bitrate (base : Z) (alloc_ok : nat -> bool)
    (ctx0 ctx : AVFormatContext) :
  mpeg_mux_init base alloc_ok ctx0 = InitOk ctx ->
  (MpegMuxContext.pack_header_freq (mux ctx) = 0
   <-> oformat ctx0 = mpeg1system_mux
       /\ -16384 < sint32 (2 * total_bitrate ctx0) < 16384)
  /\ (- 2 ^ 30 <= total_bitrate ctx0 < 2 ^ 30 ->
      (MpegMuxContext.pack_header_freq (mux ctx) = 0
       <-> oformat ctx0 = mpeg1system_mux /\ -8192 < total_bitrate ctx0 < 8192))
  /\ forall (i : nat) (last_pkt : bool),
       flush_packet ctx i last_pkt = None
       <-> (length (streams ctx) <= i)%nat
           \/ MpegMuxContext.pack_header_freq (mux ctx) = 0.
Proof.
  intros Hinit. pose proof (mpeg_mux_init_mux base alloc_ok ctx0 ctx Hinit) as Hmux.
  cbv zeta in Hmux.
  assert (Hdouble : sint32 (2 * sint32 (total_bitrate ctx0))
                    = sint32 (2 * total_bitrate ctx0)).
  { replace (2 * sint32 (total_bitrate ctx0))
      with (sint32 (total_bitrate ctx0) + sint32 (total_bitrate ctx0)) by lia.
    rewrite sint32_add_l, Z.add_comm, sint32_add_l. f_equal. lia. }
  assert (Hquot : forall a, Z.quot (Z.quot a 2048) 8 = 0 <-> -16384 < a < 16384).
  { intros a. rewrite Z.quot_quot by lia. rewrite Z.quot_small_iff by lia. lia. }
  assert (Hfreq : MpegMuxContext.pack_header_freq (mux ctx) = 0
                  <-> oformat ctx0 = mpeg1system_mux
                      /\ -16384 < sint32 (2 * total_bitrate ctx0) < 16384).
  { rewrite Hmux. cbn [MpegMuxContext.pack_header_freq]. rewrite Hdouble.
    destruct (oformat ctx0); cbn [orb].
    - rewrite Hquot. tauto.
    - split; [lia | intros [? _]; discriminate].
    - split; [lia | intros [? _]; discriminate]. }
  assert (Hsys : MpegMuxContext.system_header_freq (mux ctx) = 0
                 -> MpegMuxContext.pack_header_freq (mux ctx) = 0).
  { rewrite Hmux. cbn [MpegMuxContext.system_header_freq MpegMuxContext.pack_header_freq].
    destruct (oformat ctx0); cbn [orb]; lia. }
  split; [exact Hfreq|]. split.
  - intros Hrange. rewrite Hfreq, sint32_small by lia.
    split; intros [Hfmt Hlow]; (split; [exact Hfmt | lia]).
  - intros i last_pkt. rewrite flush_packet_defined. split.
    + intros [Hnone|(st & Hst & Hpre)]; [left; now apply lookup_ge_None|].
      right. apply packet_preface_defined in Hpre. tauto.
    + intros [Hi|Hzero]; [left; now apply lookup_ge_None|].
      destruct (streams ctx !! i) as [st|] eqn:Hst; [right | now left].
      exists st. split; [reflexivity|]. apply packet_preface_defined. now left.
Qed.

Lemma mpeg_mux_init_low_bitrate_witness :
  (MpegMuxContext.pack_header_freq (mux ctx_slow) = 0
   <-> oformat ctx_slow_new = mpeg1system_mux
       /\ -16384 < sint32 (2 * total_bitrate ctx_slow_new) < 16384)
  /\ (- 2 ^ 30 <= total_bitrate ctx_slow_new < 2 ^ 30 ->
      (MpegMuxContext.pack_header_freq (mux ctx_slow) = 0
       <-> oformat ctx_slow_new = mpeg1system_mux
           /\ -8192 < total_bitrate ctx_slow_new < 8192))
  /\ forall (i : nat) (last_pkt : bool),
       flush_packet ctx_slow i last_pkt = None
       <-> (length (streams ctx_slow) <= i)%nat
           \/ MpegMuxContext.pack_header_freq (mux ctx_slow) = 0.
Proof.
  apply (mpeg_mux_init_low_bitrate 10000 (fun _ => true) ctx_slow_new ctx_slow ctx_slow_ok).
Defined.

(** ** flush_packet: the packet it writes *)

(** Closed facts are settled by evaluation. *)
Ltac by_eval :=
  vm_compute; repeat split; first [reflexivity | discriminate | lia].

Lemma system_header_entries_length (sts : list AVStream) :
  forall coded : bool, (length (system_header_entries sts coded) <= length sts)%nat.
Proof.
  induction sts as [|st sts IH]; intros coded; cbn [system_header_entries length]; [lia|].
  destruct (StreamInfo.id (priv_data st) <? 0xc0); [destruct coded|]; cbn [length];
    try (specialize (IH true); lia).
  specialize (IH coded). lia.
Qed.

Lemma put_system_header_length (ctx : AVFormatContext) :
  12 <= snd (put_system_header ctx) <= 12 + 3 * nb_streams ctx.
Proof.
  destruct (put_system_header_bits ctx) as [H _]. cbv zeta in H. rewrite H.
  cbn [snd]. unfold nb_streams.
  pose proof (system_header_entries_length (streams ctx) false). lia.
Qed.

Lemma packet_preface_bound (ctx : AVFormatContext) (timestamp : Z)
    (preface : list Z) (size : Z) :
  packet_preface ctx timestamp = Some (preface, size) ->
  size = Z.of_nat (length preface) /\ 0 <= size <= 24 + 3 * nb_streams ctx.
Proof.
  intros Hpre. split; [eapply packet_preface_size, Hpre|].
  revert Hpre. unfold packet_preface.
  destruct (MpegMuxContext.pack_header_freq (mux ctx) =? 0); [discriminate|].
  destruct (Z.rem _ _ =? 0).
  - pose proof (put_pack_header_size ctx timestamp) as [Hs _].
    destruct (put_pack_header ctx timestamp) as [buf1 size1]. cbn [snd] in Hs.
    destruct (MpegMuxContext.system_header_freq (mux ctx) =? 0); [discriminate|].
    destruct (Z.rem _ _ =? 0).
    + pose proof (put_system_header_length ctx) as Hs2.
      destruct (put_system_header ctx) as [buf2 size2]. cbn [snd] in Hs2.
      intros [= <- <-]. lia.
    + intros [= <- <-]. unfold nb_streams. lia.
  - intros [= <- <-]. unfold nb_streams. lia.
Qed.

(** The payload size computed by a flush and the state it leaves. *)
Lemma flush_packet_state (ctx : AVFormatContext) (i : nat) (last_pkt : bool)
    (ctx' : AVFormatContext) (tr : list put_op) (st : AVStream) :
  streams ctx !! i = Some st ->
  flush_packet ctx i last_pkt = Some (ctx', tr) ->
  exists (preface : list Z) (size : Z),
    packet_preface ctx (StreamInfo.start_pts (priv_data st)) = Some (preface, size)
    /\ let s := mux ctx in
       let stream := priv_data st in
       let header_len := if MpegMuxContext.is_mpeg2 s then 8 else 5 in
       let last := if last_pkt then 4 else 0 in
       let payload_size :=
         MpegMuxContext.packet_size s - (size + 6 + header_len + last)
         - (if StreamInfo.id stream <? 0xc0 then 4 else 0) in
       let len := Z.max 0 (StreamInfo.buffer_ptr stream - payload_size) in
       streams ctx'
       = <[i := {| codec := codec st;
                   priv_data :=
                     {| StreamInfo.buffer :=
                          memmove_front (StreamInfo.buffer stream)
                                        (StreamInfo.buffer_ptr stream - len) len;
                        StreamInfo.buffer_ptr := len;
                        StreamInfo.id := StreamInfo.id stream;
                        StreamInfo.max_buffer_size := StreamInfo.max_buffer_size stream;
                        StreamInfo.packet_number := StreamInfo.packet_number stream + 1;
                        StreamInfo.pts := StreamInfo.pts stream;
                        StreamInfo.pts_ticker := StreamInfo.pts_ticker stream;
                        StreamInfo.start_pts := -1 |} |}]> (streams ctx)
       /\ MpegMuxContext.packet_data_max_size (mux ctx')
          = MpegMuxContext.packet_data_max_size s
       /\ oformat ctx' = oformat ctx.
Proof.
  intros Hst Hflush. unfold flush_packet in Hflush.
  rewrite Hst in Hflush. cbn [mbind option_bind] in Hflush.
  destruct (packet_preface ctx (StreamInfo.start_pts (priv_data st)))
    as [[preface size]|] eqn:Hpre; [|discriminate].
  cbn [mbind option_bind] in Hflush.
  exists preface, size. split; [reflexivity|].
  cbv zeta.
  destruct (StreamInfo.id (priv_data st) <? 0xc0) eqn:Hid;
    injection Hflush as <- _; unfold set_stream, set_mux; cbn [streams mux oformat];
    rewrite Hst, !clamp_below_is_max, ?Z.sub_0_r; auto.
Qed.

Lemma sink_bytes_app (a b : list put_op) : sink_bytes (a ++ b) = sink_bytes a ++ sink_bytes b.
Proof. unfold sink_bytes. apply flat_map_app. Qed.

Lemma sink_bytes_stuffing (n : nat) :
  sink_bytes (List.repeat (PutByte 0xff) n) = List.repeat 0xff n.
Proof. induction n as [|n IH]; [reflexivity|]. cbn [List.repeat]. now rewrite <- IH. Qed.

(** The bytes of a flushed packet. *)
Lemma flush_packet_bytes (ctx : AVFormatContext) (i : nat) (last_pkt : bool)
    (ctx' : AVFormatContext) (tr : list put_op) (st : AVStream) :
  streams ctx !! i = Some st ->
  flush_packet ctx i last_pkt = Some (ctx', tr) ->
  3 * nb_streams ctx + 46 <= MpegMuxContext.packet_size (mux ctx) ->
  0 <= StreamInfo.buffer_ptr (priv_data st)
    <= Z.of_nat (length (StreamInfo.buffer (priv_data st))) ->
  exists (preface : list Z) (payload_size : Z),
    let s := mux ctx in
    let stream := priv_data st in
    let id := StreamInfo.id stream in
    let header_len := if MpegMuxContext.is_mpeg2 s then 8 else 5 in
    let last := if last_pkt then 4 else 0 in
    let startcode := if id <? 0xc0 then PRIVATE_STREAM_1 else 0x100 + id in
    let stuffing := Z.to_nat (Z.max 0 (payload_size - StreamInfo.buffer_ptr stream)) in
    let payload := firstn (Z.to_nat payload_size) (buffered stream) in
    packet_preface ctx (StreamInfo.start_pts stream)
    = Some (preface, Z.of_nat (length preface))
    /\ payload_size
       = MpegMuxContext.packet_size s - (Z.of_nat (length preface) + 6 + header_len + last)
         - (if id <? 0xc0 then 4 else 0)
    /\ 0 <= payload_size
    /\ tr = [PutBuffer preface; PutBe32 startcode; PutBe16 (payload_size + header_len)]
            ++ List.repeat (PutByte 0xff) stuffing
            ++ (if MpegMuxContext.is_mpeg2 s
                then [PutByte 0x80; PutByte 0x80; PutByte 0x05] else [])
            ++ pts_ops (StreamInfo.start_pts stream)
            ++ (if id <? 0xc0
                then PutByte id :: (if (0x80 <=? id) && (id <=? 0xbf)
                                    then [PutByte 1; PutByte 0; PutByte 2] else [])
                else [])
            ++ (if last_pkt then [PutBe32 ISO_11172_END_CODE] else [])
            ++ [PutBuffer payload; PutFlushPacket]
    /\ Z.of_nat (length payload) + Z.of_nat stuffing = payload_size
    /\ exists st',
         streams ctx' = <[i := st']> (streams ctx)
         /\ codec st' = codec st
         /\ payload ++ buffered (priv_data st') = buffered stream
         /\ StreamInfo.buffer_ptr (priv_data st')
            = Z.max 0 (StreamInfo.buffer_ptr stream - payload_size)
         /\ length (StreamInfo.buffer (priv_data st'))
            = length (StreamInfo.buffer stream)
         /\ StreamInfo.id (priv_data st') = id
         /\ StreamInfo.start_pts (priv_data st') = -1
         /\ StreamInfo.pts (priv_data st') = StreamInfo.pts stream
         /\ StreamInfo.pts_ticker (priv_data st') = StreamInfo.pts_ticker stream
         /\ StreamInfo.packet_number (priv_data st')
            = StreamInfo.packet_number stream + 1.
Proof.
  intros Hst Hflush Hroom Hbuf.
  destruct (flush_packet_trace ctx i last_pkt ctx' tr st Hst Hflush)
    as (preface & size & Hpre & Htr).
  destruct (flush_packet_state ctx i last_pkt ctx' tr st Hst Hflush)
    as (preface' & size' & Hpre' & Hstate).
  rewrite Hpre in Hpre'. injection Hpre' as <- <-.
  destruct (packet_preface_bound _ _ _ _ Hpre) as [Hsize Hbound].
  cbv zeta in Htr, Hstate. destruct Hstate as (Hstreams & _ & _).
  set (stream := priv_data st) in *.
  set (payload_size :=
         MpegMuxContext.packet_size (mux ctx)
         - (size + 6 + (if MpegMuxContext.is_mpeg2 (mux ctx) then 8 else 5)
            + (if last_pkt then 4 else 0))
         - (if StreamInfo.id stream <? 192 then 4 else 0)) in *.
  assert (Hps : 0 <= payload_size).
  { unfold payload_size. destruct (MpegMuxContext.is_mpeg2 (mux ctx)), last_pkt,
      (StreamInfo.id stream <? 192); lia. }
  set (bp := StreamInfo.buffer_ptr stream) in *.
  assert (Hpayload : firstn (Z.to_nat (payload_size - Z.max 0 (payload_size - bp)))
                            (StreamInfo.buffer stream)
                     = firstn (Z.to_nat payload_size) (buffered stream)).
  { unfold buffered. fold bp. rewrite firstn_firstn. f_equal. lia. }
  exists preface, payload_size. cbv zeta. fold stream. fold bp.
  split; [now rewrite <- Hsize|].
  split; [unfold payload_size; now rewrite Hsize|].
  split; [exact Hps|].
  split.
  { rewrite Htr, Hsize, Nat2Z.id, firstn_all, Hpayload.
    repeat f_equal.
    destruct (Z.ltb_spec (StreamInfo.id stream) 192) as [Hlt|Hge]; [reflexivity|].
    destruct (Z.eqb_spec (256 + StreamInfo.id stream) PRIVATE_STREAM_1) as [Heq|];
      [unfold PRIVATE_STREAM_1 in Heq; lia | reflexivity]. }
  split.
  { unfold buffered. fold bp. rewrite firstn_firstn, length_firstn. lia. }
  eexists. split; [exact Hstreams|]. cbn [codec priv_data StreamInfo.buffer
    StreamInfo.buffer_ptr StreamInfo.id StreamInfo.start_pts StreamInfo.pts
    StreamInfo.pts_ticker StreamInfo.packet_number].
  split; [reflexivity|].
  assert (Hkept : buffered
            {| StreamInfo.buffer :=
                 memmove_front (StreamInfo.buffer stream)
                   (bp - Z.max 0 (bp - payload_size)) (Z.max 0 (bp - payload_size));
               StreamInfo.buffer_ptr := Z.max 0 (bp - payload_size);
               StreamInfo.id := StreamInfo.id stream;
               StreamInfo.max_buffer_size := StreamInfo.max_buffer_size stream;
               StreamInfo.packet_number := StreamInfo.packet_number stream + 1;
               StreamInfo.pts := StreamInfo.pts stream;
               StreamInfo.pts_ticker := StreamInfo.pts_ticker stream;
               StreamInfo.start_pts := -1 |}
          = firstn (Z.to_nat (Z.max 0 (bp - payload_size)))
                   (skipn (Z.to_nat (bp - Z.max 0 (bp - payload_size)))
                          (StreamInfo.buffer stream))).
  { unfold buffered, memmove_front. cbn [StreamInfo.buffer StreamInfo.buffer_ptr].
    rewrite firstn_app, firstn_firstn, Nat.min_id.
    rewrite length_firstn, length_skipn.
    replace (Z.to_nat (Z.max 0 (bp - payload_size))
             - Init.Nat.min (Z.to_nat (Z.max 0 (bp - payload_size)))
                 (length (StreamInfo.buffer stream)
                  - Z.to_nat (bp - Z.max 0 (bp - payload_size))))%nat
      with 0%nat by lia.
    cbn [firstn]. apply app_nil_r. }
  split.
  { rewrite Hkept. unfold buffered. fold bp. rewrite firstn_firstn.
    destruct (Z.le_gt_cases bp payload_size) as [Hle|Hgt].
    - rewrite (Z.max_l 0 (bp - payload_size)) by lia. cbn [Z.to_nat firstn].
      rewrite app_nil_r. f_equal. lia.
    - rewrite (Z.max_r 0 (bp - payload_size)) by lia.
      replace (bp - (bp - payload_size)) with payload_size by lia.
      replace (Init.Nat.min (Z.to_nat payload_size) (Z.to_nat bp))
        with (Z.to_nat payload_size) by lia.
      rewrite take_take_drop. f_equal. lia. }
  split; [reflexivity|]. split; [|auto 10].
  unfold memmove_front. rewrite length_app, length_firstn, !length_skipn. lia.
Qed.

Lemma length_sink_stuffing (n : nat) :
  length (sink_bytes (List.repeat (PutByte 0xff) n)) = n.
Proof. rewrite sink_bytes_stuffing. apply repeat_length. Qed.

Lemma be16_bytes (v : Z) :
  0 <= v < 2 ^ 16 ->
  256 * uint8 (Z.shiftr v 8) + uint8 v = v.
Proof.
  intros Hv. unfold uint8. rewrite Z.shiftr_div_pow2 by lia.
  rewrite (Z.mod_small (v / 2 ^ 8)) by (split; [apply Z.div_pos; lia | apply Z.div_lt_upper_bound; lia]).
  pose proof (Z.div_mod v (2 ^ 8) ltac:(lia)). lia.
Qed.

(** X11. Every packet has the size [packet_size].  With room for the
    headers ([3 * nb_streams + 46 <= packet_size]) and [buffer_ptr] within
    the buffer, the calls of one flush write exactly [packet_size] bytes,
    however much data the stream holds: what the data do not fill is
    stuffed.  The one exception are the streams with an id below 0x80: the
    code counts 4 bytes for their private header and writes 1, so their
    packets are 3 bytes short. *)
Theorem flush_packet_fixed_size (ctx : AVFormatContext) (i : nat) (last_pkt : bool)
    (ctx' : AVFormatContext) (tr : list put_op) (st : AVStream) :
  streams ctx !! i = Some st ->
  flush_packet ctx i last_pkt = Some (ctx', tr) ->
  3 * nb_streams ctx + 46 <= MpegMuxContext.packet_size (mux ctx) ->
  0 <= StreamInfo.buffer_ptr (priv_data st)
    <= Z.of_nat (length (StreamInfo.buffer (priv_data st))) ->
  Z.of_nat (length (sink_bytes tr))
  = MpegMuxContext.packet_size (mux ctx)
    - (if StreamInfo.id (priv_data st) <? 0x80 then 3 else 0).
Proof.
  intros Hst Hflush Hroom Hbuf.
  destruct (flush_packet_bytes ctx i last_pkt ctx' tr st Hst Hflush Hroom Hbuf)
    as (preface & payload_size & H). cbv zeta in H.
  destruct H as (_ & Hps & _ & -> & Hlen & _).
  rewrite !sink_bytes_app, !length_app, length_sink_stuffing.
  set (payload := firstn (Z.to_nat payload_size) (buffered (priv_data st))) in *.
  set (stuffing := Z.to_nat (Z.max 0 (payload_size - StreamInfo.buffer_ptr (priv_data st)))) in *.
  assert (Hm : length (sink_bytes (if MpegMuxContext.is_mpeg2 (mux ctx)
                                   then [PutByte 0x80; PutByte 0x80; PutByte 0x05] else []))
               = if MpegMuxContext.is_mpeg2 (mux ctx) then 3%nat else 0%nat)
    by (destruct (MpegMuxContext.is_mpeg2 (mux ctx)); reflexivity).
  assert (Hl : length (sink_bytes (if last_pkt then [PutBe32 ISO_11172_END_CODE] else []))
               = if last_pkt then 4%nat else 0%nat)
    by (destruct last_pkt; reflexivity).
  rewrite Hm, Hl.
  cbn [sink_bytes flat_map op_bytes pts_ops length app]. rewrite !app_nil_r, length_app.
  cbn [length].
  destruct (Z.ltb_spec (StreamInfo.id (priv_data st)) 0xc0) as [Hlt|Hge].
  - destruct (Z.leb_spec 0x80 (StreamInfo.id (priv_data st))) as [H80|H80].
    + replace (StreamInfo.id (priv_data st) <=? 0xbf) with true
        by (symmetry; apply Z.leb_le; lia).
      replace (StreamInfo.id (priv_data st) <? 0x80) with false
        by (symmetry; apply Z.ltb_ge; lia).
      cbn [andb sink_bytes flat_map op_bytes app length].
      destruct (MpegMuxContext.is_mpeg2 (mux ctx)), last_pkt; lia.
    + replace (StreamInfo.id (priv_data st) <? 0x80) with true
        by (symmetry; apply Z.ltb_lt; lia).
      cbn [andb sink_bytes flat_map op_bytes app length].
      destruct (MpegMuxContext.is_mpeg2 (mux ctx)), last_pkt; lia.
  - replace (StreamInfo.id (priv_data st) <? 0x80) with false
      by (symmetry; apply Z.ltb_ge; lia).
    cbn [sink_bytes flat_map length].
    destruct (MpegMuxContext.is_mpeg2 (mux ctx)), last_pkt; lia.
Qed.

Lemma flush_packet_fixed_size_witness :
  exists ctx' tr,
    flush_packet ctx_av 0 false = Some (ctx', tr)
    /\ Z.of_nat (length (sink_bytes tr))
       = MpegMuxContext.packet_size (mux ctx_av)
         - (if StreamInfo.id (priv_data stream_av_audio) <? 0x80 then 3 else 0).
Proof.
  destruct (flush_packet ctx_av 0 false) as [[ctx' tr]|] eqn:Hflush;
    [|vm_compute in Hflush; discriminate Hflush].
  exists ctx', tr. split; [reflexivity|].
  apply (flush_packet_fixed_size ctx_av 0 false ctx' tr stream_av_audio);
    [by_eval | exact Hflush | by_eval | by_eval].
Defined.

Lemma be32_start_code (b : Z) :
  0 <= b < 256 -> op_bytes (PutBe32 (0x100 + b)) = [0; 0; 1; b].
Proof.
  intros Hb. unfold op_bytes, uint8. rewrite !Z.shiftr_div_pow2 by lia.
  assert (H24 : (256 + b) / 2 ^ 24 = 0) by (apply Z.div_small; lia).
  assert (H16 : (256 + b) / 2 ^ 16 = 0) by (apply Z.div_small; lia).
  assert (H8 : (256 + b) / 2 ^ 8 = 1).
  { symmetry. apply (Z.div_unique _ _ 1 b); lia. }
  rewrite H24, H16, H8. repeat f_equal.
  symmetry. apply (Z.mod_unique _ _ 1 b); lia.
Qed.

(** X12. The length field of a packet.  The bytes of a flush are the pack
    and system headers that are due, the start code 00 00 01 and the id
    (0xbd for the ids below 0xc0), the two bytes of the length field and the
    body.  The field counts the bytes of the body, except the 4 bytes of the
    end code, if the packet is the last one, and the private header of the
    ids below 0xc0 (1 byte below 0x80, 4 from 0x80): for such packets the
    body is longer than the field says. *)
Theorem flush_packet_length_field (ctx : AVFormatContext) (i : nat) (last_pkt : bool)
    (ctx' : AVFormatContext) (tr : list put_op) (st : AVStream) :
  streams ctx !! i = Some st ->
  flush_packet ctx i last_pkt = Some (ctx', tr) ->
  3 * nb_streams ctx + 46 <= MpegMuxContext.packet_size (mux ctx) < 2 ^ 16 ->
  0 <= StreamInfo.buffer_ptr (priv_data st)
    <= Z.of_nat (length (StreamInfo.buffer (priv_data st))) ->
  0 <= StreamInfo.id (priv_data st) < 256 ->
  let id := StreamInfo.id (priv_data st) in
  exists (preface body : list Z) (hi lo : Z),
    packet_preface ctx (StreamInfo.start_pts (priv_data st))
    = Some (preface, Z.of_nat (length preface))
    /\ sink_bytes tr
       = preface ++ [0; 0; 1; if id <? 0xc0 then 0xbd else id] ++ [hi; lo] ++ body
    /\ 0 <= hi < 256 /\ 0 <= lo < 256
    /\ Z.of_nat (length body)
       = 256 * hi + lo
         + (if last_pkt then 4 else 0)
         + (if id <? 0x80 then 1 else if id <? 0xc0 then 4 else 0).
Proof.
  intros Hst Hflush Hroom Hbuf Hid id.
  destruct (flush_packet_bytes ctx i last_pkt ctx' tr st Hst Hflush ltac:(lia) Hbuf)
    as (preface & payload_size & H). cbv zeta in H.
  destruct H as (Hpre & Hps & Hpos & Htr & Hlen & _). fold id in Hps, Htr, Hid |- *.
  set (payload := firstn (Z.to_nat payload_size) (buffered (priv_data st))) in *.
  set (stuffing := Z.to_nat (Z.max 0 (payload_size - StreamInfo.buffer_ptr (priv_data st)))) in *.
  set (header_len := if MpegMuxContext.is_mpeg2 (mux ctx) then 8 else 5) in *.
  assert (Hfield : 0 <= payload_size + header_len < 2 ^ 16).
  { unfold header_len in *.
    destruct (MpegMuxContext.is_mpeg2 (mux ctx)), last_pkt, (id <? 192); lia. }
  assert (Hcode : op_bytes (PutBe32 (if id <? 0xc0 then PRIVATE_STREAM_1 else 0x100 + id))
                  = [0; 0; 1; if id <? 0xc0 then 0xbd else id]).
  { destruct (id <? 0xc0); [reflexivity | apply be32_start_code; exact Hid]. }
  eexists preface, _, (uint8 (Z.shiftr (payload_size + header_len) 8)),
    (uint8 (payload_size + header_len)).
  split; [exact Hpre|]. split.
  { rewrite Htr, sink_bytes_app.
    change (sink_bytes [PutBuffer preface;
                        PutBe32 (if id <? 0xc0 then PRIVATE_STREAM_1 else 0x100 + id);
                        PutBe16 (payload_size + header_len)])
      with (preface
            ++ op_bytes (PutBe32 (if id <? 0xc0 then PRIVATE_STREAM_1 else 0x100 + id))
            ++ [uint8 (Z.shiftr (payload_size + header_len) 8);
                uint8 (payload_size + header_len)] ++ []).
    rewrite Hcode, app_nil_r, <- !app_assoc. reflexivity. }
  split; [apply uint8_range|]. split; [apply uint8_range|].
  rewrite be16_bytes by exact Hfield.
  rewrite !sink_bytes_app, !length_app, length_sink_stuffing.
  assert (Hm : length (sink_bytes (if MpegMuxContext.is_mpeg2 (mux ctx)
                                   then [PutByte 0x80; PutByte 0x80; PutByte 0x05] else []))
               = if MpegMuxContext.is_mpeg2 (mux ctx) then 3%nat else 0%nat)
    by (destruct (MpegMuxContext.is_mpeg2 (mux ctx)); reflexivity).
  assert (Hl : length (sink_bytes (if last_pkt then [PutBe32 ISO_11172_END_CODE] else []))
               = if last_pkt then 4%nat else 0%nat)
    by (destruct last_pkt; reflexivity).
  rewrite Hm, Hl.
  cbn [sink_bytes flat_map op_bytes pts_ops length app]. rewrite !app_nil_r.
  unfold header_len.
  destruct (Z.ltb_spec id 0xc0) as [Hlt|Hge].
  - destruct (Z.leb_spec 0x80 id) as [H80|H80].
    + replace (id <=? 0xbf) with true by (symmetry; apply Z.leb_le; lia).
      replace (id <? 0x80) with false by (symmetry; apply Z.ltb_ge; lia).
      cbn [andb sink_bytes flat_map op_bytes app length].
      destruct (MpegMuxContext.is_mpeg2 (mux ctx)), last_pkt; lia.
    + replace (id <? 0x80) with true by (symmetry; apply Z.ltb_lt; lia).
      cbn [andb sink_bytes flat_map op_bytes app length].
      destruct (MpegMuxContext.is_mpeg2 (mux ctx)), last_pkt; lia.
  - replace (id <? 0x80) with false by (symmetry; apply Z.ltb_ge; lia).
    cbn [sink_bytes flat_map length].
    destruct (MpegMuxContext.is_mpeg2 (mux ctx)), last_pkt; lia.
Qed.

Lemma flush_packet_length_field_witness :
  exists ctx' tr,
    flush_packet ctx_av 0 true = Some (ctx', tr)
    /\ exists (preface body : list Z) (hi lo : Z),
         packet_preface ctx_av (StreamInfo.start_pts (priv_data stream_av_audio))
         = Some (preface, Z.of_nat (length preface))
         /\ sink_bytes tr
            = preface
              ++ [0; 0; 1; if StreamInfo.id (priv_data stream_av_audio) <? 0xc0
                           then 0xbd else StreamInfo.id (priv_data stream_av_audio)]
              ++ [hi; lo] ++ body
         /\ 0 <= hi < 256 /\ 0 <= lo < 256
         /\ Z.of_nat (length body)
            = 256 * hi + lo
              + (if true then 4 else 0)
              + (if StreamInfo.id (priv_data stream_av_audio) <? 0x80 then 1
                 else if StreamInfo.id (priv_data stream_av_audio) <? 0xc0 then 4 else 0).
Proof.
  destruct (flush_packet ctx_av 0 true) as [[ctx' tr]|] eqn:Hflush;
    [|vm_compute in Hflush; discriminate Hflush].
  exists ctx', tr. split; [reflexivity|].
  apply (flush_packet_length_field ctx_av 0 true ctx' tr stream_av_audio);
    [by_eval | exact Hflush | by_eval | by_eval | by_eval].
Defined.

(** ** mpeg_mux_write_packet and mpeg_mux_end: what becomes of the data *)

Lemma mux_okb_ok (ctx : AVFormatContext) : mux_okb ctx = true -> mux_ok ctx.
Proof.
  unfold mux_okb, mux_ok. cbv zeta. rewrite !andb_true_iff, !negb_true_iff.
  intros ((((Hp & Hs) & Hmax) & Hroom) & Hall).
  split; [now apply Z.eqb_neq|]. split; [now apply Z.eqb_neq|].
  split; [now apply Z.leb_le|]. split; [now apply Z.ltb_lt|].
  apply Forall_forall. intros st Hin.
  rewrite forallb_forall in Hall. apply list_elem_of_In in Hin. specialize (Hall st Hin).
  unfold stream_okb in Hall. rewrite !andb_true_iff in Hall.
  destruct Hall as ((Hl & H0) & H1).
  split; [now apply Nat.eqb_eq|]. split; [now apply Z.leb_le | now apply Z.ltb_lt].
Qed.

Lemma whole_packets_nil : whole_packets [].
Proof. intros rest. reflexivity. Qed.

Lemma whole_packets_app (a b : list put_op) :
  whole_packets a -> whole_packets b -> whole_packets (a ++ b).
Proof.
  intros Ha Hb rest. rewrite <- app_assoc, Ha, Hb, (Ha b), <- app_assoc. reflexivity.
Qed.

Lemma payloads_app (a b : list put_op) :
  whole_packets a -> payloads (a ++ b) = payloads a ++ payloads b.
Proof. intros Ha. apply Ha. Qed.

Lemma count_packets_app (a b : list put_op) :
  count_packets (a ++ b) = (count_packets a + count_packets b)%nat.
Proof. unfold count_packets. now rewrite List.filter_app, length_app. Qed.

Lemma payloads_plain (a rest : list put_op) :
  forallb plain_op a = true -> payloads (a ++ rest) = payloads rest.
Proof.
  induction a as [|o a IH]; intros Hall; [reflexivity|].
  cbn [forallb] in Hall. apply andb_true_iff in Hall as [Ho Ha].
  cbn [app payloads]. rewrite <- (IH Ha).
  destruct o; try discriminate; destruct (a ++ rest) as [|[] ?]; reflexivity.
Qed.

Lemma count_packets_plain (a : list put_op) :
  forallb plain_op a = true -> count_packets a = O.
Proof.
  induction a as [|o a IH]; intros Hall; [reflexivity|].
  cbn [forallb] in Hall. apply andb_true_iff in Hall as [Ho Ha].
  unfold count_packets in *. cbn [List.filter]. destruct o; try discriminate; auto.
Qed.

Lemma forallb_plain_app (a b : list put_op) :
  forallb plain_op (a ++ b) = forallb plain_op a && forallb plain_op b.
Proof. apply forallb_app. Qed.

(** The payload and the packet count of the calls of one flush. *)
Lemma flush_trace_payloads (preface payload : list Z) (startcode len : Z)
    (mid rest : list put_op) :
  forallb plain_op mid = true ->
  payloads (([PutBuffer preface; PutBe32 startcode; PutBe16 len] ++ mid
             ++ [PutBuffer payload; PutFlushPacket]) ++ rest)
  = payload ++ payloads rest
  /\ count_packets ([PutBuffer preface; PutBe32 startcode; PutBe16 len] ++ mid
                    ++ [PutBuffer payload; PutFlushPacket]) = 1%nat.
Proof.
  intros Hmid. split.
  - rewrite <- !app_assoc. cbn [app payloads].
    rewrite payloads_plain by exact Hmid. reflexivity.
  - rewrite !count_packets_app, (count_packets_plain mid Hmid). reflexivity.
Qed.

Lemma flush_shape (preface payload : list Z) (startcode len id t : Z) (stuffing : nat)
    (mpeg2 private last_pkt : bool) :
  let tr :=
    [PutBuffer preface; PutBe32 startcode; PutBe16 len]
    ++ List.repeat (PutByte 0xff) stuffing
    ++ (if mpeg2 then [PutByte 0x80; PutByte 0x80; PutByte 0x05] else [])
    ++ pts_ops t
    ++ (if private
        then PutByte id :: (if (0x80 <=? id) && (id <=? 0xbf)
                            then [PutByte 1; PutByte 0; PutByte 2] else [])
        else [])
    ++ (if last_pkt then [PutBe32 ISO_11172_END_CODE] else [])
    ++ [PutBuffer payload; PutFlushPacket] in
  whole_packets tr /\ payloads tr = payload /\ count_packets tr = 1%nat.
Proof.
  intros tr.
  set (mid := List.repeat (PutByte 0xff) stuffing
    ++ (if mpeg2 then [PutByte 0x80; PutByte 0x80; PutByte 0x05] else [])
    ++ pts_ops t
    ++ (if private
        then PutByte id :: (if (0x80 <=? id) && (id <=? 0xbf)
                            then [PutByte 1; PutByte 0; PutByte 2] else [])
        else [])
    ++ (if last_pkt then [PutBe32 ISO_11172_END_CODE] else [])).
  assert (Htr : tr = [PutBuffer preface; PutBe32 startcode; PutBe16 len] ++ mid
                     ++ [PutBuffer payload; PutFlushPacket]).
  { unfold tr, mid. now rewrite <- !app_assoc. }
  assert (Hmid : forallb plain_op mid = true).
  { unfold mid. rewrite !forallb_plain_app.
    assert (Hrep : forallb plain_op (List.repeat (PutByte 0xff) stuffing) = true)
      by (clear; induction stuffing as [|k IH]; [reflexivity | exact IH]).
    rewrite Hrep.
    destruct mpeg2, private, last_pkt, ((0x80 <=? id) && (id <=? 0xbf)); reflexivity. }
  rewrite Htr.
  pose proof (fun rest => flush_trace_payloads preface payload startcode len mid rest Hmid)
    as Hp.
  assert (Hone : payloads ([PutBuffer preface; PutBe32 startcode; PutBe16 len] ++ mid
                           ++ [PutBuffer payload; PutFlushPacket]) = payload).
  { destruct (Hp []) as [H _]. rewrite !app_nil_r in H. exact H. }
  split; [|split; [exact Hone | apply (Hp [])]].
  intros rest. rewrite Hone. apply Hp.
Qed.

Lemma flush_packet_whole (ctx : AVFormatContext) (i : nat) (last_pkt : bool)
    (ctx' : AVFormatContext) (tr : list put_op) :
  flush_packet ctx i last_pkt = Some (ctx', tr) ->
  whole_packets tr /\ count_packets tr = 1%nat.
Proof.
  intros Hflush.
  destruct (streams ctx !! i) as [st|] eqn:Hst;
    [|unfold flush_packet in Hflush; rewrite Hst in Hflush; discriminate].
  destruct (flush_packet_trace ctx i last_pkt ctx' tr st Hst Hflush)
    as (preface & size & _ & ->).
  cbv zeta.
  match goal with
  | |- whole_packets ([PutBuffer ?p; PutBe32 ?c; PutBe16 ?l] ++ repeat _ ?n ++ _ ++ pts_ops ?t
                      ++ (if ?pr then _ else _) ++ _ ++ [PutBuffer ?pl; _]) /\ _ =>
      destruct (flush_shape p pl c l (StreamInfo.id (priv_data st)) t n
                  (MpegMuxContext.is_mpeg2 (mux ctx)) pr last_pkt) as (Hw & _ & Hc)
  end.
  split; assumption.
Qed.

Lemma flush_packet_payloads (ctx : AVFormatContext) (i : nat) (last_pkt : bool)
    (ctx' : AVFormatContext) (tr : list put_op) (st : AVStream) :
  streams ctx !! i = Some st ->
  flush_packet ctx i last_pkt = Some (ctx', tr) ->
  3 * nb_streams ctx + 46 <= MpegMuxContext.packet_size (mux ctx) ->
  0 <= StreamInfo.buffer_ptr (priv_data st)
    <= Z.of_nat (length (StreamInfo.buffer (priv_data st))) ->
  exists st',
    streams ctx' = <[i := st']> (streams ctx)
    /\ codec st' = codec st
    /\ payloads tr ++ buffered (priv_data st') = buffered (priv_data st)
    /\ Z.of_nat (length (payloads tr)) + StreamInfo.buffer_ptr (priv_data st')
       = StreamInfo.buffer_ptr (priv_data st)
    /\ 0 <= StreamInfo.buffer_ptr (priv_data st')
    /\ (46 + 3 * nb_streams ctx < MpegMuxContext.packet_size (mux ctx) ->
        0 < StreamInfo.buffer_ptr (priv_data st) ->
        StreamInfo.buffer_ptr (priv_data st') < StreamInfo.buffer_ptr (priv_data st))
    /\ length (StreamInfo.buffer (priv_data st'))
       = length (StreamInfo.buffer (priv_data st))
    /\ StreamInfo.id (priv_data st') = StreamInfo.id (priv_data st)
    /\ StreamInfo.start_pts (priv_data st') = -1
    /\ StreamInfo.pts (priv_data st') = StreamInfo.pts (priv_data st)
    /\ StreamInfo.pts_ticker (priv_data st') = StreamInfo.pts_ticker (priv_data st).
Proof.
  intros Hst Hflush Hroom Hbuf.
  destruct (flush_packet_bytes ctx i last_pkt ctx' tr st Hst Hflush Hroom Hbuf)
    as (preface & payload_size & H). cbv zeta in H.
  destruct H as (Hpre & Hps & Hpos & Htr & Hlen & st' & Hstreams & Hcodec & Hdata & Hbp
                 & Hlb & Hid & Hsp & Hpts & Htk & _).
  assert (Hpay : payloads tr
                 = firstn (Z.to_nat payload_size) (buffered (priv_data st))).
  { rewrite Htr. apply flush_shape. }
  destruct (packet_preface_bound _ _ _ _ Hpre) as [_ Hsize].
  exists st'. rewrite Hpay.
  split; [exact Hstreams|]. split; [exact Hcodec|]. split; [exact Hdata|].
  split.
  { rewrite Hbp. unfold buffered. rewrite firstn_firstn, length_firstn. lia. }
  split; [lia|]. split.
  { intros Hroom' Hdata'. rewrite Hbp.
    destruct (MpegMuxContext.is_mpeg2 (mux ctx)), last_pkt,
      (StreamInfo.id (priv_data st) <? 192); lia. }
  auto.
Qed.

(** X13. A flush loses no data.  With room for the headers and
    [buffer_ptr] within the buffer, one flush writes one packet; the
    payload of the packet followed by the data the stream holds afterwards
    is the data the stream held before, in the same order.  Only the stream
    that is flushed changes, and its [start_pts] is reset to -1. *)
Theorem flush_packet_keeps_data (ctx : AVFormatContext) (i : nat) (last_pkt : bool)
    (ctx' : AVFormatContext) (tr : list put_op) (st : AVStream) :
  streams ctx !! i = Some st ->
  flush_packet ctx i last_pkt = Some (ctx', tr) ->
  3 * nb_streams ctx + 46 <= MpegMuxContext.packet_size (mux ctx) ->
  0 <= StreamInfo.buffer_ptr (priv_data st)
    <= Z.of_nat (length (StreamInfo.buffer (priv_data st))) ->
  exists st',
    streams ctx' = <[i := st']> (streams ctx)
    /\ codec st' = codec st
    /\ count_packets tr = 1%nat
    /\ payloads tr ++ buffered (priv_data st') = buffered (priv_data st)
    /\ Z.of_nat (length (payloads tr)) + StreamInfo.buffer_ptr (priv_data st')
       = StreamInfo.buffer_ptr (priv_data st)
    /\ length (StreamInfo.buffer (priv_data st'))
       = length (StreamInfo.buffer (priv_data st))
    /\ StreamInfo.start_pts (priv_data st') = -1.
Proof.
  intros Hst Hflush Hroom Hbuf.
  destruct (flush_packet_payloads ctx i last_pkt ctx' tr st Hst Hflush Hroom Hbuf)
    as (st' & Hstreams & Hcodec & Hdata & Hlen & _ & _ & Hlb & _ & Hsp & _).
  destruct (flush_packet_whole ctx i last_pkt ctx' tr Hflush) as [_ Hcount].
  exists st'. auto 10.
Qed.

Lemma flush_packet_keeps_data_witness :
  exists ctx' tr st',
    flush_packet ctx_av 0 false = Some (ctx', tr)
    /\ streams ctx' = <[0%nat := st']> (streams ctx_av)
    /\ codec st' = codec stream_av_audio
    /\ count_packets tr = 1%nat
    /\ payloads tr ++ buffered (priv_data st') = buffered (priv_data stream_av_audio)
    /\ Z.of_nat (length (payloads tr)) + StreamInfo.buffer_ptr (priv_data st')
       = StreamInfo.buffer_ptr (priv_data stream_av_audio)
    /\ length (StreamInfo.buffer (priv_data st'))
       = length (StreamInfo.buffer (priv_data stream_av_audio))
    /\ StreamInfo.start_pts (priv_data st') = -1.
Proof.
  destruct (flush_packet ctx_av 0 false) as [[ctx' tr]|] eqn:Hflush;
    [|vm_compute in Hflush; discriminate Hflush].
  destruct (flush_packet_keeps_data ctx_av 0 false ctx' tr stream_av_audio)
    as (st' & H); [by_eval | exact Hflush | by_eval | by_eval |].
  exists ctx', tr, st'. split; [reflexivity | exact H].
Defined.

Lemma same_setup_refl (ctx : AVFormatContext) : same_setup ctx ctx.
Proof. unfold same_setup. auto 10. Qed.

Lemma same_setup_trans (a b c : AVFormatContext) :
  same_setup a b -> same_setup b c -> same_setup a c.
Proof. unfold same_setup. intuition congruence. Qed.

Lemma set_stream_setup (ctx : AVFormatContext) (i : nat) (stream : StreamInfo.t) :
  same_setup ctx (set_stream ctx i stream)
  /\ mux (set_stream ctx i stream) = mux ctx.
Proof.
  unfold same_setup, set_stream. cbn [oformat mux streams].
  destruct (streams ctx !! i); rewrite ?length_insert; auto 10.
Qed.

Lemma set_stream_streams (ctx : AVFormatContext) (i : nat) (stream : StreamInfo.t)
    (st : AVStream) :
  streams ctx !! i = Some st ->
  streams (set_stream ctx i stream)
  = <[i := {| codec := codec st; priv_data := stream |}]> (streams ctx).
Proof. intros Hst. unfold set_stream. cbn [streams]. now rewrite Hst. Qed.

Lemma flush_packet_setup (ctx : AVFormatContext) (i : nat) (last_pkt : bool)
    (ctx' : AVFormatContext) (tr : list put_op) :
  flush_packet ctx i last_pkt = Some (ctx', tr) ->
  same_setup ctx ctx'
  /\ MpegMuxContext.packet_number (mux ctx') = MpegMuxContext.packet_number (mux ctx) + 1.
Proof.
  intros Hflush.
  pose proof (flush_packet_mux ctx i last_pkt ctx' tr Hflush) as Hmux. cbv zeta in Hmux.
  pose proof (flush_packet_streams ctx i last_pkt ctx' tr Hflush) as [Hlen _].
  destruct (streams ctx !! i) as [st|] eqn:Hst;
    [|unfold flush_packet in Hflush; rewrite Hst in Hflush; discriminate].
  destruct (flush_packet_state ctx i last_pkt ctx' tr st Hst Hflush)
    as (preface & size & _ & Hstate). cbv zeta in Hstate.
  unfold same_setup. intuition.
Qed.

Lemma flush_packet_some (ctx : AVFormatContext) (i : nat) (last_pkt : bool)
    (st : AVStream) :
  streams ctx !! i = Some st ->
  MpegMuxContext.pack_header_freq (mux ctx) <> 0 ->
  MpegMuxContext.system_header_freq (mux ctx) <> 0 ->
  exists ctx' tr, flush_packet ctx i last_pkt = Some (ctx', tr).
Proof.
  intros Hst Hp Hs.
  destruct (flush_packet ctx i last_pkt) as [[ctx' tr]|] eqn:Hflush; [eauto|].
  apply flush_packet_defined in Hflush as [Hnone|(st' & _ & Hpre)]; [congruence|].
  apply packet_preface_defined in Hpre. tauto.
Qed.

Lemma buffered_with_start_pts (stream : StreamInfo.t) (pts start_pts : Z) :
  buffered (with_start_pts stream pts start_pts) = buffered stream.
Proof. reflexivity. Qed.

(** The inner loop of [mpeg_mux_write_packet]. *)
Lemma write_flush_loop_spec (fuel : nat) (ctx : AVFormatContext) (i : nat)
    (st : AVStream) :
  (1 <= fuel)%nat ->
  MpegMuxContext.pack_header_freq (mux ctx) <> 0 ->
  MpegMuxContext.system_header_freq (mux ctx) <> 0 ->
  3 * nb_streams ctx + 46 < MpegMuxContext.packet_size (mux ctx) ->
  streams ctx !! i = Some st ->
  0 <= StreamInfo.buffer_ptr (priv_data st)
    <= MpegMuxContext.packet_data_max_size (mux ctx) ->
  0 < MpegMuxContext.packet_data_max_size (mux ctx) ->
  StreamInfo.buffer_ptr (priv_data st)
  <= Z.of_nat (length (StreamInfo.buffer (priv_data st))) ->
  exists ctx' tr st',
    write_flush_loop fuel ctx i = Some (ctx', tr)
    /\ same_setup ctx ctx'
    /\ streams ctx' = <[i := st']> (streams ctx)
    /\ codec st' = codec st
    /\ whole_packets tr
    /\ payloads tr ++ buffered (priv_data st') = buffered (priv_data st)
    /\ 0 <= StreamInfo.buffer_ptr (priv_data st')
         < MpegMuxContext.packet_data_max_size (mux ctx)
    /\ length (StreamInfo.buffer (priv_data st'))
       = length (StreamInfo.buffer (priv_data st))
    /\ StreamInfo.id (priv_data st') = StreamInfo.id (priv_data st)
    /\ MpegMuxContext.packet_number (mux ctx')
       = MpegMuxContext.packet_number (mux ctx) + Z.of_nat (count_packets tr)
    /\ (tr = [] -> st' = st /\ mux ctx' = mux ctx).
Proof.
  intros Hfuel Hp Hs Hroom Hst Hbp Hmax Hbuf.
  destruct fuel as [|fuel]; [lia|]. cbn [write_flush_loop].
  rewrite Hst. cbn [mbind option_bind].
  destruct (Z.leb_spec (MpegMuxContext.packet_data_max_size (mux ctx))
                       (StreamInfo.buffer_ptr (priv_data st))) as [Hfull|Hnot].
  2:{ exists ctx, [], st. split; [reflexivity|]. split; [apply same_setup_refl|].
      split; [symmetry; now apply list_insert_id|]. split; [reflexivity|].
      split; [apply whole_packets_nil|]. split; [reflexivity|].
      split; [lia|]. cbn [count_packets List.filter length]. split; [reflexivity|].
      split; [reflexivity|]. split; [lia | auto]. }
  set (stream1 := if StreamInfo.start_pts (priv_data st) =? -1
                  then with_start_pts (priv_data st) (StreamInfo.pts (priv_data st))
                                      (StreamInfo.pts (priv_data st))
                  else priv_data st).
  set (ctx0 := set_stream ctx i stream1).
  set (st1 := {| codec := codec st; priv_data := stream1 |}).
  assert (Hstreams0 : streams ctx0 = <[i := st1]> (streams ctx))
    by (apply set_stream_streams; exact Hst).
  assert (Hlt : (i < length (streams ctx))%nat)
    by (apply lookup_lt_is_Some; eauto).
  assert (Hst0 : streams ctx0 !! i = Some st1)
    by (rewrite Hstreams0; now apply list_lookup_insert_eq).
  destruct (set_stream_setup ctx i stream1) as [Hsetup0 Hmux0]. fold ctx0 in Hsetup0, Hmux0.
  assert (Hsame1 : buffered stream1 = buffered (priv_data st)
                   /\ StreamInfo.buffer_ptr stream1 = StreamInfo.buffer_ptr (priv_data st)
                   /\ StreamInfo.buffer stream1 = StreamInfo.buffer (priv_data st)
                   /\ StreamInfo.id stream1 = StreamInfo.id (priv_data st)).
  { unfold stream1. destruct (StreamInfo.start_pts (priv_data st) =? -1); auto. }
  destruct Hsame1 as (Hb1 & Hbp1 & Hbuf1 & Hid1).
  destruct (flush_packet_some ctx0 i false st1 Hst0) as (ctx1 & tr1 & Hflush);
    [now rewrite Hmux0 | now rewrite Hmux0 |].
  rewrite Hflush. cbn [mbind option_bind].
  assert (Hn0 : nb_streams ctx0 = nb_streams ctx).
  { unfold nb_streams. destruct Hsetup0 as (_ & -> & _). reflexivity. }
  destruct (flush_packet_payloads ctx0 i false ctx1 tr1 st1 Hst0 Hflush)
    as (st' & Hstreams1 & Hcodec & Hdata & Hlen & Hpos & Hless & Hlb & Hid & _).
  { rewrite Hn0, Hmux0. lia. }
  { cbn [st1 priv_data]. rewrite Hbp1, Hbuf1. lia. }
  cbn [st1 priv_data codec] in *.
  destruct (flush_packet_setup ctx0 i false ctx1 tr1 Hflush) as [Hsetup1 Hnum1].
  destruct (flush_packet_whole ctx0 i false ctx1 tr1 Hflush) as [Hwhole1 Hcount1].
  assert (Hsetup : same_setup ctx ctx1) by (eapply same_setup_trans; eassumption).
  assert (Hst1 : streams ctx1 !! i = Some st').
  { rewrite Hstreams1, Hstreams0. apply list_lookup_insert_eq.
    now rewrite length_insert. }
  assert (Hsmall : StreamInfo.buffer_ptr (priv_data st')
                   < MpegMuxContext.packet_data_max_size (mux ctx)).
  { specialize (Hless ltac:(rewrite Hn0, Hmux0; lia) ltac:(lia)). lia. }
  assert (Hnext : write_flush_loop fuel ctx1 i = Some (ctx1, [])).
  { destruct fuel; cbn [write_flush_loop]; rewrite Hst1; cbn [mbind option_bind];
      destruct Hsetup as (_ & _ & _ & -> & _);
      (destruct (Z.leb_spec (MpegMuxContext.packet_data_max_size (mux ctx))
                            (StreamInfo.buffer_ptr (priv_data st'))); [lia | reflexivity]). }
  rewrite Hnext. cbn [mbind option_bind]. rewrite app_nil_r.
  exists ctx1, tr1, st'. split; [reflexivity|]. split; [exact Hsetup|].
  split; [rewrite Hstreams1, Hstreams0; apply list_insert_insert_eq|].
  split; [exact Hcodec|]. split; [exact Hwhole1|].
  split; [now rewrite Hdata|]. split; [lia|].
  split; [now rewrite Hlb, Hbuf1|]. split; [now rewrite Hid|].
  split; [rewrite Hnum1, Hmux0, Hcount1; lia|].
  intros ->. discriminate.
Qed.

Lemma mux_ok_update (ctx ctx' : AVFormatContext) (i : nat) (st' : AVStream) :
  mux_ok ctx -> same_setup ctx ctx' ->
  streams ctx' = <[i := st']> (streams ctx) ->
  stream_ok (mux ctx) st' ->
  mux_ok ctx'.
Proof.
  unfold mux_ok, same_setup, nb_streams.
  intros (Hp & Hs & Hmax & Hroom & Hall) (_ & Hlen & Hsize & Hpd & Hpf & Hsf & _) Hstreams Hst'.
  rewrite Hpf, Hsf, Hpd, Hsize, Hlen. repeat (split; [assumption|]).
  rewrite Hstreams.
  assert (Hsame : forall st, stream_ok (mux ctx) st -> stream_ok (mux ctx') st)
    by (unfold stream_ok; intros st; now rewrite Hpd).
  apply Forall_insert; [|now apply Hsame].
  eapply Forall_impl; [exact Hall | exact Hsame].
Qed.

Lemma mux_ok_stream (ctx : AVFormatContext) (i : nat) (st : AVStream) :
  mux_ok ctx -> streams ctx !! i = Some st -> stream_ok (mux ctx) st.
Proof.
  intros (_ & _ & _ & _ & Hall) Hst.
  rewrite Forall_lookup in Hall. exact (Hall i st Hst).
Qed.

Lemma memcpy_at_spec (buffer buf : list Z) (dst len : Z) :
  0 <= dst -> 0 <= len <= Z.of_nat (length buf) ->
  dst + len <= Z.of_nat (length buffer) ->
  length (memcpy_at buffer dst buf len) = length buffer
  /\ firstn (Z.to_nat (dst + len)) (memcpy_at buffer dst buf len)
     = firstn (Z.to_nat dst) buffer ++ firstn (Z.to_nat len) buf.
Proof.
  intros Hdst Hlen Hfit. unfold memcpy_at. split.
  - rewrite !length_app, !length_firstn, length_skipn. lia.
  - rewrite app_assoc. apply take_app_length'.
    rewrite length_app, !length_firstn. lia.
Qed.

(** The outer loop of [mpeg_mux_write_packet]. *)
Lemma write_loop_spec (i : nat) (force_pts : Z) (fuel : nat) :
  forall (buf : list Z) (ctx : AVFormatContext) (st : AVStream),
    (length buf < fuel)%nat ->
    mux_ok ctx ->
    streams ctx !! i = Some st ->
    exists ctx' tr st',
      write_loop fuel ctx i buf force_pts = Some (ctx', tr)
      /\ same_setup ctx ctx'
      /\ streams ctx' = <[i := st']> (streams ctx)
      /\ codec st' = codec st
      /\ whole_packets tr
      /\ payloads tr ++ buffered (priv_data st') = buffered (priv_data st) ++ buf
      /\ stream_ok (mux ctx) st'
      /\ StreamInfo.id (priv_data st') = StreamInfo.id (priv_data st)
      /\ MpegMuxContext.packet_number (mux ctx')
         = MpegMuxContext.packet_number (mux ctx) + Z.of_nat (count_packets tr).
Proof.
  induction fuel as [|fuel IH]; intros buf ctx st Hfuel Hok Hst; [lia|].
  cbn [write_loop].
  pose proof (mux_ok_stream ctx i st Hok Hst) as [Hlb Hbp].
  destruct (Z.ltb_spec 0 (Z.of_nat (length buf))) as [Hsize|Hempty].
  2:{ destruct buf; [|cbn [length] in Hempty; lia].
      exists ctx, [], st. split; [reflexivity|]. split; [apply same_setup_refl|].
      split; [symmetry; now apply list_insert_id|]. split; [reflexivity|].
      split; [apply whole_packets_nil|]. rewrite app_nil_r.
      split; [reflexivity|]. split; [split; assumption|].
      split; [reflexivity|]. cbn. lia. }
  rewrite Hst. cbn [mbind option_bind].
  set (stream1 := if StreamInfo.start_pts (priv_data st) =? -1
                  then with_start_pts (priv_data st)
                         (if force_pts =? 0 then StreamInfo.pts (priv_data st)
                          else force_pts)
                         (if force_pts =? 0 then StreamInfo.pts (priv_data st)
                          else force_pts)
                  else priv_data st).
  assert (Hsame1 : StreamInfo.buffer_ptr stream1 = StreamInfo.buffer_ptr (priv_data st)
                   /\ StreamInfo.buffer stream1 = StreamInfo.buffer (priv_data st)
                   /\ StreamInfo.id stream1 = StreamInfo.id (priv_data st)).
  { unfold stream1. destruct (StreamInfo.start_pts (priv_data st) =? -1); auto. }
  destruct Hsame1 as (Hbp1 & Hbuf1 & Hid1).
  rewrite Hbp1, Hbuf1.
  set (bp := StreamInfo.buffer_ptr (priv_data st)) in *.
  set (pdms := MpegMuxContext.packet_data_max_size (mux ctx)) in *.
  set (len := if Z.of_nat (length buf) <? pdms - bp then Z.of_nat (length buf)
              else pdms - bp).
  assert (Hlen : 1 <= len <= Z.of_nat (length buf) /\ bp + len <= pdms).
  { unfold len. destruct (Z.ltb_spec (Z.of_nat (length buf)) (pdms - bp)); lia. }
  destruct Hok as (Hp & Hs & Hmax & Hroom & Hall). fold pdms in Hmax.
  unfold MAX_PAYLOAD_SIZE in *.
  destruct (memcpy_at_spec (StreamInfo.buffer (priv_data st)) buf bp len)
    as [Hlcopy Hcopy]; [lia | lia | lia |].
  set (stream2 := with_buffer stream1
                    (memcpy_at (StreamInfo.buffer (priv_data st)) bp buf len) (bp + len)).
  set (ctx0 := set_stream ctx i stream2).
  set (st2 := {| codec := codec st; priv_data := stream2 |}).
  assert (Hstreams0 : streams ctx0 = <[i := st2]> (streams ctx))
    by (apply set_stream_streams; exact Hst).
  assert (Hlt : (i < length (streams ctx))%nat) by (apply lookup_lt_is_Some; eauto).
  assert (Hst0 : streams ctx0 !! i = Some st2)
    by (rewrite Hstreams0; now apply list_lookup_insert_eq).
  destruct (set_stream_setup ctx i stream2) as [Hsetup0 Hmux0].
  fold ctx0 in Hsetup0, Hmux0.
  assert (Hn0 : nb_streams ctx0 = nb_streams ctx).
  { unfold nb_streams. destruct Hsetup0 as (_ & -> & _). reflexivity. }
  destruct (write_flush_loop_spec fuel ctx0 i st2)
    as (ctx1 & tr1 & st3 & Hrun1 & Hsetup1 & Hstreams1 & Hcodec1 & Hwhole1 & Hdata1
        & Hbp3 & Hlb3 & Hid3 & Hnum1 & _);
    try (rewrite ?Hn0, ?Hmux0; cbn [st2 stream2 priv_data with_buffer StreamInfo.buffer_ptr
           StreamInfo.buffer]; rewrite ?Hlcopy; fold pdms; first [assumption | lia]).
  rewrite Hrun1. cbn [mbind option_bind].
  assert (Hsetup01 : same_setup ctx ctx1) by (eapply same_setup_trans; eassumption).
  assert (Hstreams01 : streams ctx1 = <[i := st3]> (streams ctx))
    by (rewrite Hstreams1, Hstreams0; apply list_insert_insert_eq).
  rewrite Hmux0 in Hbp3, Hnum1. fold pdms in Hbp3.
  cbn [st2 stream2 priv_data with_buffer StreamInfo.buffer StreamInfo.id codec] in *.
  assert (Hok3 : stream_ok (mux ctx) st3).
  { split; [rewrite Hlb3, Hlcopy; exact Hlb | exact Hbp3]. }
  assert (Hok1 : mux_ok ctx1).
  { apply (mux_ok_update ctx ctx1 i st3); [repeat split; assumption | assumption..]. }
  assert (Hst1 : streams ctx1 !! i = Some st3)
    by (rewrite Hstreams01; now apply list_lookup_insert_eq).
  destruct (IH (skipn (Z.to_nat len) buf) ctx1 st3)
    as (ctx2 & tr2 & st4 & Hrun2 & Hsetup2 & Hstreams2 & Hcodec2 & Hwhole2 & Hdata2
        & Hok4 & Hid4 & Hnum2); [rewrite length_skipn; lia | exact Hok1 | exact Hst1 |].
  rewrite Hrun2. cbn [mbind option_bind].
  exists ctx2, (tr1 ++ tr2), st4. split; [reflexivity|].
  split; [eapply same_setup_trans; eassumption|].
  split; [rewrite Hstreams2, Hstreams01; apply list_insert_insert_eq|].
  split; [congruence|]. split; [now apply whole_packets_app|].
  split.
  { rewrite (payloads_app _ _ Hwhole1), <- app_assoc, Hdata2, app_assoc, Hdata1.
    unfold buffered at 1. unfold stream2, with_buffer.
    cbn [StreamInfo.buffer StreamInfo.buffer_ptr].
    rewrite Hcopy, <- app_assoc. unfold buffered. fold bp.
    now rewrite firstn_skipn. }
  split.
  { destruct Hsetup01 as (_ & _ & _ & Hpd & _). unfold stream_ok in *. now rewrite <- Hpd. }
  split; [congruence|].
  rewrite Hnum2, Hnum1, count_packets_app. lia.
Qed.

(** [mpeg_mux_write_packet] on a context that is in order. *)
Lemma mpeg_mux_write_packet_spec (fuel : nat) (ctx : AVFormatContext) (i : nat)
    (buf : list Z) (force_pts : Z) (st : AVStream) :
  (length buf < fuel)%nat ->
  mux_ok ctx ->
  streams ctx !! i = Some st ->
  exists ctx' tr st',
    mpeg_mux_write_packet fuel ctx i buf force_pts = Some (ctx', tr)
    /\ same_setup ctx ctx'
    /\ mux_ok ctx'
    /\ streams ctx' = <[i := st']> (streams ctx)
    /\ codec st' = codec st
    /\ whole_packets tr
    /\ payloads tr ++ buffered (priv_data st') = buffered (priv_data st) ++ buf
    /\ StreamInfo.id (priv_data st') = StreamInfo.id (priv_data st)
    /\ MpegMuxContext.packet_number (mux ctx')
       = MpegMuxContext.packet_number (mux ctx) + Z.of_nat (count_packets tr).
Proof.
  intros Hfuel Hok Hst.
  destruct (write_loop_spec i force_pts fuel buf ctx st Hfuel Hok Hst)
    as (ctx1 & tr & st1 & Hrun & Hsetup1 & Hstreams1 & Hcodec1 & Hwhole & Hdata & Hok1
        & Hid1 & Hnum1).
  unfold mpeg_mux_write_packet. rewrite Hrun. cbn [mbind option_bind].
  assert (Hlt : (i < length (streams ctx))%nat) by (apply lookup_lt_is_Some; eauto).
  assert (Hst1 : streams ctx1 !! i = Some st1)
    by (rewrite Hstreams1; now apply list_lookup_insert_eq).
  rewrite Hst1. cbn [mbind option_bind].
  destruct (Ticker.ticker_tick (StreamInfo.pts_ticker (priv_data st1)) 1) as [v tk].
  match goal with
  | |- context [set_stream ctx1 i ?s] => set (stream2 := s)
  end.
  destruct (set_stream_setup ctx1 i stream2) as [Hsetup2 Hmux2].
  pose proof (set_stream_streams ctx1 i stream2 st1 Hst1) as Hstreams2.
  set (st2 := {| codec := codec st1; priv_data := stream2 |}) in *.
  assert (Hsetup : same_setup ctx (set_stream ctx1 i stream2))
    by (eapply same_setup_trans; eassumption).
  assert (Hstreams : streams (set_stream ctx1 i stream2) = <[i := st2]> (streams ctx))
    by (rewrite Hstreams2, Hstreams1; apply list_insert_insert_eq).
  assert (Hok2 : stream_ok (mux ctx) st2) by exact Hok1.
  exists (set_stream ctx1 i stream2), tr, st2.
  split; [reflexivity|]. split; [exact Hsetup|].
  split; [eapply mux_ok_update; eassumption|].
  split; [exact Hstreams|]. split; [exact Hcodec1|]. split; [exact Hwhole|].
  split; [exact Hdata|]. split; [exact Hid1|].
  now rewrite Hmux2.
Qed.

(** X15. [mpeg_mux_write_packet] goes through.  In a context where the
    header frequencies are not zero, the headers leave room for data and
    every stream holds less than [packet_data_max_size] bytes in a buffer
    of full size, a write to an existing stream succeeds, whatever the size
    of the input, and leaves a context of the same kind with the same
    setup.  (The loop runs at most once for each byte of the input.) *)
Theorem mpeg_mux_write_packet_total (fuel : nat) (ctx : AVFormatContext) (i : nat)
    (buf : list Z) (force_pts : Z) :
  mux_ok ctx ->
  (i < length (streams ctx))%nat ->
  (length buf < fuel)%nat ->
  exists ctx' tr,
    mpeg_mux_write_packet fuel ctx i buf force_pts = Some (ctx', tr)
    /\ mux_ok ctx'
    /\ same_setup ctx ctx'.
Proof.
  intros Hok Hi Hfuel.
  destruct (lookup_lt_is_Some_2 _ _ Hi) as [st Hst].
  destruct (mpeg_mux_write_packet_spec fuel ctx i buf force_pts st Hfuel Hok Hst)
    as (ctx' & tr & st' & Hrun & Hsetup & Hok' & _).
  eauto.
Qed.

Lemma mpeg_mux_write_packet_total_witness :
  exists ctx' tr,
    mpeg_mux_write_packet 3001 ctx_av 1 (List.repeat 9 3000) 0 = Some (ctx', tr)
    /\ mux_ok ctx'
    /\ same_setup ctx_av ctx'.
Proof.
  apply (mpeg_mux_write_packet_total 3001 ctx_av 1 (List.repeat 9 3000) 0).
  - apply mux_okb_ok. vm_compute. reflexivity.
  - vm_compute. lia.
  - rewrite repeat_length. lia.
Defined.

(** X16. A write loses no data and keeps their order.  The payloads of
    the packets written by the call, followed by the data the stream holds
    afterwards, are the data the stream held before followed by the input.
    The other streams are untouched, and [packet_number] grows by the
    number of packets written. *)
Theorem mpeg_mux_write_packet_keeps_data (fuel : nat) (ctx : AVFormatContext) (i : nat)
    (buf : list Z) (force_pts : Z) (st : AVStream) (ctx' : AVFormatContext)
    (tr : list put_op) :
  mux_ok ctx ->
  streams ctx !! i = Some st ->
  (length buf < fuel)%nat ->
  mpeg_mux_write_packet fuel ctx i buf force_pts = Some (ctx', tr) ->
  exists st',
    streams ctx' !! i = Some st'
    /\ payloads tr ++ buffered (priv_data st') = buffered (priv_data st) ++ buf
    /\ (forall j, j <> i -> streams ctx' !! j = streams ctx !! j)
    /\ MpegMuxContext.packet_number (mux ctx')
       = MpegMuxContext.packet_number (mux ctx) + Z.of_nat (count_packets tr).
Proof.
  intros Hok Hst Hfuel Hrun.
  destruct (mpeg_mux_write_packet_spec fuel ctx i buf force_pts st Hfuel Hok Hst)
    as (ctx2 & tr2 & st' & Hrun2 & _ & _ & Hstreams & _ & _ & Hdata & _ & Hnum).
  rewrite Hrun in Hrun2. injection Hrun2 as <- <-.
  assert (Hlt : (i < length (streams ctx))%nat) by (apply lookup_lt_is_Some; eauto).
  exists st'. split; [rewrite Hstreams; now apply list_lookup_insert_eq|].
  split; [exact Hdata|]. split; [|exact Hnum].
  intros j Hj. rewrite Hstreams. now apply list_lookup_insert_ne.
Qed.

Lemma mpeg_mux_write_packet_keeps_data_witness :
  exists ctx' tr st',
    mpeg_mux_write_packet 2041 ctx_av 0 (List.repeat 5 2040) 0 = Some (ctx', tr)
    /\ streams ctx' !! 0%nat = Some st'
    /\ payloads tr ++ buffered (priv_data st')
       = buffered (priv_data stream_av_audio) ++ List.repeat 5 2040
    /\ (forall j, j <> 0%nat -> streams ctx' !! j = streams ctx_av !! j)
    /\ MpegMuxContext.packet_number (mux ctx')
       = MpegMuxContext.packet_number (mux ctx_av) + Z.of_nat (count_packets tr).
Proof.
  destruct (mpeg_mux_write_packet 2041 ctx_av 0 (List.repeat 5 2040) 0)
    as [[ctx' tr]|] eqn:Hrun; [|vm_compute in Hrun; discriminate Hrun].
  destruct (mpeg_mux_write_packet_keeps_data 2041 ctx_av 0 (List.repeat 5 2040) 0
              stream_av_audio ctx' tr) as (st' & H).
  - apply mux_okb_ok. vm_compute. reflexivity.
  - vm_compute. reflexivity.
  - rewrite repeat_length. lia.
  - exact Hrun.
  - exists ctx', tr, st'. split; [reflexivity | exact H].
Defined.

(** A flush takes at most [packet_size - 11] bytes from the buffer. *)
Lemma flush_packet_takes (ctx : AVFormatContext) (i : nat) (last_pkt : bool)
    (ctx' : AVFormatContext) (tr : list put_op) (st : AVStream) :
  streams ctx !! i = Some st ->
  flush_packet ctx i last_pkt = Some (ctx', tr) ->
  exists st',
    streams ctx' !! i = Some st'
    /\ StreamInfo.buffer_ptr (priv_data st) - (MpegMuxContext.packet_size (mux ctx) - 11)
       <= StreamInfo.buffer_ptr (priv_data st')
    /\ 0 <= StreamInfo.buffer_ptr (priv_data st').
Proof.
  intros Hst Hflush.
  destruct (flush_packet_state ctx i last_pkt ctx' tr st Hst Hflush)
    as (preface & size & Hpre & Hstate). cbv zeta in Hstate.
  destruct Hstate as (Hstreams & _).
  destruct (packet_preface_bound _ _ _ _ Hpre) as [_ Hsize].
  assert (Hlt : (i < length (streams ctx))%nat) by (apply lookup_lt_is_Some; eauto).
  eexists. split; [rewrite Hstreams; now apply list_lookup_insert_eq|].
  cbn [priv_data StreamInfo.buffer_ptr].
  destruct (MpegMuxContext.is_mpeg2 (mux ctx)), last_pkt,
    (StreamInfo.id (priv_data st) <? 192); lia.
Qed.

Lemma mux_end_loop_spec (todo : nat) :
  forall (i : nat) (ctx ctx' : AVFormatContext) (tr : list put_op),
    mux_end_loop todo i ctx = Some (ctx', tr) ->
    same_setup ctx ctx'
    /\ whole_packets tr
    /\ count_packets tr
       = length (List.filter pending (firstn todo (skipn i (streams ctx))))
    /\ MpegMuxContext.packet_number (mux ctx')
       = MpegMuxContext.packet_number (mux ctx) + Z.of_nat (count_packets tr)
    /\ forall (j : nat) (st : AVStream),
         streams ctx !! j = Some st ->
         exists st',
           streams ctx' !! j = Some st'
           /\ ((j < i)%nat \/ (i + todo <= j)%nat \/ pending st = false -> st' = st)
           /\ StreamInfo.buffer_ptr (priv_data st)
              - Z.max 0 (MpegMuxContext.packet_size (mux ctx) - 11)
              <= StreamInfo.buffer_ptr (priv_data st').
Proof.
  induction todo as [|todo IH]; intros i ctx ctx' tr; cbn [mux_end_loop].
  - intros [= <- <-]. split; [apply same_setup_refl|]. split; [apply whole_packets_nil|].
    split; [reflexivity|]. split; [cbn; lia|].
    intros j st Hst. exists st. split; [exact Hst|]. split; [auto | lia].
  - destruct (streams ctx !! i) as [sti|] eqn:Hsti; cbn [mbind option_bind];
      [|discriminate].
    assert (Hskip : skipn i (streams ctx) = sti :: skipn (S i) (streams ctx)).
    { now apply drop_S. }
    rewrite Hskip. cbn [firstn List.filter]. unfold pending at 1.
    destruct (Z.ltb_spec 0 (StreamInfo.buffer_ptr (priv_data sti))) as [Hdata|Hnone].
    + set (last_pkt := Z.of_nat i =? nb_streams ctx - 1).
      assert (Hflush_eq : (if last_pkt then flush_packet ctx i true
                           else flush_packet ctx i false) = flush_packet ctx i last_pkt)
        by (destruct last_pkt; reflexivity).
      rewrite Hflush_eq.
      destruct (flush_packet ctx i last_pkt) as [[ctx1 tr1]|] eqn:Hflush;
        cbn [mbind option_bind]; [|discriminate].
      destruct (mux_end_loop todo (S i) ctx1) as [[ctx2 tr2]|] eqn:Hrun;
        cbn [mbind option_bind]; [|discriminate].
      intros [= <- <-].
      destruct (IH _ _ _ _ Hrun) as (Hsetup2 & Hwhole2 & Hcount2 & Hnum2 & Hstreams2).
      destruct (flush_packet_setup ctx i last_pkt ctx1 tr1 Hflush) as [Hsetup1 Hnum1].
      destruct (flush_packet_whole ctx i last_pkt ctx1 tr1 Hflush) as [Hwhole1 Hcount1].
      destruct (flush_packet_streams ctx i last_pkt ctx1 tr1 Hflush) as [_ Hothers].
      destruct (flush_packet_takes ctx i last_pkt ctx1 tr1 sti Hsti Hflush)
        as (sti' & Hsti' & Htakes & Hpos).
      assert (Hsize : MpegMuxContext.packet_size (mux ctx1)
                      = MpegMuxContext.packet_size (mux ctx))
        by (destruct Hsetup1 as (_ & _ & H & _); exact H).
      assert (Hdrop : skipn (S i) (streams ctx1) = skipn (S i) (streams ctx)).
      { apply list_eq. intros k. rewrite !lookup_drop. apply Hothers. lia. }
      split; [eapply same_setup_trans; eassumption|].
      split; [now apply whole_packets_app|].
      split; [rewrite count_packets_app, Hcount1, Hcount2, Hdrop; reflexivity|].
      split; [rewrite Hnum2, Hnum1, count_packets_app; lia|].
      intros j st Hst.
      destruct (Nat.eq_dec j i) as [->|Hne].
      * rewrite Hsti in Hst. injection Hst as <-.
        destruct (Hstreams2 i sti' Hsti') as (st' & Hst' & Hsame & _).
        specialize (Hsame ltac:(left; lia)). subst st'.
        exists sti'. split; [exact Hst'|]. split; [|lia].
        intros [H|[H|H]]; try lia. unfold pending in H.
        apply Z.ltb_ge in H. lia.
      * assert (Hst1 : streams ctx1 !! j = Some st) by (rewrite Hothers; assumption).
        destruct (Hstreams2 j st Hst1) as (st' & Hst' & Hsame & Hkeep).
        exists st'. split; [exact Hst'|]. split; [|now rewrite <- Hsize].
        intros [H|[H|H]]; apply Hsame; [left | right; left | right; right]; try lia.
        exact H.
    + intros Hrun.
      destruct (IH _ _ _ _ Hrun) as (Hsetup2 & Hwhole2 & Hcount2 & Hnum2 & Hstreams2).
      split; [exact Hsetup2|]. split; [exact Hwhole2|]. split; [exact Hcount2|].
      split; [exact Hnum2|].
      intros j st Hst. destruct (Hstreams2 j st Hst) as (st' & Hst' & Hsame & Hkeep).
      exists st'. split; [exact Hst'|]. split; [|exact Hkeep].
      intros [H|[H|H]].
      * apply Hsame. left. lia.
      * apply Hsame. right. left. lia.
      * destruct (Nat.eq_dec j i) as [->|Hne].
        -- apply Hsame. left. lia.
        -- apply Hsame. right. right. exact H.
Qed.

Lemma mux_end_loop_total (todo : nat) :
  forall (i : nat) (ctx : AVFormatContext),
    MpegMuxContext.pack_header_freq (mux ctx) <> 0 ->
    MpegMuxContext.system_header_freq (mux ctx) <> 0 ->
    (i + todo <= length (streams ctx))%nat ->
    exists ctx' tr, mux_end_loop todo i ctx = Some (ctx', tr).
Proof.
  induction todo as [|todo IH]; intros i ctx Hp Hs Hlen; cbn [mux_end_loop]; [eauto|].
  destruct (lookup_lt_is_Some_2 (streams ctx) i ltac:(lia)) as [st Hst].
  rewrite Hst. cbn [mbind option_bind].
  destruct (0 <? StreamInfo.buffer_ptr (priv_data st)); [|apply IH; [assumption..|lia]].
  set (last_pkt := Z.of_nat i =? nb_streams ctx - 1).
  assert (Hflush_eq : (if last_pkt then flush_packet ctx i true
                       else flush_packet ctx i false) = flush_packet ctx i last_pkt)
    by (destruct last_pkt; reflexivity).
  rewrite Hflush_eq.
  destruct (flush_packet_some ctx i last_pkt st Hst Hp Hs) as (ctx1 & tr1 & Hflush).
  rewrite Hflush. cbn [mbind option_bind].
  destruct (flush_packet_setup ctx i last_pkt ctx1 tr1 Hflush)
    as [(_ & Hlen1 & _ & _ & Hp1 & Hs1 & _) _].
  destruct (IH (S i) ctx1) as (ctx2 & tr2 & Hrun);
    [now rewrite Hp1 | now rewrite Hs1 | rewrite Hlen1; lia |].
  rewrite Hrun. cbn [mbind option_bind]. eauto.
Qed.

(** X17. The packets of [mpeg_mux_end].  With header frequencies that are
    not zero, [mpeg_mux_end] succeeds and writes one packet for each stream
    that holds data, and none for the others, which it leaves as they are;
    [packet_number] grows by the number of these streams. *)
Theorem mpeg_mux_end_packets (ctx : AVFormatContext) :
  MpegMuxContext.pack_header_freq (mux ctx) <> 0 ->
  MpegMuxContext.system_header_freq (mux ctx) <> 0 ->
  exists ctx' tr,
    mpeg_mux_end ctx = Some (ctx', tr)
    /\ count_packets tr = length (List.filter pending (streams ctx))
    /\ MpegMuxContext.packet_number (mux ctx')
       = MpegMuxContext.packet_number (mux ctx)
         + Z.of_nat (length (List.filter pending (streams ctx)))
    /\ forall (j : nat) (st : AVStream),
         streams ctx !! j = Some st -> pending st = false ->
         streams ctx' !! j = Some st.
Proof.
  intros Hp Hs. unfold mpeg_mux_end.
  destruct (mux_end_loop_total (length (streams ctx)) 0 ctx Hp Hs ltac:(lia))
    as (ctx' & tr & Hrun).
  exists ctx', tr. split; [exact Hrun|].
  destruct (mux_end_loop_spec _ _ _ _ _ Hrun) as (_ & _ & Hcount & Hnum & Hstreams).
  cbn [skipn] in Hcount. rewrite firstn_all in Hcount.
  split; [exact Hcount|]. split; [now rewrite Hnum, Hcount|].
  intros j st Hst Hnone. destruct (Hstreams j st Hst) as (st' & Hst' & Hsame & _).
  now rewrite (Hsame ltac:(auto)) in Hst'.
Qed.

Lemma mpeg_mux_end_packets_witness :
  exists ctx' tr,
    mpeg_mux_end ctx_av_both = Some (ctx', tr)
    /\ count_packets tr = length (List.filter pending (streams ctx_av_both))
    /\ MpegMuxContext.packet_number (mux ctx')
       = MpegMuxContext.packet_number (mux ctx_av_both)
         + Z.of_nat (length (List.filter pending (streams ctx_av_both)))
    /\ forall (j : nat) (st : AVStream),
         streams ctx_av_both !! j = Some st -> pending st = false ->
         streams ctx' !! j = Some st.
Proof.
  apply (mpeg_mux_end_packets ctx_av_both); vm_compute; discriminate.
Defined.

(** X18. [mpeg_mux_end] flushes each stream once.  A flush takes at most
    [packet_size - 11] bytes, so of the [buffer_ptr] bytes a stream holds,
    at least [buffer_ptr - (packet_size - 11)] are still in its buffer when
    [mpeg_mux_end] returns: data beyond one packet are not written. *)
Theorem mpeg_mux_end_leaves_data (ctx ctx' : AVFormatContext) (tr : list put_op)
    (i : nat) (st : AVStream) :
  mpeg_mux_end ctx = Some (ctx', tr) ->
  streams ctx !! i = Some st ->
  exists st',
    streams ctx' !! i = Some st'
    /\ StreamInfo.buffer_ptr (priv_data st)
       - Z.max 0 (MpegMuxContext.packet_size (mux ctx) - 11)
       <= StreamInfo.buffer_ptr (priv_data st').
Proof.
  unfold mpeg_mux_end. intros Hrun Hst.
  destruct (mux_end_loop_spec _ _ _ _ _ Hrun) as (_ & _ & _ & _ & Hstreams).
  destruct (Hstreams i st Hst) as (st' & Hst' & _ & Hkeep). eauto.
Qed.

Lemma mpeg_mux_end_leaves_data_witness :
  exists ctx' tr st',
    mpeg_mux_end ctx_full = Some (ctx', tr)
    /\ streams ctx' !! 0%nat = Some st'
    /\ StreamInfo.buffer_ptr (priv_data stream_full_audio)
       - Z.max 0 (MpegMuxContext.packet_size (mux ctx_full) - 11)
       <= StreamInfo.buffer_ptr (priv_data st')
    /\ StreamInfo.buffer_ptr (priv_data stream_full_audio)
       - Z.max 0 (MpegMuxContext.packet_size (mux ctx_full) - 11) = 3.
Proof.
  destruct (mpeg_mux_end ctx_full) as [[ctx' tr]|] eqn:Hrun;
    [|vm_compute in Hrun; discriminate Hrun].
  destruct (mpeg_mux_end_leaves_data ctx_full ctx' tr 0 stream_full_audio Hrun)
    as (st' & Hst' & Hleft); [vm_compute; reflexivity|].
  exists ctx', tr, st'. split; [reflexivity|]. split; [exact Hst'|].
  split; [exact Hleft | vm_compute; reflexivity].
Defined.

(** The context made by [mpeg_mux_init] and [mux_ok]. *)
Lemma mpeg_mux_init_state (base : Z) (alloc_ok : nat -> bool)
    (ctx0 ctx : AVFormatContext) :
  mpeg_mux_init base alloc_ok ctx0 = InitOk ctx ->
  (mux_ok ctx
   <-> MpegMuxContext.pack_header_freq (mux ctx) <> 0
       /\ 3 * nb_streams ctx + 46 < MpegMuxContext.packet_size (mux ctx))
  /\ Forall (fun st => buffered (priv_data st) = []) (streams ctx).
Proof.
  intros Hinit.
  pose proof (mpeg_mux_init_mux base alloc_ok ctx0 ctx Hinit) as Hmux. cbv zeta in Hmux.
  destruct (mpeg_mux_init_stream base alloc_ok ctx0 ctx Hinit) as [Hlen Hk].
  assert (Hstreams : forall i st, streams ctx !! i = Some st ->
            length (StreamInfo.buffer (priv_data st)) = Z.to_nat MAX_PAYLOAD_SIZE
            /\ StreamInfo.buffer_ptr (priv_data st) = 0).
  { intros i st Hst.
    destruct (streams ctx0 !! i) as [st0|] eqn:Hst0.
    2:{ apply lookup_ge_None in Hst0. rewrite <- Hlen in Hst0.
        apply lookup_ge_None in Hst0. congruence. }
    destruct (Hk i st0 Hst0) as (f & _ & Hlook).
    rewrite Hst in Hlook. injection Hlook as ->.
    cbn. split; [apply repeat_length | reflexivity]. }
  split.
  - unfold mux_ok. cbv zeta. split; [tauto|]. intros [Hp Hroom].
    split; [exact Hp|]. split.
    { rewrite Hmux in Hp |- *.
      cbn [MpegMuxContext.system_header_freq MpegMuxContext.pack_header_freq] in *.
      destruct (oformat ctx0); cbn [orb] in *; lia. }
    split.
    { rewrite Hmux. cbn [MpegMuxContext.packet_data_max_size]. unfold MAX_PAYLOAD_SIZE.
      destruct (oformat ctx0); lia. }
    split; [exact Hroom|].
    apply Forall_lookup. intros i st Hst. destruct (Hstreams i st Hst) as [Hl Hb].
    split; [exact Hl|]. rewrite Hb, Hmux. cbn [MpegMuxContext.packet_data_max_size].
    destruct (oformat ctx0); lia.
  - apply Forall_lookup. intros i st Hst. destruct (Hstreams i st Hst) as [_ Hb].
    unfold buffered. now rewrite Hb.
Qed.

(** X14. The context after [mpeg_mux_init].  The context that
    [mpeg_mux_init] makes is fit for writing, in the sense of [mux_ok],
    exactly when [pack_header_freq] is not zero and the headers leave room
    for data ([3 * nb_streams + 46 < packet_size]); no stream holds
    data. *)
Theorem mpeg_mux_init_mux_ok (base : Z) (alloc_ok : nat -> bool)
    (ctx0 ctx : AVFormatContext) :
  mpeg_mux_init base alloc_ok ctx0 = InitOk ctx ->
  (mux_ok ctx
   <-> MpegMuxContext.pack_header_freq (mux ctx) <> 0
       /\ 3 * nb_streams ctx + 46 < MpegMuxContext.packet_size (mux ctx))
  /\ Forall (fun st => buffered (priv_data st) = []) (streams ctx).
Proof. apply mpeg_mux_init_state. Qed.

Lemma mpeg_mux_init_mux_ok_witness :
  (mux_ok ctx_init
   <-> MpegMuxContext.pack_header_freq (mux ctx_init) <> 0
       /\ 3 * nb_streams ctx_init + 46 < MpegMuxContext.packet_size (mux ctx_init))
  /\ Forall (fun st => buffered (priv_data st) = []) (streams ctx_init).
Proof.
  apply (mpeg_mux_init_mux_ok 10000 (fun _ => true) ctx_new ctx_init ctx_init_ok).
Defined.

(** ** The clock of a stream over a session *)

(** X19. The clock of a stream after [n] frames without forced timestamp.
    [mpeg_mux_init] sets the ticker of an audio stream to the rate
    [sample_rate] and the unit [90000 * frame_size], that of a video stream
    to [frame_rate] and [90000 * FRAME_RATE_BASE], the products being taken
    on [int]s; a write with [force_pts = 0] advances the clock by one
    frame, whatever its size.  So after [n] such writes to a stream of a
    fresh session, with a positive rate, its [pts] is [n * unit / rate]
    rounded down: the rounding of the single steps does not add up.  (A
    write with a [force_pts] other than 0 sets the clock anew; [write_all]
    makes none.) *)
Theorem session_pts_after_frames (base : Z) (alloc_ok : nat -> bool)
    (ctx0 ctx ctx' : AVFormatContext) (i : nat) (st0 : AVStream)
    (frames : list (list Z)) (tr : list put_op) :
  mpeg_mux_init base alloc_ok ctx0 = InitOk ctx ->
  streams ctx0 !! i = Some st0 ->
  let c := codec st0 in
  let '(rate, unit) :=
    match codec_type c with
    | CODEC_TYPE_AUDIO => (sample_rate c, sint32 (90000 * frame_size c))
    | _ => (frame_rate c, sint32 (90000 * base))
    end in
  0 < rate ->
  write_all ctx (map (fun buf => (i, buf)) frames) = Some (ctx', tr) ->
  exists st',
    streams ctx' !! i = Some st'
    /\ StreamInfo.pts (priv_data st') = (Z.of_nat (length frames) * unit) / rate.
Proof.
  intros Hinit Hst0 c.
  destruct (mpeg_mux_init_stream base alloc_ok ctx0 ctx Hinit) as [_ Hk].
  destruct (Hk i st0 Hst0) as (f & Hf & Hst).
  assert (Hgoal : forall rate unit,
    StreamInfo.pts_ticker (priv_data (init_stream base
        {| codec := codec st0;
           priv_data := set_id_size zero_stream
             (family_base f + Z.of_nat (family_count f (firstn i (streams ctx0))))
             (family_buffer_size f) |}))
    = Ticker.ticker_init rate unit ->
    0 < rate ->
    write_all ctx (map (fun buf => (i, buf)) frames) = Some (ctx', tr) ->
    exists st',
      streams ctx' !! i = Some st'
      /\ StreamInfo.pts (priv_data st') = (Z.of_nat (length frames) * unit) / rate).
  { intros rate unit Htk Hrate Hrun.
    destruct (write_all_pts_drift_free frames ctx ctx' i tr _ Hst) as (st' & Hst' & Hpts);
      try (rewrite Htk; cbn; assumption || reflexivity); [exact Hrun|].
    exists st'. split; [exact Hst'|]. rewrite Hpts, Htk. reflexivity. }
  fold c in Hgoal. unfold init_stream in Hgoal. cbn [codec priv_data StreamInfo.pts_ticker] in Hgoal.
  fold c in Hgoal.
  destruct (codec_type c); apply Hgoal; reflexivity.
Qed.

Lemma session_pts_after_frames_witness :
  exists ctx' tr st',
    write_all ctx_init (map (fun buf => (0%nat, buf)) [[1]; [2; 3]; [4]]) = Some (ctx', tr)
    /\ streams ctx' !! 0%nat = Some st'
    /\ StreamInfo.pts (priv_data st') = (3 * (90000 * 1152)) / 44100.
Proof.
  destruct (write_all ctx_init (map (fun buf => (0%nat, buf)) [[1]; [2; 3]; [4]]))
    as [[ctx' tr]|] eqn:Hrun; [|vm_compute in Hrun; discriminate Hrun].
  pose proof (session_pts_after_frames 10000 (fun _ => true) ctx_new ctx_init ctx' 0
                {| codec := mp2_audio; priv_data := zero_stream |}
                [[1]; [2; 3]; [4]] tr ctx_init_ok eq_refl) as H.
  cbv beta iota zeta delta [codec codec_type sample_rate frame_size mp2_audio] in H.
  destruct (H ltac:(lia) Hrun) as (st' & Hst' & Hpts).
  exists ctx', tr, st'. split; [reflexivity|]. split; [exact Hst' | exact Hpts].
Defined.

(** ** A written stream is recognised by mpegps_probe *)

Lemma starts_with_flush_app (ctx ctx1 ctx2 : AVFormatContext) (tr1 tr2 : list put_op) :
  starts_with_flush ctx ctx1 tr1 -> starts_with_flush ctx1 ctx2 tr2 ->
  starts_with_flush ctx ctx2 (tr1 ++ tr2).
Proof.
  intros [[-> Hmux1]|(ctxA & ctxB & i & l & ta & tb & HA & Hf & ->)] H2.
  - destruct H2 as [[-> Hmux2]|(ctxA & ctxB & i & l & ta & tb & HA & Hf & ->)].
    + left. split; [reflexivity | congruence].
    + right. exists ctxA, ctxB, i, l, ta, tb. split; [congruence | auto].
  - right. exists ctxA, ctxB, i, l, ta, (tb ++ tr2). rewrite app_assoc. auto.
Qed.

Lemma write_flush_loop_head (fuel : nat) :
  forall (ctx ctx' : AVFormatContext) (i : nat) (tr : list put_op),
    write_flush_loop fuel ctx i = Some (ctx', tr) -> starts_with_flush ctx ctx' tr.
Proof.
  destruct fuel as [|fuel]; intros ctx ctx' i tr; cbn [write_flush_loop];
    (destruct (streams ctx !! i) as [st|]; cbn [mbind option_bind]; [|discriminate]);
    (destruct (_ <=? _); [|intros [= <- <-]; left; auto]); [discriminate|].
  match goal with
  | |- context [flush_packet ?c i false] => set (ctxA := c)
  end.
  destruct (flush_packet ctxA i false) as [[ctx1 tr1]|] eqn:Hflush;
    cbn [mbind option_bind]; [|discriminate].
  destruct (write_flush_loop fuel ctx1 i) as [[ctx2 tr2]|]; cbn [mbind option_bind];
    [|discriminate].
  intros [= <- <-]. right. exists ctxA, ctx1, i, false, tr1, tr2.
  split; [apply set_stream_setup | auto].
Qed.

Lemma write_loop_head (i : nat) (force_pts : Z) (fuel : nat) :
  forall (ctx ctx' : AVFormatContext) (buf : list Z) (tr : list put_op),
    write_loop fuel ctx i buf force_pts = Some (ctx', tr) -> starts_with_flush ctx ctx' tr.
Proof.
  induction fuel as [|fuel IH]; intros ctx ctx' buf tr; cbn [write_loop];
    (destruct (0 <? Z.of_nat (length buf)); [|intros [= <- <-]; left; auto]);
    [discriminate|].
  destruct (streams ctx !! i) as [st|]; cbn [mbind option_bind]; [|discriminate].
  match goal with
  | |- context [write_flush_loop fuel ?c i] => set (ctxA := c)
  end.
  destruct (write_flush_loop fuel ctxA i) as [[ctx1 tr1]|] eqn:Hinner;
    cbn [mbind option_bind]; [|discriminate].
  destruct (write_loop fuel ctx1 i _ force_pts) as [[ctx2 tr2]|] eqn:Houter;
    cbn [mbind option_bind]; [|discriminate].
  intros [= <- <-].
  apply write_flush_loop_head in Hinner. apply IH in Houter.
  assert (HA : starts_with_flush ctx ctxA []).
  { left. split; [reflexivity | apply set_stream_setup]. }
  apply (starts_with_flush_app ctx ctxA ctx2 [] (tr1 ++ tr2) HA).
  eapply starts_with_flush_app; eassumption.
Qed.

Lemma mpeg_mux_write_packet_head (fuel : nat) (ctx ctx' : AVFormatContext) (i : nat)
    (buf : list Z) (force_pts : Z) (tr : list put_op) :
  mpeg_mux_write_packet fuel ctx i buf force_pts = Some (ctx', tr) ->
  starts_with_flush ctx ctx' tr.
Proof.
  unfold mpeg_mux_write_packet.
  destruct (write_loop fuel ctx i buf force_pts) as [[ctx1 tr1]|] eqn:Hloop;
    cbn [mbind option_bind]; [|discriminate].
  destruct (streams ctx1 !! i) as [st|]; cbn [mbind option_bind]; [|discriminate].
  destruct (Ticker.ticker_tick _ 1) as [v tk].
  intros [= <- <-]. apply write_loop_head in Hloop.
  rewrite <- (app_nil_r tr1).
  eapply starts_with_flush_app; [exact Hloop|].
  left. split; [reflexivity | apply set_stream_setup].
Qed.

Lemma write_all_head (inputs : list (nat * list Z)) :
  forall (ctx ctx' : AVFormatContext) (tr : list put_op),
    write_all ctx inputs = Some (ctx', tr) -> starts_with_flush ctx ctx' tr.
Proof.
  induction inputs as [|[i buf] inputs IH]; intros ctx ctx' tr; cbn [write_all].
  - intros [= <- <-]. left. auto.
  - destruct (mpeg_mux_write_packet _ ctx i buf 0) as [[ctx1 tr1]|] eqn:Hfirst;
      cbn [mbind option_bind]; [|discriminate].
    destruct (write_all ctx1 inputs) as [[ctx2 tr2]|] eqn:Hrest;
      cbn [mbind option_bind]; [|discriminate].
    intros [= <- <-].
    eapply starts_with_flush_app;
      [eapply mpeg_mux_write_packet_head; exact Hfirst | eapply IH; exact Hrest].
Qed.

Lemma mux_end_loop_head (todo : nat) :
  forall (i : nat) (ctx ctx' : AVFormatContext) (tr : list put_op),
    mux_end_loop todo i ctx = Some (ctx', tr) -> starts_with_flush ctx ctx' tr.
Proof.
  induction todo as [|todo IH]; intros i ctx ctx' tr; cbn [mux_end_loop].
  - intros [= <- <-]. left. auto.
  - destruct (streams ctx !! i) as [st|]; cbn [mbind option_bind]; [|discriminate].
    destruct (0 <? _); [|apply IH].
    set (last_pkt := Z.of_nat i =? nb_streams ctx - 1).
    assert (Hflush_eq : (if last_pkt then flush_packet ctx i true
                         else flush_packet ctx i false) = flush_packet ctx i last_pkt)
      by (destruct last_pkt; reflexivity).
    rewrite Hflush_eq.
    destruct (flush_packet ctx i last_pkt) as [[ctx1 tr1]|] eqn:Hflush;
      cbn [mbind option_bind]; [|discriminate].
    destruct (mux_end_loop todo (S i) ctx1) as [[ctx2 tr2]|]; cbn [mbind option_bind];
      [|discriminate].
    intros [= <- <-]. right. exists ctx, ctx1, i, last_pkt, tr1, tr2. auto.
Qed.

Lemma mpegps_probe_pack_header (score : Z) (tail : list Z) :
  mpegps_probe score (0 :: 0 :: 1 :: 0xba :: tail) = score - 1.
Proof.
  unfold mpegps_probe.
  rewrite (mpegps_probe_loop_spec score _ 0xff 0 0 0 0xff) by (try lia; reflexivity).
  rewrite first_start_code_initial. reflexivity.
Qed.

(** The first packet of a session starts with a pack header. *)
Lemma first_flush_pack_header (ctx ctx' : AVFormatContext) (tr : list put_op) :
  MpegMuxContext.packet_number (mux ctx) = 0 ->
  starts_with_flush ctx ctx' tr -> tr <> [] ->
  exists tail, sink_bytes tr = 0 :: 0 :: 1 :: 0xba :: tail.
Proof.
  intros Hzero [[-> _]|(ctxA & ctx1 & i & l & tr1 & tr2 & HA & Hflush & ->)] Hne;
    [congruence|].
  pose proof (flush_packet_headers ctxA i l ctx1 tr1 Hflush) as Hhead.
  cbv zeta in Hhead. destruct Hhead as (_ & Hpack & _).
  rewrite HA, Hzero in Hpack. rewrite Z.rem_0_l in Hpack by (rewrite <- HA; now destruct (flush_packet_headers ctxA i l ctx1 tr1 Hflush)).
  destruct Hpack as [_ Hpack]. specialize (Hpack eq_refl).
  unfold has_pack_header in Hpack.
  destruct tr1 as [|[| | |preface|] tr1]; try discriminate.
  unfold starts_with4 in Hpack.
  destruct preface as [|x0 [|x1 [|x2 [|x3 preface]]]]; try discriminate.
  apply andb_true_iff in Hpack as [Hpack H3].
  apply andb_true_iff in Hpack as [Hpack H2].
  apply andb_true_iff in Hpack as [H0 H1].
  apply Z.eqb_eq in H0, H1, H2, H3. subst.
  cbn [app sink_bytes flat_map op_bytes]. eauto.
Qed.

(** X20. What the muxer writes passes the probe.  The first packet of a
    session starts with a pack header, whatever the format, the streams and
    the inputs: if a session after [mpeg_mux_init] writes anything at all,
    [mpegps_probe] gives its output, and every byte string that starts with
    it, the score [AVPROBE_SCORE_MAX - 1]. *)
Theorem session_passes_probe (AVPROBE_SCORE_MAX base : Z) (alloc_ok : nat -> bool)
    (ctx0 ctx ctx1 ctx2 : AVFormatContext) (inputs : list (nat * list Z))
    (tr1 tr2 : list put_op) (more : list Z) :
  mpeg_mux_init base alloc_ok ctx0 = InitOk ctx ->
  write_all ctx inputs = Some (ctx1, tr1) ->
  mpeg_mux_end ctx1 = Some (ctx2, tr2) ->
  tr1 ++ tr2 <> [] ->
  mpegps_probe AVPROBE_SCORE_MAX (sink_bytes (tr1 ++ tr2) ++ more)
  = AVPROBE_SCORE_MAX - 1.
Proof.
  intros Hinit Hwrite Hend Hne.
  destruct (mpeg_mux_init_freq base alloc_ok ctx0 ctx Hinit) as (Hzero & _).
  apply write_all_head in Hwrite. apply mux_end_loop_head in Hend.
  pose proof (starts_with_flush_app _ _ _ _ _ Hwrite Hend) as Hall.
  destruct (first_flush_pack_header ctx ctx2 (tr1 ++ tr2) Hzero Hall Hne) as [tail ->].
  apply mpegps_probe_pack_header.
Qed.

Lemma session_passes_probe_witness :
  mpegps_probe 100 (sink_bytes ([] ++ trace_end_av) ++ [0x12; 0x34]) = 100 - 1.
Proof.
  apply (session_passes_probe 100 10000 (fun _ => true) ctx_new ctx_init ctx_av ctx_end_av
           [(0%nat, List.repeat 7 10)] [] trace_end_av [0x12; 0x34]).
  - exact ctx_init_ok.
  - vm_compute. reflexivity.
  - vm_compute. reflexivity.
  - vm_compute. discriminate.
Defined.

(** ** Reading back what the muxer wrote *)

Lemma register_test (b c d : Z) :
  is_byte b -> is_byte c -> is_byte d ->
  (b * 2 ^ 16 + c * 2 ^ 8 + d =? 0x000001) = (b =? 0) && (c =? 0) && (d =? 1).
Proof.
  unfold is_byte. intros Hb Hc Hd.
  destruct (Z.eqb_spec b 0), (Z.eqb_spec c 0), (Z.eqb_spec d 1); cbn [andb];
    try (apply Z.eqb_neq; lia). apply Z.eqb_eq. subst. reflexivity.
Qed.

(** The scanner passes over a block that holds no start code. *)
Lemma scan_clean (l : list Z) :
  forall (before rest : list Z) (b c d : Z) (n : nat),
    is_byte b -> is_byte c -> is_byte d -> Forall is_byte l ->
    no_start_code b c d l = true ->
    exists b' c' d',
      is_byte b' /\ is_byte c' /\ is_byte d'
      /\ (b' =? 0) && (c' =? 0) && (d' =? 1) = false
      /\ find_start_code_loop (length l + n) (at_offset before (l ++ rest) false)
           (b * 2 ^ 16 + c * 2 ^ 8 + d)
         = find_start_code_loop n (at_offset (before ++ l) rest false)
             (b' * 2 ^ 16 + c' * 2 ^ 8 + d').
Proof.
  induction l as [|x l IH]; intros before rest b c d n Hb Hc Hd Hl Hclean;
    cbn [no_start_code] in Hclean; apply andb_true_iff in Hclean as [Hreg Hclean];
    apply negb_true_iff in Hreg.
  - exists b, c, d. rewrite app_nil_r. auto.
  - apply Forall_cons in Hl as [Hx Hl].
    destruct (IH (before ++ [x]) rest c d x n Hc Hd Hx Hl Hclean)
      as (b' & c' & d' & Hb' & Hc' & Hd' & Hreg' & Hrun).
    exists b', c', d'. repeat (split; [assumption|]).
    cbn [length Nat.add app find_start_code_loop].
    change (url_feof (at_offset before (x :: l ++ rest) false)) with false. cbv iota.
    rewrite get_byte_at_offset, register_test, Hreg by assumption.
    rewrite uint8_small by exact Hx.
    rewrite scanner_shift by assumption.
    rewrite Hrun, <- app_assoc. reflexivity.
Qed.

(** The scanner at a start code. *)
Lemma scan_code (before rest : list Z) (b c d x : Z) (n : nat) :
  is_byte b -> is_byte c -> is_byte d -> is_byte x ->
  (b =? 0) && (c =? 0) && (d =? 1) = false ->
  find_start_code_loop (4 + n) (at_offset before (0 :: 0 :: 1 :: x :: rest) false)
    (b * 2 ^ 16 + c * 2 ^ 8 + d)
  = (0x100 + x, at_offset (before ++ [0; 0; 1; x]) rest false, n, 0x100 + x).
Proof.
  intros Hb Hc Hd Hx Hreg.
  assert (H0 : is_byte 0) by (unfold is_byte; lia).
  assert (H1 : is_byte 1) by (unfold is_byte; lia).
  cbn [Nat.add find_start_code_loop].
  change (url_feof (at_offset before (0 :: 0 :: 1 :: x :: rest) false)) with false.
  cbv iota.
  rewrite get_byte_at_offset, register_test, Hreg by assumption.
  change (uint8 0) with 0. rewrite scanner_shift by assumption.
  change (url_feof (at_offset (before ++ [0]) (0 :: 1 :: x :: rest) false)) with false.
  cbv iota.
  rewrite get_byte_at_offset, register_test by assumption.
  replace ((c =? 0) && (d =? 0) && (0 =? 1)) with false
    by (now rewrite andb_false_r).
  change (uint8 0) with 0. rewrite scanner_shift by assumption.
  change (url_feof (at_offset ((before ++ [0]) ++ [0]) (1 :: x :: rest) false)) with false.
  cbv iota.
  rewrite get_byte_at_offset, register_test by assumption.
  replace ((d =? 0) && (0 =? 0) && (0 =? 1)) with false
    by (now rewrite andb_false_r).
  change (uint8 1) with 1. rewrite scanner_shift by assumption.
  change (url_feof (at_offset (((before ++ [0]) ++ [0]) ++ [1]) (x :: rest) false))
    with false.
  cbv iota.
  rewrite get_byte_at_offset.
  change (0 * 2 ^ 16 + 0 * 2 ^ 8 + 1 =? 1) with true. cbv iota.
  rewrite uint8_small by exact Hx.
  change (0 * 2 ^ 16 + 0 * 2 ^ 8 + 1) with 1.
  rewrite scanner_found by exact Hx.
  rewrite <- !app_assoc. reflexivity.
Qed.

(** The scan of a turn: a block without start code, then a start code. *)
Lemma find_start_code_after (l : list Z) (before rest : list Z) (x : Z) :
  Forall is_byte l -> is_byte x ->
  no_start_code 0 0 0xff l = true ->
  Z.of_nat (length l) + 4 <= MAX_SYNC_SIZE ->
  exists size',
    find_start_code (at_offset before (l ++ 0 :: 0 :: 1 :: x :: rest) false)
                    MAX_SYNC_SIZE 0xff
    = (0x100 + x, at_offset (before ++ l ++ [0; 0; 1; x]) rest false, size', 0x100 + x).
Proof.
  intros Hl Hx Hclean Hbudget. unfold find_start_code.
  change (uint32 0xff) with (0 * 2 ^ 16 + 0 * 2 ^ 8 + 0xff).
  replace (Z.to_nat MAX_SYNC_SIZE)
    with (length l + (4 + (Z.to_nat MAX_SYNC_SIZE - length l - 4)))%nat by lia.
  destruct (scan_clean l before (0 :: 0 :: 1 :: x :: rest) 0 0 0xff
              (4 + (Z.to_nat MAX_SYNC_SIZE - length l - 4)))
    as (b' & c' & d' & Hb' & Hc' & Hd' & Hreg & ->);
    try assumption; try (unfold is_byte; lia).
  rewrite scan_code by assumption.
  rewrite <- app_assoc. eauto.
Qed.

(** The bytes of the headers hold no start code. *)

Lemma byte_of_bits_range (b7 b6 b5 b4 b3 b2 b1 b0 : bool) :
  is_byte (byte_of_bits b7 b6 b5 b4 b3 b2 b1 b0).
Proof.
  unfold is_byte, byte_of_bits.
  destruct b7, b6, b5, b4, b3, b2, b1, b0; cbn; lia.
Qed.

Lemma byte_of_bits_zero (b7 b6 b5 b4 b3 b2 b1 b0 : bool) :
  (byte_of_bits b7 b6 b5 b4 b3 b2 b1 b0 =? 0)
  = negb (b7 || b6 || b5 || b4 || b3 || b2 || b1 || b0).
Proof. destruct b7, b6, b5, b4, b3, b2, b1, b0; reflexivity. Qed.

Lemma byte_of_bits_one (b7 b6 b5 b4 b3 b2 b1 b0 : bool) :
  (byte_of_bits b7 b6 b5 b4 b3 b2 b1 b0 =? 1)
  = negb (b7 || b6 || b5 || b4 || b3 || b2 || b1) && b0.
Proof. destruct b7, b6, b5, b4, b3, b2, b1, b0; reflexivity. Qed.

Lemma bytes_of_bits_byte (b7 b6 b5 b4 b3 b2 b1 b0 : bool) (rest : list bool) :
  bytes_of_bits (b7 :: b6 :: b5 :: b4 :: b3 :: b2 :: b1 :: b0 :: rest)
  = byte_of_bits b7 b6 b5 b4 b3 b2 b1 b0 :: bytes_of_bits rest.
Proof. reflexivity. Qed.

Ltac clean_windows :=
  cbn [no_start_code];
  rewrite ?byte_of_bits_zero, ?byte_of_bits_one;
  cbn [orb andb negb Z.eqb Pos.eqb];
  rewrite ?orb_true_r, ?andb_false_r; cbn [orb andb negb];
  rewrite ?andb_false_r; cbn [orb andb negb];
  try reflexivity.

(** The eight bytes of a pack header after its start code. *)
Lemma pack_header_clean (ctx : AVFormatContext) (timestamp : Z) :
  exists l : list Z,
    fst (put_pack_header ctx timestamp) = 0 :: 0 :: 1 :: 0xba :: l
    /\ length l = 8%nat
    /\ Forall is_byte l
    /\ no_start_code 0 0 0xff l = true.
Proof.
  rewrite put_pack_header_bits. cbn [fst].
  rewrite bytes_of_pack_start_code.
  change (bits_msb 4 2) with [false; false; true; false].
  cbn [bits_msb app]. rewrite !bytes_of_bits_byte.
  change (bytes_of_bits []) with (@nil Z).
  eexists. split; [reflexivity|]. split; [reflexivity|]. split.
  - repeat (apply Forall_cons; split; [apply byte_of_bits_range|]). constructor.
  - clean_windows.
Qed.

Lemma entries_clean (es : list (Z * StreamInfo.t)) :
  forall b c d : Z,
    (c =? 0) = false ->
    no_start_code b c d (bytes_of_bits (flat_map entry_bits es)) = true
    /\ Forall is_byte (bytes_of_bits (flat_map entry_bits es))
    /\ length (bytes_of_bits (flat_map entry_bits es)) = (3 * length es)%nat.
Proof.
  induction es as [|[id stream] es IH]; intros b c d Hc.
  - cbn [flat_map bytes_of_bits no_start_code length]. rewrite Hc, andb_false_r.
    repeat split. constructor.
  - cbn [flat_map]. set (E := flat_map entry_bits es) in *. unfold entry_bits.
    destruct (id <? 0xe0); cbn [bits_msb app]; rewrite <- ?app_assoc; cbn [app];
      rewrite !bytes_of_bits_byte; cbn [no_start_code length];
      match goal with
      | |- context [no_start_code ?e0 ?e1 ?e2 (bytes_of_bits E)] =>
          destruct (IH e0 e1 e2) as (Hclean & Hbytes & Hlen);
            [rewrite byte_of_bits_zero; reflexivity|]
      end;
      rewrite Hclean, Hlen, Hc;
      (split; [|split; [|lia]]);
      [ rewrite ?byte_of_bits_one, ?byte_of_bits_zero; cbn [orb andb negb];
        rewrite ?andb_false_r; reflexivity
      | repeat (apply Forall_cons; split; [apply byte_of_bits_range|]); exact Hbytes
      | rewrite ?byte_of_bits_one, ?byte_of_bits_zero; cbn [orb andb negb];
        rewrite ?andb_false_r; reflexivity
      | repeat (apply Forall_cons; split; [apply byte_of_bits_range|]); exact Hbytes ].
Qed.

Lemma bytes_of_bits_app (a b : list bool) (k : nat) :
  length a = (8 * k)%nat ->
  bytes_of_bits (a ++ b) = bytes_of_bits a ++ bytes_of_bits b.
Proof.
  revert a. induction k as [|k IH]; intros a Hlen.
  - destruct a; [reflexivity | discriminate].
  - destruct a as [|b7 [|b6 [|b5 [|b4 [|b3 [|b2 [|b1 [|b0 a]]]]]]]];
      try (cbn [length] in Hlen; lia).
    cbn [app]. rewrite !bytes_of_bits_byte, (IH a) by (cbn [length] in Hlen; lia).
    reflexivity.
Qed.

(** The bytes of a system header after its start code. *)
Lemma system_header_clean (ctx : AVFormatContext) :
  exists l : list Z,
    fst (put_system_header ctx) = 0 :: 0 :: 1 :: 0xbb :: l
    /\ Z.of_nat (length l) + 4 = snd (put_system_header ctx)
    /\ Forall is_byte l
    /\ no_start_code 0 0 0xff l = true.
Proof.
  destruct (put_system_header_bits ctx) as [Hput _]. cbv zeta in Hput.
  rewrite Hput. cbn [fst snd]. clear Hput.
  set (entries := system_header_entries (streams ctx) false).
  change (bits_msb 8 255) with [true; true; true; true; true; true; true; true].
  cbn [bits_msb app]. rewrite <- ?app_assoc. cbn [app].
  rewrite !bytes_of_bits_byte.
  match goal with
  | |- context [?f9 :: ?f10 :: ?f11 :: bytes_of_bits (flat_map entry_bits entries)] =>
      destruct (entries_clean entries f9 f10 f11) as (Hclean & Hbytes & Hlen);
        [rewrite byte_of_bits_zero; reflexivity|]
  end.
  eexists. split; [reflexivity|]. split; [|split].
  - cbn [length]. rewrite Hlen. lia.
  - apply Forall_cons. split; [apply uint8_range|].
    apply Forall_cons. split.
    { unfold is_byte. change 255 with (Z.ones 8). rewrite Z.land_ones by lia.
      apply Z.mod_pos_bound. lia. }
    repeat (apply Forall_cons; split; [apply byte_of_bits_range|]). exact Hbytes.
  - cbn [no_start_code]. rewrite Hclean.
    rewrite ?byte_of_bits_one, ?byte_of_bits_zero. cbn [Z.eqb Pos.eqb].
    btauto.
Qed.

(** X21. No start code inside a header.  A scan that starts right behind
    the start code of a pack header, or of a system header, passes over the
    rest of the header and stops at the start code that follows it: the
    marker bits keep the fields of the headers from forming 00 00 01,
    whatever the timestamp, the rates and the streams. *)
Theorem scan_passes_headers (ctx : AVFormatContext) (timestamp : Z)
    (before rest : list Z) (x : Z) :
  0 <= x < 256 ->
  3 * nb_streams ctx + 16 <= MAX_SYNC_SIZE ->
  (exists (l : list Z) (size' : Z),
      fst (put_pack_header ctx timestamp) = 0 :: 0 :: 1 :: 0xba :: l
      /\ find_start_code
           (at_offset (before ++ [0; 0; 1; 0xba]) (l ++ 0 :: 0 :: 1 :: x :: rest) false)
           MAX_SYNC_SIZE 0xff
         = (0x100 + x,
            at_offset ((before ++ [0; 0; 1; 0xba]) ++ l ++ [0; 0; 1; x]) rest false,
            size', 0x100 + x))
  /\ (exists (l : list Z) (size' : Z),
         fst (put_system_header ctx) = 0 :: 0 :: 1 :: 0xbb :: l
         /\ find_start_code
              (at_offset (before ++ [0; 0; 1; 0xbb]) (l ++ 0 :: 0 :: 1 :: x :: rest) false)
              MAX_SYNC_SIZE 0xff
            = (0x100 + x,
               at_offset ((before ++ [0; 0; 1; 0xbb]) ++ l ++ [0; 0; 1; x]) rest false,
               size', 0x100 + x)).
Proof.
  intros Hx Hroom. split.
  - destruct (pack_header_clean ctx timestamp) as (l & Hl & Hlen & Hbytes & Hclean).
    destruct (find_start_code_after l (before ++ [0; 0; 1; 0xba]) rest x Hbytes Hx Hclean)
      as [size' Hscan]; [rewrite Hlen; unfold MAX_SYNC_SIZE; lia|].
    exists l, size'. split; [exact Hl | exact Hscan].
  - destruct (system_header_clean ctx) as (l & Hl & Hlen & Hbytes & Hclean).
    pose proof (put_system_header_length ctx) as Hsys.
    destruct (find_start_code_after l (before ++ [0; 0; 1; 0xbb]) rest x Hbytes Hx Hclean)
      as [size' Hscan]; [lia|].
    exists l, size'. split; [exact Hl | exact Hscan].
Qed.

Lemma scan_passes_headers_witness :
  (exists (l : list Z) (size' : Z),
      fst (put_pack_header ctx_av 0) = 0 :: 0 :: 1 :: 0xba :: l
      /\ find_start_code
           (at_offset ([] ++ [0; 0; 1; 0xba]) (l ++ 0 :: 0 :: 1 :: 0xc0 :: [7]) false)
           MAX_SYNC_SIZE 0xff
         = (0x100 + 0xc0,
            at_offset (([] ++ [0; 0; 1; 0xba]) ++ l ++ [0; 0; 1; 0xc0]) [7] false,
            size', 0x100 + 0xc0))
  /\ (exists (l : list Z) (size' : Z),
         fst (put_system_header ctx_av) = 0 :: 0 :: 1 :: 0xbb :: l
         /\ find_start_code
              (at_offset ([] ++ [0; 0; 1; 0xbb]) (l ++ 0 :: 0 :: 1 :: 0xc0 :: [7]) false)
              MAX_SYNC_SIZE 0xff
            = (0x100 + 0xc0,
               at_offset (([] ++ [0; 0; 1; 0xbb]) ++ l ++ [0; 0; 1; 0xc0]) [7] false,
               size', 0x100 + 0xc0)).
Proof.
  apply (scan_passes_headers ctx_av 0 [] [7] 0xc0); [lia | by_eval].
Defined.

(** Reading a packet back. *)

Lemma remaining_at_offset (before l : list Z) (e : bool) :
  remaining (at_offset before l e) = length l.
Proof.
  unfold remaining, at_offset. cbn [ByteIO.data ByteIO.pos]. rewrite length_app. lia.
Qed.

Lemma stuffing_loop_at_offset (k : nat) :
  forall (fuel : nat) (before rest : list Z) (c len : Z),
    (k <= fuel)%nat -> uint8 c <> 0xff ->
    stuffing_loop fuel (at_offset before (List.repeat 0xff k ++ c :: rest) false) len
    = (uint8 c, len - Z.of_nat k - 1,
       at_offset (before ++ List.repeat 0xff k ++ [c]) rest false).
Proof.
  induction k as [|k IH]; intros fuel before rest c len Hfuel Hc.
  - cbn [List.repeat app]. destruct fuel; cbn [stuffing_loop];
      rewrite get_byte_at_offset;
      (destruct (Z.eqb_spec (uint8 c) 0xff); [contradiction|]);
      f_equal; f_equal; lia.
  - destruct fuel as [|fuel]; [lia|].
    cbn [List.repeat app stuffing_loop]. rewrite get_byte_at_offset.
    change (uint8 255 =? 255) with true. cbv iota.
    rewrite (IH fuel) by (assumption || lia).
    rewrite <- app_assoc. cbn [app]. f_equal. f_equal. lia.
Qed.

Lemma get_buffer_at_offset (before l rest : list Z) :
  get_buffer (at_offset before (l ++ rest) false) (Z.of_nat (length l))
  = (map uint8 l, at_offset (before ++ l) rest false).
Proof.
  unfold get_buffer, in_range, at_offset. cbn [ByteIO.data ByteIO.pos eof_reached].
  rewrite !Nat2Z.id.
  assert (Hgot : map uint8
            (firstn (length l)
               (if (0 <=? Z.of_nat (length before))
                   && (Z.of_nat (length before) <? Z.of_nat (length (before ++ l ++ rest)))
                then skipn (length before) (before ++ l ++ rest) else []))
          = map uint8 l).
  { destruct (_ && _) eqn:Hin.
    - rewrite drop_app_length. now rewrite take_app_length.
    - apply andb_false_iff in Hin as [Hin|Hin];
        [apply Z.leb_gt in Hin; lia | apply Z.ltb_ge in Hin].
      rewrite !length_app in Hin. destruct l; [reflexivity | cbn [length] in Hin; lia]. }
  rewrite Hgot, length_map. f_equal.
  rewrite Z.ltb_irrefl. cbn [orb]. rewrite length_app, app_assoc. f_equal. lia.
Qed.

(** The first byte of the timestamp field. *)
Lemma pts_first_byte (t : Z) :
  let b0 := uint8 (Z.lor (Z.lor (Z.shiftl 0x02 4)
                                (Z.shiftl (Z.land (Z.shiftr t 30) 0x07) 1)) 1) in
  b0 <> 0xff /\ Z.land b0 0xc0 = 0 /\ Z.land b0 0xf0 = 0x20.
Proof.
  cbv zeta.
  assert (Hx : 0 <= Z.land (Z.shiftr t 30) 7 < 8).
  { change 7 with (Z.ones 3). rewrite Z.land_ones by lia. apply Z.mod_pos_bound. lia. }
  remember (Z.land (Z.shiftr t 30) 7) as x eqn:Heqx. clear Heqx.
  assert (Hcases : x = 0 \/ x = 1 \/ x = 2 \/ x = 3 \/ x = 4 \/ x = 5 \/ x = 6 \/ x = 7)
    by lia.
  destruct Hcases as [->|[->|[->|[->|[->|[->|[->| ->]]]]]]];
    repeat split; try (vm_compute; reflexivity); vm_compute; discriminate.
Qed.

Lemma next_start_code_at (l before rest : list Z) (x : Z) :
  Forall is_byte l -> is_byte x ->
  no_start_code 0 0 0xff l = true ->
  Z.of_nat (length l) + 4 <= MAX_SYNC_SIZE ->
  next_start_code (at_offset before (l ++ 0 :: 0 :: 1 :: x :: rest) false)
  = if (x =? 0xba) || (x =? 0xbb)
    then ScanSkip (at_offset (before ++ l ++ [0; 0; 1; x]) rest false) (0x100 + x)
    else if (0xc0 <=? x) && (x <=? 0xef)
    then ScanPes (0x100 + x) (at_offset (before ++ l ++ [0; 0; 1; x]) rest false)
                 (0x100 + x)
    else next_start_code (at_offset before (l ++ 0 :: 0 :: 1 :: x :: rest) false).
Proof.
  intros Hl Hx Hclean Hbudget.
  destruct (Z.eqb_spec x 0xba) as [->|Hba]; cbn [orb].
  { unfold next_start_code.
    destruct (find_start_code_after l before rest 0xba Hl Hx Hclean Hbudget) as [size' ->].
    reflexivity. }
  destruct (Z.eqb_spec x 0xbb) as [->|Hbb].
  { unfold next_start_code.
    destruct (find_start_code_after l before rest 0xbb Hl Hx Hclean Hbudget) as [size' ->].
    reflexivity. }
  destruct ((0xc0 <=? x) && (x <=? 0xef)) eqn:Hrange; [|reflexivity].
  apply andb_true_iff in Hrange as [Hlo Hhi]. apply Z.leb_le in Hlo, Hhi.
  unfold next_start_code.
  destruct (find_start_code_after l before rest x Hl Hx Hclean Hbudget) as [size' ->].
  unfold PACK_START_CODE, SYSTEM_HEADER_START_CODE, PADDING_STREAM, PRIVATE_STREAM_2.
  replace (256 + x <? 0) with false by (symmetry; apply Z.ltb_ge; lia).
  replace (256 + x =? 442) with false by (symmetry; apply Z.eqb_neq; lia).
  replace (256 + x =? 443) with false by (symmetry; apply Z.eqb_neq; lia).
  replace (256 + x =? 446) with false by (symmetry; apply Z.eqb_neq; lia).
  replace (256 + x =? 447) with false by (symmetry; apply Z.eqb_neq; lia).
  cbn [orb].
  destruct (Z.leb_spec 448 (256 + x)), (Z.leb_spec (256 + x) 479),
    (Z.leb_spec 480 (256 + x)), (Z.leb_spec (256 + x) 495); cbn; try reflexivity; lia.
Qed.

(** The length, the stuffing and the header of a packet written by
    [flush_packet], read back. *)
Lemma read_pes_at (before rest payload : list Z) (k : nat) (mpeg2 : bool) (t : Z) :
  let header_len := if mpeg2 then 8 else 5 in
  let v := Z.of_nat (length payload) + Z.of_nat k + header_len in
  let head :=
    [uint8 (Z.shiftr v 8); uint8 v] ++ List.repeat 0xff k
    ++ (if mpeg2 then [0x80; 0x80; 0x05] else []) ++ sink_bytes (pts_ops t) in
  v < 2 ^ 16 ->
  let '(c, len, pb2) := read_stuffing (at_offset before (head ++ payload ++ rest) false) in
  read_pes_header pb2 c len
  = HeaderOk (t mod 2 ^ 33) (t mod 2 ^ 33) (Z.of_nat (length payload))
             (at_offset (before ++ head) (payload ++ rest) false).
Proof.
  intros header_len v head Hv.
  assert (Hv0 : 0 <= v) by (unfold v, header_len; destruct mpeg2; lia).
  unfold read_stuffing, head. rewrite <- !app_assoc. cbn [app].
  rewrite get_be16_at_offset, be16_read_back.
  unfold uint16. rewrite (Z.mod_small v) by lia.
  rewrite remaining_at_offset.
  pose proof (pts_first_byte t) as Hfirst. cbv zeta in Hfirst.
  destruct Hfirst as (Hnff & Hc0 & Hf0).
  destruct mpeg2.
  - cbn [app].
    rewrite (stuffing_loop_at_offset k) by
      (try (rewrite length_app, repeat_length; lia); vm_compute; discriminate).
    change (uint8 128) with 128. change (Z.land 128 192 =? 64) with false. cbv iota.
    unfold read_pes_header.
    change (Z.land 128 240 =? 32) with false. change (Z.land 128 240 =? 48) with false.
    change (Z.land 128 192 =? 128) with true. change (negb (Z.land 128 48 =? 0)) with false.
    cbv iota.
    rewrite get_byte_at_offset, get_byte_at_offset.
    change (uint8 128) with 128. change (uint8 5) with 5.
    replace (v - Z.of_nat k - 1 - 2 <? 5) with false
      by (symmetry; apply Z.ltb_ge; unfold v, header_len; lia).
    change (Z.land 128 192 =? 128) with true. change (Z.land 128 192 =? 192) with false.
    cbv iota.
    rewrite decode_pts_ops.
    change (Z.to_nat (5 - 5)) with 0%nat. cbn [skip_bytes].
    f_equal; [unfold v, header_len; lia|].
    f_equal. rewrite <- !app_assoc. reflexivity.
  - cbn [app].
    pose proof (decode_pts_ops_from t
                  (before ++ [uint8 (Z.shiftr v 8); uint8 v] ++ List.repeat 255 k)
                  (payload ++ rest) false) as Hdecode.
    unfold pts_ops, sink_bytes in *. cbn [flat_map op_bytes app] in *.
    rewrite (stuffing_loop_at_offset k) by
      (try (rewrite length_app, repeat_length; cbn [length]; lia);
       rewrite uint8_idem; exact Hnff).
    rewrite !uint8_idem in *.
    rewrite Hc0. change (0 =? 64) with false. cbv iota.
    unfold read_pes_header. rewrite Hf0. change (32 =? 32) with true. cbv iota.
    rewrite <- !app_assoc in Hdecode. cbn [app] in Hdecode.
    rewrite <- !app_assoc. cbn [app].
    rewrite Hdecode.
    f_equal. unfold v, header_len. lia.
Qed.

Section ReadBack.

Import Demux.

Variable MAX_STREAMS : nat.

(** A turn at a pack header or a system header: the turn ends with
    [goto redo], the source being behind the start code. *)
Lemma skip_turn (s : AVFormatContext) (l before rest : list Z) (x : Z) :
  pb s = at_offset before (l ++ 0 :: 0 :: 1 :: x :: rest) false ->
  Forall is_byte l -> no_start_code 0 0 0xff l = true ->
  Z.of_nat (length l) + 4 <= MAX_SYNC_SIZE ->
  x = 0xba \/ x = 0xbb ->
  read_packet_turn MAX_STREAMS s
  = (Redo, {| pb := at_offset (before ++ l ++ [0; 0; 1; x]) rest false;
              streams := streams s; header_state := 0x100 + x |}).
Proof.
  intros Hpb Hl Hclean Hbudget Hx. unfold read_packet_turn.
  rewrite Hpb, next_start_code_at by
    (try assumption; unfold is_byte; destruct Hx; subst; lia).
  destruct Hx; subst; reflexivity.
Qed.

(** A turn at a packet written by [flush_packet] for an audio or video
    stream. *)
Lemma pes_turn (s : AVFormatContext) (l before rest payload : list Z) (x t : Z)
    (k : nat) (mpeg2 : bool) :
  let header_len := if mpeg2 then 8 else 5 in
  let v := Z.of_nat (length payload) + Z.of_nat k + header_len in
  let head :=
    [uint8 (Z.shiftr v 8); uint8 v] ++ List.repeat 0xff k
    ++ (if mpeg2 then [0x80; 0x80; 0x05] else []) ++ sink_bytes (pts_ops t) in
  pb s = at_offset before (l ++ 0 :: 0 :: 1 :: x :: head ++ payload ++ rest) false ->
  Forall is_byte l -> no_start_code 0 0 0xff l = true ->
  Z.of_nat (length l) + 4 <= MAX_SYNC_SIZE ->
  0xc0 <= x <= 0xef -> v < 2 ^ 16 ->
  table_ok (streams s) ->
  In (0x100 + x) (map id (streams s)) \/ (length (streams s) < MAX_STREAMS)%nat ->
  exists pkt s' st,
    read_packet_turn MAX_STREAMS s = (Return (RetPacket pkt), s')
    /\ AVPacket.data pkt = map uint8 payload
    /\ AVPacket.size pkt = Z.of_nat (length payload)
    /\ AVPacket.pts pkt = t mod 2 ^ 33
    /\ pb s' = at_offset (before ++ l ++ 0 :: 0 :: 1 :: x :: head ++ payload) rest false
    /\ streams s' !! Z.to_nat (AVPacket.stream_index pkt) = Some st
    /\ id st = 0x100 + x.
Proof.
  intros header_len v head Hpb Hl Hclean Hbudget Hx Hv Htable Hroom.
  unfold read_packet_turn.
  rewrite Hpb, next_start_code_at by (try assumption; unfold is_byte; lia).
  replace ((x =? 0xba) || (x =? 0xbb)) with false
    by (symmetry; apply orb_false_iff; split; apply Z.eqb_neq; lia).
  replace ((0xc0 <=? x) && (x <=? 0xef)) with true
    by (symmetry; apply andb_true_iff; split; apply Z.leb_le; lia).
  pose proof (read_pes_at (before ++ l ++ [0; 0; 1; x]) rest payload k mpeg2 t Hv)
    as Hhead. cbv zeta in Hhead. fold header_len v head in Hhead.
  destruct (read_stuffing _) as [[c len] pb2]. rewrite Hhead.
  unfold read_private_id.
  replace (256 + x =? 445) with false by (symmetry; apply Z.eqb_neq; lia).
  destruct (deliver_packet_returns MAX_STREAMS s (256 + x) (256 + x) (t mod 2 ^ 33)
              (Z.of_nat (length payload))
              (at_offset ((before ++ l ++ [0; 0; 1; x]) ++ head) (payload ++ rest) false))
    as (pkt & s' & Hdel & Hpb' & Hdata & Hsize & Hpts).
  { destruct Hroom as [Hin|Hlt]; [left; exact Hin | right].
    split; [|exact Hlt]. unfold new_stream_codec.
    destruct (Z.leb_spec 480 (256 + x)), (Z.leb_spec (256 + x) 495),
      (Z.leb_spec 448 (256 + x)), (Z.leb_spec (256 + x) 479); cbn;
      try discriminate; lia. }
  rewrite get_buffer_at_offset in Hpb', Hdata. cbn [fst snd] in Hpb', Hdata.
  destruct (deliver_packet_table MAX_STREAMS _ _ _ _ _ _ _ _ Htable Hdel)
    as [_ (new & _ & st & Hst & _ & Hid & _)].
  exists pkt, s', st. split; [exact Hdel|]. split; [exact Hdata|].
  split; [exact Hsize|]. split; [exact Hpts|]. split; [|auto].
  rewrite Hpb'. f_equal. rewrite <- !app_assoc. reflexivity.
Qed.

End ReadBack.

(** The bytes of a flush, as the demuxer meets them: the headers that are
    due, the start code, the length field [v], the stuffing and the
    timestamp, the private header of an id below 0xc0, the end code of a
    last packet, and the payload. *)
Lemma flush_packet_layout (ctx : AVFormatContext) (i : nat) (last_pkt : bool)
    (ctx' : AVFormatContext) (tr : list put_op) (st : AVStream) :
  streams ctx !! i = Some st ->
  flush_packet ctx i last_pkt = Some (ctx', tr) ->
  3 * nb_streams ctx + 46 <= MpegMuxContext.packet_size (mux ctx) < 2 ^ 16 ->
  0 <= StreamInfo.buffer_ptr (priv_data st)
    <= Z.of_nat (length (StreamInfo.buffer (priv_data st))) ->
  0 <= StreamInfo.id (priv_data st) < 256 ->
  exists (preface : list Z) (k : nat),
    let id := StreamInfo.id (priv_data st) in
    let t := StreamInfo.start_pts (priv_data st) in
    let mpeg2 := MpegMuxContext.is_mpeg2 (mux ctx) in
    let header_len := if mpeg2 then 8 else 5 in
    let v := Z.of_nat (length (payloads tr)) + Z.of_nat k + header_len in
    let head :=
      [uint8 (Z.shiftr v 8); uint8 v] ++ List.repeat 0xff k
      ++ (if mpeg2 then [0x80; 0x80; 0x05] else []) ++ sink_bytes (pts_ops t) in
    packet_preface ctx t = Some (preface, Z.of_nat (length preface))
    /\ v < 2 ^ 16
    /\ sink_bytes tr
       = preface ++ 0 :: 0 :: 1 :: (if id <? 0xc0 then 0xbd else id) :: head
         ++ (if id <? 0xc0
             then id :: (if (0x80 <=? id) && (id <=? 0xbf) then [1; 0; 2] else [])
             else [])
         ++ (if last_pkt then [0; 0; 1; 0xb9] else [])
         ++ payloads tr.
Proof.
  intros Hst Hflush Hroom Hbuf Hid.
  destruct (flush_packet_bytes ctx i last_pkt ctx' tr st Hst Hflush ltac:(lia) Hbuf)
    as (preface & payload_size & H). cbv zeta in H.
  destruct H as (Hpre & Hps & Hpos & Htr & Hlen & _).
  assert (Hpayloads : payloads tr
                      = firstn (Z.to_nat payload_size) (buffered (priv_data st)))
    by (rewrite Htr;
        apply (flush_shape preface _ _ _ (StreamInfo.id (priv_data st))
                 (StreamInfo.start_pts (priv_data st)) _
                 (MpegMuxContext.is_mpeg2 (mux ctx))
                 (StreamInfo.id (priv_data st) <? 0xc0) last_pkt)).
  exists preface,
    (Z.to_nat (Z.max 0 (payload_size - StreamInfo.buffer_ptr (priv_data st)))).
  cbv zeta. rewrite Hpayloads.
  set (id := StreamInfo.id (priv_data st)) in *.
  set (t := StreamInfo.start_pts (priv_data st)) in *.
  set (payload := firstn (Z.to_nat payload_size) (buffered (priv_data st))) in *.
  set (k := Z.to_nat (Z.max 0 (payload_size - StreamInfo.buffer_ptr (priv_data st)))) in *.
  set (mpeg2 := MpegMuxContext.is_mpeg2 (mux ctx)) in *.
  set (header_len := if mpeg2 then 8 else 5) in *.
  destruct (packet_preface_bound _ _ _ _ Hpre) as [_ Hsize].
  assert (Hv : payload_size + header_len
               = Z.of_nat (length payload) + Z.of_nat k + header_len) by lia.
  split; [exact Hpre|]. split.
  { rewrite <- Hv, Hps. unfold header_len.
    destruct mpeg2, last_pkt, (id <? 192); lia. }
  rewrite Htr, sink_bytes_app.
  change (sink_bytes [PutBuffer preface;
                      PutBe32 (if id <? 0xc0 then PRIVATE_STREAM_1 else 0x100 + id);
                      PutBe16 (payload_size + header_len)])
    with (preface
          ++ op_bytes (PutBe32 (if id <? 0xc0 then PRIVATE_STREAM_1 else 0x100 + id))
          ++ [uint8 (Z.shiftr (payload_size + header_len) 8);
              uint8 (payload_size + header_len)] ++ []).
  assert (Hcode : op_bytes (PutBe32 (if id <? 0xc0 then PRIVATE_STREAM_1 else 0x100 + id))
                  = [0; 0; 1; if id <? 0xc0 then 0xbd else id]).
  { destruct (id <? 0xc0); [reflexivity | apply be32_start_code; exact Hid]. }
  rewrite Hcode, Hv.
  rewrite !sink_bytes_app, sink_bytes_stuffing.
  assert (Hm : sink_bytes (if mpeg2 then [PutByte 0x80; PutByte 0x80; PutByte 0x05]
                           else []) = if mpeg2 then [0x80; 0x80; 0x05] else [])
    by (destruct mpeg2; reflexivity).
  assert (Hp : sink_bytes (if id <? 0xc0
                           then PutByte id :: (if (0x80 <=? id) && (id <=? 0xbf)
                                               then [PutByte 1; PutByte 0; PutByte 2]
                                               else [])
                           else [])
               = if id <? 0xc0
                 then id :: (if (0x80 <=? id) && (id <=? 0xbf) then [1; 0; 2] else [])
                 else []).
  { destruct (id <? 0xc0); [|reflexivity].
    destruct ((0x80 <=? id) && (id <=? 0xbf));
      cbn [sink_bytes flat_map op_bytes app]; now rewrite (uint8_small id Hid). }
  assert (Hl : sink_bytes (if last_pkt then [PutBe32 ISO_11172_END_CODE] else [])
               = if last_pkt then [0; 0; 1; 0xb9] else [])
    by (destruct last_pkt; reflexivity).
  rewrite Hm, Hp, Hl.
  change (sink_bytes [PutBuffer payload; PutFlushPacket]) with (payload ++ []).
  rewrite !app_nil_r, <- !app_assoc. reflexivity.
Qed.

Lemma next_start_code_private (l before rest : list Z) :
  Forall is_byte l ->
  no_start_code 0 0 0xff l = true ->
  Z.of_nat (length l) + 4 <= MAX_SYNC_SIZE ->
  next_start_code (at_offset before (l ++ 0 :: 0 :: 1 :: 0xbd :: rest) false)
  = ScanPes 0x1bd (at_offset (before ++ l ++ [0; 0; 1; 0xbd]) rest false) 0x1bd.
Proof.
  intros Hl Hclean Hbudget. unfold next_start_code.
  destruct (find_start_code_after l before rest 0xbd Hl ltac:(unfold is_byte; lia)
              Hclean Hbudget) as [size' ->].
  reflexivity.
Qed.

Section ReadBackTurns.

Import Demux.

Variable MAX_STREAMS : nat.

(** The turns that pass over the headers of a packet: the demuxer gets to
    the start code of the packet itself, with a block without start code
    before it. *)
Lemma preface_turns (ctx : Mux.AVFormatContext) (t : Z) (preface : list Z) (size : Z)
    (s : AVFormatContext) (before tail : list Z) (x : Z) :
  packet_preface ctx t = Some (preface, size) ->
  3 * nb_streams ctx + 16 <= MAX_SYNC_SIZE ->
  pb s = at_offset before (preface ++ 0 :: 0 :: 1 :: x :: tail) false ->
  exists (s1 : AVFormatContext) (l before1 : list Z),
    (forall (r : read_result) (s' : AVFormatContext),
        read_packet_turn MAX_STREAMS s1 = (Return r, s') ->
        mpegps_read_packet MAX_STREAMS 3 s = Some (r, s'))
    /\ pb s1 = at_offset before1 (l ++ 0 :: 0 :: 1 :: x :: tail) false
    /\ streams s1 = streams s
    /\ Forall is_byte l
    /\ no_start_code 0 0 0xff l = true
    /\ Z.of_nat (length l) + 4 <= MAX_SYNC_SIZE
    /\ before1 ++ l = before ++ preface.
Proof.
  intros Hpre Hroom Hpb.
  apply packet_preface_cases in Hpre. cbv zeta in Hpre.
  destruct Hpre as [_ [[_ ->]|[(_ & _ & _ & ->)|(_ & _ & _ & ->)]]].
  - (* no header *)
    exists s, [], before.
    split; [intros r s' Hturn; cbn [mpegps_read_packet]; now rewrite Hturn|].
    cbn [app length]. split; [exact Hpb|]. split; [reflexivity|].
    split; [constructor|]. split; [reflexivity|].
    split; [unfold MAX_SYNC_SIZE; lia | reflexivity].
  - (* pack header *)
    destruct (pack_header_clean ctx t) as (p8 & Hp8 & Hl8 & Hb8 & Hc8).
    rewrite Hp8 in Hpb |- *.
    repeat (progress (rewrite <- ?app_assoc in Hpb; cbn [app] in Hpb)).
    pose proof (skip_turn MAX_STREAMS s [] before
                  (p8 ++ 0 :: 0 :: 1 :: x :: tail) 0xba) as Hturn1.
    cbn [app] in Hturn1.
    specialize (Hturn1 Hpb ltac:(constructor) eq_refl
                       ltac:(cbn; unfold MAX_SYNC_SIZE; lia) ltac:(auto)).
    eexists _, p8, (before ++ [0; 0; 1; 0xba]).
    split; [intros r s' Hturn; cbn [mpegps_read_packet]; now rewrite Hturn1, Hturn|].
    cbn [pb streams]. split; [reflexivity|]. split; [reflexivity|].
    split; [exact Hb8|]. split; [exact Hc8|].
    split; [rewrite Hl8; unfold MAX_SYNC_SIZE; lia|].
    rewrite <- app_assoc. reflexivity.
  - (* pack header and system header *)
    destruct (pack_header_clean ctx t) as (p8 & Hp8 & Hl8 & Hb8 & Hc8).
    destruct (system_header_clean ctx) as (sl & Hsl & Hlsl & Hbsl & Hcsl).
    pose proof (put_system_header_length ctx) as Hsys.
    rewrite Hp8, Hsl in Hpb |- *.
    repeat (progress (rewrite <- ?app_assoc in Hpb; cbn [app] in Hpb)).
    pose proof (skip_turn MAX_STREAMS s [] before
                  (p8 ++ 0 :: 0 :: 1 :: 0xbb :: sl ++ 0 :: 0 :: 1 :: x :: tail) 0xba)
      as Hturn1.
    cbn [app] in Hturn1.
    specialize (Hturn1 Hpb ltac:(constructor) eq_refl
                       ltac:(cbn; unfold MAX_SYNC_SIZE; lia) ltac:(auto)).
    match type of Hturn1 with _ = (_, ?y) => set (s1 := y) in * end.
    pose proof (skip_turn MAX_STREAMS s1 p8 (before ++ [0; 0; 1; 0xba])
                  (sl ++ 0 :: 0 :: 1 :: x :: tail) 0xbb) as Hturn2.
    specialize (Hturn2 eq_refl Hb8 Hc8
                       ltac:(rewrite Hl8; unfold MAX_SYNC_SIZE; lia) ltac:(auto)).
    eexists _, sl, ((before ++ [0; 0; 1; 0xba]) ++ p8 ++ [0; 0; 1; 0xbb]).
    split; [intros r s' Hturn; cbn [mpegps_read_packet];
            now rewrite Hturn1, Hturn2, Hturn|].
    cbn [pb streams]. split; [reflexivity|]. split; [reflexivity|].
    split; [exact Hbsl|]. split; [exact Hcsl|].
    split; [lia|].
    repeat (progress (rewrite <- ?app_assoc; cbn [app])). reflexivity.
Qed.

(** A turn at a packet written by [flush_packet] for an AC-3 stream: the
    length field does not count the four bytes of the private header, which
    the demuxer takes off the length once more. *)
Lemma private_turn (s : AVFormatContext) (l before rest body : list Z) (x t : Z)
    (k : nat) (mpeg2 : bool) :
  let header_len := if mpeg2 then 8 else 5 in
  let v := Z.of_nat (length (x :: 1 :: 0 :: 2 :: body)) + Z.of_nat k + header_len in
  let head :=
    [uint8 (Z.shiftr v 8); uint8 v] ++ List.repeat 0xff k
    ++ (if mpeg2 then [0x80; 0x80; 0x05] else []) ++ sink_bytes (pts_ops t) in
  pb s = at_offset before
           (l ++ 0 :: 0 :: 1 :: 0xbd :: head ++ (x :: 1 :: 0 :: 2 :: body) ++ rest) false ->
  Forall is_byte l -> no_start_code 0 0 0xff l = true ->
  Z.of_nat (length l) + 4 <= MAX_SYNC_SIZE ->
  0x80 <= x <= 0x9f -> v < 2 ^ 16 ->
  table_ok (streams s) ->
  In x (map id (streams s)) \/ (length (streams s) < MAX_STREAMS)%nat ->
  exists pkt s' st,
    read_packet_turn MAX_STREAMS s = (Return (RetPacket pkt), s')
    /\ AVPacket.data pkt = map uint8 body
    /\ AVPacket.size pkt = Z.of_nat (length body)
    /\ AVPacket.pts pkt = t mod 2 ^ 33
    /\ pb s' = at_offset (before ++ l ++ 0 :: 0 :: 1 :: 0xbd :: head
                          ++ x :: 1 :: 0 :: 2 :: body) rest false
    /\ streams s' !! Z.to_nat (AVPacket.stream_index pkt) = Some st
    /\ id st = x.
Proof.
  intros header_len v head Hpb Hl Hclean Hbudget Hx Hv Htable Hroom.
  unfold read_packet_turn.
  rewrite Hpb, next_start_code_private by assumption.
  pose proof (read_pes_at (before ++ l ++ [0; 0; 1; 0xbd]) rest (x :: 1 :: 0 :: 2 :: body)
                k mpeg2 t Hv) as Hhead.
  cbv zeta in Hhead. fold header_len v head in Hhead.
  destruct (read_stuffing _) as [[c len] pb2]. rewrite Hhead.
  unfold read_private_id. change (0x1bd =? 0x1bd) with true. cbv iota.
  cbn [app]. rewrite get_byte_at_offset, (uint8_small x) by lia.
  replace ((0x80 <=? x) && (x <=? 0xbf)) with true
    by (symmetry; apply andb_true_iff; split; apply Z.leb_le; lia).
  cbn [skip_bytes]. repeat (rewrite get_byte_at_offset; cbn [snd]).
  replace (Z.of_nat (length (x :: 1 :: 0 :: 2 :: body)) - 1 - 3)
    with (Z.of_nat (length body)) by (cbn [length]; lia).
  match goal with
  | |- context [deliver_packet _ _ _ _ _ _ ?pb0] =>
      destruct (deliver_packet_returns MAX_STREAMS s 0x1bd x (t mod 2 ^ 33)
                  (Z.of_nat (length body)) pb0)
        as (pkt & s' & Hdel & Hpb' & Hdata & Hsize & Hpts)
  end.
  { destruct Hroom as [Hin|Hlt]; [left; exact Hin | right].
    split; [|exact Hlt]. unfold new_stream_codec.
    destruct (Z.leb_spec 480 x), (Z.leb_spec x 495),
      (Z.leb_spec 448 x), (Z.leb_spec x 479),
      (Z.leb_spec 128 x), (Z.leb_spec x 159); cbn;
      try discriminate; lia. }
  rewrite get_buffer_at_offset in Hpb', Hdata. cbn [fst snd] in Hpb', Hdata.
  destruct (deliver_packet_table MAX_STREAMS _ _ _ _ _ _ _ _ Htable Hdel)
    as [_ (new & _ & st & Hst & _ & Hid & _)].
  exists pkt, s', st. split; [exact Hdel|]. split; [exact Hdata|].
  split; [exact Hsize|]. split; [exact Hpts|]. split; [|auto].
  rewrite Hpb'. f_equal.
  repeat (progress (rewrite <- ?app_assoc; cbn [app])). reflexivity.
Qed.

End ReadBackTurns.

(** A packet of an audio or video stream, read back: the general case,
    with or without the end code. *)
Lemma flush_packet_read_back (MAX_STREAMS : nat) (ctx ctx' : AVFormatContext) (i : nat)
    (last_pkt : bool) (tr : list put_op) (st : AVStream) (s : Demux.AVFormatContext)
    (before rest : list Z) :
  streams ctx !! i = Some st ->
  flush_packet ctx i last_pkt = Some (ctx', tr) ->
  3 * nb_streams ctx + 46 <= MpegMuxContext.packet_size (mux ctx) < 2 ^ 16 ->
  0 <= StreamInfo.buffer_ptr (priv_data st)
    <= Z.of_nat (length (StreamInfo.buffer (priv_data st))) ->
  0xc0 <= StreamInfo.id (priv_data st) <= 0xef ->
  Demux.pb s = at_offset before (sink_bytes tr ++ rest) false ->
  table_ok (Demux.streams s) ->
  In (0x100 + StreamInfo.id (priv_data st)) (map Demux.id (Demux.streams s))
  \/ (length (Demux.streams s) < MAX_STREAMS)%nat ->
  let body := (if last_pkt then [0; 0; 1; 0xb9] else []) ++ payloads tr in
  let n := length (payloads tr) in
  exists (pkt : AVPacket.t) (s' : Demux.AVFormatContext) (dst : Demux.AVStream)
         (front : list Z),
    sink_bytes tr = front ++ body
    /\ mpegps_read_packet MAX_STREAMS 3 s = Some (Demux.RetPacket pkt, s')
    /\ AVPacket.data pkt = map uint8 (firstn n body)
    /\ AVPacket.size pkt = Z.of_nat n
    /\ AVPacket.pts pkt = StreamInfo.start_pts (priv_data st) mod 2 ^ 33
    /\ Demux.pb s' = at_offset (before ++ front ++ firstn n body) (skipn n body ++ rest) false
    /\ Demux.streams s' !! Z.to_nat (AVPacket.stream_index pkt) = Some dst
    /\ Demux.id dst = 0x100 + StreamInfo.id (priv_data st).
Proof.
  intros Hst Hflush Hroom Hbuf Hid Hpb Htable Hdst body n.
  destruct (flush_packet_layout ctx i last_pkt ctx' tr st Hst Hflush Hroom Hbuf
              ltac:(lia)) as (preface & k & H).
  cbv zeta in H. destruct H as (Hpre & Hv & Hbytes).
  match type of Hbytes with
  | _ = _ ++ _ :: _ :: _ :: _ :: ?h ++ _ => set (head := h) in *
  end.
  replace (StreamInfo.id (priv_data st) <? 0xc0) with false in Hbytes
    by (symmetry; apply Z.ltb_ge; lia).
  cbn [app] in Hbytes. fold body n in Hbytes, Hv.
  set (id := StreamInfo.id (priv_data st)) in *.
  set (t := StreamInfo.start_pts (priv_data st)) in *.
  set (mpeg2 := MpegMuxContext.is_mpeg2 (mux ctx)) in *.
  assert (Hn : length (firstn n body) = n).
  { rewrite length_firstn. unfold body, n. rewrite length_app. lia. }
  rewrite Hbytes in Hpb.
  rewrite <- (firstn_skipn n body) in Hpb at 1.
  repeat (progress (rewrite <- ?app_assoc in Hpb; cbn [app] in Hpb)).
  destruct (preface_turns MAX_STREAMS ctx t preface _ s before _ id Hpre
              ltac:(unfold MAX_SYNC_SIZE; lia) Hpb)
    as (s1 & l & before1 & Hrun & Hpb1 & Hstreams1 & Hl & Hclean & Hbudget & Hfront).
  pose proof (pes_turn MAX_STREAMS s1 l before1 (skipn n body ++ rest) (firstn n body)
                id t k mpeg2) as Hturn.
  cbv zeta in Hturn. rewrite Hn in Hturn.
  destruct (Hturn Hpb1 Hl Hclean Hbudget Hid Hv ltac:(now rewrite Hstreams1)
              ltac:(now rewrite Hstreams1))
    as (pkt & s' & dst & Hlast & Hd & Hs & Hp & Hpb' & Hlook & Hdid).
  exists pkt, s', dst, (preface ++ 0 :: 0 :: 1 :: id :: head).
  split; [rewrite Hbytes, <- app_assoc; reflexivity|].
  split; [exact (Hrun _ _ Hlast)|]. split; [exact Hd|]. split; [exact Hs|].
  split; [exact Hp|]. split; [|auto].
  rewrite Hpb'. f_equal.
  rewrite (app_assoc before1 l), Hfront. unfold head, n.
  repeat (progress (rewrite <- ?app_assoc; cbn [app])). reflexivity.
Qed.

(** X22. A packet written by [flush_packet] is read back by
    [mpegps_read_packet].  Take a flush other than the last of an audio or
    video stream (id 0xc0 to 0xef), with room for the headers and a packet
    size below 65536, and a demuxer placed on the bytes of the flush, with
    its stream table in order and holding the stream or room for it.  Then
    [mpegps_read_packet] passes over the pack and system headers and
    returns a packet whose data are the payload of the flush (the stuffing
    is dropped), whose timestamp is the [start_pts] of the stream (as a
    33-bit number), and whose stream has the id of the start code; the
    demuxer is left right behind the bytes of the flush. *)
Theorem mux_demux_roundtrip (MAX_STREAMS : nat) (ctx ctx' : AVFormatContext) (i : nat)
    (tr : list put_op) (st : AVStream) (s : Demux.AVFormatContext)
    (before rest : list Z) :
  streams ctx !! i = Some st ->
  flush_packet ctx i false = Some (ctx', tr) ->
  3 * nb_streams ctx + 46 <= MpegMuxContext.packet_size (mux ctx) < 2 ^ 16 ->
  0 <= StreamInfo.buffer_ptr (priv_data st)
    <= Z.of_nat (length (StreamInfo.buffer (priv_data st))) ->
  0xc0 <= StreamInfo.id (priv_data st) <= 0xef ->
  Demux.pb s = at_offset before (sink_bytes tr ++ rest) false ->
  table_ok (Demux.streams s) ->
  In (0x100 + StreamInfo.id (priv_data st)) (map Demux.id (Demux.streams s))
  \/ (length (Demux.streams s) < MAX_STREAMS)%nat ->
  exists (pkt : AVPacket.t) (s' : Demux.AVFormatContext) (dst : Demux.AVStream),
    mpegps_read_packet MAX_STREAMS 3 s = Some (Demux.RetPacket pkt, s')
    /\ AVPacket.data pkt = map uint8 (payloads tr)
    /\ AVPacket.size pkt = Z.of_nat (length (payloads tr))
    /\ AVPacket.pts pkt = StreamInfo.start_pts (priv_data st) mod 2 ^ 33
    /\ Demux.pb s' = at_offset (before ++ sink_bytes tr) rest false
    /\ Demux.streams s' !! Z.to_nat (AVPacket.stream_index pkt) = Some dst
    /\ Demux.id dst = 0x100 + StreamInfo.id (priv_data st).
Proof.
  intros Hst Hflush Hroom Hbuf Hid Hpb Htable Hdst.
  destruct (flush_packet_read_back MAX_STREAMS ctx ctx' i false tr st s before rest
              Hst Hflush Hroom Hbuf Hid Hpb Htable Hdst)
    as (pkt & s' & dst & front & Hbytes & Hrun & Hd & Hs & Hp & Hpb' & Hlook & Hdid).
  cbn [app] in Hbytes, Hd, Hpb'.
  rewrite firstn_all in Hd, Hpb'. rewrite skipn_all in Hpb'. cbn [app] in Hpb'.
  exists pkt, s', dst. rewrite Hbytes. auto 10.
Qed.

Lemma mux_demux_roundtrip_witness :
  exists ctx' tr pkt s' dst,
    flush_packet ctx_av 0 false = Some (ctx', tr)
    /\ mpegps_read_packet 20 3
         {| Demux.pb := at_offset [] (sink_bytes tr ++ [0x55]) false;
            Demux.streams := []; Demux.header_state := 0xff |}
       = Some (Demux.RetPacket pkt, s')
    /\ AVPacket.data pkt = map uint8 (payloads tr)
    /\ AVPacket.size pkt = Z.of_nat (length (payloads tr))
    /\ AVPacket.pts pkt = StreamInfo.start_pts (priv_data stream_av_audio) mod 2 ^ 33
    /\ Demux.pb s' = at_offset ([] ++ sink_bytes tr) [0x55] false
    /\ Demux.streams s' !! Z.to_nat (AVPacket.stream_index pkt) = Some dst
    /\ Demux.id dst = 0x100 + StreamInfo.id (priv_data stream_av_audio).
Proof.
  destruct (flush_packet ctx_av 0 false) as [[ctx' tr]|] eqn:Hflush;
    [|vm_compute in Hflush; discriminate Hflush].
  destruct (mux_demux_roundtrip 20 ctx_av ctx' 0 tr stream_av_audio
              {| Demux.pb := at_offset [] (sink_bytes tr ++ [0x55]) false;
                 Demux.streams := []; Demux.header_state := 0xff |} [] [0x55])
    as (pkt & s' & dst & H);
    [by_eval | exact Hflush | by_eval | by_eval | by_eval | reflexivity
     | exact table_ok_nil | right; cbn [Demux.streams length]; lia |].
  exists ctx', tr, pkt, s', dst. split; [reflexivity | exact H].
Defined.

(** X23. The last packet is not read back as it was written.  The flush
    of [mpeg_mux_end] that carries the end code puts the code between the
    header and the payload, and leaves its 4 bytes out of the length field.
    Read by [mpegps_read_packet], such a packet of an audio or video stream
    gives as many bytes as the payload has, but taken from the end code
    followed by the payload: the data start with 00 00 01 b9 (as far as
    they go) and the last four bytes of the payload are left unread. *)
Theorem last_packet_read_back (MAX_STREAMS : nat) (ctx ctx' : AVFormatContext) (i : nat)
    (tr : list put_op) (st : AVStream) (s : Demux.AVFormatContext)
    (before rest : list Z) :
  streams ctx !! i = Some st ->
  flush_packet ctx i true = Some (ctx', tr) ->
  3 * nb_streams ctx + 46 <= MpegMuxContext.packet_size (mux ctx) < 2 ^ 16 ->
  0 <= StreamInfo.buffer_ptr (priv_data st)
    <= Z.of_nat (length (StreamInfo.buffer (priv_data st))) ->
  0xc0 <= StreamInfo.id (priv_data st) <= 0xef ->
  Demux.pb s = at_offset before (sink_bytes tr ++ rest) false ->
  table_ok (Demux.streams s) ->
  In (0x100 + StreamInfo.id (priv_data st)) (map Demux.id (Demux.streams s))
  \/ (length (Demux.streams s) < MAX_STREAMS)%nat ->
  let body := [0; 0; 1; 0xb9] ++ payloads tr in
  let n := length (payloads tr) in
  exists (pkt : AVPacket.t) (s' : Demux.AVFormatContext) (front : list Z),
    sink_bytes tr = front ++ body
    /\ mpegps_read_packet MAX_STREAMS 3 s = Some (Demux.RetPacket pkt, s')
    /\ AVPacket.data pkt = map uint8 (firstn n body)
    /\ AVPacket.size pkt = Z.of_nat n
    /\ Demux.pb s'
       = at_offset (before ++ front ++ firstn n body) (skipn n body ++ rest) false
    /\ length (skipn n body) = 4%nat.
Proof.
  intros Hst Hflush Hroom Hbuf Hid Hpb Htable Hdst body n.
  destruct (flush_packet_read_back MAX_STREAMS ctx ctx' i true tr st s before rest
              Hst Hflush Hroom Hbuf Hid Hpb Htable Hdst)
    as (pkt & s' & dst & front & Hbytes & Hrun & Hd & Hs & Hp & Hpb' & Hlook & Hdid).
  exists pkt, s', front. fold body n in Hbytes, Hd, Hs, Hpb'.
  split; [exact Hbytes|]. split; [exact Hrun|]. split; [exact Hd|].
  split; [exact Hs|]. split; [exact Hpb'|].
  rewrite length_skipn. unfold body, n. rewrite length_app. cbn [length]. lia.
Qed.

Lemma last_packet_read_back_witness :
  exists ctx' tr pkt s' front,
    flush_packet ctx_av 0 true = Some (ctx', tr)
    /\ sink_bytes tr = front ++ [0; 0; 1; 0xb9] ++ payloads tr
    /\ mpegps_read_packet 20 3
         {| Demux.pb := at_offset [] (sink_bytes tr ++ [0x55]) false;
            Demux.streams := []; Demux.header_state := 0xff |}
       = Some (Demux.RetPacket pkt, s')
    /\ AVPacket.data pkt
       = map uint8 (firstn (length (payloads tr)) ([0; 0; 1; 0xb9] ++ payloads tr))
    /\ AVPacket.size pkt = Z.of_nat (length (payloads tr))
    /\ Demux.pb s'
       = at_offset ([] ++ front
                    ++ firstn (length (payloads tr)) ([0; 0; 1; 0xb9] ++ payloads tr))
                   (skipn (length (payloads tr)) ([0; 0; 1; 0xb9] ++ payloads tr)
                    ++ [0x55]) false
    /\ length (skipn (length (payloads tr)) ([0; 0; 1; 0xb9] ++ payloads tr)) = 4%nat.
Proof.
  destruct (flush_packet ctx_av 0 true) as [[ctx' tr]|] eqn:Hflush;
    [|vm_compute in Hflush; discriminate Hflush].
  destruct (last_packet_read_back 20 ctx_av ctx' 0 tr stream_av_audio
              {| Demux.pb := at_offset [] (sink_bytes tr ++ [0x55]) false;
                 Demux.streams := []; Demux.header_state := 0xff |} [] [0x55])
    as (pkt & s' & front & H);
    [by_eval | exact Hflush | by_eval | by_eval | by_eval | reflexivity
     | exact table_ok_nil | right; cbn [Demux.streams length]; lia |].
  exists ctx', tr, pkt, s', front. split; [reflexivity | exact H].
Defined.

(** X24. An AC-3 packet is read back four bytes short.  For a stream with
    an id from 0x80 to 0x9f, [flush_packet] writes the private header (the
    id and three bytes) before the payload and leaves it out of the length
    field; [mpegps_read_packet] takes these four bytes off the length once
    more.  So the packet that is returned holds the payload without its
    last four bytes, which are left unread; its stream has the id of the
    private header. *)
Theorem ac3_packet_read_back (MAX_STREAMS : nat) (ctx ctx' : AVFormatContext) (i : nat)
    (tr : list put_op) (st : AVStream) (s : Demux.AVFormatContext)
    (before rest : list Z) :
  streams ctx !! i = Some st ->
  flush_packet ctx i false = Some (ctx', tr) ->
  3 * nb_streams ctx + 46 <= MpegMuxContext.packet_size (mux ctx) < 2 ^ 16 ->
  0 <= StreamInfo.buffer_ptr (priv_data st)
    <= Z.of_nat (length (StreamInfo.buffer (priv_data st))) ->
  0x80 <= StreamInfo.id (priv_data st) <= 0x9f ->
  (4 <= length (payloads tr))%nat ->
  Demux.pb s = at_offset before (sink_bytes tr ++ rest) false ->
  table_ok (Demux.streams s) ->
  In (StreamInfo.id (priv_data st)) (map Demux.id (Demux.streams s))
  \/ (length (Demux.streams s) < MAX_STREAMS)%nat ->
  let n := (length (payloads tr) - 4)%nat in
  exists (pkt : AVPacket.t) (s' : Demux.AVFormatContext) (dst : Demux.AVStream)
         (front : list Z),
    sink_bytes tr = front ++ payloads tr
    /\ mpegps_read_packet MAX_STREAMS 3 s = Some (Demux.RetPacket pkt, s')
    /\ AVPacket.data pkt = map uint8 (firstn n (payloads tr))
    /\ AVPacket.size pkt = Z.of_nat n
    /\ AVPacket.pts pkt = StreamInfo.start_pts (priv_data st) mod 2 ^ 33
    /\ Demux.pb s'
       = at_offset (before ++ front ++ firstn n (payloads tr))
                   (skipn n (payloads tr) ++ rest) false
    /\ length (skipn n (payloads tr)) = 4%nat
    /\ Demux.streams s' !! Z.to_nat (AVPacket.stream_index pkt) = Some dst
    /\ Demux.id dst = StreamInfo.id (priv_data st).
Proof.
  intros Hst Hflush Hroom Hbuf Hid Hfour Hpb Htable Hdst n.
  destruct (flush_packet_layout ctx i false ctx' tr st Hst Hflush Hroom Hbuf
              ltac:(lia)) as (preface & k & H).
  cbv zeta in H. destruct H as (Hpre & Hv & Hbytes).
  match type of Hbytes with
  | _ = _ ++ _ :: _ :: _ :: _ :: ?h ++ _ => set (head := h) in *
  end.
  replace (StreamInfo.id (priv_data st) <? 0xc0) with true in Hbytes
    by (symmetry; apply Z.ltb_lt; lia).
  replace ((0x80 <=? StreamInfo.id (priv_data st))
           && (StreamInfo.id (priv_data st) <=? 0xbf)) with true in Hbytes
    by (symmetry; apply andb_true_iff; split; apply Z.leb_le; lia).
  cbn [app] in Hbytes.
  set (id := StreamInfo.id (priv_data st)) in *.
  set (t := StreamInfo.start_pts (priv_data st)) in *.
  set (mpeg2 := MpegMuxContext.is_mpeg2 (mux ctx)) in *.
  set (P := payloads tr) in *.
  assert (Hn : length (id :: 1 :: 0 :: 2 :: firstn n P) = length P).
  { cbn [length]. rewrite length_firstn. unfold n. lia. }
  rewrite Hbytes in Hpb.
  rewrite <- (firstn_skipn n P) in Hpb at 1.
  repeat (progress (rewrite <- ?app_assoc in Hpb; cbn [app] in Hpb)).
  destruct (preface_turns MAX_STREAMS ctx t preface _ s before _ 0xbd Hpre
              ltac:(unfold MAX_SYNC_SIZE; lia) Hpb)
    as (s1 & l & before1 & Hrun & Hpb1 & Hstreams1 & Hl & Hclean & Hbudget & Hfront).
  pose proof (private_turn MAX_STREAMS s1 l before1 (skipn n P ++ rest) (firstn n P)
                id t k mpeg2) as Hturn.
  cbv zeta in Hturn. rewrite Hn in Hturn.
  destruct (Hturn Hpb1 Hl Hclean Hbudget Hid Hv ltac:(now rewrite Hstreams1)
              ltac:(now rewrite Hstreams1))
    as (pkt & s' & dst & Hlast & Hd & Hs & Hp & Hpb' & Hlook & Hdid).
  exists pkt, s', dst, (preface ++ 0 :: 0 :: 1 :: 0xbd :: head ++ [id; 1; 0; 2]).
  split; [rewrite Hbytes; repeat (progress (rewrite <- ?app_assoc; cbn [app]));
          reflexivity|].
  split; [exact (Hrun _ _ Hlast)|]. split; [exact Hd|].
  split; [rewrite Hs, length_firstn; unfold n; lia|].
  split; [exact Hp|]. split.
  { rewrite Hpb'. f_equal.
    rewrite (app_assoc before1 l), Hfront. unfold head.
    repeat (progress (rewrite <- ?app_assoc; cbn [app])). reflexivity. }
  split; [rewrite length_skipn; unfold n; lia | auto].
Qed.

Lemma ac3_packet_read_back_witness :
  exists pkt s' dst front,
    sink_bytes trace_ac3 = front ++ payloads trace_ac3
    /\ mpegps_read_packet 20 3
         {| Demux.pb := at_offset [] (sink_bytes trace_ac3 ++ [0x55]) false;
            Demux.streams := []; Demux.header_state := 0xff |}
       = Some (Demux.RetPacket pkt, s')
    /\ AVPacket.data pkt
       = map uint8 (firstn (length (payloads trace_ac3) - 4) (payloads trace_ac3))
    /\ AVPacket.size pkt = Z.of_nat (length (payloads trace_ac3) - 4)
    /\ AVPacket.pts pkt = StreamInfo.start_pts (priv_data stream_ac3) mod 2 ^ 33
    /\ Demux.pb s'
       = at_offset ([] ++ front
                    ++ firstn (length (payloads trace_ac3) - 4) (payloads trace_ac3))
                   (skipn (length (payloads trace_ac3) - 4) (payloads trace_ac3)
                    ++ [0x55]) false
    /\ length (skipn (length (payloads trace_ac3) - 4) (payloads trace_ac3)) = 4%nat
    /\ Demux.streams s' !! Z.to_nat (AVPacket.stream_index pkt) = Some dst
    /\ Demux.id dst = StreamInfo.id (priv_data stream_ac3).
Proof.
  apply (ac3_packet_read_back 20 ctx_ac3 ctx_ac3_flushed 1 trace_ac3 stream_ac3
           {| Demux.pb := at_offset [] (sink_bytes trace_ac3 ++ [0x55]) false;
              Demux.streams := []; Demux.header_state := 0xff |} [] [0x55]);
    [by_eval | vm_compute; reflexivity | by_eval | by_eval | by_eval
     | vm_compute; lia | reflexivity | exact table_ok_nil
     | right; cbn [Demux.streams length]; lia].
Defined.

(** ** A whole session *)

Lemma write_all_total (inputs : list (nat * list Z)) :
  forall ctx : AVFormatContext,
    mux_ok ctx ->
    Forall (fun input => (fst input < length (streams ctx))%nat) inputs ->
    exists ctx' tr,
      write_all ctx inputs = Some (ctx', tr)
      /\ mux_ok ctx'
      /\ same_setup ctx ctx'
      /\ MpegMuxContext.packet_number (mux ctx')
         = MpegMuxContext.packet_number (mux ctx) + Z.of_nat (count_packets tr).
Proof.
  induction inputs as [|[i buf] inputs IH]; intros ctx Hok Hin; cbn [write_all].
  - exists ctx, []. split; [reflexivity|]. split; [exact Hok|].
    split; [apply same_setup_refl|]. cbn. lia.
  - apply Forall_cons in Hin as [Hi Hin]. cbn [fst] in Hi.
    destruct (lookup_lt_is_Some_2 _ _ Hi) as [st Hst].
    destruct (mpeg_mux_write_packet_spec (S (length buf)) ctx i buf 0 st ltac:(lia) Hok Hst)
      as (ctx1 & tr1 & st1 & Hrun & Hsetup & Hok1 & _ & _ & _ & _ & _ & Hnum).
    rewrite Hrun. cbn [mbind option_bind].
    destruct (IH ctx1 Hok1) as (ctx2 & tr2 & Hrun2 & Hok2 & Hsetup2 & Hnum2).
    { destruct Hsetup as (_ & Hlen & _). rewrite Hlen. exact Hin. }
    rewrite Hrun2. cbn [mbind option_bind].
    exists ctx2, (tr1 ++ tr2). split; [reflexivity|]. split; [exact Hok2|].
    split; [eapply same_setup_trans; eassumption|].
    rewrite count_packets_app. lia.
Qed.

(** X25. A session goes through.  If [mpeg_mux_init] succeeds and leaves a
    [pack_header_freq] that is not zero and room for data in a packet, then
    the writes of any inputs to existing streams succeed, one after the
    other, and so does [mpeg_mux_end] after them: no flush meets a
    remainder by zero.  At the end [packet_number] is the number of packets
    that were written. *)
Theorem session_goes_through (base : Z) (alloc_ok : nat -> bool)
    (ctx0 ctx : AVFormatContext) (inputs : list (nat * list Z)) :
  mpeg_mux_init base alloc_ok ctx0 = InitOk ctx ->
  MpegMuxContext.pack_header_freq (mux ctx) <> 0 ->
  3 * nb_streams ctx + 46 < MpegMuxContext.packet_size (mux ctx) ->
  Forall (fun input => (fst input < length (streams ctx))%nat) inputs ->
  exists ctx1 tr1 ctx2 tr2,
    write_all ctx inputs = Some (ctx1, tr1)
    /\ mpeg_mux_end ctx1 = Some (ctx2, tr2)
    /\ same_setup ctx ctx2
    /\ MpegMuxContext.packet_number (mux ctx2)
       = Z.of_nat (count_packets (tr1 ++ tr2)).
Proof.
  intros Hinit Hfreq Hroom Hin.
  destruct (mpeg_mux_init_state base alloc_ok ctx0 ctx Hinit) as [Hok _].
  pose proof (proj2 Hok (conj Hfreq Hroom)) as Hok0.
  pose proof (mpeg_mux_init_mux base alloc_ok ctx0 ctx Hinit) as Hmux. cbv zeta in Hmux.
  assert (Hzero : MpegMuxContext.packet_number (mux ctx) = 0) by now rewrite Hmux.
  destruct (write_all_total inputs ctx Hok0 Hin)
    as (ctx1 & tr1 & Hrun1 & Hok1 & Hsetup1 & Hnum1).
  destruct Hok1 as (Hp1 & Hs1 & _).
  destruct (mux_end_loop_total (length (streams ctx1)) 0 ctx1 Hp1 Hs1 ltac:(lia))
    as (ctx2 & tr2 & Hrun2).
  destruct (mux_end_loop_spec _ _ _ _ _ Hrun2) as (Hsetup2 & _ & _ & Hnum2 & _).
  exists ctx1, tr1, ctx2, tr2. split; [exact Hrun1|]. split; [exact Hrun2|].
  split; [eapply same_setup_trans; eassumption|].
  rewrite count_packets_app. lia.
Qed.

Lemma session_goes_through_witness :
  exists ctx1 tr1 ctx2 tr2,
    write_all ctx_init [(0%nat, List.repeat 7 3000); (1%nat, List.repeat 9 20)]
    = Some (ctx1, tr1)
    /\ mpeg_mux_end ctx1 = Some (ctx2, tr2)
    /\ same_setup ctx_init ctx2
    /\ MpegMuxContext.packet_number (mux ctx2)
       = Z.of_nat (count_packets (tr1 ++ tr2)).
Proof.
  apply (session_goes_through 10000 (fun _ => true) ctx_new ctx_init
           [(0%nat, List.repeat 7 3000); (1%nat, List.repeat 9 20)] ctx_init_ok).
  - vm_compute. discriminate.
  - by_eval.
  - repeat (apply Forall_cons; split; [vm_compute; lia|]). constructor.
Defined.
